(** * IAB Ad Product Taxonomy connector (mixpeek_iab_product): a shallow embedding

    The development follows the Python package module by module:
    - [PyStr]: the string built-ins the package relies on (lower, strip, split,
      slicing, the three regular-expression substitutions, int parsing);
    - [Taxonomy]: taxonomy.py (the category table and its lookups);
    - [Keywords]: keyword_mapping.py (the keyword table and the matchers);
    - [Md5], [Cache]: cache.py (the cache key and the cache manager);
    - [Mapper]: mapper.py (ProductMapper with its statistics, cache and client).

    Conventions.  A Python str is a Rocq [string] whose characters are the code
    points 0..255 (Latin-1); the character classes below are those of CPython on
    that range.  A Python float is a binary64 [float] of the kernel, so that the
    confidence arithmetic is IEEE arithmetic as in the source.  A Python dict whose
    insertion order is observable is an association list in insertion order; the
    cache store, whose order is never observed, is a [gmap]. *)

From Stdlib Require Import ZArith String Ascii List Lia Bool Floats.
From Stdlib Require Import DecimalString DecimalPos DecimalZ.
From stdpp Require Import gmap strings list fin_maps sorting.

Set Warnings "-inexact-float".
Open Scope string_scope.
Open Scope Z_scope.
Open Scope list_scope.

(** ** Python string built-ins on Latin-1 strings *)
Module PyStr.

Definition code (c : ascii) : N := N_of_ascii c.

Definition in_range (lo hi : N) (c : ascii) : bool :=
  (lo <=? code c)%N && (code c <=? hi)%N.

(** str.isspace, the class [\s] of module re, and what strip() and split()
    treat as blank: TAB..CR, FS..US, SPACE, NEL and NBSP. *)
Definition is_space (c : ascii) : bool :=
  in_range 9 13 c || in_range 28 32 c || (code c =? 133)%N || (code c =? 160)%N.

(** The class [\w] of module re on str patterns: alphanumeric or underscore. *)
Definition is_word (c : ascii) : bool :=
  in_range 48 57 c || in_range 65 90 c || (code c =? 95)%N || in_range 97 122 c
  || (code c =? 170)%N || in_range 178 179 c || (code c =? 181)%N
  || in_range 185 186 c || in_range 188 190 c || in_range 192 214 c
  || in_range 216 246 c || in_range 248 255 c.

(** The class [\x00-\x1F\x7F]. *)
Definition is_control (c : ascii) : bool :=
  in_range 0 31 c || (code c =? 127)%N.

Definition is_hyphen (c : ascii) : bool := (code c =? 45)%N.

Definition is_digit (c : ascii) : bool := in_range 48 57 c.

(** str.lower on one character: A..Z and the upper-case letters of Latin-1. *)
Definition lower_char (c : ascii) : ascii :=
  if in_range 65 90 c || in_range 192 214 c || in_range 216 222 c
  then ascii_of_N (code c + 32) else c.

Fixpoint map_chars (f : ascii -> ascii) (s : string) : string :=
  match s with
  | EmptyString => EmptyString
  | String c s' => String (f c) (map_chars f s')
  end.

Fixpoint filter_chars (keep : ascii -> bool) (s : string) : string :=
  match s with
  | EmptyString => EmptyString
  | String c s' =>
      if keep c then String c (filter_chars keep s') else filter_chars keep s'
  end.

(** [s.lower()] *)
Definition lower (s : string) : string := map_chars lower_char s.

(** [s.lstrip()], [s.rstrip()], [s.strip()] *)
Fixpoint lstrip (s : string) : string :=
  match s with
  | EmptyString => EmptyString
  | String c s' => if is_space c then lstrip s' else s
  end.

Fixpoint rstrip (s : string) : string :=
  match s with
  | EmptyString => EmptyString
  | String c s' =>
      match rstrip s' with
      | EmptyString => if is_space c then EmptyString else String c EmptyString
      | r => String c r
      end
  end.

Definition strip (s : string) : string := rstrip (lstrip s).

(** [s[:n]] for a non-negative bound [n]. *)
Fixpoint take (n : nat) (s : string) : string :=
  match n, s with
  | S n', String c s' => String c (take n' s')
  | _, _ => EmptyString
  end.

(** [s.split()]: the maximal runs of non-blank characters, left to right.
    [cur] holds the run being read, [acc] the runs already closed. *)
Definition flush (cur : string) (acc : list string) : list string :=
  match cur with
  | EmptyString => acc
  | _ => acc ++ [cur]
  end.

Fixpoint split_aux (s : string) (cur : string) (acc : list string) : list string :=
  match s with
  | EmptyString => flush cur acc
  | String c s' =>
      if is_space c then split_aux s' EmptyString (flush cur acc)
      else split_aux s' (cur +:+ String c EmptyString) acc
  end.

Definition split (s : string) : list string := split_aux s EmptyString [].

(** [sep.join(parts)] *)
Definition join (sep : string) (parts : list string) : string :=
  String.concat sep parts.

(** [s.startswith(p)] *)
Definition startswith (p s : string) : bool := String.prefix p s.

(** [s.replace(old, "")] for a non-empty [old]: every occurrence found scanning
    left to right is dropped.  [skip] counts the characters of a matched
    occurrence that are still to be dropped. *)
Fixpoint remove_all_aux (old : string) (skip : nat) (s : string) : string :=
  match s with
  | EmptyString => EmptyString
  | String c s' =>
      match skip with
      | S k => remove_all_aux old k s'
      | O =>
          if String.prefix old s
          then remove_all_aux old (Nat.pred (String.length old)) s'
          else String c (remove_all_aux old O s')
      end
  end.

Definition remove_all (old s : string) : string := remove_all_aux old O s.

(** [re.sub(r"[\x00-\x1F\x7F]", "", s)] *)
Definition sub_control (s : string) : string :=
  filter_chars (fun c => negb (is_control c)) s.

(** [re.sub(r"\s+", " ", s)]: every maximal run of blanks becomes one space. *)
Fixpoint sub_spaces_aux (in_run : bool) (s : string) : string :=
  match s with
  | EmptyString => EmptyString
  | String c s' =>
      if is_space c
      then (if in_run then sub_spaces_aux true s'
            else String " " (sub_spaces_aux true s'))
      else String c (sub_spaces_aux false s')
  end.

Definition sub_spaces (s : string) : string := sub_spaces_aux false s.

(** [re.sub(r"[^\w\s-]", " ", s)] *)
Definition keep_char (c : ascii) : bool := is_word c || is_space c || is_hyphen c.

Definition blank_char (c : ascii) : ascii := if keep_char c then c else " "%char.

Definition sub_nonword (s : string) : string := map_chars blank_char s.

(** Truth value of a str, and of an optional str ([None] is falsy). *)
Definition truthy (s : string) : bool :=
  match s with EmptyString => false | _ => true end.

Definition truthy_opt (o : option string) : bool :=
  match o with Some s => truthy s | None => false end.

(** [o or ""] *)
Definition or_empty (o : option string) : string :=
  match o with Some s => if truthy s then s else EmptyString | None => EmptyString end.

End PyStr.

(** ** str with all its code points

    A str is a sequence of Unicode code points.  [PyStr] models the str whose
    code points are all below 256; this module models every str, as the list
    of its code points, for find_best_match, whose answer depends on what
    lower() does beyond Latin-1.  The character data are those of the Unicode
    Character Database 14.0.0, the one CPython 3.11 is built with. *)
Module PyUnicode.

Definition str : Type := list N.

(** The str of [PyStr] as a str of this module. *)
Definition of_string (s : string) : str := map N_of_ascii (list_ascii_of_string s).

Definition in_ranges (ranges : list (N * N)) (c : N) : bool :=
  existsb (fun r => (fst r <=? c)%N && (c <=? snd r)%N) ranges.

Fixpoint assoc (c : N) (pairs : list (N * N)) : option N :=
  match pairs with
  | [] => None
  | (k, v) :: pairs' => if (c =? k)%N then Some v else assoc c pairs'
  end.

(** The simple lower-case mappings: every code point whose lower case is one
    other code point, with that code point. *)
Definition lower_pairs : list (N * N) :=
  [
    (65, 97); (66, 98); (67, 99); (68, 100); (69, 101); (70, 102); (71, 103); (72, 104);
    (73, 105); (74, 106); (75, 107); (76, 108); (77, 109); (78, 110); (79, 111); (80, 112);
    (81, 113); (82, 114); (83, 115); (84, 116); (85, 117); (86, 118); (87, 119); (88, 120);
    (89, 121); (90, 122); (192, 224); (193, 225); (194, 226); (195, 227); (196, 228);
    (197, 229); (198, 230); (199, 231); (200, 232); (201, 233); (202, 234); (203, 235);
    (204, 236); (205, 237); (206, 238); (207, 239); (208, 240); (209, 241); (210, 242);
    (211, 243); (212, 244); (213, 245); (214, 246); (216, 248); (217, 249); (218, 250);
    (219, 251); (220, 252); (221, 253); (222, 254); (256, 257); (258, 259); (260, 261);
    (262, 263); (264, 265); (266, 267); (268, 269); (270, 271); (272, 273); (274, 275);
    (276, 277); (278, 279); (280, 281); (282, 283); (284, 285); (286, 287); (288, 289);
    (290, 291); (292, 293); (294, 295); (296, 297); (298, 299); (300, 301); (302, 303);
    (306, 307); (308, 309); (310, 311); (313, 314); (315, 316); (317, 318); (319, 320);
    (321, 322); (323, 324); (325, 326); (327, 328); (330, 331); (332, 333); (334, 335);
    (336, 337); (338, 339); (340, 341); (342, 343); (344, 345); (346, 347); (348, 349);
    (350, 351); (352, 353); (354, 355); (356, 357); (358, 359); (360, 361); (362, 363);
    (364, 365); (366, 367); (368, 369); (370, 371); (372, 373); (374, 375); (376, 255);
    (377, 378); (379, 380); (381, 382); (385, 595); (386, 387); (388, 389); (390, 596);
    (391, 392); (393, 598); (394, 599); (395, 396); (398, 477); (399, 601); (400, 603);
    (401, 402); (403, 608); (404, 611); (406, 617); (407, 616); (408, 409); (412, 623);
    (413, 626); (415, 629); (416, 417); (418, 419); (420, 421); (422, 640); (423, 424);
    (425, 643); (428, 429); (430, 648); (431, 432); (433, 650); (434, 651); (435, 436);
    (437, 438); (439, 658); (440, 441); (444, 445); (452, 454); (453, 454); (455, 457);
    (456, 457); (458, 460); (459, 460); (461, 462); (463, 464); (465, 466); (467, 468);
    (469, 470); (471, 472); (473, 474); (475, 476); (478, 479); (480, 481); (482, 483);
    (484, 485); (486, 487); (488, 489); (490, 491); (492, 493); (494, 495); (497, 499);
    (498, 499); (500, 501); (502, 405); (503, 447); (504, 505); (506, 507); (508, 509);
    (510, 511); (512, 513); (514, 515); (516, 517); (518, 519); (520, 521); (522, 523);
    (524, 525); (526, 527); (528, 529); (530, 531); (532, 533); (534, 535); (536, 537);
    (538, 539); (540, 541); (542, 543); (544, 414); (546, 547); (548, 549); (550, 551);
    (552, 553); (554, 555); (556, 557); (558, 559); (560, 561); (562, 563); (570, 11365);
    (571, 572); (573, 410); (574, 11366); (577, 578); (579, 384); (580, 649); (581, 652);
    (582, 583); (584, 585); (586, 587); (588, 589); (590, 591); (880, 881); (882, 883);
    (886, 887); (895, 1011); (902, 940); (904, 941); (905, 942); (906, 943); (908, 972);
    (910, 973); (911, 974); (913, 945); (914, 946); (915, 947); (916, 948); (917, 949);
    (918, 950); (919, 951); (920, 952); (921, 953); (922, 954); (923, 955); (924, 956);
    (925, 957); (926, 958); (927, 959); (928, 960); (929, 961); (931, 963); (932, 964);
    (933, 965); (934, 966); (935, 967); (936, 968); (937, 969); (938, 970); (939, 971);
    (975, 983); (984, 985); (986, 987); (988, 989); (990, 991); (992, 993); (994, 995);
    (996, 997); (998, 999); (1000, 1001); (1002, 1003); (1004, 1005); (1006, 1007); (1012, 952);
    (1015, 1016); (1017, 1010); (1018, 1019); (1021, 891); (1022, 892); (1023, 893);
    (1024, 1104); (1025, 1105); (1026, 1106); (1027, 1107); (1028, 1108); (1029, 1109);
    (1030, 1110); (1031, 1111); (1032, 1112); (1033, 1113); (1034, 1114); (1035, 1115);
    (1036, 1116); (1037, 1117); (1038, 1118); (1039, 1119); (1040, 1072); (1041, 1073);
    (1042, 1074); (1043, 1075); (1044, 1076); (1045, 1077); (1046, 1078); (1047, 1079);
    (1048, 1080); (1049, 1081); (1050, 1082); (1051, 1083); (1052, 1084); (1053, 1085);
    (1054, 1086); (1055, 1087); (1056, 1088); (1057, 1089); (1058, 1090); (1059, 1091);
    (1060, 1092); (1061, 1093); (1062, 1094); (1063, 1095); (1064, 1096); (1065, 1097);
    (1066, 1098); (1067, 1099); (1068, 1100); (1069, 1101); (1070, 1102); (1071, 1103);
    (1120, 1121); (1122, 1123); (1124, 1125); (1126, 1127); (1128, 1129); (1130, 1131);
    (1132, 1133); (1134, 1135); (1136, 1137); (1138, 1139); (1140, 1141); (1142, 1143);
    (1144, 1145); (1146, 1147); (1148, 1149); (1150, 1151); (1152, 1153); (1162, 1163);
    (1164, 1165); (1166, 1167); (1168, 1169); (1170, 1171); (1172, 1173); (1174, 1175);
    (1176, 1177); (1178, 1179); (1180, 1181); (1182, 1183); (1184, 1185); (1186, 1187);
    (1188, 1189); (1190, 1191); (1192, 1193); (1194, 1195); (1196, 1197); (1198, 1199);
    (1200, 1201); (1202, 1203); (1204, 1205); (1206, 1207); (1208, 1209); (1210, 1211);
    (1212, 1213); (1214, 1215); (1216, 1231); (1217, 1218); (1219, 1220); (1221, 1222);
    (1223, 1224); (1225, 1226); (1227, 1228); (1229, 1230); (1232, 1233); (1234, 1235);
    (1236, 1237); (1238, 1239); (1240, 1241); (1242, 1243); (1244, 1245); (1246, 1247);
    (1248, 1249); (1250, 1251); (1252, 1253); (1254, 1255); (1256, 1257); (1258, 1259);
    (1260, 1261); (1262, 1263); (1264, 1265); (1266, 1267); (1268, 1269); (1270, 1271);
    (1272, 1273); (1274, 1275); (1276, 1277); (1278, 1279); (1280, 1281); (1282, 1283);
    (1284, 1285); (1286, 1287); (1288, 1289); (1290, 1291); (1292, 1293); (1294, 1295);
    (1296, 1297); (1298, 1299); (1300, 1301); (1302, 1303); (1304, 1305); (1306, 1307);
    (1308, 1309); (1310, 1311); (1312, 1313); (1314, 1315); (1316, 1317); (1318, 1319);
    (1320, 1321); (1322, 1323); (1324, 1325); (1326, 1327); (1329, 1377); (1330, 1378);
    (1331, 1379); (1332, 1380); (1333, 1381); (1334, 1382); (1335, 1383); (1336, 1384);
    (1337, 1385); (1338, 1386); (1339, 1387); (1340, 1388); (1341, 1389); (1342, 1390);
    (1343, 1391); (1344, 1392); (1345, 1393); (1346, 1394); (1347, 1395); (1348, 1396);
    (1349, 1397); (1350, 1398); (1351, 1399); (1352, 1400); (1353, 1401); (1354, 1402);
    (1355, 1403); (1356, 1404); (1357, 1405); (1358, 1406); (1359, 1407); (1360, 1408);
    (1361, 1409); (1362, 1410); (1363, 1411); (1364, 1412); (1365, 1413); (1366, 1414);
    (4256, 11520); (4257, 11521); (4258, 11522); (4259, 11523); (4260, 11524); (4261, 11525);
    (4262, 11526); (4263, 11527); (4264, 11528); (4265, 11529); (4266, 11530); (4267, 11531);
    (4268, 11532); (4269, 11533); (4270, 11534); (4271, 11535); (4272, 11536); (4273, 11537);
    (4274, 11538); (4275, 11539); (4276, 11540); (4277, 11541); (4278, 11542); (4279, 11543);
    (4280, 11544); (4281, 11545); (4282, 11546); (4283, 11547); (4284, 11548); (4285, 11549);
    (4286, 11550); (4287, 11551); (4288, 11552); (4289, 11553); (4290, 11554); (4291, 11555);
    (4292, 11556); (4293, 11557); (4295, 11559); (4301, 11565); (5024, 43888); (5025, 43889);
    (5026, 43890); (5027, 43891); (5028, 43892); (5029, 43893); (5030, 43894); (5031, 43895);
    (5032, 43896); (5033, 43897); (5034, 43898); (5035, 43899); (5036, 43900); (5037, 43901);
    (5038, 43902); (5039, 43903); (5040, 43904); (5041, 43905); (5042, 43906); (5043, 43907);
    (5044, 43908); (5045, 43909); (5046, 43910); (5047, 43911); (5048, 43912); (5049, 43913);
    (5050, 43914); (5051, 43915); (5052, 43916); (5053, 43917); (5054, 43918); (5055, 43919);
    (5056, 43920); (5057, 43921); (5058, 43922); (5059, 43923); (5060, 43924); (5061, 43925);
    (5062, 43926); (5063, 43927); (5064, 43928); (5065, 43929); (5066, 43930); (5067, 43931);
    (5068, 43932); (5069, 43933); (5070, 43934); (5071, 43935); (5072, 43936); (5073, 43937);
    (5074, 43938); (5075, 43939); (5076, 43940); (5077, 43941); (5078, 43942); (5079, 43943);
    (5080, 43944); (5081, 43945); (5082, 43946); (5083, 43947); (5084, 43948); (5085, 43949);
    (5086, 43950); (5087, 43951); (5088, 43952); (5089, 43953); (5090, 43954); (5091, 43955);
    (5092, 43956); (5093, 43957); (5094, 43958); (5095, 43959); (5096, 43960); (5097, 43961);
    (5098, 43962); (5099, 43963); (5100, 43964); (5101, 43965); (5102, 43966); (5103, 43967);
    (5104, 5112); (5105, 5113); (5106, 5114); (5107, 5115); (5108, 5116); (5109, 5117);
    (7312, 4304); (7313, 4305); (7314, 4306); (7315, 4307); (7316, 4308); (7317, 4309);
    (7318, 4310); (7319, 4311); (7320, 4312); (7321, 4313); (7322, 4314); (7323, 4315);
    (7324, 4316); (7325, 4317); (7326, 4318); (7327, 4319); (7328, 4320); (7329, 4321);
    (7330, 4322); (7331, 4323); (7332, 4324); (7333, 4325); (7334, 4326); (7335, 4327);
    (7336, 4328); (7337, 4329); (7338, 4330); (7339, 4331); (7340, 4332); (7341, 4333);
    (7342, 4334); (7343, 4335); (7344, 4336); (7345, 4337); (7346, 4338); (7347, 4339);
    (7348, 4340); (7349, 4341); (7350, 4342); (7351, 4343); (7352, 4344); (7353, 4345);
    (7354, 4346); (7357, 4349); (7358, 4350); (7359, 4351); (7680, 7681); (7682, 7683);
    (7684, 7685); (7686, 7687); (7688, 7689); (7690, 7691); (7692, 7693); (7694, 7695);
    (7696, 7697); (7698, 7699); (7700, 7701); (7702, 7703); (7704, 7705); (7706, 7707);
    (7708, 7709); (7710, 7711); (7712, 7713); (7714, 7715); (7716, 7717); (7718, 7719);
    (7720, 7721); (7722, 7723); (7724, 7725); (7726, 7727); (7728, 7729); (7730, 7731);
    (7732, 7733); (7734, 7735); (7736, 7737); (7738, 7739); (7740, 7741); (7742, 7743);
    (7744, 7745); (7746, 7747); (7748, 7749); (7750, 7751); (7752, 7753); (7754, 7755);
    (7756, 7757); (7758, 7759); (7760, 7761); (7762, 7763); (7764, 7765); (7766, 7767);
    (7768, 7769); (7770, 7771); (7772, 7773); (7774, 7775); (7776, 7777); (7778, 7779);
    (7780, 7781); (7782, 7783); (7784, 7785); (7786, 7787); (7788, 7789); (7790, 7791);
    (7792, 7793); (7794, 7795); (7796, 7797); (7798, 7799); (7800, 7801); (7802, 7803);
    (7804, 7805); (7806, 7807); (7808, 7809); (7810, 7811); (7812, 7813); (7814, 7815);
    (7816, 7817); (7818, 7819); (7820, 7821); (7822, 7823); (7824, 7825); (7826, 7827);
    (7828, 7829); (7838, 223); (7840, 7841); (7842, 7843); (7844, 7845); (7846, 7847);
    (7848, 7849); (7850, 7851); (7852, 7853); (7854, 7855); (7856, 7857); (7858, 7859);
    (7860, 7861); (7862, 7863); (7864, 7865); (7866, 7867); (7868, 7869); (7870, 7871);
    (7872, 7873); (7874, 7875); (7876, 7877); (7878, 7879); (7880, 7881); (7882, 7883);
    (7884, 7885); (7886, 7887); (7888, 7889); (7890, 7891); (7892, 7893); (7894, 7895);
    (7896, 7897); (7898, 7899); (7900, 7901); (7902, 7903); (7904, 7905); (7906, 7907);
    (7908, 7909); (7910, 7911); (7912, 7913); (7914, 7915); (7916, 7917); (7918, 7919);
    (7920, 7921); (7922, 7923); (7924, 7925); (7926, 7927); (7928, 7929); (7930, 7931);
    (7932, 7933); (7934, 7935); (7944, 7936); (7945, 7937); (7946, 7938); (7947, 7939);
    (7948, 7940); (7949, 7941); (7950, 7942); (7951, 7943); (7960, 7952); (7961, 7953);
    (7962, 7954); (7963, 7955); (7964, 7956); (7965, 7957); (7976, 7968); (7977, 7969);
    (7978, 7970); (7979, 7971); (7980, 7972); (7981, 7973); (7982, 7974); (7983, 7975);
    (7992, 7984); (7993, 7985); (7994, 7986); (7995, 7987); (7996, 7988); (7997, 7989);
    (7998, 7990); (7999, 7991); (8008, 8000); (8009, 8001); (8010, 8002); (8011, 8003);
    (8012, 8004); (8013, 8005); (8025, 8017); (8027, 8019); (8029, 8021); (8031, 8023);
    (8040, 8032); (8041, 8033); (8042, 8034); (8043, 8035); (8044, 8036); (8045, 8037);
    (8046, 8038); (8047, 8039); (8072, 8064); (8073, 8065); (8074, 8066); (8075, 8067);
    (8076, 8068); (8077, 8069); (8078, 8070); (8079, 8071); (8088, 8080); (8089, 8081);
    (8090, 8082); (8091, 8083); (8092, 8084); (8093, 8085); (8094, 8086); (8095, 8087);
    (8104, 8096); (8105, 8097); (8106, 8098); (8107, 8099); (8108, 8100); (8109, 8101);
    (8110, 8102); (8111, 8103); (8120, 8112); (8121, 8113); (8122, 8048); (8123, 8049);
    (8124, 8115); (8136, 8050); (8137, 8051); (8138, 8052); (8139, 8053); (8140, 8131);
    (8152, 8144); (8153, 8145); (8154, 8054); (8155, 8055); (8168, 8160); (8169, 8161);
    (8170, 8058); (8171, 8059); (8172, 8165); (8184, 8056); (8185, 8057); (8186, 8060);
    (8187, 8061); (8188, 8179); (8486, 969); (8490, 107); (8491, 229); (8498, 8526);
    (8544, 8560); (8545, 8561); (8546, 8562); (8547, 8563); (8548, 8564); (8549, 8565);
    (8550, 8566); (8551, 8567); (8552, 8568); (8553, 8569); (8554, 8570); (8555, 8571);
    (8556, 8572); (8557, 8573); (8558, 8574); (8559, 8575); (8579, 8580); (9398, 9424);
    (9399, 9425); (9400, 9426); (9401, 9427); (9402, 9428); (9403, 9429); (9404, 9430);
    (9405, 9431); (9406, 9432); (9407, 9433); (9408, 9434); (9409, 9435); (9410, 9436);
    (9411, 9437); (9412, 9438); (9413, 9439); (9414, 9440); (9415, 9441); (9416, 9442);
    (9417, 9443); (9418, 9444); (9419, 9445); (9420, 9446); (9421, 9447); (9422, 9448);
    (9423, 9449); (11264, 11312); (11265, 11313); (11266, 11314); (11267, 11315);
    (11268, 11316); (11269, 11317); (11270, 11318); (11271, 11319); (11272, 11320);
    (11273, 11321); (11274, 11322); (11275, 11323); (11276, 11324); (11277, 11325);
    (11278, 11326); (11279, 11327); (11280, 11328); (11281, 11329); (11282, 11330);
    (11283, 11331); (11284, 11332); (11285, 11333); (11286, 11334); (11287, 11335);
    (11288, 11336); (11289, 11337); (11290, 11338); (11291, 11339); (11292, 11340);
    (11293, 11341); (11294, 11342); (11295, 11343); (11296, 11344); (11297, 11345);
    (11298, 11346); (11299, 11347); (11300, 11348); (11301, 11349); (11302, 11350);
    (11303, 11351); (11304, 11352); (11305, 11353); (11306, 11354); (11307, 11355);
    (11308, 11356); (11309, 11357); (11310, 11358); (11311, 11359); (11360, 11361);
    (11362, 619); (11363, 7549); (11364, 637); (11367, 11368); (11369, 11370); (11371, 11372);
    (11373, 593); (11374, 625); (11375, 592); (11376, 594); (11378, 11379); (11381, 11382);
    (11390, 575); (11391, 576); (11392, 11393); (11394, 11395); (11396, 11397); (11398, 11399);
    (11400, 11401); (11402, 11403); (11404, 11405); (11406, 11407); (11408, 11409);
    (11410, 11411); (11412, 11413); (11414, 11415); (11416, 11417); (11418, 11419);
    (11420, 11421); (11422, 11423); (11424, 11425); (11426, 11427); (11428, 11429);
    (11430, 11431); (11432, 11433); (11434, 11435); (11436, 11437); (11438, 11439);
    (11440, 11441); (11442, 11443); (11444, 11445); (11446, 11447); (11448, 11449);
    (11450, 11451); (11452, 11453); (11454, 11455); (11456, 11457); (11458, 11459);
    (11460, 11461); (11462, 11463); (11464, 11465); (11466, 11467); (11468, 11469);
    (11470, 11471); (11472, 11473); (11474, 11475); (11476, 11477); (11478, 11479);
    (11480, 11481); (11482, 11483); (11484, 11485); (11486, 11487); (11488, 11489);
    (11490, 11491); (11499, 11500); (11501, 11502); (11506, 11507); (42560, 42561);
    (42562, 42563); (42564, 42565); (42566, 42567); (42568, 42569); (42570, 42571);
    (42572, 42573); (42574, 42575); (42576, 42577); (42578, 42579); (42580, 42581);
    (42582, 42583); (42584, 42585); (42586, 42587); (42588, 42589); (42590, 42591);
    (42592, 42593); (42594, 42595); (42596, 42597); (42598, 42599); (42600, 42601);
    (42602, 42603); (42604, 42605); (42624, 42625); (42626, 42627); (42628, 42629);
    (42630, 42631); (42632, 42633); (42634, 42635); (42636, 42637); (42638, 42639);
    (42640, 42641); (42642, 42643); (42644, 42645); (42646, 42647); (42648, 42649);
    (42650, 42651); (42786, 42787); (42788, 42789); (42790, 42791); (42792, 42793);
    (42794, 42795); (42796, 42797); (42798, 42799); (42802, 42803); (42804, 42805);
    (42806, 42807); (42808, 42809); (42810, 42811); (42812, 42813); (42814, 42815);
    (42816, 42817); (42818, 42819); (42820, 42821); (42822, 42823); (42824, 42825);
    (42826, 42827); (42828, 42829); (42830, 42831); (42832, 42833); (42834, 42835);
    (42836, 42837); (42838, 42839); (42840, 42841); (42842, 42843); (42844, 42845);
    (42846, 42847); (42848, 42849); (42850, 42851); (42852, 42853); (42854, 42855);
    (42856, 42857); (42858, 42859); (42860, 42861); (42862, 42863); (42873, 42874);
    (42875, 42876); (42877, 7545); (42878, 42879); (42880, 42881); (42882, 42883);
    (42884, 42885); (42886, 42887); (42891, 42892); (42893, 613); (42896, 42897);
    (42898, 42899); (42902, 42903); (42904, 42905); (42906, 42907); (42908, 42909);
    (42910, 42911); (42912, 42913); (42914, 42915); (42916, 42917); (42918, 42919);
    (42920, 42921); (42922, 614); (42923, 604); (42924, 609); (42925, 620); (42926, 618);
    (42928, 670); (42929, 647); (42930, 669); (42931, 43859); (42932, 42933); (42934, 42935);
    (42936, 42937); (42938, 42939); (42940, 42941); (42942, 42943); (42944, 42945);
    (42946, 42947); (42948, 42900); (42949, 642); (42950, 7566); (42951, 42952); (42953, 42954);
    (42960, 42961); (42966, 42967); (42968, 42969); (42997, 42998); (65313, 65345);
    (65314, 65346); (65315, 65347); (65316, 65348); (65317, 65349); (65318, 65350);
    (65319, 65351); (65320, 65352); (65321, 65353); (65322, 65354); (65323, 65355);
    (65324, 65356); (65325, 65357); (65326, 65358); (65327, 65359); (65328, 65360);
    (65329, 65361); (65330, 65362); (65331, 65363); (65332, 65364); (65333, 65365);
    (65334, 65366); (65335, 65367); (65336, 65368); (65337, 65369); (65338, 65370);
    (66560, 66600); (66561, 66601); (66562, 66602); (66563, 66603); (66564, 66604);
    (66565, 66605); (66566, 66606); (66567, 66607); (66568, 66608); (66569, 66609);
    (66570, 66610); (66571, 66611); (66572, 66612); (66573, 66613); (66574, 66614);
    (66575, 66615); (66576, 66616); (66577, 66617); (66578, 66618); (66579, 66619);
    (66580, 66620); (66581, 66621); (66582, 66622); (66583, 66623); (66584, 66624);
    (66585, 66625); (66586, 66626); (66587, 66627); (66588, 66628); (66589, 66629);
    (66590, 66630); (66591, 66631); (66592, 66632); (66593, 66633); (66594, 66634);
    (66595, 66635); (66596, 66636); (66597, 66637); (66598, 66638); (66599, 66639);
    (66736, 66776); (66737, 66777); (66738, 66778); (66739, 66779); (66740, 66780);
    (66741, 66781); (66742, 66782); (66743, 66783); (66744, 66784); (66745, 66785);
    (66746, 66786); (66747, 66787); (66748, 66788); (66749, 66789); (66750, 66790);
    (66751, 66791); (66752, 66792); (66753, 66793); (66754, 66794); (66755, 66795);
    (66756, 66796); (66757, 66797); (66758, 66798); (66759, 66799); (66760, 66800);
    (66761, 66801); (66762, 66802); (66763, 66803); (66764, 66804); (66765, 66805);
    (66766, 66806); (66767, 66807); (66768, 66808); (66769, 66809); (66770, 66810);
    (66771, 66811); (66928, 66967); (66929, 66968); (66930, 66969); (66931, 66970);
    (66932, 66971); (66933, 66972); (66934, 66973); (66935, 66974); (66936, 66975);
    (66937, 66976); (66938, 66977); (66940, 66979); (66941, 66980); (66942, 66981);
    (66943, 66982); (66944, 66983); (66945, 66984); (66946, 66985); (66947, 66986);
    (66948, 66987); (66949, 66988); (66950, 66989); (66951, 66990); (66952, 66991);
    (66953, 66992); (66954, 66993); (66956, 66995); (66957, 66996); (66958, 66997);
    (66959, 66998); (66960, 66999); (66961, 67000); (66962, 67001); (66964, 67003);
    (66965, 67004); (68736, 68800); (68737, 68801); (68738, 68802); (68739, 68803);
    (68740, 68804); (68741, 68805); (68742, 68806); (68743, 68807); (68744, 68808);
    (68745, 68809); (68746, 68810); (68747, 68811); (68748, 68812); (68749, 68813);
    (68750, 68814); (68751, 68815); (68752, 68816); (68753, 68817); (68754, 68818);
    (68755, 68819); (68756, 68820); (68757, 68821); (68758, 68822); (68759, 68823);
    (68760, 68824); (68761, 68825); (68762, 68826); (68763, 68827); (68764, 68828);
    (68765, 68829); (68766, 68830); (68767, 68831); (68768, 68832); (68769, 68833);
    (68770, 68834); (68771, 68835); (68772, 68836); (68773, 68837); (68774, 68838);
    (68775, 68839); (68776, 68840); (68777, 68841); (68778, 68842); (68779, 68843);
    (68780, 68844); (68781, 68845); (68782, 68846); (68783, 68847); (68784, 68848);
    (68785, 68849); (68786, 68850); (71840, 71872); (71841, 71873); (71842, 71874);
    (71843, 71875); (71844, 71876); (71845, 71877); (71846, 71878); (71847, 71879);
    (71848, 71880); (71849, 71881); (71850, 71882); (71851, 71883); (71852, 71884);
    (71853, 71885); (71854, 71886); (71855, 71887); (71856, 71888); (71857, 71889);
    (71858, 71890); (71859, 71891); (71860, 71892); (71861, 71893); (71862, 71894);
    (71863, 71895); (71864, 71896); (71865, 71897); (71866, 71898); (71867, 71899);
    (71868, 71900); (71869, 71901); (71870, 71902); (71871, 71903); (93760, 93792);
    (93761, 93793); (93762, 93794); (93763, 93795); (93764, 93796); (93765, 93797);
    (93766, 93798); (93767, 93799); (93768, 93800); (93769, 93801); (93770, 93802);
    (93771, 93803); (93772, 93804); (93773, 93805); (93774, 93806); (93775, 93807);
    (93776, 93808); (93777, 93809); (93778, 93810); (93779, 93811); (93780, 93812);
    (93781, 93813); (93782, 93814); (93783, 93815); (93784, 93816); (93785, 93817);
    (93786, 93818); (93787, 93819); (93788, 93820); (93789, 93821); (93790, 93822);
    (93791, 93823); (125184, 125218); (125185, 125219); (125186, 125220); (125187, 125221);
    (125188, 125222); (125189, 125223); (125190, 125224); (125191, 125225); (125192, 125226);
    (125193, 125227); (125194, 125228); (125195, 125229); (125196, 125230); (125197, 125231);
    (125198, 125232); (125199, 125233); (125200, 125234); (125201, 125235); (125202, 125236);
    (125203, 125237); (125204, 125238); (125205, 125239); (125206, 125240); (125207, 125241);
    (125208, 125242); (125209, 125243); (125210, 125244); (125211, 125245); (125212, 125246);
    (125213, 125247); (125214, 125248); (125215, 125249); (125216, 125250); (125217, 125251)
  ]%N.

(** The code points that str.isalnum accepts, as inclusive ranges. *)
Definition alnum_ranges : list (N * N) :=
  [
    (48, 57); (65, 90); (97, 122); (170, 170); (178, 179); (181, 181); (185, 186); (188, 190);
    (192, 214); (216, 246); (248, 705); (710, 721); (736, 740); (748, 748); (750, 750);
    (880, 884); (886, 887); (890, 893); (895, 895); (902, 902); (904, 906); (908, 908);
    (910, 929); (931, 1013); (1015, 1153); (1162, 1327); (1329, 1366); (1369, 1369);
    (1376, 1416); (1488, 1514); (1519, 1522); (1568, 1610); (1632, 1641); (1646, 1647);
    (1649, 1747); (1749, 1749); (1765, 1766); (1774, 1788); (1791, 1791); (1808, 1808);
    (1810, 1839); (1869, 1957); (1969, 1969); (1984, 2026); (2036, 2037); (2042, 2042);
    (2048, 2069); (2074, 2074); (2084, 2084); (2088, 2088); (2112, 2136); (2144, 2154);
    (2160, 2183); (2185, 2190); (2208, 2249); (2308, 2361); (2365, 2365); (2384, 2384);
    (2392, 2401); (2406, 2415); (2417, 2432); (2437, 2444); (2447, 2448); (2451, 2472);
    (2474, 2480); (2482, 2482); (2486, 2489); (2493, 2493); (2510, 2510); (2524, 2525);
    (2527, 2529); (2534, 2545); (2548, 2553); (2556, 2556); (2565, 2570); (2575, 2576);
    (2579, 2600); (2602, 2608); (2610, 2611); (2613, 2614); (2616, 2617); (2649, 2652);
    (2654, 2654); (2662, 2671); (2674, 2676); (2693, 2701); (2703, 2705); (2707, 2728);
    (2730, 2736); (2738, 2739); (2741, 2745); (2749, 2749); (2768, 2768); (2784, 2785);
    (2790, 2799); (2809, 2809); (2821, 2828); (2831, 2832); (2835, 2856); (2858, 2864);
    (2866, 2867); (2869, 2873); (2877, 2877); (2908, 2909); (2911, 2913); (2918, 2927);
    (2929, 2935); (2947, 2947); (2949, 2954); (2958, 2960); (2962, 2965); (2969, 2970);
    (2972, 2972); (2974, 2975); (2979, 2980); (2984, 2986); (2990, 3001); (3024, 3024);
    (3046, 3058); (3077, 3084); (3086, 3088); (3090, 3112); (3114, 3129); (3133, 3133);
    (3160, 3162); (3165, 3165); (3168, 3169); (3174, 3183); (3192, 3198); (3200, 3200);
    (3205, 3212); (3214, 3216); (3218, 3240); (3242, 3251); (3253, 3257); (3261, 3261);
    (3293, 3294); (3296, 3297); (3302, 3311); (3313, 3314); (3332, 3340); (3342, 3344);
    (3346, 3386); (3389, 3389); (3406, 3406); (3412, 3414); (3416, 3425); (3430, 3448);
    (3450, 3455); (3461, 3478); (3482, 3505); (3507, 3515); (3517, 3517); (3520, 3526);
    (3558, 3567); (3585, 3632); (3634, 3635); (3648, 3654); (3664, 3673); (3713, 3714);
    (3716, 3716); (3718, 3722); (3724, 3747); (3749, 3749); (3751, 3760); (3762, 3763);
    (3773, 3773); (3776, 3780); (3782, 3782); (3792, 3801); (3804, 3807); (3840, 3840);
    (3872, 3891); (3904, 3911); (3913, 3948); (3976, 3980); (4096, 4138); (4159, 4169);
    (4176, 4181); (4186, 4189); (4193, 4193); (4197, 4198); (4206, 4208); (4213, 4225);
    (4238, 4238); (4240, 4249); (4256, 4293); (4295, 4295); (4301, 4301); (4304, 4346);
    (4348, 4680); (4682, 4685); (4688, 4694); (4696, 4696); (4698, 4701); (4704, 4744);
    (4746, 4749); (4752, 4784); (4786, 4789); (4792, 4798); (4800, 4800); (4802, 4805);
    (4808, 4822); (4824, 4880); (4882, 4885); (4888, 4954); (4969, 4988); (4992, 5007);
    (5024, 5109); (5112, 5117); (5121, 5740); (5743, 5759); (5761, 5786); (5792, 5866);
    (5870, 5880); (5888, 5905); (5919, 5937); (5952, 5969); (5984, 5996); (5998, 6000);
    (6016, 6067); (6103, 6103); (6108, 6108); (6112, 6121); (6128, 6137); (6160, 6169);
    (6176, 6264); (6272, 6276); (6279, 6312); (6314, 6314); (6320, 6389); (6400, 6430);
    (6470, 6509); (6512, 6516); (6528, 6571); (6576, 6601); (6608, 6618); (6656, 6678);
    (6688, 6740); (6784, 6793); (6800, 6809); (6823, 6823); (6917, 6963); (6981, 6988);
    (6992, 7001); (7043, 7072); (7086, 7141); (7168, 7203); (7232, 7241); (7245, 7293);
    (7296, 7304); (7312, 7354); (7357, 7359); (7401, 7404); (7406, 7411); (7413, 7414);
    (7418, 7418); (7424, 7615); (7680, 7957); (7960, 7965); (7968, 8005); (8008, 8013);
    (8016, 8023); (8025, 8025); (8027, 8027); (8029, 8029); (8031, 8061); (8064, 8116);
    (8118, 8124); (8126, 8126); (8130, 8132); (8134, 8140); (8144, 8147); (8150, 8155);
    (8160, 8172); (8178, 8180); (8182, 8188); (8304, 8305); (8308, 8313); (8319, 8329);
    (8336, 8348); (8450, 8450); (8455, 8455); (8458, 8467); (8469, 8469); (8473, 8477);
    (8484, 8484); (8486, 8486); (8488, 8488); (8490, 8493); (8495, 8505); (8508, 8511);
    (8517, 8521); (8526, 8526); (8528, 8585); (9312, 9371); (9450, 9471); (10102, 10131);
    (11264, 11492); (11499, 11502); (11506, 11507); (11517, 11517); (11520, 11557);
    (11559, 11559); (11565, 11565); (11568, 11623); (11631, 11631); (11648, 11670);
    (11680, 11686); (11688, 11694); (11696, 11702); (11704, 11710); (11712, 11718);
    (11720, 11726); (11728, 11734); (11736, 11742); (11823, 11823); (12293, 12295);
    (12321, 12329); (12337, 12341); (12344, 12348); (12353, 12438); (12445, 12447);
    (12449, 12538); (12540, 12543); (12549, 12591); (12593, 12686); (12690, 12693);
    (12704, 12735); (12784, 12799); (12832, 12841); (12872, 12879); (12881, 12895);
    (12928, 12937); (12977, 12991); (13312, 19903); (19968, 42124); (42192, 42237);
    (42240, 42508); (42512, 42539); (42560, 42606); (42623, 42653); (42656, 42735);
    (42775, 42783); (42786, 42888); (42891, 42954); (42960, 42961); (42963, 42963);
    (42965, 42969); (42994, 43009); (43011, 43013); (43015, 43018); (43020, 43042);
    (43056, 43061); (43072, 43123); (43138, 43187); (43216, 43225); (43250, 43255);
    (43259, 43259); (43261, 43262); (43264, 43301); (43312, 43334); (43360, 43388);
    (43396, 43442); (43471, 43481); (43488, 43492); (43494, 43518); (43520, 43560);
    (43584, 43586); (43588, 43595); (43600, 43609); (43616, 43638); (43642, 43642);
    (43646, 43695); (43697, 43697); (43701, 43702); (43705, 43709); (43712, 43712);
    (43714, 43714); (43739, 43741); (43744, 43754); (43762, 43764); (43777, 43782);
    (43785, 43790); (43793, 43798); (43808, 43814); (43816, 43822); (43824, 43866);
    (43868, 43881); (43888, 44002); (44016, 44025); (44032, 55203); (55216, 55238);
    (55243, 55291); (63744, 64109); (64112, 64217); (64256, 64262); (64275, 64279);
    (64285, 64285); (64287, 64296); (64298, 64310); (64312, 64316); (64318, 64318);
    (64320, 64321); (64323, 64324); (64326, 64433); (64467, 64829); (64848, 64911);
    (64914, 64967); (65008, 65019); (65136, 65140); (65142, 65276); (65296, 65305);
    (65313, 65338); (65345, 65370); (65382, 65470); (65474, 65479); (65482, 65487);
    (65490, 65495); (65498, 65500); (65536, 65547); (65549, 65574); (65576, 65594);
    (65596, 65597); (65599, 65613); (65616, 65629); (65664, 65786); (65799, 65843);
    (65856, 65912); (65930, 65931); (66176, 66204); (66208, 66256); (66273, 66299);
    (66304, 66339); (66349, 66378); (66384, 66421); (66432, 66461); (66464, 66499);
    (66504, 66511); (66513, 66517); (66560, 66717); (66720, 66729); (66736, 66771);
    (66776, 66811); (66816, 66855); (66864, 66915); (66928, 66938); (66940, 66954);
    (66956, 66962); (66964, 66965); (66967, 66977); (66979, 66993); (66995, 67001);
    (67003, 67004); (67072, 67382); (67392, 67413); (67424, 67431); (67456, 67461);
    (67463, 67504); (67506, 67514); (67584, 67589); (67592, 67592); (67594, 67637);
    (67639, 67640); (67644, 67644); (67647, 67669); (67672, 67702); (67705, 67742);
    (67751, 67759); (67808, 67826); (67828, 67829); (67835, 67867); (67872, 67897);
    (67968, 68023); (68028, 68047); (68050, 68096); (68112, 68115); (68117, 68119);
    (68121, 68149); (68160, 68168); (68192, 68222); (68224, 68255); (68288, 68295);
    (68297, 68324); (68331, 68335); (68352, 68405); (68416, 68437); (68440, 68466);
    (68472, 68497); (68521, 68527); (68608, 68680); (68736, 68786); (68800, 68850);
    (68858, 68899); (68912, 68921); (69216, 69246); (69248, 69289); (69296, 69297);
    (69376, 69415); (69424, 69445); (69457, 69460); (69488, 69505); (69552, 69579);
    (69600, 69622); (69635, 69687); (69714, 69743); (69745, 69746); (69749, 69749);
    (69763, 69807); (69840, 69864); (69872, 69881); (69891, 69926); (69942, 69951);
    (69956, 69956); (69959, 69959); (69968, 70002); (70006, 70006); (70019, 70066);
    (70081, 70084); (70096, 70106); (70108, 70108); (70113, 70132); (70144, 70161);
    (70163, 70187); (70272, 70278); (70280, 70280); (70282, 70285); (70287, 70301);
    (70303, 70312); (70320, 70366); (70384, 70393); (70405, 70412); (70415, 70416);
    (70419, 70440); (70442, 70448); (70450, 70451); (70453, 70457); (70461, 70461);
    (70480, 70480); (70493, 70497); (70656, 70708); (70727, 70730); (70736, 70745);
    (70751, 70753); (70784, 70831); (70852, 70853); (70855, 70855); (70864, 70873);
    (71040, 71086); (71128, 71131); (71168, 71215); (71236, 71236); (71248, 71257);
    (71296, 71338); (71352, 71352); (71360, 71369); (71424, 71450); (71472, 71483);
    (71488, 71494); (71680, 71723); (71840, 71922); (71935, 71942); (71945, 71945);
    (71948, 71955); (71957, 71958); (71960, 71983); (71999, 71999); (72001, 72001);
    (72016, 72025); (72096, 72103); (72106, 72144); (72161, 72161); (72163, 72163);
    (72192, 72192); (72203, 72242); (72250, 72250); (72272, 72272); (72284, 72329);
    (72349, 72349); (72368, 72440); (72704, 72712); (72714, 72750); (72768, 72768);
    (72784, 72812); (72818, 72847); (72960, 72966); (72968, 72969); (72971, 73008);
    (73030, 73030); (73040, 73049); (73056, 73061); (73063, 73064); (73066, 73097);
    (73112, 73112); (73120, 73129); (73440, 73458); (73648, 73648); (73664, 73684);
    (73728, 74649); (74752, 74862); (74880, 75075); (77712, 77808); (77824, 78894);
    (82944, 83526); (92160, 92728); (92736, 92766); (92768, 92777); (92784, 92862);
    (92864, 92873); (92880, 92909); (92928, 92975); (92992, 92995); (93008, 93017);
    (93019, 93025); (93027, 93047); (93053, 93071); (93760, 93846); (93952, 94026);
    (94032, 94032); (94099, 94111); (94176, 94177); (94179, 94179); (94208, 100343);
    (100352, 101589); (101632, 101640); (110576, 110579); (110581, 110587); (110589, 110590);
    (110592, 110882); (110928, 110930); (110948, 110951); (110960, 111355); (113664, 113770);
    (113776, 113788); (113792, 113800); (113808, 113817); (119520, 119539); (119648, 119672);
    (119808, 119892); (119894, 119964); (119966, 119967); (119970, 119970); (119973, 119974);
    (119977, 119980); (119982, 119993); (119995, 119995); (119997, 120003); (120005, 120069);
    (120071, 120074); (120077, 120084); (120086, 120092); (120094, 120121); (120123, 120126);
    (120128, 120132); (120134, 120134); (120138, 120144); (120146, 120485); (120488, 120512);
    (120514, 120538); (120540, 120570); (120572, 120596); (120598, 120628); (120630, 120654);
    (120656, 120686); (120688, 120712); (120714, 120744); (120746, 120770); (120772, 120779);
    (120782, 120831); (122624, 122654); (123136, 123180); (123191, 123197); (123200, 123209);
    (123214, 123214); (123536, 123565); (123584, 123627); (123632, 123641); (124896, 124902);
    (124904, 124907); (124909, 124910); (124912, 124926); (124928, 125124); (125127, 125135);
    (125184, 125251); (125259, 125259); (125264, 125273); (126065, 126123); (126125, 126127);
    (126129, 126132); (126209, 126253); (126255, 126269); (126464, 126467); (126469, 126495);
    (126497, 126498); (126500, 126500); (126503, 126503); (126505, 126514); (126516, 126519);
    (126521, 126521); (126523, 126523); (126530, 126530); (126535, 126535); (126537, 126537);
    (126539, 126539); (126541, 126543); (126545, 126546); (126548, 126548); (126551, 126551);
    (126553, 126553); (126555, 126555); (126557, 126557); (126559, 126559); (126561, 126562);
    (126564, 126564); (126567, 126570); (126572, 126578); (126580, 126583); (126585, 126588);
    (126590, 126590); (126592, 126601); (126603, 126619); (126625, 126627); (126629, 126633);
    (126635, 126651); (127232, 127244); (130032, 130041); (131072, 173791); (173824, 177976);
    (177984, 178205); (178208, 183969); (183984, 191456); (194560, 195101); (196608, 201546)
  ]%N.

(** The code points that str.isspace accepts. *)
Definition space_ranges : list (N * N) :=
  [
    (9, 13); (28, 32); (133, 133); (160, 160); (5760, 5760); (8192, 8202); (8232, 8233);
    (8239, 8239); (8287, 8287); (12288, 12288)
  ]%N.

(** The code points with the property Cased. *)
Definition cased_ranges : list (N * N) :=
  [
    (65, 90); (97, 122); (170, 170); (181, 181); (186, 186); (192, 214); (216, 246); (248, 442);
    (444, 447); (452, 659); (661, 696); (704, 705); (736, 740); (837, 837); (880, 883);
    (886, 887); (890, 893); (895, 895); (902, 902); (904, 906); (908, 908); (910, 929);
    (931, 1013); (1015, 1153); (1162, 1327); (1329, 1366); (1376, 1416); (4256, 4293);
    (4295, 4295); (4301, 4301); (4304, 4346); (4349, 4351); (5024, 5109); (5112, 5117);
    (7296, 7304); (7312, 7354); (7357, 7359); (7424, 7615); (7680, 7957); (7960, 7965);
    (7968, 8005); (8008, 8013); (8016, 8023); (8025, 8025); (8027, 8027); (8029, 8029);
    (8031, 8061); (8064, 8116); (8118, 8124); (8126, 8126); (8130, 8132); (8134, 8140);
    (8144, 8147); (8150, 8155); (8160, 8172); (8178, 8180); (8182, 8188); (8305, 8305);
    (8319, 8319); (8336, 8348); (8450, 8450); (8455, 8455); (8458, 8467); (8469, 8469);
    (8473, 8477); (8484, 8484); (8486, 8486); (8488, 8488); (8490, 8493); (8495, 8500);
    (8505, 8505); (8508, 8511); (8517, 8521); (8526, 8526); (8544, 8575); (8579, 8580);
    (9398, 9449); (11264, 11492); (11499, 11502); (11506, 11507); (11520, 11557);
    (11559, 11559); (11565, 11565); (42560, 42605); (42624, 42653); (42786, 42887);
    (42891, 42894); (42896, 42954); (42960, 42961); (42963, 42963); (42965, 42969);
    (42997, 42998); (43000, 43002); (43824, 43866); (43868, 43880); (43888, 43967);
    (64256, 64262); (64275, 64279); (65313, 65338); (65345, 65370); (66560, 66639);
    (66736, 66771); (66776, 66811); (66928, 66938); (66940, 66954); (66956, 66962);
    (66964, 66965); (66967, 66977); (66979, 66993); (66995, 67001); (67003, 67004);
    (67456, 67456); (67459, 67461); (67463, 67504); (67506, 67514); (68736, 68786);
    (68800, 68850); (71840, 71903); (93760, 93823); (119808, 119892); (119894, 119964);
    (119966, 119967); (119970, 119970); (119973, 119974); (119977, 119980); (119982, 119993);
    (119995, 119995); (119997, 120003); (120005, 120069); (120071, 120074); (120077, 120084);
    (120086, 120092); (120094, 120121); (120123, 120126); (120128, 120132); (120134, 120134);
    (120138, 120144); (120146, 120485); (120488, 120512); (120514, 120538); (120540, 120570);
    (120572, 120596); (120598, 120628); (120630, 120654); (120656, 120686); (120688, 120712);
    (120714, 120744); (120746, 120770); (120772, 120779); (122624, 122633); (122635, 122654);
    (125184, 125251); (127280, 127305); (127312, 127337); (127344, 127369)
  ]%N.

(** The code points with the property Case_Ignorable. *)
Definition case_ignorable_ranges : list (N * N) :=
  [
    (39, 39); (46, 46); (58, 58); (94, 94); (96, 96); (168, 168); (173, 173); (175, 175);
    (180, 180); (183, 184); (688, 879); (884, 885); (890, 890); (900, 901); (903, 903);
    (1155, 1161); (1369, 1369); (1375, 1375); (1425, 1469); (1471, 1471); (1473, 1474);
    (1476, 1477); (1479, 1479); (1524, 1524); (1536, 1541); (1552, 1562); (1564, 1564);
    (1600, 1600); (1611, 1631); (1648, 1648); (1750, 1757); (1759, 1768); (1770, 1773);
    (1807, 1807); (1809, 1809); (1840, 1866); (1958, 1968); (2027, 2037); (2042, 2042);
    (2045, 2045); (2070, 2093); (2137, 2139); (2184, 2184); (2192, 2193); (2200, 2207);
    (2249, 2306); (2362, 2362); (2364, 2364); (2369, 2376); (2381, 2381); (2385, 2391);
    (2402, 2403); (2417, 2417); (2433, 2433); (2492, 2492); (2497, 2500); (2509, 2509);
    (2530, 2531); (2558, 2558); (2561, 2562); (2620, 2620); (2625, 2626); (2631, 2632);
    (2635, 2637); (2641, 2641); (2672, 2673); (2677, 2677); (2689, 2690); (2748, 2748);
    (2753, 2757); (2759, 2760); (2765, 2765); (2786, 2787); (2810, 2815); (2817, 2817);
    (2876, 2876); (2879, 2879); (2881, 2884); (2893, 2893); (2901, 2902); (2914, 2915);
    (2946, 2946); (3008, 3008); (3021, 3021); (3072, 3072); (3076, 3076); (3132, 3132);
    (3134, 3136); (3142, 3144); (3146, 3149); (3157, 3158); (3170, 3171); (3201, 3201);
    (3260, 3260); (3263, 3263); (3270, 3270); (3276, 3277); (3298, 3299); (3328, 3329);
    (3387, 3388); (3393, 3396); (3405, 3405); (3426, 3427); (3457, 3457); (3530, 3530);
    (3538, 3540); (3542, 3542); (3633, 3633); (3636, 3642); (3654, 3662); (3761, 3761);
    (3764, 3772); (3782, 3782); (3784, 3789); (3864, 3865); (3893, 3893); (3895, 3895);
    (3897, 3897); (3953, 3966); (3968, 3972); (3974, 3975); (3981, 3991); (3993, 4028);
    (4038, 4038); (4141, 4144); (4146, 4151); (4153, 4154); (4157, 4158); (4184, 4185);
    (4190, 4192); (4209, 4212); (4226, 4226); (4229, 4230); (4237, 4237); (4253, 4253);
    (4348, 4348); (4957, 4959); (5906, 5908); (5938, 5939); (5970, 5971); (6002, 6003);
    (6068, 6069); (6071, 6077); (6086, 6086); (6089, 6099); (6103, 6103); (6109, 6109);
    (6155, 6159); (6211, 6211); (6277, 6278); (6313, 6313); (6432, 6434); (6439, 6440);
    (6450, 6450); (6457, 6459); (6679, 6680); (6683, 6683); (6742, 6742); (6744, 6750);
    (6752, 6752); (6754, 6754); (6757, 6764); (6771, 6780); (6783, 6783); (6823, 6823);
    (6832, 6862); (6912, 6915); (6964, 6964); (6966, 6970); (6972, 6972); (6978, 6978);
    (7019, 7027); (7040, 7041); (7074, 7077); (7080, 7081); (7083, 7085); (7142, 7142);
    (7144, 7145); (7149, 7149); (7151, 7153); (7212, 7219); (7222, 7223); (7288, 7293);
    (7376, 7378); (7380, 7392); (7394, 7400); (7405, 7405); (7412, 7412); (7416, 7417);
    (7468, 7530); (7544, 7544); (7579, 7679); (8125, 8125); (8127, 8129); (8141, 8143);
    (8157, 8159); (8173, 8175); (8189, 8190); (8203, 8207); (8216, 8217); (8228, 8228);
    (8231, 8231); (8234, 8238); (8288, 8292); (8294, 8303); (8305, 8305); (8319, 8319);
    (8336, 8348); (8400, 8432); (11388, 11389); (11503, 11505); (11631, 11631); (11647, 11647);
    (11744, 11775); (11823, 11823); (12293, 12293); (12330, 12333); (12337, 12341);
    (12347, 12347); (12441, 12446); (12540, 12542); (40981, 40981); (42232, 42237);
    (42508, 42508); (42607, 42610); (42612, 42621); (42623, 42623); (42652, 42655);
    (42736, 42737); (42752, 42785); (42864, 42864); (42888, 42890); (42994, 42996);
    (43000, 43001); (43010, 43010); (43014, 43014); (43019, 43019); (43045, 43046);
    (43052, 43052); (43204, 43205); (43232, 43249); (43263, 43263); (43302, 43309);
    (43335, 43345); (43392, 43394); (43443, 43443); (43446, 43449); (43452, 43453);
    (43471, 43471); (43493, 43494); (43561, 43566); (43569, 43570); (43573, 43574);
    (43587, 43587); (43596, 43596); (43632, 43632); (43644, 43644); (43696, 43696);
    (43698, 43700); (43703, 43704); (43710, 43711); (43713, 43713); (43741, 43741);
    (43756, 43757); (43763, 43764); (43766, 43766); (43867, 43871); (43881, 43883);
    (44005, 44005); (44008, 44008); (44013, 44013); (64286, 64286); (64434, 64450);
    (65024, 65039); (65043, 65043); (65056, 65071); (65106, 65106); (65109, 65109);
    (65279, 65279); (65287, 65287); (65294, 65294); (65306, 65306); (65342, 65342);
    (65344, 65344); (65392, 65392); (65438, 65439); (65507, 65507); (65529, 65531);
    (66045, 66045); (66272, 66272); (66422, 66426); (67456, 67461); (67463, 67504);
    (67506, 67514); (68097, 68099); (68101, 68102); (68108, 68111); (68152, 68154);
    (68159, 68159); (68325, 68326); (68900, 68903); (69291, 69292); (69446, 69456);
    (69506, 69509); (69633, 69633); (69688, 69702); (69744, 69744); (69747, 69748);
    (69759, 69761); (69811, 69814); (69817, 69818); (69821, 69821); (69826, 69826);
    (69837, 69837); (69888, 69890); (69927, 69931); (69933, 69940); (70003, 70003);
    (70016, 70017); (70070, 70078); (70089, 70092); (70095, 70095); (70191, 70193);
    (70196, 70196); (70198, 70199); (70206, 70206); (70367, 70367); (70371, 70378);
    (70400, 70401); (70459, 70460); (70464, 70464); (70502, 70508); (70512, 70516);
    (70712, 70719); (70722, 70724); (70726, 70726); (70750, 70750); (70835, 70840);
    (70842, 70842); (70847, 70848); (70850, 70851); (71090, 71093); (71100, 71101);
    (71103, 71104); (71132, 71133); (71219, 71226); (71229, 71229); (71231, 71232);
    (71339, 71339); (71341, 71341); (71344, 71349); (71351, 71351); (71453, 71455);
    (71458, 71461); (71463, 71467); (71727, 71735); (71737, 71738); (71995, 71996);
    (71998, 71998); (72003, 72003); (72148, 72151); (72154, 72155); (72160, 72160);
    (72193, 72202); (72243, 72248); (72251, 72254); (72263, 72263); (72273, 72278);
    (72281, 72283); (72330, 72342); (72344, 72345); (72752, 72758); (72760, 72765);
    (72767, 72767); (72850, 72871); (72874, 72880); (72882, 72883); (72885, 72886);
    (73009, 73014); (73018, 73018); (73020, 73021); (73023, 73029); (73031, 73031);
    (73104, 73105); (73109, 73109); (73111, 73111); (73459, 73460); (78896, 78904);
    (92912, 92916); (92976, 92982); (92992, 92995); (94031, 94031); (94095, 94111);
    (94176, 94177); (94179, 94180); (110576, 110579); (110581, 110587); (110589, 110590);
    (113821, 113822); (113824, 113827); (118528, 118573); (118576, 118598); (119143, 119145);
    (119155, 119170); (119173, 119179); (119210, 119213); (119362, 119364); (121344, 121398);
    (121403, 121452); (121461, 121461); (121476, 121476); (121499, 121503); (121505, 121519);
    (122880, 122886); (122888, 122904); (122907, 122913); (122915, 122916); (122918, 122922);
    (123184, 123197); (123566, 123566); (123628, 123631); (125136, 125142); (125252, 125259);
    (127995, 127999); (917505, 917505); (917536, 917631); (917760, 917999)
  ]%N.

(** str.isspace on one character; also the class [\s] of module re on a str
    pattern, and what strip() and split() take for a blank. *)
Definition isspace (c : N) : bool := in_ranges space_ranges c.

Definition isalnum (c : N) : bool := in_ranges alnum_ranges c.

(** The class [\w] of module re on a str pattern: alphanumeric or underscore. *)
Definition is_word (c : N) : bool := isalnum c || (c =? 95)%N.

Definition cased (c : N) : bool := in_ranges cased_ranges c.

Definition case_ignorable (c : N) : bool := in_ranges case_ignorable_ranges c.

(** The full lower-case mapping of one code point.  U+0130, the capital I
    with a dot above, is the one code point whose lower case is two code
    points: i and the combining dot above, U+0307. *)
Definition to_lower_full (c : N) : list N :=
  if (c =? 304)%N then [105; 775]%N
  else match assoc c lower_pairs with
       | Some l => [l]
       | None => [c]
       end.

Fixpoint skip_ignorable (s : list N) : list N :=
  match s with
  | c :: s' => if case_ignorable c then skip_ignorable s' else s
  | [] => []
  end.

(** Whether a capital sigma stands at the end of a word: a cased character
    before it and none after it, not counting the characters that case
    ignores.  [before] is what precedes the sigma, nearest first. *)
Definition final_sigma (before after : list N) : bool :=
  match skip_ignorable before with
  | c :: _ =>
      cased c && match skip_ignorable after with
                 | d :: _ => negb (cased d)
                 | [] => true
                 end
  | [] => false
  end.

(** [s.lower()]: every code point gives its full lower-case mapping, but for
    the capital sigma, U+03A3, which gives the final small sigma, U+03C2, at
    the end of a word and the small sigma, U+03C3, elsewhere. *)
Fixpoint lower_aux (before s : list N) : list N :=
  match s with
  | [] => []
  | c :: s' =>
      (if (c =? 931)%N then [if final_sigma before s' then 962 else 963]%N
       else to_lower_full c)
      ++ lower_aux (c :: before) s'
  end.

Definition lower (s : str) : str := lower_aux [] s.

(** [s.lstrip()], [s.rstrip()], [s.strip()] *)
Fixpoint lstrip (s : str) : str :=
  match s with
  | [] => []
  | c :: s' => if isspace c then lstrip s' else s
  end.

Fixpoint rstrip (s : str) : str :=
  match s with
  | [] => []
  | c :: s' =>
      match rstrip s' with
      | [] => if isspace c then [] else [c]
      | r => c :: r
      end
  end.

Definition strip (s : str) : str := rstrip (lstrip s).

(** [s.split()]: the maximal runs of non-blank characters, left to right.
    [cur] holds the run being read, [acc] the runs already closed. *)
Definition flush (cur : str) (acc : list str) : list str :=
  match cur with
  | [] => acc
  | _ => acc ++ [cur]
  end.

Fixpoint split_aux (s cur : str) (acc : list str) : list str :=
  match s with
  | [] => flush cur acc
  | c :: s' =>
      if isspace c then split_aux s' [] (flush cur acc)
      else split_aux s' (cur ++ [c]) acc
  end.

Definition split (s : str) : list str := split_aux s [] [].

(** [re.sub(pattern, repl, s)] for a pattern that is one set of characters:
    every character of the set is replaced, the others stay. *)
Definition sub_set (in_set : N -> bool) (repl : str) (s : str) : str :=
  flat_map (fun c => if in_set c then repl else [c]) s.

(** The set [[^\w\s-]]: what is neither a word character, nor a blank, nor
    the hyphen. *)
Definition not_word_space_hyphen (c : N) : bool :=
  negb (is_word c || isspace c || (c =? 45)%N).

(** [re.sub(r"[^\w\s-]", " ", s)] *)
Definition sub_nonword (s : str) : str := sub_set not_word_space_hyphen [32%N] s.

Definition truthy (s : str) : bool :=
  match s with [] => false | _ => true end.

End PyUnicode.

(** ** Exceptions, results, and the int built-in *)
Module Py.

(** An exception object: its class name and [str(e)]. *)
Inductive exn : Type := PyExn (cls : string) (msg : string).

Definition exn_str (e : exn) : string := let 'PyExn _ m := e in m.

(** What a call produces: a value, or a raised exception. *)
Inductive result (A : Type) : Type :=
| Ok (a : A)
| Raise (e : exn).
Arguments Ok {A} a.
Arguments Raise {A} e.

Definition is_raise {A} (r : result A) : bool :=
  match r with Raise _ => true | Ok _ => false end.

(** Sequencing: an exception raised by the first call skips the rest. *)
#[global] Instance result_ret : MRet result := fun A a => Ok a.
#[global] Instance result_bind : MBind result :=
  fun A B f r => match r with Ok a => f a | Raise e => Raise e end.

Definition dquote : ascii := ascii_of_N 34.
Definition squote : ascii := ascii_of_N 39.
Definition backslash : ascii := ascii_of_N 92.

Fixpoint contains_char (c : ascii) (s : string) : bool :=
  match s with
  | EmptyString => false
  | String d s' => Ascii.eqb c d || contains_char c s'
  end.

Definition hex_digit (n : N) : ascii :=
  if (n <? 10)%N then ascii_of_N (48 + n) else ascii_of_N (87 + n).

(** The escape [\xNN] of repr. *)
Definition hex_escape (c : ascii) : string :=
  String backslash (String "x" (String (hex_digit (PyStr.code c / 16))
    (String (hex_digit (PyStr.code c mod 16)) EmptyString))).

(** str.isprintable on one Latin-1 character. *)
Definition is_printable (c : ascii) : bool :=
  PyStr.in_range 32 126 c || PyStr.in_range 161 172 c || PyStr.in_range 174 255 c.

Definition repr_char (quote c : ascii) : string :=
  if Ascii.eqb c quote || Ascii.eqb c backslash then String backslash (String c EmptyString)
  else if (PyStr.code c =? 9)%N then String backslash "t"
  else if (PyStr.code c =? 10)%N then String backslash "n"
  else if (PyStr.code c =? 13)%N then String backslash "r"
  else if is_printable c then String c EmptyString
  else hex_escape c.

Fixpoint repr_body (quote : ascii) (s : string) : string :=
  match s with
  | EmptyString => EmptyString
  | String c s' => repr_char quote c +:+ repr_body quote s'
  end.

(** [repr(s)] of a str: single quotes unless the text has one and no double quote. *)
Definition repr (s : string) : string :=
  let quote := if contains_char squote s && negb (contains_char dquote s)
               then dquote else squote in
  String quote (repr_body quote s +:+ String quote EmptyString).

(** *** [int(s)] for a str argument, base 10 *)

(** The blanks int() strips: TAB..CR, SPACE, NEL, NBSP. *)
Definition int_space (c : ascii) : bool :=
  PyStr.in_range 9 13 c || (PyStr.code c =? 32)%N || (PyStr.code c =? 133)%N
  || (PyStr.code c =? 160)%N.

Fixpoint int_lstrip (s : string) : string :=
  match s with
  | EmptyString => EmptyString
  | String c s' => if int_space c then int_lstrip s' else s
  end.

Fixpoint int_rstrip (s : string) : string :=
  match s with
  | EmptyString => EmptyString
  | String c s' =>
      match int_rstrip s' with
      | EmptyString => if int_space c then EmptyString else String c EmptyString
      | r => String c r
      end
  end.

(** Digits, groups of them separated by single underscores: the digits read,
    most significant first, or [None] when the text is not of that form. *)
Fixpoint parse_digits (s : string) : option Decimal.uint :=
  match s with
  | EmptyString => None
  | String c s' =>
      if PyStr.is_digit c then
        match s' with
        | EmptyString => DecimalString.uint_of_char c (Some Decimal.Nil)
        | String u s'' =>
            if (PyStr.code u =? 95)%N
            then DecimalString.uint_of_char c (parse_digits s'')
            else DecimalString.uint_of_char c (parse_digits s')
        end
      else None
  end.

(** An optional sign, then digits. *)
Definition parse_int (s : string) : option Z :=
  match s with
  | EmptyString => None
  | String c s' =>
      if (PyStr.code c =? 45)%N
      then option_map (fun d => Z.of_int (Decimal.Neg d)) (parse_digits s')
      else if (PyStr.code c =? 43)%N
      then option_map (fun d => Z.of_int (Decimal.Pos d)) (parse_digits s')
      else option_map (fun d => Z.of_int (Decimal.Pos d)) (parse_digits s)
  end.

Definition invalid_literal (s : string) : exn :=
  PyExn "ValueError" ("invalid literal for int() with base 10: " +:+ repr s).

Definition int (s : string) : result Z :=
  match parse_int (int_rstrip (int_lstrip s)) with
  | Some z => Ok z
  | None => Raise (invalid_literal s)
  end.

(** [str(z)], the decimal text an f-string inserts for an int. *)
Definition str_of_int (z : Z) : string := NilZero.string_of_int (Z.to_int z).

(** Reading a key a dict may lack: [d[key]] raises KeyError when it is absent. *)
Definition subscript {A} (key : string) (o : option A) : result A :=
  match o with
  | Some a => Ok a
  | None => Raise (PyExn "KeyError" (repr key))
  end.

(** A dict whose insertion order is observable: its items in insertion order.
    [dict_get] is [d.get(k)]; [dict_set] is [d[k] = v], which keeps the place of
    a key that is already there. *)
Fixpoint dict_get `{EqDecision K} {V} (k : K) (d : list (K * V)) : option V :=
  match d with
  | [] => None
  | (k', v) :: d' => if decide (k = k') then Some v else dict_get k d'
  end.

Fixpoint dict_set `{EqDecision K} {V} (k : K) (v : V) (d : list (K * V)) : list (K * V) :=
  match d with
  | [] => [(k, v)]
  | (k', v') :: d' => if decide (k = k') then (k, v) :: d' else (k', v') :: dict_set k v d'
  end.

Definition dict_values {K V} (d : list (K * V)) : list V := map snd d.

(** [for x in xs: acc = step(acc, x)], stopping at the first exception. *)
Fixpoint for_each {A S} (step : S -> A -> result S) (xs : list A) (acc : S) : result S :=
  match xs with
  | [] => Ok acc
  | x :: xs' => acc' ← step acc x; for_each step xs' acc'
  end.

(** [[f(x) for x in xs]] *)
Fixpoint map_result {A B} (f : A -> result B) (xs : list A) : result (list B) :=
  match xs with
  | [] => Ok []
  | x :: xs' => y ← f x; ys ← map_result f xs'; Ok (y :: ys)
  end.

(** [sorted(xs, key=key, reverse=True)] and [xs.sort(key=key, reverse=True)]:
    descending by key, elements with equal keys in their original order.
    [lt] is the comparison [<] of the keys; the result of Python's sort is
    determined where [<] orders the keys, as it does ints and the floats
    that are numbers. *)
Fixpoint insert_desc {A K} (lt : K -> K -> bool) (key : A -> K) (x : A) (l : list A)
  : list A :=
  match l with
  | [] => [x]
  | y :: l' => if lt (key x) (key y) then y :: insert_desc lt key x l' else x :: l
  end.

Definition sort_desc {A K} (lt : K -> K -> bool) (key : A -> K) (l : list A) : list A :=
  foldr (insert_desc lt key) [] l.

(** *** float *)

(** [float(z)], the conversion an int undergoes when it meets a float. *)
Definition float_of_int (z : Z) : float :=
  SF2Prim (binary_normalize prec emax z 0 false).

(** [min(a, b)] for two floats: the first unless the second is smaller. *)
Definition min (a b : float) : float := if PrimFloat.ltb b a then b else a.

(** [a >= b] *)
Definition ge (a b : float) : bool := PrimFloat.leb b a.

End Py.

(** ** taxonomy.py *)
Module Taxonomy.
Import Py.

Record Category : Type := {
  cat_id : Z;
  cat_name : string;
  cat_tier : Z;
  cat_parent : option Z
}.

#[global] Instance Category_eq_dec : EqDecision Category.
Proof. solve_decision. Defined.

Definition cat (i : Z) (n : string) (t : Z) (p : option Z) : Z * Category :=
  (i, {| cat_id := i; cat_name := n; cat_tier := t; cat_parent := p |}).

(** The dict literal IAB_AD_PRODUCT_TAXONOMY, entry by entry in source order. *)
Definition IAB_AD_PRODUCT_TAXONOMY : list (Z * Category) := [
    (* Alcohol *)
    cat 1002 "Alcohol" 1 None;
    cat 1003 "Bars" 2 (Some 1002);
    cat 1004 "Beer" 2 (Some 1002);
    cat 1005 "Hard Sodas, Seltzers, Alco Pops" 2 (Some 1002);
    cat 1006 "Spirits" 2 (Some 1002);
    cat 1007 "Wine" 2 (Some 1002);
    (* Business and Industrial *)
    cat 1010 "Business and Industrial" 1 None;
    cat 1011 "Advertising and Marketing" 2 (Some 1010);
    cat 1012 "Business Services" 2 (Some 1010);
    cat 1020 "Construction" 2 (Some 1010);
    cat 1025 "Energy Industry" 2 (Some 1010);
    cat 1030 "Manufacturing" 2 (Some 1010);
    cat 1040 "Transportation and Logistics" 2 (Some 1010);
    cat 1045 "Agriculture" 2 (Some 1010);
    (* Cannabis *)
    cat 1050 "Cannabis" 1 None;
    cat 1051 "CBD Products" 2 (Some 1050);
    cat 1052 "THC Products" 2 (Some 1050);
    (* Clothing and Accessories *)
    cat 1055 "Clothing and Accessories" 1 None;
    cat 1056 "Womens Apparel" 2 (Some 1055);
    cat 1057 "Mens Apparel" 2 (Some 1055);
    cat 1058 "Childrens Apparel" 2 (Some 1055);
    cat 1060 "Footwear" 2 (Some 1055);
    cat 1065 "Jewelry" 2 (Some 1055);
    cat 1070 "Watches" 2 (Some 1055);
    cat 1075 "Handbags and Accessories" 2 (Some 1055);
    cat 1080 "Eyewear" 2 (Some 1055);
    (* Computer Software *)
    cat 1090 "Computer Software" 1 None;
    cat 1091 "Business Software" 2 (Some 1090);
    cat 1092 "Consumer Software" 2 (Some 1090);
    cat 1093 "Mobile Apps" 2 (Some 1090);
    cat 1095 "Video Games" 2 (Some 1090);
    cat 1100 "Security Software" 2 (Some 1090);
    cat 1105 "Cloud Services" 2 (Some 1090);
    (* Consumer Electronics *)
    cat 1115 "Consumer Electronics" 1 None;
    cat 1116 "Computers and Laptops" 2 (Some 1115);
    cat 1117 "Tablets" 2 (Some 1115);
    cat 1118 "Smartphones" 2 (Some 1115);
    cat 1120 "Wearables" 2 (Some 1115);
    cat 1121 "Smartwatches" 3 (Some 1120);
    cat 1122 "Fitness Trackers" 3 (Some 1120);
    cat 1125 "Audio Equipment" 2 (Some 1115);
    cat 1126 "Headphones" 3 (Some 1125);
    cat 1127 "Speakers" 3 (Some 1125);
    cat 1130 "TVs and Displays" 2 (Some 1115);
    cat 1135 "Cameras and Photography" 2 (Some 1115);
    cat 1140 "Gaming Hardware" 2 (Some 1115);
    cat 1145 "Smart Home Devices" 2 (Some 1115);
    (* Consumer Packaged Goods *)
    cat 1150 "Consumer Packaged Goods" 1 None;
    cat 1151 "Food and Beverages" 2 (Some 1150);
    cat 1160 "Personal Care" 2 (Some 1150);
    cat 1170 "Household Products" 2 (Some 1150);
    cat 1175 "Beauty and Cosmetics" 2 (Some 1150);
    cat 1180 "Baby Products" 2 (Some 1150);
    cat 1185 "Pet Food and Supplies" 2 (Some 1150);
    (* Dating *)
    cat 1210 "Dating" 1 None;
    cat 1211 "Dating Services" 2 (Some 1210);
    (* Dieting and Weight Loss *)
    cat 1220 "Dieting and Weight Loss" 1 None;
    cat 1221 "Diet Programs" 2 (Some 1220);
    (* Durable Goods *)
    cat 1225 "Durable Goods" 1 None;
    cat 1226 "Appliances" 2 (Some 1225);
    cat 1230 "Furniture" 2 (Some 1225);
    cat 1240 "Home Improvement" 2 (Some 1225);
    (* Education and Careers *)
    cat 1260 "Education and Careers" 1 None;
    cat 1261 "Colleges and Universities" 2 (Some 1260);
    cat 1262 "Online Education" 2 (Some 1260);
    cat 1265 "Job Search" 2 (Some 1260);
    (* Finance and Insurance *)
    cat 1340 "Finance and Insurance" 1 None;
    cat 1341 "Banking" 2 (Some 1340);
    cat 1345 "Credit Cards" 2 (Some 1340);
    cat 1350 "Loans" 2 (Some 1340);
    cat 1355 "Insurance" 2 (Some 1340);
    cat 1365 "Investments" 2 (Some 1340);
    cat 1370 "Retirement Planning" 2 (Some 1340);
    (* Fitness Activities *)
    cat 1390 "Fitness Activities" 1 None;
    cat 1391 "Gyms and Fitness Centers" 2 (Some 1390);
    cat 1395 "Yoga and Pilates" 2 (Some 1390);
    (* Food and Beverage Services *)
    cat 1410 "Food and Beverage Services" 1 None;
    cat 1411 "Restaurants" 2 (Some 1410);
    cat 1420 "Food Delivery" 2 (Some 1410);
    cat 1430 "Coffee and Tea" 2 (Some 1410);
    cat 1435 "Grocery" 2 (Some 1410);
    (* Gambling *)
    cat 1440 "Gambling" 1 None;
    cat 1441 "Casinos" 2 (Some 1440);
    cat 1443 "Sports Betting" 2 (Some 1440);
    (* Health and Medical Services *)
    cat 1480 "Health and Medical Services" 1 None;
    cat 1481 "Healthcare Providers" 2 (Some 1480);
    cat 1485 "Dental Services" 2 (Some 1480);
    cat 1495 "Mental Health Services" 2 (Some 1480);
    cat 1500 "Telemedicine" 2 (Some 1480);
    (* Media *)
    cat 1560 "Media" 1 None;
    cat 1561 "Streaming Services" 2 (Some 1560);
    cat 1565 "News Media" 2 (Some 1560);
    cat 1570 "Podcasts" 2 (Some 1560);
    cat 1580 "Movies" 2 (Some 1560);
    cat 1590 "Music" 2 (Some 1560);
    cat 1600 "Social Media" 2 (Some 1560);
    (* Non-Fiat Currency *)
    cat 1620 "Non-Fiat Currency" 1 None;
    cat 1621 "Cryptocurrency" 2 (Some 1620);
    (* Pet Ownership *)
    cat 1660 "Pet Ownership" 1 None;
    cat 1661 "Pet Supplies" 2 (Some 1660);
    cat 1665 "Veterinary Services" 2 (Some 1660);
    (* Pharmaceuticals *)
    cat 1680 "Pharmaceuticals" 1 None;
    cat 1681 "Prescription Drugs" 2 (Some 1680);
    cat 1682 "OTC Medications" 2 (Some 1680);
    cat 1685 "Vitamins and Supplements" 2 (Some 1680);
    cat 1690 "Pharmacies" 2 (Some 1680);
    (* Real Estate *)
    cat 1720 "Real Estate" 1 None;
    cat 1721 "Residential Real Estate" 2 (Some 1720);
    cat 1725 "Commercial Real Estate" 2 (Some 1720);
    (* Retail *)
    cat 1750 "Retail" 1 None;
    cat 1751 "E-commerce" 2 (Some 1750);
    cat 1752 "Department Stores" 2 (Some 1750);
    (* Sporting Goods *)
    cat 1770 "Sporting Goods" 1 None;
    cat 1771 "Fitness Equipment" 2 (Some 1770);
    cat 1772 "Outdoor Recreation" 2 (Some 1770);
    cat 1780 "Team Sports Equipment" 2 (Some 1770);
    cat 1795 "Golf Equipment" 2 (Some 1770);
    (* Tobacco *)
    cat 1800 "Tobacco" 1 None;
    cat 1801 "Cigarettes" 2 (Some 1800);
    cat 1803 "Vaping" 2 (Some 1800);
    (* Travel and Tourism *)
    cat 1810 "Travel and Tourism" 1 None;
    cat 1811 "Airlines" 2 (Some 1810);
    cat 1812 "Hotels" 2 (Some 1810);
    cat 1813 "Vacation Rentals" 2 (Some 1810);
    cat 1815 "Car Rentals" 2 (Some 1810);
    cat 1820 "Cruises" 2 (Some 1810);
    (* Vehicles *)
    cat 1860 "Vehicles" 1 None;
    cat 1861 "Automotive" 2 (Some 1860);
    cat 1870 "Auto Parts" 2 (Some 1860);
    cat 1875 "Auto Services" 2 (Some 1860);
    cat 1880 "Motorcycles" 2 (Some 1860);
    cat 1895 "Bicycles" 2 (Some 1860);
    cat 1900 "Electric Vehicles" 2 (Some 1860);
    (* Weapons and Ammunition *)
    cat 1920 "Weapons and Ammunition" 1 None;
    cat 1921 "Firearms" 2 (Some 1920);
    cat 1922 "Ammunition" 2 (Some 1920)
  ].

(** An argument passed where an id is expected: an int, a str, or None. *)
Inductive pyid : Type :=
| IdInt (z : Z)
| IdStr (s : string)
| IdNone.

Definition get_iab_code (id : Z) : string := "IAB-AP-" +:+ str_of_int id.

Definition get_id_from_code (code : string) : option Z :=
  if negb (PyStr.truthy code) then None
  else if PyStr.startswith "IAB-AP-" code then
    match int (PyStr.remove_all "IAB-AP-" code) with
    | Ok z => Some z
    | Raise _ => None
    end
  else None.

Definition get_category_by_id (id : pyid) : result (option Category) :=
  match id with
  | IdStr s => z ← int s; Ok (dict_get z IAB_AD_PRODUCT_TAXONOMY)
  | IdInt z => Ok (dict_get z IAB_AD_PRODUCT_TAXONOMY)
  | IdNone => Ok None
  end.

Definition get_tier1_categories : list Category :=
  filter (fun c => cat_tier c = 1) (dict_values IAB_AD_PRODUCT_TAXONOMY).

Definition get_child_categories (parent_id : pyid) : result (list Category) :=
  match parent_id with
  | IdStr s =>
      z ← int s;
      Ok (filter (fun c => cat_parent c = Some z) (dict_values IAB_AD_PRODUCT_TAXONOMY))
  | IdInt z =>
      Ok (filter (fun c => cat_parent c = Some z) (dict_values IAB_AD_PRODUCT_TAXONOMY))
  | IdNone =>
      Ok (filter (fun c => cat_parent c = None) (dict_values IAB_AD_PRODUCT_TAXONOMY))
  end.

(** One turn of the loop of get_category_path moves to
    [get_category_by_id(parent_id) if parent_id else None]. *)
Definition parent_of (c : Category) : option Category :=
  match cat_parent c with
  | Some p => if p =? 0 then None else dict_get p IAB_AD_PRODUCT_TAXONOMY
  | None => None
  end.

(** The while loop of get_category_path; [None] when [fuel] turns do not
    reach a category without parent. *)
Fixpoint path_loop (fuel : nat) (current : option Category) (path : list Category)
  : option (list Category) :=
  match current with
  | None => Some path
  | Some c =>
      match fuel with
      | O => None
      | S fuel' => path_loop fuel' (parent_of c) (c :: path)
      end
  end.

Definition path_fuel : nat := length IAB_AD_PRODUCT_TAXONOMY.

Definition get_category_path (id : pyid) : result (list Category) :=
  current ← get_category_by_id id;
  Ok (default [] (path_loop path_fuel current [])).

Definition get_category_label (id : pyid) : result string :=
  path ← get_category_path id;
  Ok (PyStr.join " > " (map cat_name path)).

Definition is_valid_category (id : pyid) : bool :=
  match id with
  | IdStr s =>
      if PyStr.startswith "IAB-AP-" s then
        match get_id_from_code s with
        | Some z => bool_decide (is_Some (dict_get z IAB_AD_PRODUCT_TAXONOMY))
        | None => false
        end
      else
        match int s with
        | Ok z => bool_decide (is_Some (dict_get z IAB_AD_PRODUCT_TAXONOMY))
        | Raise _ => false
        end
  | IdInt z => bool_decide (is_Some (dict_get z IAB_AD_PRODUCT_TAXONOMY))
  | IdNone => false
  end.

Definition get_tier1_parent (id : pyid) : result (option Category) :=
  path ← get_category_path id;
  Ok (head path).

End Taxonomy.

(** ** keyword_mapping.py *)
Module Keywords.
Import Py Taxonomy.

(** The dict literal KEYWORD_MAPPINGS, in source order. *)
Definition KEYWORD_MAPPINGS : list (string * Z) := [
    (* Alcohol (1002) *)
    ("alcohol", 1002); ("alcoholic", 1002); ("liquor", 1002);
    ("bar", 1003); ("pub", 1003); ("nightclub", 1003);
    ("beer", 1004); ("lager", 1004); ("ale", 1004); ("ipa", 1004);
    ("hard seltzer", 1005); ("seltzer", 1005);
    ("spirits", 1006); ("whiskey", 1006); ("vodka", 1006); ("rum", 1006); ("gin", 1006); ("tequila", 1006);
    ("wine", 1007); ("champagne", 1007); ("prosecco", 1007);
    (* Business and Industrial (1010) *)
    ("business", 1010); ("b2b", 1010); ("enterprise", 1010);
    ("advertising", 1011); ("marketing", 1011); ("agency", 1011);
    ("construction", 1020); ("contractor", 1020);
    ("energy", 1025); ("manufacturing", 1030); ("logistics", 1040); ("agriculture", 1045);
    (* Cannabis (1050) *)
    ("cannabis", 1050); ("marijuana", 1050); ("cbd", 1051); ("thc", 1052);
    (* Clothing and Accessories (1055) *)
    ("clothing", 1055); ("apparel", 1055); ("fashion", 1055);
    ("shoes", 1060); ("footwear", 1060); ("sneakers", 1060); ("boots", 1060);
    ("jewelry", 1065); ("jewellery", 1065); ("necklace", 1065); ("bracelet", 1065);
    ("watch", 1070); ("watches", 1070);
    ("handbag", 1075); ("purse", 1075);
    ("sunglasses", 1080); ("eyeglasses", 1080);
    (* Computer Software (1090) *)
    ("software", 1090); ("app", 1090); ("application", 1090);
    ("saas", 1091); ("crm", 1091); ("erp", 1091);
    ("mobile app", 1093);
    ("video game", 1095); ("game", 1095); ("gaming", 1095); ("playstation", 1095); ("xbox", 1095);
    ("antivirus", 1100); ("vpn", 1100);
    ("cloud", 1105); ("aws", 1105); ("azure", 1105);
    (* Consumer Electronics (1115) *)
    ("electronics", 1115); ("gadget", 1115); ("tech", 1115);
    ("computer", 1116); ("laptop", 1116); ("pc", 1116); ("desktop", 1116); ("macbook", 1116);
    ("tablet", 1117); ("ipad", 1117);
    ("smartphone", 1118); ("phone", 1118); ("iphone", 1118); ("android", 1118); ("mobile", 1118);
    ("wearable", 1120); ("wearables", 1120);
    ("smartwatch", 1121); ("apple watch", 1121);
    ("fitness tracker", 1122); ("fitbit", 1122);
    ("headphones", 1126); ("earbuds", 1126); ("airpods", 1126);
    ("speaker", 1127); ("speakers", 1127);
    ("tv", 1130); ("television", 1130); ("monitor", 1130);
    ("camera", 1135); ("photography", 1135);
    ("gaming console", 1140); ("ps5", 1140);
    ("smart home", 1145); ("alexa", 1145);
    (* Consumer Packaged Goods (1150) *)
    ("cpg", 1150); ("fmcg", 1150);
    ("food", 1151); ("beverage", 1151);
    ("snack", 1151); ("chips", 1151); ("candy", 1151);
    ("personal care", 1160); ("skincare", 1160); ("shampoo", 1160);
    ("cleaning", 1170); ("detergent", 1170);
    ("makeup", 1175); ("cosmetics", 1175); ("lipstick", 1175);
    ("baby", 1180); ("diaper", 1180);
    ("pet food", 1185); ("dog food", 1185); ("cat food", 1185);
    (* Dating (1210) *)
    ("dating", 1210); ("dating app", 1211); ("tinder", 1211); ("bumble", 1211);
    (* Dieting and Weight Loss (1220) *)
    ("diet", 1220); ("weight loss", 1220); ("diet program", 1221);
    (* Durable Goods (1225) *)
    ("appliance", 1226); ("refrigerator", 1226); ("oven", 1226);
    ("furniture", 1230); ("sofa", 1230); ("couch", 1230);
    ("home improvement", 1240); ("tools", 1240);
    (* Education and Careers (1260) *)
    ("education", 1260); ("learning", 1260); ("school", 1260);
    ("college", 1261); ("university", 1261);
    ("online course", 1262); ("coursera", 1262); ("udemy", 1262);
    ("job", 1265); ("career", 1265); ("job search", 1265);
    (* Finance and Insurance (1340) *)
    ("finance", 1340); ("financial", 1340); ("money", 1340);
    ("bank", 1341); ("banking", 1341);
    ("credit card", 1345); ("visa", 1345); ("mastercard", 1345);
    ("loan", 1350); ("mortgage", 1350);
    ("insurance", 1355); ("car insurance", 1355); ("life insurance", 1355);
    ("investment", 1365); ("stock", 1365); ("stocks", 1365); ("trading", 1365);
    ("retirement", 1370); ("401k", 1370);
    (* Fitness Activities (1390) *)
    ("fitness", 1390); ("workout", 1390); ("exercise", 1390);
    ("gym", 1391); ("fitness center", 1391);
    ("yoga", 1395); ("pilates", 1395);
    (* Food and Beverage Services (1410) *)
    ("restaurant", 1411); ("dining", 1411);
    ("fast food", 1411); ("mcdonalds", 1411);
    ("food delivery", 1420); ("doordash", 1420); ("ubereats", 1420);
    ("coffee", 1430); ("starbucks", 1430);
    ("grocery", 1435); ("supermarket", 1435);
    (* Gambling (1440) *)
    ("gambling", 1440); ("casino", 1441); ("betting", 1443); ("sports betting", 1443); ("draftkings", 1443);
    (* Health and Medical Services (1480) *)
    ("health", 1480); ("healthcare", 1480); ("medical", 1480);
    ("doctor", 1481); ("hospital", 1481); ("clinic", 1481);
    ("dentist", 1485); ("dental", 1485);
    ("mental health", 1495); ("therapy", 1495); ("therapist", 1495);
    ("telemedicine", 1500); ("telehealth", 1500);
    (* Media (1560) *)
    ("media", 1560); ("entertainment", 1560);
    ("streaming", 1561); ("netflix", 1561); ("hulu", 1561); ("disney+", 1561);
    ("news", 1565); ("journalism", 1565);
    ("podcast", 1570); ("podcasts", 1570);
    ("movie", 1580); ("movies", 1580); ("film", 1580);
    ("music", 1590); ("album", 1590);
    ("social media", 1600); ("facebook", 1600); ("instagram", 1600); ("twitter", 1600); ("tiktok", 1600);
    (* Non-Fiat Currency (1620) *)
    ("crypto", 1621); ("cryptocurrency", 1621); ("bitcoin", 1621); ("ethereum", 1621);
    (* Pet Ownership (1660) *)
    ("pet", 1660); ("pets", 1660);
    ("pet supplies", 1661); ("pet store", 1661);
    ("vet", 1665); ("veterinarian", 1665);
    (* Pharmaceuticals (1680) *)
    ("pharmaceutical", 1680); ("drug", 1680); ("medication", 1680);
    ("prescription", 1681);
    ("otc", 1682); ("aspirin", 1682);
    ("vitamin", 1685); ("vitamins", 1685); ("supplement", 1685); ("supplements", 1685);
    ("pharmacy", 1690); ("cvs", 1690); ("walgreens", 1690);
    (* Real Estate (1720) *)
    ("real estate", 1720); ("property", 1720);
    ("home for sale", 1721); ("house", 1721); ("zillow", 1721);
    ("apartment", 1721); ("rent", 1721); ("rental", 1721);
    ("commercial real estate", 1725);
    (* Retail (1750) *)
    ("retail", 1750); ("store", 1750); ("shop", 1750);
    ("ecommerce", 1751); ("e-commerce", 1751); ("amazon", 1751);
    ("department store", 1752);
    (* Sporting Goods (1770) *)
    ("sporting goods", 1770); ("sports equipment", 1770);
    ("fitness equipment", 1771); ("treadmill", 1771); ("weights", 1771);
    ("outdoor", 1772); ("camping", 1772); ("hiking", 1772);
    ("team sports", 1780);
    ("golf", 1795); ("golf clubs", 1795);
    (* Tobacco (1800) *)
    ("tobacco", 1800);
    ("cigarette", 1801); ("cigarettes", 1801);
    ("vape", 1803); ("vaping", 1803); ("e-cigarette", 1803); ("juul", 1803);
    (* Travel and Tourism (1810) *)
    ("travel", 1810); ("vacation", 1810); ("trip", 1810); ("tourism", 1810);
    ("airline", 1811); ("flight", 1811); ("flights", 1811);
    ("hotel", 1812); ("hotels", 1812); ("marriott", 1812); ("hilton", 1812);
    ("vacation rental", 1813); ("airbnb", 1813); ("vrbo", 1813);
    ("car rental", 1815); ("hertz", 1815);
    ("cruise", 1820); ("cruises", 1820);
    (* Vehicles (1860) *)
    ("vehicle", 1860); ("vehicles", 1860);
    ("car", 1861); ("cars", 1861); ("automobile", 1861); ("auto", 1861);
    ("auto parts", 1870); ("car parts", 1870);
    ("auto repair", 1875); ("mechanic", 1875);
    ("motorcycle", 1880); ("motorbike", 1880);
    ("bicycle", 1895); ("bike", 1895);
    ("electric car", 1900); ("ev", 1900); ("tesla", 1900); ("electric vehicle", 1900);
    (* Weapons and Ammunition (1920) *)
    ("weapon", 1920); ("weapons", 1920);
    ("gun", 1921); ("firearm", 1921); ("rifle", 1921); ("pistol", 1921);
    ("ammunition", 1922); ("ammo", 1922)
  ].

(** A category match, the dict the matchers hand around.  The keys
    match_count and keywords exist on the entries of map_keywords_to_categories,
    sources on the entries of a hybrid merge. *)
Record Match : Type := {
  m_id : Z;
  m_name : string;
  m_tier : Z;
  m_parent : option Z;
  m_confidence : float;
  m_match_count : option Z;
  m_keywords : option (list string);
  m_sources : option (list string)
}.

Definition set_confidence (c : float) (m : Match) : Match :=
  {| m_id := m_id m; m_name := m_name m; m_tier := m_tier m; m_parent := m_parent m;
     m_confidence := c; m_match_count := m_match_count m;
     m_keywords := m_keywords m; m_sources := m_sources m |}.

Definition set_score (n : Z) (kws : list string) (m : Match) : Match :=
  {| m_id := m_id m; m_name := m_name m; m_tier := m_tier m; m_parent := m_parent m;
     m_confidence := m_confidence m; m_match_count := Some n;
     m_keywords := Some kws; m_sources := m_sources m |}.

Definition map_keyword_to_category (keyword : string) : result (option Match) :=
  if negb (PyStr.truthy keyword) then Ok None
  else
    let normalized := PyStr.strip (PyStr.lower keyword) in
    match dict_get normalized KEYWORD_MAPPINGS with
    | None => Ok None
    | Some category_id =>
        if category_id =? 0 then Ok None
        else
          category ← get_category_by_id (IdInt category_id);
          match category with
          | None => Ok None
          | Some c =>
              Ok (Some {| m_id := cat_id c; m_name := cat_name c; m_tier := cat_tier c;
                          m_parent := cat_parent c; m_confidence := 0.95%float;
                          m_match_count := None; m_keywords := None;
                          m_sources := None |})
          end
    end.

(** The dict category_scores, keyed by category id, in insertion order. *)
Abbreviation scores := (list (Z * Match)).

(** [category_scores[cat_id]["match_count"] += 1] followed by
    [category_scores[cat_id]["keywords"].append(keyword)]. *)
Definition bump (keyword : string) (m : Match) : result Match :=
  n ← subscript "match_count" (m_match_count m);
  kws ← subscript "keywords" (m_keywords m);
  Ok (set_score (n + 1) (kws ++ [keyword]) m).

Fixpoint bump_at (cat_id : Z) (keyword : string) (sc : scores) : result scores :=
  match sc with
  | [] => Ok []
  | (k, m) :: sc' =>
      if k =? cat_id then m' ← bump keyword m; Ok ((k, m') :: sc')
      else sc'' ← bump_at cat_id keyword sc'; Ok ((k, m) :: sc'')
  end.

(** The body of the loop over the keywords. *)
Definition score_keyword (sc : scores) (keyword : string) : result scores :=
  mt ← map_keyword_to_category keyword;
  match mt with
  | None => Ok sc
  | Some mt =>
      let cat_id := m_id mt in
      match dict_get cat_id sc with
      | Some _ => bump_at cat_id keyword sc
      | None => Ok (sc ++ [(cat_id, set_score 1 [keyword] mt)])
      end
  end.

(** [cat["confidence"] = min(0.95 + (cat["match_count"] - 1) * 0.01, 0.99)],
    paired with the sort key [cat["match_count"]]. *)
Definition rescore (m : Match) : result (Z * Match) :=
  n ← subscript "match_count" (m_match_count m);
  Ok (n, set_confidence (min (0.95 + float_of_int (n - 1) * 0.01)%float 0.99%float) m).

Definition map_keywords_to_categories (keywords : list string) : result (list Match) :=
  match keywords with
  | [] => Ok []
  | _ =>
      category_scores ← for_each score_keyword keywords [];
      results ← map_result rescore (dict_values category_scores);
      Ok (map snd (sort_desc Z.ltb fst results))
  end.

(** The words of find_best_match: lower, blank out, split, keep the long ones. *)
Definition words_of (text : string) : list string :=
  filter (fun w => (2 < String.length w)%nat)
         (PyStr.split (PyStr.sub_nonword (PyStr.lower text))).

(** [for word in words: match = f(word); if match: return match] *)
Fixpoint first_match (candidates : list string) : result (option Match) :=
  match candidates with
  | [] => Ok None
  | w :: rest =>
      mt ← map_keyword_to_category w;
      match mt with
      | Some m => Ok (Some m)
      | None => first_match rest
      end
  end.

(** The phrases [words[i] + " " + words[i + 1]] for i in range(len(words) - 1). *)
Fixpoint phrases (words : list string) : list string :=
  match words with
  | w1 :: ((w2 :: _) as rest) => (w1 +:+ " " +:+ w2) :: phrases rest
  | _ => []
  end.

Definition find_best_match (text : string) : result (option Match) :=
  if negb (PyStr.truthy text) then Ok None
  else
    let words := words_of text in
    single ← first_match words;
    match single with
    | Some m => Ok (Some m)
    | None => first_match (phrases words)
    end.

Definition get_keywords_for_category (category_id : pyid) : result (list string) :=
  match category_id with
  | IdStr s =>
      z ← int s;
      Ok (map fst (filter (fun kv => snd kv = z) KEYWORD_MAPPINGS))
  | IdInt z => Ok (map fst (filter (fun kv => snd kv = z) KEYWORD_MAPPINGS))
  | IdNone => Ok []
  end.

Definition get_all_keywords : list string := map fst KEYWORD_MAPPINGS.

End Keywords.

(** ** keyword_mapping.py on str with all its code points *)
Module UKeywords.
Import Py Taxonomy Keywords.

(** The keys of KEYWORD_MAPPINGS as str of [PyUnicode]. *)
Definition KEYWORD_MAPPINGS : list (PyUnicode.str * Z) :=
  map (fun kv => (PyUnicode.of_string (fst kv), snd kv)) Keywords.KEYWORD_MAPPINGS.

Definition map_keyword_to_category (keyword : PyUnicode.str) : result (option Match) :=
  if negb (PyUnicode.truthy keyword) then Ok None
  else
    let normalized := PyUnicode.strip (PyUnicode.lower keyword) in
    match dict_get normalized KEYWORD_MAPPINGS with
    | None => Ok None
    | Some category_id =>
        if category_id =? 0 then Ok None
        else
          category ← get_category_by_id (IdInt category_id);
          match category with
          | None => Ok None
          | Some c =>
              Ok (Some {| m_id := cat_id c; m_name := cat_name c; m_tier := cat_tier c;
                          m_parent := cat_parent c; m_confidence := 0.95%float;
                          m_match_count := None; m_keywords := None;
                          m_sources := None |})
          end
    end.

(** The words of find_best_match: lower, blank out, split, keep the long ones. *)
Definition words_of (text : PyUnicode.str) : list PyUnicode.str :=
  filter (fun w => (2 < length w)%nat)
         (PyUnicode.split (PyUnicode.sub_nonword (PyUnicode.lower text))).

(** [for word in words: match = f(word); if match: return match] *)
Fixpoint first_match (candidates : list PyUnicode.str) : result (option Match) :=
  match candidates with
  | [] => Ok None
  | w :: rest =>
      mt ← map_keyword_to_category w;
      match mt with
      | Some m => Ok (Some m)
      | None => first_match rest
      end
  end.

(** The phrases [words[i] + " " + words[i + 1]] for i in range(len(words) - 1). *)
Fixpoint phrases (words : list PyUnicode.str) : list PyUnicode.str :=
  match words with
  | w1 :: ((w2 :: _) as rest) => (w1 ++ [32%N] ++ w2) :: phrases rest
  | _ => []
  end.

Definition find_best_match (text : PyUnicode.str) : result (option Match) :=
  if negb (PyUnicode.truthy text) then Ok None
  else
    let words := words_of text in
    single ← first_match words;
    match single with
    | Some m => Ok (Some m)
    | None => first_match (phrases words)
    end.

End UKeywords.

(** ** hashlib.md5 (RFC 1321), on a message given as its bytes *)
Module Md5.

Definition mask32 : Z := 0xFFFFFFFF.

Definition add32 (a b : Z) : Z := Z.land (a + b) mask32.

Definition not32 (a : Z) : Z := Z.lxor a mask32.

Definition rotl32 (x : Z) (c : Z) : Z :=
  Z.land (Z.lor (Z.shiftl x c) (Z.shiftr x (32 - c))) mask32.

(** Per-round shift amounts. *)
Definition shifts : list Z :=
  [7; 12; 17; 22; 7; 12; 17; 22; 7; 12; 17; 22; 7; 12; 17; 22;
   5; 9; 14; 20; 5; 9; 14; 20; 5; 9; 14; 20; 5; 9; 14; 20;
   4; 11; 16; 23; 4; 11; 16; 23; 4; 11; 16; 23; 4; 11; 16; 23;
   6; 10; 15; 21; 6; 10; 15; 21; 6; 10; 15; 21; 6; 10; 15; 21].

(** The constants floor(2^32 * abs(sin(i + 1))). *)
Definition sines : list Z := [
    0xd76aa478; 0xe8c7b756; 0x242070db; 0xc1bdceee;
    0xf57c0faf; 0x4787c62a; 0xa8304613; 0xfd469501;
    0x698098d8; 0x8b44f7af; 0xffff5bb1; 0x895cd7be;
    0x6b901122; 0xfd987193; 0xa679438e; 0x49b40821;
    0xf61e2562; 0xc040b340; 0x265e5a51; 0xe9b6c7aa;
    0xd62f105d; 0x02441453; 0xd8a1e681; 0xe7d3fbc8;
    0x21e1cde6; 0xc33707d6; 0xf4d50d87; 0x455a14ed;
    0xa9e3e905; 0xfcefa3f8; 0x676f02d9; 0x8d2a4c8a;
    0xfffa3942; 0x8771f681; 0x6d9d6122; 0xfde5380c;
    0xa4beea44; 0x4bdecfa9; 0xf6bb4b60; 0xbebfbc70;
    0x289b7ec6; 0xeaa127fa; 0xd4ef3085; 0x04881d05;
    0xd9d4d039; 0xe6db99e5; 0x1fa27cf8; 0xc4ac5665;
    0xf4292244; 0x432aff97; 0xab9423a7; 0xfc93a039;
    0x655b59c3; 0x8f0ccc92; 0xffeff47d; 0x85845dd1;
    0x6fa87e4f; 0xfe2ce6e0; 0xa3014314; 0x4e0811a1;
    0xf7537e82; 0xbd3af235; 0x2ad7d2bb; 0xeb86d391
  ].

Definition bytes_of_string (s : string) : list Z :=
  map (fun c => Z.of_N (N_of_ascii c)) (list_ascii_of_string s).

(** Little-endian bytes of a word, [n] of them. *)
Fixpoint le_bytes (n : nat) (w : Z) : list Z :=
  match n with
  | O => []
  | S n' => Z.land w 255 :: le_bytes n' (Z.shiftr w 8)
  end.

Fixpoint le_word (bs : list Z) : Z :=
  match bs with
  | [] => 0
  | b :: bs' => b + 256 * le_word bs'
  end.

(** The message, the byte 0x80, zero bytes up to 56 modulo 64, and the bit
    length in eight bytes. *)
Definition pad (msg : list Z) : list Z :=
  let len := Z.of_nat (length msg) in
  let zeros := Z.to_nat ((55 - len) mod 64) in
  msg ++ [128] ++ repeat 0 zeros ++ le_bytes 8 (8 * len).

(** The sixteen words of the first 64 bytes. *)
Fixpoint words (n : nat) (bs : list Z) : list Z :=
  match n with
  | O => []
  | S n' => le_word (firstn 4 bs) :: words n' (skipn 4 bs)
  end.

Record state : Type := { sa : Z; sb : Z; sc : Z; sd : Z }.

Definition round (m : list Z) (st : state) (i : nat) : state :=
  let '{| sa := a; sb := b; sc := c; sd := d |} := st in
  let iz := Z.of_nat i in
  let '(f, g) :=
    if iz <? 16 then (Z.lor (Z.land b c) (Z.land (not32 b) d), iz)
    else if iz <? 32 then (Z.lor (Z.land d b) (Z.land (not32 d) c), (5 * iz + 1) mod 16)
    else if iz <? 48 then (Z.lxor (Z.lxor b c) d, (3 * iz + 5) mod 16)
    else (Z.lxor c (Z.lor b (not32 d)), (7 * iz) mod 16) in
  let f' := add32 (add32 (add32 f a) (nth i sines 0)) (nth (Z.to_nat g) m 0) in
  {| sa := d; sb := add32 b (rotl32 f' (nth i shifts 0)); sc := b; sd := c |}.

Definition block (st : state) (chunk : list Z) : state :=
  let m := words 16 chunk in
  let st' := fold_left (round m) (seq 0 64) st in
  {| sa := add32 (sa st) (sa st'); sb := add32 (sb st) (sb st');
     sc := add32 (sc st) (sc st'); sd := add32 (sd st) (sd st') |}.

Fixpoint blocks (n : nat) (st : state) (bs : list Z) : state :=
  match n with
  | O => st
  | S n' => blocks n' (block st (firstn 64 bs)) (skipn 64 bs)
  end.

Definition initial : state :=
  {| sa := 0x67452301; sb := 0xefcdab89; sc := 0x98badcfe; sd := 0x10325476 |}.

Definition digest (msg : list Z) : list Z :=
  let padded := pad msg in
  let st := blocks (Nat.div (length padded) 64) initial padded in
  le_bytes 4 (sa st) ++ le_bytes 4 (sb st) ++ le_bytes 4 (sc st) ++ le_bytes 4 (sd st).

Definition hex_char (n : Z) : ascii :=
  if n <? 10 then ascii_of_N (Z.to_N (48 + n)) else ascii_of_N (Z.to_N (87 + n)).

Fixpoint hex_of_bytes (bs : list Z) : string :=
  match bs with
  | [] => EmptyString
  | b :: bs' => String (hex_char (b / 16)) (String (hex_char (b mod 16)) (hex_of_bytes bs'))
  end.

(** [hashlib.md5(data).hexdigest()] *)
Definition hexdigest (data : list Z) : string := hex_of_bytes (digest data).

End Md5.

(** ** cache.py *)
Module Cache.
Import Py.

(** The product dict that mapper.py builds and create_cache_key reads. *)
Record Product : Type := {
  p_title : string;
  p_description : string;
  p_category : string;
  p_brand : string;
  p_keywords : list string
}.

(** *** json.dumps of a dict of str values, with sort_keys=True *)

Definition hex4 (c : ascii) : string :=
  String "0" (String "0" (String (hex_digit (PyStr.code c / 16))
    (String (hex_digit (PyStr.code c mod 16)) EmptyString))).

(** One character of a JSON string with ensure_ascii: the short escapes, the
    printable ASCII characters as they are, everything else as [\u00XX]. *)
Definition json_char (c : ascii) : string :=
  if Ascii.eqb c dquote || Ascii.eqb c backslash then String backslash (String c EmptyString)
  else if (PyStr.code c =? 10)%N then String backslash "n"
  else if (PyStr.code c =? 13)%N then String backslash "r"
  else if (PyStr.code c =? 9)%N then String backslash "t"
  else if (PyStr.code c =? 12)%N then String backslash "f"
  else if (PyStr.code c =? 8)%N then String backslash "b"
  else if PyStr.in_range 32 126 c then String c EmptyString
  else String backslash (String "u" (hex4 c)).

Fixpoint json_chars (s : string) : string :=
  match s with
  | EmptyString => EmptyString
  | String c s' => json_char c +:+ json_chars s'
  end.

Definition json_string (s : string) : string :=
  String dquote (json_chars s +:+ String dquote EmptyString).

Definition json_item (kv : string * string) : string :=
  json_string (fst kv) +:+ ": " +:+ json_string (snd kv).

(** Ascending by key, as sort_keys orders the items. *)
Fixpoint insert_item (kv : string * string) (l : list (string * string))
  : list (string * string) :=
  match l with
  | [] => [kv]
  | kv' :: l' =>
      if String.ltb (fst kv') (fst kv) then kv' :: insert_item kv l' else kv :: l
  end.

Definition sort_items (d : list (string * string)) : list (string * string) :=
  foldr insert_item [] d.

Definition json_dumps_sorted (d : list (string * string)) : string :=
  "{" +:+ PyStr.join ", " (map json_item (sort_items d)) +:+ "}".

(** [s or ""] *)
Definition or_blank (s : string) : string := if PyStr.truthy s then s else EmptyString.

Definition normalized_fields (input_data : Product) : list (string * string) :=
  [ ("title", PyStr.take 100 (PyStr.strip (PyStr.lower (or_blank (p_title input_data)))));
    ("description",
      PyStr.take 200 (PyStr.strip (PyStr.lower (or_blank (p_description input_data)))));
    ("category", PyStr.strip (PyStr.lower (or_blank (p_category input_data)))) ].

(** The text is ASCII after json.dumps, so [encode()] yields its characters. *)
Definition create_cache_key (input_data : Product) : string :=
  let normalized := json_dumps_sorted (normalized_fields input_data) in
  Md5.hexdigest (Md5.bytes_of_string normalized).

(** *** CacheManager

    The TTLCache behind it is a finite map here: entries neither expire nor
    get evicted, which is the cache within one ttl and below maxsize. *)
Record CacheManager (V : Type) : Type := {
  maxsize : Z;
  ttl : Z;
  enabled : bool;
  store : gmap string V;
  hits : Z;
  misses : Z;
  sets : Z
}.
Arguments maxsize {V} _.
Arguments ttl {V} _.
Arguments enabled {V} _.
Arguments store {V} _.
Arguments hits {V} _.
Arguments misses {V} _.
Arguments sets {V} _.

Definition new {V} (maxsize ttl : Z) (enabled : bool) : CacheManager V :=
  {| maxsize := maxsize; ttl := ttl; enabled := enabled; store := ∅;
     hits := 0; misses := 0; sets := 0 |}.

Definition _make_key (key : string) : string := "mixpeek_iab_ap_" +:+ key.

Definition count_miss {V} (cm : CacheManager V) : CacheManager V :=
  {| maxsize := maxsize cm; ttl := ttl cm; enabled := enabled cm; store := store cm;
     hits := hits cm; misses := misses cm + 1; sets := sets cm |}.

Definition count_hit {V} (cm : CacheManager V) : CacheManager V :=
  {| maxsize := maxsize cm; ttl := ttl cm; enabled := enabled cm; store := store cm;
     hits := hits cm + 1; misses := misses cm; sets := sets cm |}.

Definition get {V} (key : string) (cm : CacheManager V) : option V * CacheManager V :=
  if negb (enabled cm) then (None, count_miss cm)
  else
    match store cm !! _make_key key with
    | None => (None, count_miss cm)
    | Some value => (Some value, count_hit cm)
    end.

Definition set {V} (key : string) (value : V) (cm : CacheManager V) : CacheManager V :=
  if negb (enabled cm) then cm
  else
    {| maxsize := maxsize cm; ttl := ttl cm; enabled := enabled cm;
       store := <[_make_key key := value]> (store cm);
       hits := hits cm; misses := misses cm; sets := sets cm + 1 |}.

Definition has {V} (key : string) (cm : CacheManager V) : bool :=
  if negb (enabled cm) then false
  else bool_decide (is_Some (store cm !! _make_key key)).

(** [delete] answers whether the key was there; it does not look at [enabled]. *)
Definition delete {V} (key : string) (cm : CacheManager V) : bool * CacheManager V :=
  match store cm !! _make_key key with
  | Some _ =>
      (true,
       {| maxsize := maxsize cm; ttl := ttl cm; enabled := enabled cm;
          store := base.delete (_make_key key) (store cm);
          hits := hits cm; misses := misses cm; sets := sets cm |})
  | None => (false, cm)
  end.

Definition clear {V} (cm : CacheManager V) : CacheManager V :=
  {| maxsize := maxsize cm; ttl := ttl cm; enabled := enabled cm; store := ∅;
     hits := hits cm; misses := misses cm; sets := sets cm |}.

Definition reset_stats {V} (cm : CacheManager V) : CacheManager V :=
  {| maxsize := maxsize cm; ttl := ttl cm; enabled := enabled cm; store := store cm;
     hits := 0; misses := 0; sets := 0 |}.

Definition set_enabled {V} (enabled : bool) (cm : CacheManager V) : CacheManager V :=
  {| maxsize := maxsize cm; ttl := ttl cm; enabled := enabled; store := store cm;
     hits := hits cm; misses := misses cm; sets := sets cm |}.

End Cache.

(** ** mapper.py *)
Module Mapper.
Import Py Taxonomy Keywords Cache.

Definition CONFIDENCE_HIGH : float := 0.9%float.

Record Stats : Type := {
  requests : Z;
  cache_hits : Z;
  deterministic_matches : Z;
  semantic_matches : Z;
  no_matches : Z;
  errors : Z;
  total_latency_ms : Z
}.

Definition zero_stats : Stats :=
  {| requests := 0; cache_hits := 0; deterministic_matches := 0; semantic_matches := 0;
     no_matches := 0; errors := 0; total_latency_ms := 0 |}.

(** An entry of the key secondary. *)
Record Secondary : Type := {
  sec_code : string;
  sec_id : Z;
  sec_label : string;
  sec_confidence : float
}.

(** The dict under the key iab_product. *)
Record IabProduct : Type := {
  primary : string;
  primary_id : Z;
  label : string;
  confidence : float;
  version : string;
  tier1 : option string;
  tier1_id : option Z;
  tier1_label : option string;
  secondary : option (list Secondary);
  explanation : option string
}.

Record InputEcho : Type := {
  in_title : string;
  in_description : option string
}.

(** What map_product returns; a key that is absent is [None]. *)
Record Envelope : Type := {
  success : bool;
  error : option string;
  iab_product : option IabProduct;
  source : option string;
  input : option InputEcho;
  cached : option bool;
  latency_ms : option Z
}.

(** What the classifier answers: success, categories (possibly absent), error. *)
Record ApiResult : Type := {
  api_success : bool;
  api_categories : option (list Match);
  api_error : option string
}.

(** What the three mapping modes return: source, categories, and the key
    error, which only the empty semantic result carries. *)
Record MapResult : Type := {
  r_source : string;
  r_categories : list Match;
  r_error : option (option string)
}.

(** A ProductMapper.  [client] is the behaviour of the classifier at hand, if any;
    [client_calls] records the products it was asked to classify and
    [clock_reads] counts the latency measurements taken so far. *)
Record ProductMapper : Type := {
  api_key : option string;
  mapping_mode : string;
  iab_version : string;
  min_confidence : float;
  debug : bool;
  cache : option (CacheManager Envelope);
  client : option (Product -> result ApiResult);
  stats : Stats;
  client_calls : list Product;
  clock_reads : nat
}.

Definition with_stats (st : Stats) (self : ProductMapper) : ProductMapper :=
  {| api_key := api_key self; mapping_mode := mapping_mode self;
     iab_version := iab_version self; min_confidence := min_confidence self;
     debug := debug self; cache := cache self; client := client self; stats := st;
     client_calls := client_calls self; clock_reads := clock_reads self |}.

Definition with_cache (c : option (CacheManager Envelope)) (self : ProductMapper)
  : ProductMapper :=
  {| api_key := api_key self; mapping_mode := mapping_mode self;
     iab_version := iab_version self; min_confidence := min_confidence self;
     debug := debug self; cache := c; client := client self; stats := stats self;
     client_calls := client_calls self; clock_reads := clock_reads self |}.

Definition with_call (p : Product) (self : ProductMapper) : ProductMapper :=
  {| api_key := api_key self; mapping_mode := mapping_mode self;
     iab_version := iab_version self; min_confidence := min_confidence self;
     debug := debug self; cache := cache self; client := client self;
     stats := stats self; client_calls := client_calls self ++ [p];
     clock_reads := clock_reads self |}.

Definition with_clock_read (self : ProductMapper) : ProductMapper :=
  {| api_key := api_key self; mapping_mode := mapping_mode self;
     iab_version := iab_version self; min_confidence := min_confidence self;
     debug := debug self; cache := cache self; client := client self;
     stats := stats self; client_calls := client_calls self;
     clock_reads := S (clock_reads self) |}.

(** The counters, one update each. *)
Definition count_request (s : Stats) : Stats :=
  {| requests := requests s + 1; cache_hits := cache_hits s;
     deterministic_matches := deterministic_matches s;
     semantic_matches := semantic_matches s; no_matches := no_matches s;
     errors := errors s; total_latency_ms := total_latency_ms s |}.

Definition count_cache_hit (s : Stats) : Stats :=
  {| requests := requests s; cache_hits := cache_hits s + 1;
     deterministic_matches := deterministic_matches s;
     semantic_matches := semantic_matches s; no_matches := no_matches s;
     errors := errors s; total_latency_ms := total_latency_ms s |}.

Definition count_deterministic (s : Stats) : Stats :=
  {| requests := requests s; cache_hits := cache_hits s;
     deterministic_matches := deterministic_matches s + 1;
     semantic_matches := semantic_matches s; no_matches := no_matches s;
     errors := errors s; total_latency_ms := total_latency_ms s |}.

Definition count_semantic (s : Stats) : Stats :=
  {| requests := requests s; cache_hits := cache_hits s;
     deterministic_matches := deterministic_matches s;
     semantic_matches := semantic_matches s + 1; no_matches := no_matches s;
     errors := errors s; total_latency_ms := total_latency_ms s |}.

Definition count_no_match (s : Stats) : Stats :=
  {| requests := requests s; cache_hits := cache_hits s;
     deterministic_matches := deterministic_matches s;
     semantic_matches := semantic_matches s; no_matches := no_matches s + 1;
     errors := errors s; total_latency_ms := total_latency_ms s |}.

Definition count_error (s : Stats) : Stats :=
  {| requests := requests s; cache_hits := cache_hits s;
     deterministic_matches := deterministic_matches s;
     semantic_matches := semantic_matches s; no_matches := no_matches s;
     errors := errors s + 1; total_latency_ms := total_latency_ms s |}.

Definition add_latency (ms : Z) (s : Stats) : Stats :=
  {| requests := requests s; cache_hits := cache_hits s;
     deterministic_matches := deterministic_matches s;
     semantic_matches := semantic_matches s; no_matches := no_matches s;
     errors := errors s; total_latency_ms := total_latency_ms s + ms |}.

(** *** The methods run on the mapper: state passing, with exceptions *)

Definition M (A : Type) : Type := ProductMapper -> result A * ProductMapper.

#[global] Instance M_ret : MRet M := fun A a self => (Ok a, self).
#[global] Instance M_bind : MBind M :=
  fun A B f m self =>
    match m self with
    | (Ok a, self') => f a self'
    | (Raise e, self') => (Raise e, self')
    end.

Definition lift {A} (r : result A) : M A := fun self => (r, self).

Definition raise {A} (e : exn) : M A := fun self => (Raise e, self).

Definition read {A} (f : ProductMapper -> A) : M A := fun self => (Ok (f self), self).

Definition update_stats (f : Stats -> Stats) : M unit :=
  fun self => (Ok tt, with_stats (f (stats self)) self).

Section Environment.

(** [list(set(xs))]: the elements of [xs] once each, in the order the set
    happens to iterate in.  The order is the interpreter's, not the program's. *)
Variable list_set : list string -> list string.

(** What [int((time.time() - start_time) * 1000)] evaluates to, by the number of
    such measurements taken before. *)
Variable elapsed_ms : nat -> Z.

Definition measure_latency : M Z :=
  fun self => (Ok (elapsed_ms (clock_reads self)), with_clock_read self).

Definition _sanitize (text : option string) (max_length : nat) : string :=
  match text with
  | None => EmptyString
  | Some t =>
      if negb (PyStr.truthy t) then EmptyString
      else PyStr.take max_length (PyStr.strip (PyStr.sub_spaces (PyStr.sub_control t)))
  end.

Definition stop_words : list string :=
  [ "a"; "an"; "the"; "and"; "or"; "but"; "in"; "on"; "at"; "to"; "for";
    "of"; "with"; "by"; "from"; "as"; "is"; "was"; "are"; "were"; "been";
    "be"; "have"; "has"; "had"; "do"; "does"; "did"; "will"; "would";
    "this"; "that"; "these"; "those"; "it"; "its"; "they"; "them";
    "what"; "which"; "who"; "where"; "when"; "why"; "how"; "all";
    "each"; "every"; "both"; "few"; "more"; "most"; "other"; "some";
    "no"; "not"; "only"; "own"; "same"; "so"; "than"; "too"; "very" ].

(** [freq[word] = freq.get(word, 0) + 1] *)
Definition count_word (freq : list (string * Z)) (word : string) : list (string * Z) :=
  dict_set word (default 0 (dict_get word freq) + 1) freq.

Definition _extract_keywords (text : string) : list string :=
  if negb (PyStr.truthy text) then []
  else
    let words := PyStr.split (PyStr.sub_nonword (PyStr.lower text)) in
    let words :=
      filter (fun w => (2 < String.length w)%nat /\ w ∉ stop_words) words in
    let freq := fold_left count_word words [] in
    let sorted_words := sort_desc Z.ltb snd freq in
    map fst (take 20 sorted_words).

Definition keep_confident (min_confidence : float) (ms : list Match) : list Match :=
  filter (fun m => ge (m_confidence m) min_confidence = true) ms.

Definition _map_deterministic (product : Product) (min_confidence : float) : M MapResult :=
  let all_text :=
    PyStr.join " " [p_title product; p_description product; p_category product;
                    p_brand product] in
  let extracted := _extract_keywords all_text in
  let all_keywords := list_set (p_keywords product ++ extracted) in
  matches ← lift (map_keywords_to_categories all_keywords);
  match matches with
  | _ :: _ =>
      _ ← update_stats count_deterministic;
      mret {| r_source := "deterministic";
              r_categories := keep_confident min_confidence matches;
              r_error := None |}
  | [] =>
      direct_match ← lift (find_best_match all_text);
      match direct_match with
      | Some m =>
          if ge (m_confidence m) min_confidence then
            _ ← update_stats count_deterministic;
            mret {| r_source := "deterministic"; r_categories := [m]; r_error := None |}
          else
            _ ← update_stats count_no_match;
            mret {| r_source := "deterministic"; r_categories := []; r_error := None |}
      | None =>
          _ ← update_stats count_no_match;
          mret {| r_source := "deterministic"; r_categories := []; r_error := None |}
      end
  end.

(** [self.client.classify_product(product)] *)
Definition classify_product (classify : Product -> result ApiResult) (product : Product)
  : M ApiResult :=
  fun self => (classify product, with_call product self).

Definition _map_semantic (product : Product) (min_confidence : float) : M MapResult :=
  cl ← read client;
  match cl with
  | None =>
      raise (PyExn "ValueError"
        "API client not initialized. API key required for semantic mapping.")
  | Some classify =>
      api_result ← classify_product classify product;
      match api_success api_result, api_categories api_result with
      | true, Some (c :: cs) =>
          _ ← update_stats count_semantic;
          mret {| r_source := "semantic";
                  r_categories := keep_confident min_confidence (c :: cs);
                  r_error := None |}
      | _, _ =>
          _ ← update_stats count_no_match;
          mret {| r_source := "semantic"; r_categories := [];
                  r_error := Some (api_error api_result) |}
      end
  end.

Definition set_sources (srcs : list string) (m : Match) : Match :=
  {| m_id := m_id m; m_name := m_name m; m_tier := m_tier m; m_parent := m_parent m;
     m_confidence := m_confidence m; m_match_count := m_match_count m;
     m_keywords := m_keywords m; m_sources := Some srcs |}.

(** [by_id[cat["id"]] = {**cat, "sources": ["deterministic"]}] *)
Definition add_deterministic (by_id : list (Z * Match)) (c : Match) : list (Z * Match) :=
  dict_set (m_id c) (set_sources ["deterministic"] c) by_id.

(** The two statements of the branch taken when both sources agree. *)
Definition boost (m : Match) : result Match :=
  srcs ← subscript "sources" (m_sources m);
  Ok (set_sources (srcs ++ ["semantic"])
        (set_confidence (min 0.99%float (m_confidence m + 0.1)%float) m)).

Definition add_semantic (by_id : list (Z * Match)) (c : Match) : result (list (Z * Match)) :=
  match dict_get (m_id c) by_id with
  | Some m => m' ← boost m; Ok (dict_set (m_id c) m' by_id)
  | None => Ok (dict_set (m_id c) (set_sources ["semantic"] c) by_id)
  end.

Definition _merge_results (deterministic semantic : list Match) : result (list Match) :=
  let by_id := fold_left add_deterministic deterministic [] in
  by_id ← for_each add_semantic semantic by_id;
  Ok (sort_desc PrimFloat.ltb m_confidence (dict_values by_id)).

Definition _map_hybrid (product : Product) (min_confidence : float) : M MapResult :=
  deterministic_result ← _map_deterministic product min_confidence;
  if existsb (fun c => ge (m_confidence c) CONFIDENCE_HIGH)
       (r_categories deterministic_result)
  then mret deterministic_result
  else
    cl ← read client;
    match cl with
    | Some _ =>
        semantic_result ← _map_semantic product min_confidence;
        match r_categories semantic_result with
        | _ :: _ =>
            merged ← lift (_merge_results (r_categories deterministic_result)
                                         (r_categories semantic_result));
            mret {| r_source := "hybrid"; r_categories := merged; r_error := None |}
        | [] =>
            mret {| r_source := "hybrid";
                    r_categories := r_categories deterministic_result;
                    r_error := None |}
        end
    | None =>
        mret {| r_source := "hybrid";
                r_categories := r_categories deterministic_result;
                r_error := None |}
    end.

Definition echo_input (product : Product) : InputEcho :=
  {| in_title := p_title product;
     in_description :=
       if PyStr.truthy (p_description product)
       then Some (PyStr.take 100 (p_description product)) else None |}.

Definition secondary_entry (c : Match) : result Secondary :=
  lbl ← get_category_label (IdInt (m_id c));
  Ok {| sec_code := get_iab_code (m_id c); sec_id := m_id c; sec_label := lbl;
        sec_confidence := m_confidence c |}.

(** The key explanation, when one of the three branches sets it. *)
Definition explain (src : string) (primary : Match) : option string :=
  match (if String.eqb src "deterministic" then m_keywords primary else None) with
  | Some (k :: ks) => Some ("Matched keywords: " +:+ PyStr.join ", " (k :: ks))
  | _ =>
      if String.eqb src "semantic"
      then Some "Semantic classification based on product content"
      else if String.eqb src "hybrid"
      then Some "Combined deterministic and semantic classification"
      else None
  end.

Definition _format_result (iab_version : string) (res : MapResult) (product : Product)
    (include_secondary : bool) : result Envelope :=
  match r_categories res with
  | [] =>
      Ok {| success := false; error := Some "No matching category found";
            iab_product := None; source := Some (r_source res);
            input := Some (echo_input product); cached := None; latency_ms := None |}
  | primary :: others =>
      lbl ← get_category_label (IdInt (m_id primary));
      tier1 ← get_tier1_parent (IdInt (m_id primary));
      let t1 :=
        match tier1 with
        | Some t => if cat_id t =? m_id primary then None else Some t
        | None => None
        end in
      sec ←
        (if include_secondary && bool_decide (1 < length (r_categories res))%nat
         then s ← map_result secondary_entry (take 3 others); Ok (Some s)
         else Ok None);
      Ok {| success := true; error := None;
            iab_product := Some
              {| primary := get_iab_code (m_id primary);
                 primary_id := m_id primary;
                 label := lbl;
                 confidence := m_confidence primary;
                 version := iab_version;
                 tier1 := option_map (fun t => get_iab_code (cat_id t)) t1;
                 tier1_id := option_map cat_id t1;
                 tier1_label := option_map cat_name t1;
                 secondary := sec;
                 explanation := explain (r_source res) primary |};
            source := Some (r_source res);
            input := Some (echo_input product); cached := None; latency_ms := None |}
  end.

(** [{**env, "cached": c, "latency_ms": ms}] *)
Definition stamp (c : bool) (ms : Z) (env : Envelope) : Envelope :=
  {| success := success env; error := error env; iab_product := iab_product env;
     source := source env; input := input env; cached := Some c;
     latency_ms := Some ms |}.

Definition build_product (title description category brand : option string)
    (keywords : option (list string)) : Product :=
  {| p_title := _sanitize title 500;
     p_description := _sanitize description 2000;
     p_category := PyStr.strip (PyStr.or_empty category);
     p_brand := PyStr.strip (PyStr.or_empty brand);
     p_keywords := default [] keywords |}.

(** [self.cache.get(cache_key)] when there is a cache. *)
Definition cache_probe (cache_key : string) : M (option Envelope) :=
  fun self =>
    match cache self with
    | None => (Ok None, self)
    | Some cm =>
        let '(hit, cm') := Cache.get cache_key cm in
        (Ok hit, with_cache (Some cm') self)
    end.

(** [if self.cache and formatted.get("success"): self.cache.set(cache_key, formatted)] *)
Definition cache_write (cache_key : string) (formatted : Envelope) : M unit :=
  fun self =>
    match cache self with
    | Some cm =>
        if success formatted
        then (Ok tt, with_cache (Some (Cache.set cache_key formatted cm)) self)
        else (Ok tt, self)
    | None => (Ok tt, self)
    end.

(** [mode or self.mapping_mode] *)
Definition choose_mode (mode : option string) (self : ProductMapper) : string :=
  match mode with
  | Some m => if PyStr.truthy m then m else mapping_mode self
  | None => mapping_mode self
  end.

(** The mode dispatch: deterministic, semantic, and hybrid for any other mode. *)
Definition dispatch (use_mode : string) (product : Product) (use_confidence : float)
  : M MapResult :=
  if String.eqb use_mode "deterministic" then _map_deterministic product use_confidence
  else if String.eqb use_mode "semantic" then _map_semantic product use_confidence
  else _map_hybrid product use_confidence.

(** The body of the try statement of map_product. *)
Definition try_body (product : Product) (cache_key : string) (use_mode : string)
    (use_confidence : float) (include_secondary : bool) : M Envelope :=
  res ← dispatch use_mode product use_confidence;
  ver ← read iab_version;
  formatted ← lift (_format_result ver res product include_secondary);
  _ ← cache_write cache_key formatted;
  ms ← measure_latency;
  _ ← update_stats (add_latency ms);
  ms' ← measure_latency;
  mret (stamp false ms' formatted).

Definition missing_input : Envelope :=
  {| success := false; error := Some "At least title or description is required";
     iab_product := None; source := None; input := None; cached := None;
     latency_ms := None |}.

Definition failure (e : exn) (ms : Z) : Envelope :=
  {| success := false; error := Some (exn_str e); iab_product := None; source := None;
     input := None; cached := None; latency_ms := Some ms |}.

(** The statements of map_product after validation and the cache probe: the
    try statement with its handler. *)
Definition guarded (product : Product) (cache_key : string) (use_mode : string)
    (use_confidence : float) (include_secondary : bool) (self : ProductMapper)
  : Envelope * ProductMapper :=
  match try_body product cache_key use_mode use_confidence include_secondary self with
  | (Ok env, self') => (env, self')
  | (Raise e, self') =>
      let self'' := with_stats (count_error (stats self')) self' in
      (failure e (elapsed_ms (clock_reads self'')), with_clock_read self'')
  end.

Definition map_product (title description category brand : option string)
    (keywords : option (list string)) (mode : option string)
    (min_conf : option float) (include_secondary : bool) (self : ProductMapper)
  : Envelope * ProductMapper :=
  let self := with_stats (count_request (stats self)) self in
  if negb (PyStr.truthy_opt title) && negb (PyStr.truthy_opt description)
  then (missing_input, with_stats (count_error (stats self)) self)
  else
    let product := build_product title description category brand keywords in
    let cache_key := create_cache_key product in
    match cache_probe cache_key self with
    | (Ok (Some hit), self1) =>
        let self2 := with_stats (count_cache_hit (stats self1)) self1 in
        (stamp true (elapsed_ms (clock_reads self2)) hit, with_clock_read self2)
    | (_, self1) =>
        let use_mode := choose_mode mode self1 in
        let use_confidence := default (min_confidence self1) min_conf in
        guarded product cache_key use_mode use_confidence include_secondary self1
    end.

End Environment.

(** What lookup_category returns for a category. *)
Record CategoryInfo : Type := {
  info_id : Z;
  info_code : string;
  info_name : string;
  info_label : string;
  info_tier : Z;
  info_parent : option Z
}.

Definition lookup_category (id : pyid) : result (option CategoryInfo) :=
  category ← get_category_by_id id;
  match category with
  | None => Ok None
  | Some c =>
      lbl ← get_category_label (IdInt (cat_id c));
      Ok (Some {| info_id := cat_id c; info_code := get_iab_code (cat_id c);
                  info_name := cat_name c; info_label := lbl;
                  info_tier := cat_tier c; info_parent := cat_parent c |})
  end.

Definition validate_category (id : pyid) : bool := is_valid_category id.

(** [reset_stats] and [clear_cache]; a CacheManager is always truthy, so
    [if self.cache] asks whether there is one. *)
Definition reset_stats (self : ProductMapper) : ProductMapper :=
  with_cache (Cache.reset_stats <$> cache self) (with_stats zero_stats self).

Definition clear_cache (self : ProductMapper) : ProductMapper :=
  with_cache (Cache.clear <$> cache self) self.

(** What is known of [list(set(xs))]: no element twice, and exactly the
    elements of [xs]. *)
Definition set_order (list_set : list string -> list string) : Prop :=
  forall xs, NoDup (list_set xs) /\ forall x, x ∈ list_set xs <-> x ∈ xs.

(** [ProductMapper(...)]: [classifier] is how the MixpeekClient built from the
    api key would answer. *)
Definition new_mapper (api_key : option string) (classifier : Product -> result ApiResult)
    (cache_ttl : Z) (enable_cache enable_semantic : bool) (mapping_mode iab_version : string)
    (min_confidence : float) (debug : bool) : ProductMapper :=
  {| api_key := api_key; mapping_mode := mapping_mode; iab_version := iab_version;
     min_confidence := min_confidence; debug := debug;
     cache := if enable_cache then Some (Cache.new 10000 cache_ttl enable_cache) else None;
     client := if enable_semantic && PyStr.truthy_opt api_key then Some classifier else None;
     stats := zero_stats; client_calls := []; clock_reads := O |}.

End Mapper.

(** ** The keyword matcher as the specification words it *)
Module Spec.
Import Py Taxonomy Keywords.

(** What stays in place: the characters of words, the blanks and the hyphen. *)
Definition stays (c : N) : bool :=
  PyUnicode.is_word c || PyUnicode.isspace c || (c =? 45)%N.

(** Every other character is replaced by a space. *)
Definition replace_others (text : PyUnicode.str) : PyUnicode.str :=
  map (fun c => if stays c then c else 32%N) text.

(** Tokens of length at most two are dropped. *)
Definition drop_short (tokens : list PyUnicode.str) : list PyUnicode.str :=
  filter (fun w => (2 < length w)%nat) tokens.

(** The tokens in the order of the words of the specification: replace,
    lower-case, split on blanks, drop the short ones. *)
Definition tokenize (text : PyUnicode.str) : list PyUnicode.str :=
  drop_short (PyUnicode.split (PyUnicode.lower (replace_others text))).

(** The tokens with the first two steps exchanged: lower-case, replace, split
    on blanks, drop the short ones. *)
Definition tokenize_lowered (text : PyUnicode.str) : list PyUnicode.str :=
  drop_short (PyUnicode.split (replace_others (PyUnicode.lower text))).

(** An exact hit of the keyword table, as the match of its category. *)
Definition keyword_hit (w : PyUnicode.str) : option Match :=
  category_id ← dict_get w UKeywords.KEYWORD_MAPPINGS;
  c ← dict_get category_id IAB_AD_PRODUCT_TAXONOMY;
  Some {| m_id := cat_id c; m_name := cat_name c; m_tier := cat_tier c;
          m_parent := cat_parent c; m_confidence := 0.95%float;
          m_match_count := None; m_keywords := None; m_sources := None |}.

(** The hit of the first candidate, left to right, that has one. *)
Definition first_hit (candidates : list PyUnicode.str) : option Match :=
  head (omap keyword_hit candidates).

(** The phrases of two consecutive tokens, left to right. *)
Definition two_token_phrases (tokens : list PyUnicode.str) : list PyUnicode.str :=
  zip_with (fun a b => a ++ [32%N] ++ b) tokens (tail tokens).

(** The first single token that hits, else the first phrase of two tokens
    that hits, else nothing; [tokens] is the tokenizer. *)
Definition findBestMatch (tokens : PyUnicode.str -> list PyUnicode.str)
    (text : PyUnicode.str) : option Match :=
  match first_hit (tokens text) with
  | Some m => Some m
  | None => first_hit (two_token_phrases (tokens text))
  end.

End Spec.

(** ** Notions the properties are stated with *)
Module Notions.
Import Py Taxonomy Keywords.

Fixpoint all_chars (p : ascii -> bool) (s : string) : bool :=
  match s with
  | EmptyString => true
  | String c s' => p c && all_chars p s'
  end.

(** The characters of the decimal text of an int. *)
Definition numeral_char (c : ascii) : bool :=
  PyStr.is_digit c || (PyStr.code c =? 45)%N.

(** A code point that lower() leaves alone wherever it stands: it has no
    lower-case mapping and is not the capital sigma. *)
Definition settled (c : N) : bool :=
  negb (c =? 931)%N && negb (c =? 304)%N
  && match PyUnicode.assoc c PyUnicode.lower_pairs with Some _ => false | None => true end.

(** A character of a word: settled and not blank. *)
Definition word_char (c : N) : bool := settled c && negb (PyUnicode.isspace c).

(** A word: not empty, made of word characters. *)
Definition word (w : PyUnicode.str) : Prop := w <> [] /\ forallb word_char w = true.

(** Text that map_keyword_to_category looks up as it stands. *)
Definition normal (s : PyUnicode.str) : Prop :=
  PyUnicode.truthy s = true /\ PyUnicode.strip (PyUnicode.lower s) = s.

(** The text of U+0130, the capital I with a dot above, followed by
    [phone 15]. *)
Definition dotted_iphone_15 : PyUnicode.str :=
  [304; 112; 104; 111; 110; 101; 32; 49; 53]%N.

(** The id of the category that a lookup found, if it found one. *)
Definition found_id (r : result (option Match)) : option Z :=
  match r with
  | Ok (Some m) => Some (m_id m)
  | _ => None
  end.

(** Text with capitals, a hyphen and punctuation; text whose tokens hit the
    keyword table only as a phrase. *)
Definition phone_in_brackets : PyUnicode.str :=
  PyUnicode.of_string "Smart-watch, (PHONE)!".

Definition credit_card_offer : PyUnicode.str :=
  PyUnicode.of_string "Credit/Card: 0% APR".

(** The match built from a category of the table. *)
Definition match_of (c : Category) : Match :=
  {| m_id := cat_id c; m_name := cat_name c; m_tier := cat_tier c;
     m_parent := cat_parent c; m_confidence := 0.95%float;
     m_match_count := None; m_keywords := None; m_sources := None |}.

(** What the mapping modes leave alone in a mapper: everything but the three
    match counters and the record of classifier calls. *)
Definition frame (a b : Mapper.ProductMapper) : Prop :=
  Mapper.api_key b = Mapper.api_key a
  /\ Mapper.mapping_mode b = Mapper.mapping_mode a
  /\ Mapper.iab_version b = Mapper.iab_version a
  /\ Mapper.min_confidence b = Mapper.min_confidence a
  /\ Mapper.debug b = Mapper.debug a
  /\ Mapper.cache b = Mapper.cache a
  /\ Mapper.client b = Mapper.client a
  /\ Mapper.clock_reads b = Mapper.clock_reads a
  /\ Mapper.requests (Mapper.stats b) = Mapper.requests (Mapper.stats a)
  /\ Mapper.cache_hits (Mapper.stats b) = Mapper.cache_hits (Mapper.stats a)
  /\ Mapper.errors (Mapper.stats b) = Mapper.errors (Mapper.stats a)
  /\ Mapper.total_latency_ms (Mapper.stats b) = Mapper.total_latency_ms (Mapper.stats a).

(** [ProductMapper()]: no api key, hence no client; cache on; hybrid mode. *)
Definition default_mapper : Mapper.ProductMapper :=
  Mapper.new_mapper None (fun _ => Py.Raise (Py.PyExn "RuntimeError" "no classifier"))
    3600 true true "hybrid" "2.0" 0.3%float false.

(** A float that is a number, that is, not NaN. *)
Definition number (x : float) : Prop := Prim2SF x <> S754_nan.

(** The place of a number on the line of floats, as a triple compared
    lexicographically: the class (infinities, negative, zero, positive), then
    exponent and mantissa, negated for the negative numbers. *)
Definition rank (f : spec_float) : Z * Z * Z :=
  match f with
  | S754_nan => (0, 0, 0)
  | S754_zero _ => (0, 0, 0)
  | S754_infinity true => (-2, 0, 0)
  | S754_infinity false => (2, 0, 0)
  | S754_finite true m e => (-1, - e, Zneg m)
  | S754_finite false m e => (1, e, Zpos m)
  end.

Definition lex_lt (r1 r2 : Z * Z * Z) : Prop :=
  let '(a1, b1, c1) := r1 in
  let '(a2, b2, c2) := r2 in
  a1 < a2 \/ (a1 = a2 /\ (b1 < b2 \/ (b1 = b2 /\ c1 < c2))).

(** *** Cache keys *)

(** A digit of lower-case hexadecimal notation. *)
Definition is_hex (c : ascii) : bool := PyStr.in_range 48 57 c || PyStr.in_range 97 102 c.

(** *** Sanitized text *)

(** Every blank of the text is a single space between two other characters
    or at its end; [after_blank] says that a blank precedes the text. *)
Fixpoint tidy (after_blank : bool) (s : string) : bool :=
  match s with
  | EmptyString => true
  | String c s' =>
      if PyStr.is_space c
      then negb after_blank && Ascii.eqb c " " && tidy true s'
      else tidy false s'
  end.

(** *** The words of _extract_keywords *)

(** How often a word occurs in a list. *)
Definition occurrences (w : string) (words : list string) : Z :=
  Z.of_nat (length (filter (fun x => x = w) words)).

(** The dict freq once the words [seen] have been counted. *)
Definition counted (seen : list string) (freq : list (string * Z)) : Prop :=
  NoDup (map fst freq)
  /\ forall w, Py.dict_get w freq
               = if decide (w ∈ seen) then Some (occurrences w seen) else None.

(** The words that _extract_keywords counts: those of the lower-cased text,
    cut at blanks and at what is neither word character nor hyphen, that are
    longer than two characters and no stop words. *)
Definition counted_words (text : string) : list string :=
  filter (fun w => (2 < String.length w)%nat /\ w ∉ Mapper.stop_words)
         (PyStr.split (PyStr.sub_nonword (PyStr.lower text))).

(** *** The tally of map_keywords_to_categories *)

(** The id of the category that map_keyword_to_category gives a keyword. *)
Definition keyword_id (k : string) : option Z :=
  match map_keyword_to_category k with
  | Py.Ok (Some m) => Some (m_id m)
  | _ => None
  end.

(** The keywords of a list that go to the category [i], in their order. *)
Definition keywords_of (i : Z) (ks : list string) : list string :=
  filter (fun k => keyword_id k = Some i) ks.

(** The entry of a category to which the keywords [kws] went. *)
Definition tallied (c : Category) (kws : list string) : Match :=
  set_confidence
    (Py.min (0.95 + Py.float_of_int (Z.of_nat (length kws) - 1) * 0.01) 0.99)
    (set_score (Z.of_nat (length kws)) kws (match_of c)).

(** The dict category_scores once the keywords [seen] have been scored: one
    entry for each category that a keyword went to, holding those keywords. *)
Definition tally_of (seen : list string) (sc : scores) : Prop :=
  NoDup (map fst sc)
  /\ (forall i, keywords_of i seen <> [] -> i ∈ map fst sc)
  /\ forall i m, (i, m) ∈ sc ->
       keywords_of i seen <> []
       /\ exists c, dict_get i IAB_AD_PRODUCT_TAXONOMY = Some c
                    /\ m = set_score (Z.of_nat (length (keywords_of i seen)))
                             (keywords_of i seen) (match_of c).

(** The match count of an entry, 0 when it has none. *)
Definition match_count (m : Match) : Z := default 0 (m_match_count m).

(** What rescore makes of an entry that has a match count: the sort key and
    the entry with its confidence. *)
Definition rescored (m : Match) : Z * Match :=
  (match_count m,
   set_confidence (Py.min (0.95 + Py.float_of_int (match_count m - 1) * 0.01) 0.99) m).

(** What an entry says apart from its keywords. *)
Definition verdict (m : Match) : Z * option Z * float :=
  (m_id m, m_match_count m, m_confidence m).

(** *** Paths of the taxonomy *)

(** Each category of a path is the parent of the next, one tier above it. *)
Fixpoint linked (path : list Category) : bool :=
  match path with
  | a :: (b :: _) as rest =>
      bool_decide (cat_parent b = Some (cat_id a))
      && bool_decide (cat_tier b = cat_tier a + 1) && linked rest
  | _ => true
  end.

(** *** Sorting *)

(** [a] may stand before [b] in a list sorted by [key], largest first: the key
    of [a] is not the smaller one. *)
Definition before {A K} (lt : K -> K -> bool) (key : A -> K) (a b : A) : Prop :=
  lt (key a) (key b) = false.

(** *** The hybrid merge *)

Definition ids (l : list Match) : list Z := map m_id l.

(** What the merge makes of a category that the keywords alone, the classifier
    alone, or both have found. *)
Definition only_deterministic (d : Match) : Match :=
  Mapper.set_sources ["deterministic"] d.

Definition only_semantic (s : Match) : Match :=
  Mapper.set_sources ["semantic"] s.

Definition agreed (d : Match) : Match :=
  Mapper.set_sources ["deterministic"; "semantic"]
    (set_confidence (Py.min 0.99 (m_confidence d + 0.1)) d).

(** The entries of the merge before they are sorted: the deterministic
    categories in their order, then the categories the classifier adds. *)
Definition merged_entries (deterministic semantic : list Match) : list Match :=
  map (fun d => if decide (m_id d ∈ ids semantic) then agreed d else only_deterministic d)
      deterministic
  ++ map only_semantic (filter (fun s => m_id s ∉ ids deterministic) semantic).

(** The dict of the merge once the classifier's categories [seen] have been
    added to the deterministic ones. *)
Definition merged_dict (deterministic seen : list Match) : list (Z * Match) :=
  map (fun d => (m_id d, if decide (m_id d ∈ ids seen) then agreed d
                         else only_deterministic d)) deterministic
  ++ map (fun s => (m_id s, only_semantic s))
         (filter (fun s => m_id s ∉ ids deterministic) seen).

(** [a] may stand before [b] in a list that descends by confidence. *)
Definition descends (a b : Match) : Prop :=
  Py.ge (m_confidence a) (m_confidence b) = true.

(** The entries of a list whose confidence equals [c], in their order. *)
Definition with_confidence (c : float) (l : list Match) : list Match :=
  filter (fun a => (m_confidence a =? c)%float = true) l.

(** What the keyword "smartwatch" alone gives, and two categories as a
    classifier may report them. *)
Definition smartwatches_match : Match :=
  {| m_id := 1121; m_name := "Smartwatches"; m_tier := 3; m_parent := Some 1120;
     m_confidence := 0.95; m_match_count := Some 1;
     m_keywords := Some ["smartwatch"]; m_sources := None |}.

Definition watches_guess : Match :=
  {| m_id := 1070; m_name := "Watches"; m_tier := 2; m_parent := Some 1055;
     m_confidence := 0.75; m_match_count := None; m_keywords := None;
     m_sources := None |}.

Definition smartwatches_guess : Match :=
  {| m_id := 1121; m_name := "Smartwatches"; m_tier := 3; m_parent := Some 1120;
     m_confidence := 0.5; m_match_count := None; m_keywords := None;
     m_sources := None |}.

(** A classifier that cannot be reached, and a mapper built with an api key
    around it: [ProductMapper(api_key="key")]. *)
Definition classifier_down (p : Cache.Product) : Py.result Mapper.ApiResult :=
  Py.Raise (Py.PyExn "ConnectionError" "classifier unreachable").

Definition keyed_mapper : Mapper.ProductMapper :=
  Mapper.new_mapper (Some "key") classifier_down 3600 true true "hybrid" "2.0"
    0.3%float false.

(** One of the orders a set may iterate in: first occurrences, in order. *)
Definition first_seen (xs : list string) : list string := remove_dups xs.

(** A clock on which every latency measurement reads [ms]. *)
Definition steady_clock (ms : Z) : nat -> Z := fun _ => ms.

(** *** The Apple Watch product *)

(** The answer of a fresh mapper, in deterministic mode, for the product with
    title Apple Watch Series 9 and description GPS smartwatch with heart rate
    monitor. *)
Definition apple_watch (list_set : list string -> list string) (elapsed_ms : nat -> Z)
  : Mapper.Envelope :=
  fst (Mapper.map_product list_set elapsed_ms (Some "Apple Watch Series 9")
         (Some "GPS smartwatch with heart rate monitor") None None None
         (Some "deterministic") None true default_mapper).

(** The keywords that _extract_keywords finds in its title and description. *)
Definition apple_watch_keywords : list string :=
  ["apple"; "watch"; "series"; "gps"; "smartwatch"; "heart"; "rate"; "monitor"].

(** A keyword that the keyword table knows, and the first such keyword of a
    list. *)
Definition known (k : string) : bool :=
  match map_keyword_to_category k with
  | Py.Ok None => false
  | _ => true
  end.

Definition first_known (ks : list string) : option string :=
  head (filter (fun k => known k = true) ks).

(** The order in which CPython 3.11 run with PYTHONHASHSEED=5 yields the set
    of these keywords; first occurrences for any other list. *)
Definition seed_5_order (xs : list string) : list string :=
  if decide (xs = apple_watch_keywords)
  then ["rate"; "watch"; "monitor"; "apple"; "heart"; "smartwatch"; "gps"; "series"]
  else remove_dups xs.

(** The entries of the cache of a mapper, and the count of its writes. *)
Definition cache_store (self : Mapper.ProductMapper) : option (gmap string Mapper.Envelope) :=
  Cache.store <$> Mapper.cache self.

Definition cache_sets (self : Mapper.ProductMapper) : option Z :=
  Cache.sets <$> Mapper.cache self.

(** A counter update that touches none of requests, cache_hits, errors and
    total_latency_ms. *)
Definition benign (f : Mapper.Stats -> Mapper.Stats) : Prop :=
  forall s,
    Mapper.requests (f s) = Mapper.requests s
    /\ Mapper.cache_hits (f s) = Mapper.cache_hits s
    /\ Mapper.errors (f s) = Mapper.errors s
    /\ Mapper.total_latency_ms (f s) = Mapper.total_latency_ms s.

End Notions.

(** * Properties *)

(** ** Strings and int *)
Module PyFacts.
Import Py Notions.

Lemma numeral_char_cases c :
  numeral_char c = true ->
  int_space c = false /\ c <> "I"%char /\ (PyStr.code c =? 95)%N = false
  /\ (PyStr.code c =? 43)%N = false.
Proof.
  destruct c as [[] [] [] [] [] [] [] []]; vm_compute; intuition congruence.
Qed.

Lemma string_of_uint_digits d : all_chars PyStr.is_digit (NilEmpty.string_of_uint d) = true.
Proof. induction d; simpl; auto. Qed.

Lemma str_of_int_numeral z : all_chars numeral_char (str_of_int z) = true.
Proof.
  assert (Hd : forall d, all_chars numeral_char (NilZero.string_of_uint d) = true).
  { intros d. unfold NilZero.string_of_uint.
    assert (H := string_of_uint_digits d).
    assert (Hw : forall s, all_chars PyStr.is_digit s = true ->
                           all_chars numeral_char s = true).
    { induction s as [|c s IH]; simpl; [done|].
      intros [Hc Hs]%andb_prop. rewrite (IH Hs). unfold numeral_char. rewrite Hc. done. }
    destruct d; try (apply Hw; exact H); reflexivity. }
  unfold str_of_int, NilZero.string_of_int.
  destruct (Z.to_int z); [apply Hd|]. simpl. apply Hd.
Qed.

Lemma int_lstrip_numeral s : all_chars numeral_char s = true -> int_lstrip s = s.
Proof.
  destruct s as [|c s]; simpl; [done|].
  intros [Hc _]%andb_prop. apply numeral_char_cases in Hc as [-> _]. done.
Qed.

Lemma int_rstrip_numeral s : all_chars numeral_char s = true -> int_rstrip s = s.
Proof.
  induction s as [|c s IH]; simpl; [done|].
  intros [Hc Hs]%andb_prop. rewrite (IH Hs).
  apply numeral_char_cases in Hc as [-> _]. destruct s; done.
Qed.

Lemma remove_all_numeral s :
  all_chars numeral_char s = true -> PyStr.remove_all "IAB-AP-" s = s.
Proof.
  unfold PyStr.remove_all. induction s as [|c s IH]; [done|].
  intros [Hc Hs]%andb_prop. apply numeral_char_cases in Hc as (_ & Hc & _).
  cbn [PyStr.remove_all_aux]. rewrite (IH Hs).
  replace (String.prefix "IAB-AP-" (String c s)) with false; [done|].
  cbn [String.prefix]. destruct (ascii_dec "I" c) as [<-|]; done.
Qed.

Lemma prefix_append (p s : string) : String.prefix p (p +:+ s) = true.
Proof.
  induction p as [|a p IH]; [destruct s; reflexivity|].
  simpl. destruct (ascii_dec a a); [exact IH|done].
Qed.

Lemma remove_all_own_prefix (s : string) :
  PyStr.remove_all "IAB-AP-" ("IAB-AP-" +:+ s) = PyStr.remove_all "IAB-AP-" s.
Proof.
  unfold PyStr.remove_all.
  change ("IAB-AP-" +:+ s) with (String "I" ("AB-AP-" +:+ s)).
  cbn [PyStr.remove_all_aux].
  change (String "I" ("AB-AP-" +:+ s)) with ("IAB-AP-" +:+ s).
  rewrite prefix_append. reflexivity.
Qed.

(** Reading digits written without underscores gives them back. *)
Lemma parse_digits_string_of_uint d :
  d <> Decimal.Nil -> parse_digits (NilEmpty.string_of_uint d) = Some d.
Proof.
  induction d as [|d IH|d IH|d IH|d IH|d IH|d IH|d IH|d IH|d IH|d IH]; intros Hd;
    [done|..];
    cbn [NilEmpty.string_of_uint parse_digits];
    (destruct d as [|d'|d'|d'|d'|d'|d'|d'|d'|d'|d']; [reflexivity|..]);
    (rewrite IH by done; reflexivity).
Qed.

Lemma parse_int_string_of_int z : parse_int (str_of_int z) = Some z.
Proof.
  unfold str_of_int. rewrite <- (DecimalZ.of_to z) at 2.
  destruct (Z.to_int z) as [d|d] eqn:Hz.
  - assert (Hd : d <> Decimal.Nil).
    { destruct z; simpl in Hz; inversion Hz; subst; try done.
      all: apply DecimalPos.Unsigned.to_uint_nonnil. }
    unfold NilZero.string_of_int, NilZero.string_of_uint.
    assert (Hp := parse_digits_string_of_uint d Hd).
    destruct d; try done; unfold parse_int; cbn [NilEmpty.string_of_uint] in *;
      match goal with
      | |- context [PyStr.code ?c] =>
          change (PyStr.code c =? 45)%N with false;
          change (PyStr.code c =? 43)%N with false
      end; cbv iota; rewrite Hp; reflexivity.
  - assert (Hd : d <> Decimal.Nil).
    { destruct z; simpl in Hz; inversion Hz; subst.
      apply DecimalPos.Unsigned.to_uint_nonnil. }
    unfold NilZero.string_of_int, NilZero.string_of_uint.
    assert (Hp := parse_digits_string_of_uint d Hd).
    destruct d; try done; unfold parse_int;
      change (PyStr.code "-" =? 45)%N with true; cbv iota; rewrite Hp; reflexivity.
Qed.

(** [int(str(z)) == z] *)
Lemma int_str_of_int z : int (str_of_int z) = Ok z.
Proof.
  unfold int.
  rewrite (int_lstrip_numeral _ (str_of_int_numeral z)).
  rewrite (int_rstrip_numeral _ (str_of_int_numeral z)).
  rewrite parse_int_string_of_int. reflexivity.
Qed.

Lemma append_cons (c : ascii) (s t : string) : String c s +:+ t = String c (s +:+ t).
Proof. reflexivity. Qed.

Lemma append_nil_l (t : string) : EmptyString +:+ t = t.
Proof. reflexivity. Qed.

Lemma append_nil_r (s : string) : s +:+ EmptyString = s.
Proof. induction s as [|c s IH]; [done|]. by rewrite append_cons, IH. Qed.

Lemma append_assoc (s t u : string) : (s +:+ t) +:+ u = s +:+ (t +:+ u).
Proof.
  induction s as [|c s IH]; [by rewrite !append_nil_l|]. by rewrite !append_cons, IH.
Qed.

End PyFacts.

(** ** taxonomy.py *)
Module TaxonomyFacts.
Import Py Taxonomy Notions PyFacts.

(** [get_id_from_code] undoes [get_iab_code], for every int. *)
Lemma get_id_from_code_get_iab_code (z : Z) : get_id_from_code (get_iab_code z) = Some z.
Proof.
  unfold get_id_from_code, get_iab_code, PyStr.startswith.
  change (PyStr.truthy ("IAB-AP-" +:+ str_of_int z)) with true.
  rewrite prefix_append, remove_all_own_prefix. cbn [negb].
  rewrite (remove_all_numeral _ (str_of_int_numeral z)), int_str_of_int.
  reflexivity.
Qed.

Lemma get_iab_code_inj (a b : Z) : get_iab_code a = get_iab_code b -> a = b.
Proof.
  intros H. apply (f_equal get_id_from_code) in H.
  rewrite !get_id_from_code_get_iab_code in H. congruence.
Qed.

(** C9.  For an id of the taxonomy table, [get_id_from_code (get_iab_code id)]
    is [id] again, and [get_iab_code] gives that id a code no other id of the
    table has. *)
Theorem code_round_trip (id : Z) :
  is_valid_category (IdInt id) = true ->
  get_id_from_code (get_iab_code id) = Some id
  /\ forall id', is_valid_category (IdInt id') = true ->
                 get_iab_code id = get_iab_code id' -> id = id'.
Proof.
  intros _. split; [apply get_id_from_code_get_iab_code|].
  intros id' _. apply get_iab_code_inj.
Qed.

Lemma code_round_trip_smartwatches :
  is_valid_category (IdInt 1121) = true
  /\ get_iab_code 1121 = "IAB-AP-1121"
  /\ get_id_from_code "IAB-AP-1121" = Some 1121
  /\ forall id', is_valid_category (IdInt id') = true ->
                 get_iab_code 1121 = get_iab_code id' -> 1121 = id'.
Proof.
  split; [reflexivity|]. split; [reflexivity|].
  exact (code_round_trip 1121 eq_refl).
Defined.

(** A str that int() rejects makes get_category_by_id raise the ValueError. *)
Lemma get_category_by_id_unparseable (s : string) :
  parse_int (int_rstrip (int_lstrip s)) = None ->
  get_category_by_id (IdStr s) = Raise (invalid_literal s).
Proof. intros H. unfold get_category_by_id, int. rewrite H. reflexivity. Qed.

Lemma int_of_code_string (rest : string) :
  parse_int (int_rstrip (int_lstrip ("IAB-AP-" +:+ rest))) = None.
Proof.
  change ("IAB-AP-" +:+ rest) with (String "I" ("AB-AP-" +:+ rest)).
  cbn [int_lstrip]. change (int_space "I") with false. cbn [int_rstrip].
  change (int_space "I") with false.
  destruct (int_rstrip ("AB-AP-" +:+ rest)); reflexivity.
Qed.

(** The lookup on the texts of the tests of the repository. *)
Lemma get_category_by_id_on_texts :
  get_category_by_id (IdStr "IAB-AP-1115")
    = Raise (PyExn "ValueError" "invalid literal for int() with base 10: 'IAB-AP-1115'")
  /\ get_category_by_id (IdStr "smartwatch")
    = Raise (PyExn "ValueError" "invalid literal for int() with base 10: 'smartwatch'")
  /\ is_valid_category (IdStr "IAB-AP-1115") = true
  /\ is_valid_category (IdStr "smartwatch") = false
  /\ get_category_by_id (IdStr "1115") = get_category_by_id (IdInt 1115).
Proof. repeat split; reflexivity. Qed.

(** C1.  On the code string of any category id, get_category_by_id raises
    ValueError instead of returning None, while is_valid_category, next to it,
    answers the same string as it answers the id, without raising. *)
Theorem get_category_by_id_raises_on_code_string (id : Z) :
  get_category_by_id (IdStr (get_iab_code id))
    = Raise (PyExn "ValueError"
               ("invalid literal for int() with base 10: " +:+ repr (get_iab_code id)))
  /\ is_valid_category (IdStr (get_iab_code id)) = is_valid_category (IdInt id).
Proof.
  split.
  - apply get_category_by_id_unparseable. apply int_of_code_string.
  - unfold is_valid_category. rewrite get_id_from_code_get_iab_code.
    unfold get_iab_code, PyStr.startswith. by rewrite prefix_append.
Qed.

Lemma dict_get_elem_of `{EqDecision K} {V} (k : K) (v : V) (d : list (K * V)) :
  dict_get k d = Some v -> (k, v) ∈ d.
Proof.
  induction d as [|[k' v'] d IH]; simpl; [done|].
  destruct (decide (k = k')) as [->|]; [intros [= ->]; left|right; auto].
Qed.

(** The parent links of the table lead to a root within three steps, so the
    loop of get_category_path ends on every category, with fuel to spare. *)
Lemma path_loop_table :
  forallb (fun kc => bool_decide (is_Some (path_loop 3 (Some (snd kc)) [])))
          IAB_AD_PRODUCT_TAXONOMY = true
  /\ forallb (fun kc => bool_decide (path_loop path_fuel (Some (snd kc)) []
                                     = path_loop 3 (Some (snd kc)) []))
          IAB_AD_PRODUCT_TAXONOMY = true.
Proof. split; vm_compute; reflexivity. Qed.

(** get_category_path returns on every int: the loop never runs out of fuel. *)
Lemma get_category_path_returns (z : Z) :
  exists path,
    path_loop path_fuel (dict_get z IAB_AD_PRODUCT_TAXONOMY) [] = Some path
    /\ get_category_path (IdInt z) = Ok path.
Proof.
  unfold get_category_path, get_category_by_id. cbn [mbind result_bind].
  destruct (dict_get z IAB_AD_PRODUCT_TAXONOMY) as [c|] eqn:Hc.
  - apply dict_get_elem_of in Hc.
    destruct path_loop_table as [H3 Hfuel].
    rewrite forallb_forall in H3, Hfuel.
    apply list_elem_of_In in Hc.
    specialize (H3 _ Hc). specialize (Hfuel _ Hc). cbn [snd] in *.
    apply bool_decide_eq_true in H3 as [path Hp]. apply bool_decide_eq_true in Hfuel.
    exists path. rewrite Hfuel, Hp. done.
  - exists []. done.
Qed.

End TaxonomyFacts.

(** ** keyword_mapping.py *)
Module KeywordsFacts.
Import Py Taxonomy Keywords Notions PyFacts TaxonomyFacts.

(** Every entry of the taxonomy table sits under its own id. *)
Lemma taxonomy_keys :
  forallb (fun kc => bool_decide (cat_id (snd kc) = fst kc)) IAB_AD_PRODUCT_TAXONOMY = true.
Proof. vm_compute. reflexivity. Qed.

Lemma dict_get_cat_id (z : Z) (c : Category) :
  dict_get z IAB_AD_PRODUCT_TAXONOMY = Some c -> cat_id c = z.
Proof.
  intros H%dict_get_elem_of%list_elem_of_In.
  assert (Hk := taxonomy_keys). rewrite forallb_forall in Hk.
  apply Hk in H. apply bool_decide_eq_true in H. exact H.
Qed.

(** A match of map_keyword_to_category is the match of its category. *)
Lemma map_keyword_to_category_Some (k : string) (m : Match) :
  map_keyword_to_category k = Ok (Some m) ->
  exists c, dict_get (m_id m) IAB_AD_PRODUCT_TAXONOMY = Some c /\ m = match_of c.
Proof.
  unfold map_keyword_to_category.
  destruct (negb (PyStr.truthy k)); [done|].
  destruct (dict_get _ KEYWORD_MAPPINGS) as [cid|]; [|done].
  destruct (cid =? 0); [done|].
  unfold get_category_by_id. cbn [mbind result_bind].
  destruct (dict_get cid IAB_AD_PRODUCT_TAXONOMY) as [c|] eqn:Hc; [|done].
  intros [= <-]. exists c. split; [|done].
  cbn [m_id]. rewrite (dict_get_cat_id _ _ Hc). done.
Qed.

Lemma map_keyword_to_category_same_id (k1 k2 : string) (m1 m2 : Match) :
  map_keyword_to_category k1 = Ok (Some m1) ->
  map_keyword_to_category k2 = Ok (Some m2) ->
  m_id m1 = m_id m2 -> m1 = m2.
Proof.
  intros (c1 & H1 & ->)%map_keyword_to_category_Some
         (c2 & H2 & ->)%map_keyword_to_category_Some Hid.
  rewrite Hid in H1. congruence.
Qed.

Lemma score_keyword_first (m : Match) (k : string) :
  map_keyword_to_category k = Ok (Some m) ->
  score_keyword [] k = Ok [(m_id m, set_score 1 [k] m)].
Proof. intros H. unfold score_keyword. rewrite H. reflexivity. Qed.

Lemma score_keyword_again (m : Match) (k : string) (done : list string) (n : Z) :
  map_keyword_to_category k = Ok (Some m) ->
  score_keyword [(m_id m, set_score n done m)] k
  = Ok [(m_id m, set_score (n + 1) (done ++ [k]) m)].
Proof.
  intros H. unfold score_keyword. rewrite H. cbn [mbind result_bind dict_get].
  rewrite decide_True by done. cbn [bump_at]. rewrite Z.eqb_refl. reflexivity.
Qed.

(** The loop over keywords that all hit [m]: one entry, counting them. *)
Lemma score_loop_same (m : Match) (rest done : list string) (n : Z) :
  (forall k, k ∈ rest -> map_keyword_to_category k = Ok (Some m)) ->
  for_each score_keyword rest [(m_id m, set_score n done m)]
  = Ok [(m_id m, set_score (n + Z.of_nat (length rest)) (done ++ rest) m)].
Proof.
  revert done n. induction rest as [|k rest IH]; intros done n Hall.
  - cbn. rewrite Z.add_0_r, app_nil_r. done.
  - cbn [for_each]. rewrite (score_keyword_again m k done n) by (apply Hall; left).
    cbn [mbind result_bind].
    rewrite IH by (intros; apply Hall; by right).
    rewrite <- app_assoc. cbn [length app].
    do 3 f_equal. f_equal. lia.
Qed.

(** C3.  Keywords that all resolve to one category give one entry for it: its
    match_count is their number, its keywords are the keywords as given, and its
    confidence is min(0.95 + (n - 1) * 0.01, 0.99) in float arithmetic. *)
Theorem map_keywords_same_category (keywords : list string) (c : Z) :
  keywords <> [] ->
  (forall k, k ∈ keywords ->
     exists m, map_keyword_to_category k = Ok (Some m) /\ m_id m = c) ->
  exists entry,
    map_keywords_to_categories keywords = Ok [entry]
    /\ m_id entry = c
    /\ m_match_count entry = Some (Z.of_nat (length keywords))
    /\ m_keywords entry = Some keywords
    /\ m_confidence entry
       = min (0.95 + float_of_int (Z.of_nat (length keywords) - 1) * 0.01)%float
             0.99%float.
Proof.
  intros Hne Hall.
  destruct keywords as [|k0 rest]; [done|].
  destruct (Hall k0) as (m & Hk0 & Hid); [left|].
  assert (Hm : forall k, k ∈ rest -> map_keyword_to_category k = Ok (Some m)).
  { intros k Hk. destruct (Hall k) as (m' & Hk' & Hid'); [by right|].
    rewrite Hk'. do 2 f_equal.
    apply (map_keyword_to_category_same_id k k0); congruence. }
  eexists. split.
  - unfold map_keywords_to_categories. cbn [for_each].
    rewrite (score_keyword_first m k0 Hk0). cbn [mbind result_bind].
    rewrite (score_loop_same m rest [k0] 1 Hm).
    cbn [mbind result_bind dict_values map snd map_result rescore subscript
         m_match_count set_score sort_desc foldr insert_desc].
    reflexivity.
  - cbn [m_id m_match_count m_keywords m_confidence set_confidence set_score length app].
    repeat split; try done.
    + do 2 f_equal. lia.
    + do 4 f_equal. lia.
Qed.

Lemma map_keywords_smartphone_thrice :
  exists entry,
    map_keywords_to_categories ["smartphone"; "smartphone"; "phone"] = Ok [entry]
    /\ m_id entry = 1118
    /\ m_match_count entry = Some 3
    /\ m_keywords entry = Some ["smartphone"; "smartphone"; "phone"]
    /\ m_confidence entry = 0.97%float.
Proof.
  assert (Hne : ["smartphone"; "smartphone"; "phone"] <> []) by discriminate.
  assert (Hall : forall k, k ∈ ["smartphone"; "smartphone"; "phone"] ->
            exists m, map_keyword_to_category k = Ok (Some m) /\ m_id m = 1118).
  { intros k Hk. eexists.
    repeat (apply elem_of_cons in Hk as [->|Hk]); [..|by apply elem_of_nil in Hk];
      (split; [vm_compute; reflexivity|reflexivity]). }
  destruct (map_keywords_same_category _ 1118 Hne Hall) as (entry & H1 & H2 & H3 & H4 & H5).
  exists entry. repeat split; assumption.
Defined.

End KeywordsFacts.

(** ** find_best_match on every str *)
Module FindBestMatchFacts.
Import Py Taxonomy Keywords Notions PyUnicode.

(** *** What lower() leaves alone *)

Lemma assoc_In (c v : N) (pairs : list (N * N)) :
  assoc c pairs = Some v -> In (c, v) pairs.
Proof.
  induction pairs as [|[k w] pairs IH]; cbn [assoc]; [done|].
  destruct (N.eqb_spec c k) as [->|_]; [intros [= ->]; by left|].
  intros H. right. by apply IH.
Qed.

(** No lower-case mapping leads to a code point that has one itself. *)
Lemma lower_pairs_settled : forallb (fun p => settled (snd p)) lower_pairs = true.
Proof. vm_compute. reflexivity. Qed.

Lemma to_lower_full_settled (c : N) :
  c <> 931%N -> forallb settled (to_lower_full c) = true.
Proof.
  intros Hs. unfold to_lower_full.
  destruct (N.eqb_spec c 304) as [->|Hi]; [vm_compute; reflexivity|].
  destruct (assoc c lower_pairs) as [l|] eqn:Ha.
  - apply assoc_In in Ha.
    pose proof (proj1 (forallb_forall _ _) lower_pairs_settled _ Ha) as H.
    cbn [snd] in H. cbn [forallb]. by rewrite H.
  - cbn [forallb]. unfold settled. rewrite Ha.
    apply N.eqb_neq in Hs, Hi. by rewrite Hs, Hi.
Qed.

Lemma lower_aux_settled (before s : list N) : forallb settled (lower_aux before s) = true.
Proof.
  revert before. induction s as [|c s IH]; intros before; cbn [lower_aux]; [done|].
  rewrite forallb_app, IH, andb_true_r.
  destruct (N.eqb_spec c 931) as [->|Hc]; [|by apply to_lower_full_settled].
  destruct (final_sigma before s); vm_compute; reflexivity.
Qed.

Lemma to_lower_full_fixed (c : N) :
  settled c = true -> (c =? 931)%N = false /\ to_lower_full c = [c].
Proof.
  unfold settled, to_lower_full.
  intros [[Hs%negb_true_iff Hi%negb_true_iff]%andb_prop Ha]%andb_prop.
  rewrite Hi. split; [exact Hs|]. by destruct (assoc c lower_pairs).
Qed.

Lemma lower_aux_fixed (before s : list N) :
  forallb settled s = true -> lower_aux before s = s.
Proof.
  revert before. induction s as [|c s IH]; intros before; cbn [lower_aux forallb]; [done|].
  intros [Hc Hs]%andb_prop. destruct (to_lower_full_fixed c Hc) as [-> ->].
  by rewrite IH.
Qed.

(** *** The replacement *)

Lemma sub_nonword_replace_others (s : str) : sub_nonword s = Spec.replace_others s.
Proof.
  unfold sub_nonword, sub_set, Spec.replace_others.
  induction s as [|c s IH]; cbn [flat_map map]; [done|]. rewrite IH.
  unfold not_word_space_hyphen, Spec.stays.
  by destruct (is_word c || isspace c || (c =? 45)%N).
Qed.

Lemma replace_others_settled (s : str) :
  forallb settled s = true -> forallb settled (Spec.replace_others s) = true.
Proof.
  unfold Spec.replace_others.
  induction s as [|c s IH]; cbn [forallb map]; [done|].
  intros [Hc Hs]%andb_prop. rewrite (IH Hs), andb_true_r.
  destruct (Spec.stays c); [exact Hc|]. vm_compute. reflexivity.
Qed.

(** *** The tokens *)

Lemma split_aux_words (s cur : str) (acc : list str) :
  forallb settled s = true ->
  forallb word_char cur = true ->
  Forall word acc ->
  Forall word (split_aux s cur acc).
Proof.
  assert (Hflush : forall cur acc, forallb word_char cur = true -> Forall word acc ->
                     Forall word (flush cur acc)).
  { intros [|c w] acc' Hw Hacc; cbn [flush]; [done|].
    apply Forall_app. split; [done|]. apply Forall_singleton. split; done. }
  revert cur acc.
  induction s as [|c s IH]; intros cur acc Hs Hcur Hacc; cbn [split_aux].
  - by apply Hflush.
  - cbn [forallb] in Hs. apply andb_prop in Hs as [Hc Hs].
    destruct (isspace c) eqn:Hsp.
    + apply IH; [done|done|]. by apply Hflush.
    + apply IH; [done| |done].
      rewrite forallb_app, Hcur. cbn [forallb andb]. unfold word_char.
      by rewrite Hc, Hsp.
Qed.

Lemma split_words (s : str) : forallb settled s = true -> Forall word (split s).
Proof. intros H. by apply split_aux_words. Qed.

Lemma word_settled (w : str) : word w -> forallb settled w = true.
Proof.
  intros [_ Hw]. apply forallb_forall. intros c Hc.
  apply (proj1 (forallb_forall _ _) Hw) in Hc. unfold word_char in Hc.
  by apply andb_prop in Hc as [? _].
Qed.

Lemma lstrip_word (w t : str) : word w -> lstrip (w ++ t) = w ++ t.
Proof.
  intros [Hne Hw]. destruct w as [|c w]; [done|].
  cbn [forallb app lstrip] in *. unfold word_char in Hw.
  apply andb_prop in Hw as [[_ Hc%negb_true_iff]%andb_prop _]. by rewrite Hc.
Qed.

Lemma rstrip_cons (c : N) (s : str) :
  rstrip (c :: s)
  = match rstrip s with
    | [] => if isspace c then [] else [c]
    | r => c :: r
    end.
Proof. reflexivity. Qed.

Lemma rstrip_word (w : str) : word w -> rstrip w = w.
Proof.
  intros [Hne Hw]. induction w as [|c w IH]; [done|].
  cbn [forallb] in Hw. unfold word_char at 1 in Hw.
  apply andb_prop in Hw as [[_ Hc%negb_true_iff]%andb_prop Hw].
  rewrite rstrip_cons. destruct w as [|d w]; [cbn [rstrip]; by rewrite Hc|].
  rewrite IH by done. done.
Qed.

Lemma rstrip_before_word (s w : str) : word w -> rstrip (s ++ w) = s ++ w.
Proof.
  intros Hw. induction s as [|c s IH]; [by apply rstrip_word|].
  cbn [app]. rewrite rstrip_cons, IH. destruct (s ++ w) eqn:E; [|done].
  apply app_eq_nil in E as [_ ->]. by destruct Hw.
Qed.

Lemma word_normal (w : str) : word w -> normal w.
Proof.
  intros Hw. split; [destruct Hw as [? _]; by destruct w|].
  unfold lower. rewrite lower_aux_fixed by (by apply word_settled).
  unfold strip. rewrite <- (app_nil_r w) at 1.
  rewrite (lstrip_word w [] Hw), app_nil_r. by apply rstrip_word.
Qed.

Lemma phrase_normal (w1 w2 : str) : word w1 -> word w2 -> normal (w1 ++ [32%N] ++ w2).
Proof.
  intros Hw1 Hw2. split; [destruct Hw1 as [? _]; by destruct w1|].
  unfold lower. rewrite lower_aux_fixed.
  - unfold strip. rewrite (lstrip_word w1 _ Hw1).
    rewrite app_assoc. by apply rstrip_before_word.
  - rewrite !forallb_app, (word_settled _ Hw1), (word_settled _ Hw2). reflexivity.
Qed.

(** *** The scans *)

(** On text it looks up as it stands, map_keyword_to_category is the exact
    table hit. *)
Lemma map_keyword_to_category_normal (s : str) :
  normal s -> UKeywords.map_keyword_to_category s = Ok (Spec.keyword_hit s).
Proof.
  intros [Ht Hs]. unfold UKeywords.map_keyword_to_category, Spec.keyword_hit.
  rewrite Ht, Hs. cbn [negb].
  destruct (dict_get s UKeywords.KEYWORD_MAPPINGS) as [cid|]; [|done].
  cbn [mbind option_bind].
  destruct (Z.eqb_spec cid 0) as [->|_]; [done|].
  unfold get_category_by_id. cbn [mbind result_bind].
  destruct (dict_get cid IAB_AD_PRODUCT_TAXONOMY); done.
Qed.

Lemma first_match_normal (candidates : list str) :
  Forall normal candidates ->
  UKeywords.first_match candidates = Ok (Spec.first_hit candidates).
Proof.
  unfold Spec.first_hit.
  induction 1 as [|w ws Hw _ IH]; [done|].
  cbn [UKeywords.first_match omap list_omap]. rewrite (map_keyword_to_category_normal _ Hw).
  cbn [mbind result_bind]. destruct (Spec.keyword_hit w); [done|exact IH].
Qed.

Lemma phrases_cons (w1 w2 : str) (ws : list str) :
  UKeywords.phrases (w1 :: w2 :: ws)
  = (w1 ++ [32%N] ++ w2) :: UKeywords.phrases (w2 :: ws).
Proof. reflexivity. Qed.

Lemma phrases_two_token_phrases (ws : list str) :
  UKeywords.phrases ws = Spec.two_token_phrases ws.
Proof.
  unfold Spec.two_token_phrases.
  induction ws as [|w1 ws IH]; [done|].
  destruct ws as [|w2 ws]; [done|].
  rewrite phrases_cons, IH. done.
Qed.

Lemma phrases_normal (ws : list str) : Forall word ws -> Forall normal (UKeywords.phrases ws).
Proof.
  induction ws as [|w1 ws IH]; intros Hws; [constructor|].
  destruct ws as [|w2 ws]; [constructor|].
  rewrite phrases_cons. inversion Hws as [|? ? H1 Hrest]; subst.
  constructor; [|by apply IH].
  inversion Hrest; subst. by apply phrase_normal.
Qed.

Lemma words_of_tokenize_lowered (text : str) :
  UKeywords.words_of text = Spec.tokenize_lowered text.
Proof.
  unfold UKeywords.words_of, Spec.tokenize_lowered, Spec.drop_short.
  by rewrite sub_nonword_replace_others.
Qed.

Lemma tokenize_lowered_words (text : str) : Forall word (Spec.tokenize_lowered text).
Proof.
  unfold Spec.tokenize_lowered, Spec.drop_short.
  apply Forall_forall. intros w [_ Hw]%list_elem_of_filter.
  pose proof (split_words _ (replace_others_settled _ (lower_aux_settled [] text))) as H.
  rewrite Forall_forall in H. by apply H.
Qed.

(** C4, amended.  find_best_match returns, for every str, what the
    specification describes once its first two steps are exchanged: the text
    is lower-cased; what is neither word character, blank nor hyphen is
    replaced by a space; the text is split on blanks and the tokens of length
    at most two are dropped; the first token that is an exact hit of the
    keyword table decides, else the first phrase of two consecutive tokens
    that is one, else there is no match.  The call never raises. *)
Theorem find_best_match_lowers_then_replaces (text : str) :
  UKeywords.find_best_match text = Ok (Spec.findBestMatch Spec.tokenize_lowered text).
Proof.
  unfold UKeywords.find_best_match, Spec.findBestMatch.
  destruct text as [|c text]; [reflexivity|].
  cbn [truthy negb]. rewrite words_of_tokenize_lowered.
  pose proof (tokenize_lowered_words (c :: text)) as Hw.
  rewrite (first_match_normal (Spec.tokenize_lowered (c :: text))).
  - cbn [mbind result_bind].
    destruct (Spec.first_hit (Spec.tokenize_lowered (c :: text))); [done|].
    rewrite <- phrases_two_token_phrases.
    apply first_match_normal, phrases_normal, Hw.
  - eapply Forall_impl; [exact Hw|]. apply word_normal.
Qed.

(** *** The code on concrete texts *)

(** Capitals are lowered, brackets, comma and exclamation mark make room for
    blanks, the hyphen stays, and the first token that hits decides; where
    no single token hits, the first phrase does. *)
Lemma find_best_match_on_punctuation :
  UKeywords.words_of phone_in_brackets = [of_string "smart-watch"; of_string "phone"]
  /\ found_id (UKeywords.find_best_match phone_in_brackets) = Some 1118
  /\ UKeywords.words_of credit_card_offer
     = [of_string "credit"; of_string "card"; of_string "apr"]
  /\ found_id (UKeywords.find_best_match credit_card_offer) = Some 1345
  /\ UKeywords.find_best_match (of_string "a, b; c!") = Ok None
  /\ UKeywords.find_best_match [] = Ok None.
Proof.
  repeat split; vm_compute; reflexivity.
Qed.

Lemma find_best_match_of_phone_in_brackets :
  Spec.tokenize_lowered phone_in_brackets = [of_string "smart-watch"; of_string "phone"]
  /\ found_id (UKeywords.find_best_match phone_in_brackets) = Some 1118.
Proof.
  split; [vm_compute; reflexivity|].
  rewrite find_best_match_lowers_then_replaces. vm_compute. reflexivity.
Defined.

(** C4 as stated fails on a text with the capital I with a dot above.  Lowered
    first, it gives i and the combining dot above, which is no word character
    and makes room for a blank, so that phone is a token and hits the
    smartphones; replaced first, it stays, the token is the whole of the
    lowered word and hits nothing. *)
Lemma dotted_capital_i_is_lowered_first :
  UKeywords.words_of dotted_iphone_15 = [of_string "phone"]
  /\ Spec.tokenize dotted_iphone_15 = [[105; 775; 112; 104; 111; 110; 101]%N]
  /\ Spec.findBestMatch Spec.tokenize dotted_iphone_15 = None
  /\ found_id (UKeywords.find_best_match dotted_iphone_15) = Some 1118
  /\ UKeywords.find_best_match dotted_iphone_15
     <> Ok (Spec.findBestMatch Spec.tokenize dotted_iphone_15).
Proof.
  split; [vm_compute; reflexivity|]. split; [vm_compute; reflexivity|].
  split; [vm_compute; reflexivity|]. split; [vm_compute; reflexivity|].
  vm_compute. discriminate.
Qed.

(** *** The str of Latin-1 *)

Lemma isspace_ascii (c : ascii) : isspace (N_of_ascii c) = PyStr.is_space c.
Proof. destruct c as [[] [] [] [] [] [] [] []]; vm_compute; reflexivity. Qed.

Lemma not_word_space_hyphen_ascii (c : ascii) :
  not_word_space_hyphen (N_of_ascii c) = negb (PyStr.keep_char c).
Proof. destruct c as [[] [] [] [] [] [] [] []]; vm_compute; reflexivity. Qed.

Lemma to_lower_full_ascii (c : ascii) :
  (N_of_ascii c =? 931)%N = false
  /\ to_lower_full (N_of_ascii c) = [N_of_ascii (PyStr.lower_char c)].
Proof. destruct c as [[] [] [] [] [] [] [] []]; vm_compute; split; reflexivity. Qed.

Lemma of_string_cons (c : ascii) (s : string) :
  of_string (String c s) = N_of_ascii c :: of_string s.
Proof. reflexivity. Qed.

Lemma of_string_app (s t : string) : of_string (s +:+ t) = of_string s ++ of_string t.
Proof.
  induction s as [|c s IH]; [done|].
  change (String c s +:+ t) with (String c (s +:+ t)).
  rewrite !of_string_cons, IH. done.
Qed.

Lemma of_string_inj (s t : string) : of_string s = of_string t -> s = t.
Proof.
  revert t. induction s as [|c s IH]; intros [|d t]; rewrite ?of_string_cons; try done.
  intros [= Hc Hs]. apply (f_equal ascii_of_N) in Hc. rewrite !ascii_N_embedding in Hc.
  f_equal; [exact Hc|by apply IH].
Qed.

Lemma length_of_string (s : string) : length (of_string s) = String.length s.
Proof.
  induction s as [|c s IH]; [done|]. rewrite of_string_cons. cbn [length String.length].
  by rewrite IH.
Qed.

Lemma lower_of_string (s : string) : lower (of_string s) = of_string (PyStr.lower s).
Proof.
  unfold lower, PyStr.lower. generalize (@nil N) as before.
  induction s as [|c s IH]; intros before; [done|].
  cbn [PyStr.map_chars]. rewrite !of_string_cons. cbn [lower_aux].
  destruct (to_lower_full_ascii c) as [-> ->]. by rewrite IH.
Qed.

Lemma sub_nonword_of_string (s : string) :
  sub_nonword (of_string s) = of_string (PyStr.sub_nonword s).
Proof.
  unfold sub_nonword, sub_set, PyStr.sub_nonword.
  induction s as [|c s IH]; [done|].
  cbn [PyStr.map_chars]. rewrite !of_string_cons. cbn [flat_map]. rewrite IH.
  rewrite not_word_space_hyphen_ascii. unfold PyStr.blank_char.
  by destruct (PyStr.keep_char c).
Qed.

Lemma flush_of_string (cur : string) (acc : list string) :
  flush (of_string cur) (map of_string acc) = map of_string (PyStr.flush cur acc).
Proof. destruct cur as [|c cur]; [done|]. cbn [flush PyStr.flush]. by rewrite map_app. Qed.

Lemma split_aux_of_string (s cur : string) (acc : list string) :
  split_aux (of_string s) (of_string cur) (map of_string acc)
  = map of_string (PyStr.split_aux s cur acc).
Proof.
  revert cur acc. induction s as [|c s IH]; intros cur acc.
  - apply flush_of_string.
  - rewrite of_string_cons. cbn [split_aux PyStr.split_aux]. rewrite isspace_ascii.
    destruct (PyStr.is_space c).
    + rewrite flush_of_string. apply (IH EmptyString).
    + rewrite <- IH, of_string_app. done.
Qed.

Lemma split_of_string (s : string) : split (of_string s) = map of_string (PyStr.split s).
Proof. apply (split_aux_of_string s EmptyString []). Qed.

Lemma lstrip_of_string (s : string) : lstrip (of_string s) = of_string (PyStr.lstrip s).
Proof.
  induction s as [|c s IH]; [done|].
  rewrite of_string_cons. cbn [lstrip PyStr.lstrip]. rewrite isspace_ascii.
  destruct (PyStr.is_space c); [exact IH|by rewrite of_string_cons].
Qed.

Lemma rstrip_of_string (s : string) : rstrip (of_string s) = of_string (PyStr.rstrip s).
Proof.
  induction s as [|c s IH]; [done|].
  rewrite of_string_cons, rstrip_cons, IH. cbn [PyStr.rstrip]. rewrite isspace_ascii.
  destruct (PyStr.rstrip s) as [|d r]; [by destruct (PyStr.is_space c)|].
  by rewrite !of_string_cons.
Qed.

Lemma strip_of_string (s : string) : strip (of_string s) = of_string (PyStr.strip s).
Proof. unfold strip, PyStr.strip. by rewrite lstrip_of_string, rstrip_of_string. Qed.

Lemma dict_get_of_string {V} (k : string) (d : list (string * V)) :
  dict_get (of_string k) (map (fun kv => (of_string (fst kv), snd kv)) d) = dict_get k d.
Proof.
  induction d as [|[k' v] d IH]; [done|]. cbn [map dict_get fst snd].
  destruct (decide (k = k')) as [->|Hne].
  - by rewrite decide_True.
  - rewrite decide_False; [exact IH|]. intros E. by apply of_string_inj in E.
Qed.

Lemma map_keyword_to_category_of_string (w : string) :
  UKeywords.map_keyword_to_category (of_string w) = map_keyword_to_category w.
Proof.
  unfold UKeywords.map_keyword_to_category, map_keyword_to_category.
  replace (truthy (of_string w)) with (PyStr.truthy w) by (by destruct w).
  destruct (negb (PyStr.truthy w)); [done|].
  rewrite lower_of_string, strip_of_string. unfold UKeywords.KEYWORD_MAPPINGS.
  by rewrite dict_get_of_string.
Qed.

Lemma first_match_of_string (candidates : list string) :
  UKeywords.first_match (map of_string candidates) = first_match candidates.
Proof.
  induction candidates as [|w ws IH]; [done|].
  cbn [map UKeywords.first_match first_match].
  rewrite map_keyword_to_category_of_string.
  destruct (map_keyword_to_category w) as [[m|]|e]; cbn [mbind result_bind]; done.
Qed.

Lemma phrases_of_string (ws : list string) :
  UKeywords.phrases (map of_string ws) = map of_string (phrases ws).
Proof.
  induction ws as [|w1 ws IH]; [done|].
  destruct ws as [|w2 ws]; [done|].
  change (phrases (w1 :: w2 :: ws)) with ((w1 +:+ " " +:+ w2) :: phrases (w2 :: ws)).
  cbn [map] in *. rewrite phrases_cons, IH, !of_string_app. done.
Qed.

Lemma filter_long_of_string (ws : list string) :
  filter (fun w => (2 < length w)%nat) (map of_string ws)
  = map of_string (filter (fun w => (2 < String.length w)%nat) ws).
Proof.
  induction ws as [|w ws IH]; [done|].
  cbn [map]. rewrite !filter_cons.
  destruct (decide (2 < length (of_string w))%nat) as [H|H];
    destruct (decide (2 < String.length w)%nat) as [H'|H'];
    rewrite length_of_string in H; try done.
  cbn [map]. f_equal. exact IH.
Qed.

Lemma words_of_of_string (text : string) :
  UKeywords.words_of (of_string text) = map of_string (words_of text).
Proof.
  unfold UKeywords.words_of, words_of.
  rewrite lower_of_string, sub_nonword_of_string, split_of_string.
  apply filter_long_of_string.
Qed.

(** On a str of Latin-1, find_best_match of [Keywords] is find_best_match. *)
Lemma find_best_match_of_string (text : string) :
  UKeywords.find_best_match (of_string text) = Keywords.find_best_match text.
Proof.
  unfold UKeywords.find_best_match, find_best_match.
  replace (truthy (of_string text)) with (PyStr.truthy text) by (by destruct text).
  destruct (negb (PyStr.truthy text)); [done|].
  rewrite words_of_of_string, first_match_of_string.
  destruct (first_match (words_of text)) as [[m|]|e]; cbn [mbind result_bind]; [done| |done].
  by rewrite phrases_of_string, first_match_of_string.
Qed.

End FindBestMatchFacts.

(** ** mapper.py *)
Module MapperFacts.
Import Py Taxonomy Keywords Cache Mapper Notions PyFacts TaxonomyFacts KeywordsFacts.

Ltac unfold_M :=
  unfold mbind, M_bind, mret, M_ret, lift, raise, read, update_stats,
    classify_product, measure_latency in *.

Lemma with_stats_same (self : ProductMapper) : with_stats (stats self) self = self.
Proof. destruct self; reflexivity. Qed.

Lemma frame_refl (a : ProductMapper) : frame a a.
Proof. repeat split. Qed.

Lemma frame_trans (a b c : ProductMapper) : frame a b -> frame b c -> frame a c.
Proof. unfold frame. intros H1 H2. destruct_and!. repeat split; congruence. Qed.

Lemma frame_with_stats (f : Stats -> Stats) (a : ProductMapper) :
  benign f -> frame a (with_stats (f (stats a)) a).
Proof. intros H. destruct (H (stats a)) as (?&?&?&?). repeat split; done. Qed.

Lemma frame_with_call (p : Product) (a : ProductMapper) : frame a (with_call p a).
Proof. repeat split. Qed.

Lemma benign_id : benign (fun s => s).
Proof. intros s. repeat split. Qed.

Lemma benign_count_deterministic : benign count_deterministic.
Proof. intros s. repeat split. Qed.

Lemma benign_count_semantic : benign count_semantic.
Proof. intros s. repeat split. Qed.

Lemma benign_count_no_match : benign count_no_match.
Proof. intros s. repeat split. Qed.

Create HintDb frames.

#[local] Hint Resolve frame_refl frame_with_stats frame_with_call benign_id
  benign_count_deterministic benign_count_semantic benign_count_no_match : frames.

Section Modes.
Variable list_set : list string -> list string.
Variable elapsed_ms : nat -> Z.

(** The deterministic mode computes its result from the product alone and
    touches the mapper by one benign counter update. *)
Lemma deterministic_shape (product : Product) (min_confidence : float) :
  exists r f,
    (forall self, _map_deterministic list_set product min_confidence self
                  = (r, with_stats (f (stats self)) self))
    /\ benign f
    /\ (forall res, r = Ok res -> r_source res = "deterministic").
Proof.
  unfold _map_deterministic.
  destruct (map_keywords_to_categories _) as [[|m ms]|e] eqn:Hm.
  - destruct (find_best_match _) as [[m|]|e] eqn:Hf.
    + destruct (ge (m_confidence m) min_confidence) eqn:Hc.
      * eexists _, count_deterministic. split; [|split; [auto with frames|]].
        -- intros self. unfold_M. rewrite Hc. reflexivity.
        -- by intros res [= <-].
      * eexists _, count_no_match. split; [|split; [auto with frames|]].
        -- intros self. unfold_M. rewrite Hc. reflexivity.
        -- by intros res [= <-].
    + eexists _, count_no_match. split; [|split; [auto with frames|]].
      * intros self. unfold_M. reflexivity.
      * by intros res [= <-].
    + exists (Raise e), (fun s => s). split; [|split; [auto with frames|done]].
      intros self. unfold_M. by rewrite with_stats_same.
  - eexists _, count_deterministic. split; [|split; [auto with frames|]].
    + intros self. unfold_M. reflexivity.
    + by intros res [= <-].
  - exists (Raise e), (fun s => s). split; [|split; [auto with frames|done]].
    intros self. unfold_M. by rewrite with_stats_same.
Qed.

Lemma deterministic_frame (product : Product) (c : float) (self : ProductMapper) :
  frame self (snd (_map_deterministic list_set product c self))
  /\ client_calls (snd (_map_deterministic list_set product c self)) = client_calls self.
Proof.
  destruct (deterministic_shape product c) as (r & f & Hrun & Hf & _).
  rewrite Hrun. cbn [snd]. split; [auto with frames|done].
Qed.

Lemma deterministic_result_independent (product : Product) (c : float)
    (self self' : ProductMapper) :
  fst (_map_deterministic list_set product c self)
  = fst (_map_deterministic list_set product c self').
Proof.
  destruct (deterministic_shape product c) as (r & f & Hrun & _).
  by rewrite !Hrun.
Qed.

Lemma deterministic_source (product : Product) (c : float) (self : ProductMapper)
    (res : MapResult) :
  fst (_map_deterministic list_set product c self) = Ok res ->
  r_source res = "deterministic".
Proof.
  destruct (deterministic_shape product c) as (r & f & Hrun & _ & Hsrc).
  rewrite Hrun. cbn [fst]. apply Hsrc.
Qed.

Lemma semantic_frame (product : Product) (c : float) (self : ProductMapper) :
  frame self (snd (_map_semantic product c self)).
Proof.
  unfold _map_semantic. unfold_M.
  destruct (client self) as [classify|]; [|apply frame_refl].
  destruct (classify product) as [api|e]; cbn [snd]; [|auto with frames].
  destruct (api_success api), (api_categories api) as [[|? ?]|]; cbn [snd];
    (eapply frame_trans; [apply frame_with_call|]); auto with frames.
Qed.

Lemma hybrid_frame (product : Product) (c : float) (self : ProductMapper) :
  frame self (snd (_map_hybrid list_set product c self)).
Proof.
  unfold _map_hybrid. unfold mbind at 1. unfold M_bind at 1.
  pose proof (deterministic_frame product c self) as [Hd _].
  destruct (_map_deterministic list_set product c self) as [[res|e] s1]; cbn [snd] in *;
    [|done].
  destruct (existsb _ _); [done|].
  unfold mbind at 1. unfold M_bind at 1. unfold read at 1.
  destruct (client s1) as [cl|]; [|done].
  unfold mbind at 1. unfold M_bind at 1.
  pose proof (semantic_frame product c s1) as Hs.
  destruct (_map_semantic product c s1) as [[sres|e] s2]; cbn [snd] in *;
    [|by eapply frame_trans].
  destruct (r_categories sres); [by eapply frame_trans|].
  unfold_M. destruct (_merge_results _ _); by eapply frame_trans.
Qed.

Lemma dispatch_frame (use_mode : string) (product : Product) (c : float)
    (self : ProductMapper) :
  frame self (snd (dispatch list_set use_mode product c self)).
Proof.
  unfold dispatch. destruct (String.eqb use_mode "deterministic").
  - apply deterministic_frame.
  - destruct (String.eqb use_mode "semantic");
      [apply semantic_frame|apply hybrid_frame].
Qed.

(** The short-circuit of the hybrid mode. *)
Lemma hybrid_short_circuit (product : Product) (c : float) (self self' : ProductMapper)
    (res : MapResult) :
  _map_deterministic list_set product c self = (Ok res, self') ->
  existsb (fun m => ge (m_confidence m) CONFIDENCE_HIGH) (r_categories res) = true ->
  _map_hybrid list_set product c self = (Ok res, self').
Proof.
  intros Hdet Hhigh. unfold _map_hybrid. unfold mbind at 1. unfold M_bind at 1.
  rewrite Hdet, Hhigh. reflexivity.
Qed.

End Modes.

Section Calls.
Variable list_set : list string -> list string.
Variable elapsed_ms : nat -> Z.

(** The try body, step by step. *)
Lemma try_body_run (product : Product) (key use_mode : string) (c : float) (inc : bool)
    (self : ProductMapper) :
  try_body list_set elapsed_ms product key use_mode c inc self =
    match dispatch list_set use_mode product c self with
    | (Raise e, s1) => (Raise e, s1)
    | (Ok res, s1) =>
        match _format_result (iab_version s1) res product inc with
        | Raise e => (Raise e, s1)
        | Ok formatted =>
            let s2 := snd (cache_write key formatted s1) in
            let s3 := with_stats (add_latency (elapsed_ms (clock_reads s2)) (stats s2))
                        (with_clock_read s2) in
            (Ok (stamp false (elapsed_ms (clock_reads s3)) formatted), with_clock_read s3)
        end
    end.
Proof.
  unfold try_body. unfold mbind at 1. unfold M_bind at 1.
  destruct (dispatch list_set use_mode product c self) as [[res|e] s1]; [|done].
  unfold_M. destruct (_format_result _ _ _ _) as [formatted|e]; [|done].
  unfold cache_write. destruct (cache s1) as [cm|]; [|done].
  destruct (success formatted); done.
Qed.

Lemma cache_write_frame (key : string) (formatted : Envelope) (self : ProductMapper) :
  let self' := snd (cache_write key formatted self) in
  stats self' = stats self /\ client_calls self' = client_calls self
  /\ clock_reads self' = clock_reads self
  /\ (success formatted = false -> self' = self).
Proof.
  unfold cache_write. destruct (cache self) as [cm|]; [|done].
  destruct (success formatted); done.
Qed.

Lemma cache_probe_frame (key : string) (self : ProductMapper) :
  let self' := snd (cache_probe key self) in
  stats self' = stats self /\ client_calls self' = client_calls self
  /\ clock_reads self' = clock_reads self /\ mapping_mode self' = mapping_mode self
  /\ min_confidence self' = min_confidence self /\ client self' = client self
  /\ cache_store self' = cache_store self /\ cache_sets self' = cache_sets self.
Proof.
  unfold cache_probe, cache_store, cache_sets. destruct (cache self) as [cm|] eqn:Hc.
  - unfold Cache.get. destruct (negb (enabled cm)); [cbn; by rewrite ?Hc|].
    destruct (store cm !! _make_key key); cbn; by rewrite ?Hc.
  - cbn. by rewrite ?Hc.
Qed.

Lemma cache_probe_never_raises (key : string) (self : ProductMapper) :
  exists hit, fst (cache_probe key self) = Ok hit.
Proof.
  unfold cache_probe. destruct (cache self) as [cm|]; [|by eexists].
  destruct (Cache.get key cm). by eexists.
Qed.

(** When the try body raises, the mapper is as the mode dispatch left it. *)
Lemma try_body_raise (product : Product) (key use_mode : string) (c : float) (inc : bool)
    (self : ProductMapper) (e : exn) :
  fst (try_body list_set elapsed_ms product key use_mode c inc self) = Raise e ->
  frame self (snd (try_body list_set elapsed_ms product key use_mode c inc self)).
Proof.
  rewrite try_body_run.
  pose proof (dispatch_frame list_set use_mode product c self) as Hd.
  destruct (dispatch list_set use_mode product c self) as [[res|e'] s1]; [|done].
  destruct (_format_result _ _ _ _); [done|]. done.
Qed.

(** map_product, case by case. *)
Lemma map_product_missing (title description category brand : option string)
    (keywords : option (list string)) (mode : option string) (min_conf : option float)
    (inc : bool) (self : ProductMapper) :
  PyStr.truthy_opt title = false -> PyStr.truthy_opt description = false ->
  map_product list_set elapsed_ms title description category brand keywords mode
    min_conf inc self
  = (missing_input, with_stats (count_error (count_request (stats self))) self).
Proof. intros Ht Hd. unfold map_product. rewrite Ht, Hd. reflexivity. Qed.

Lemma map_product_hit (title description category brand : option string)
    (keywords : option (list string)) (mode : option string) (min_conf : option float)
    (inc : bool) (self : ProductMapper) (hit : Envelope) :
  let product := build_product title description category brand keywords in
  let self0 := with_stats (count_request (stats self)) self in
  let self1 := snd (cache_probe (create_cache_key product) self0) in
  PyStr.truthy_opt title || PyStr.truthy_opt description = true ->
  fst (cache_probe (create_cache_key product) self0) = Ok (Some hit) ->
  map_product list_set elapsed_ms title description category brand keywords mode
    min_conf inc self
  = (stamp true (elapsed_ms (clock_reads self1)) hit,
     with_clock_read (with_stats (count_cache_hit (stats self1)) self1)).
Proof.
  intros product self0 self1 Hv Hp. unfold map_product.
  replace (negb (PyStr.truthy_opt title) && negb (PyStr.truthy_opt description))
    with false by (destruct (PyStr.truthy_opt title), (PyStr.truthy_opt description); done).
  fold product. fold self0. subst self1.
  destruct (cache_probe (create_cache_key product) self0) as [[[h|]|e] s]; cbn in *;
    congruence.
Qed.

Lemma map_product_miss (title description category brand : option string)
    (keywords : option (list string)) (mode : option string) (min_conf : option float)
    (inc : bool) (self : ProductMapper) :
  let product := build_product title description category brand keywords in
  let self0 := with_stats (count_request (stats self)) self in
  let self1 := snd (cache_probe (create_cache_key product) self0) in
  PyStr.truthy_opt title || PyStr.truthy_opt description = true ->
  fst (cache_probe (create_cache_key product) self0) = Ok None ->
  map_product list_set elapsed_ms title description category brand keywords mode
    min_conf inc self
  = guarded list_set elapsed_ms product (create_cache_key product)
      (choose_mode mode self1) (default (min_confidence self1) min_conf) inc self1.
Proof.
  intros product self0 self1 Hv Hp. unfold map_product.
  replace (negb (PyStr.truthy_opt title) && negb (PyStr.truthy_opt description))
    with false by (destruct (PyStr.truthy_opt title), (PyStr.truthy_opt description); done).
  fold product. fold self0. subst self1.
  destruct (cache_probe (create_cache_key product) self0) as [[[h|]|e] s]; cbn in *;
    congruence.
Qed.

(** C2, as the code has it.  When title and description are each None or the
    empty string, as passed and before any trimming, map_product returns the
    MissingInput envelope whatever the other arguments are; it counts the request
    and one error and changes nothing else. *)
Theorem missing_input_when_title_and_description_empty
    (title description category brand : option string) (keywords : option (list string))
    (mode : option string) (min_conf : option float) (inc : bool) (self : ProductMapper) :
  PyStr.truthy_opt title = false -> PyStr.truthy_opt description = false ->
  map_product list_set elapsed_ms title description category brand keywords mode
    min_conf inc self
  = ({| success := false; error := Some "At least title or description is required";
        iab_product := None; source := None; input := None; cached := None;
        latency_ms := None |},
     with_stats (count_error (count_request (stats self))) self).
Proof.
  intros Ht Hd. unfold map_product.
  (* the validation runs first, on the arguments as passed *)
  rewrite Ht, Hd. cbn [negb andb].
  unfold missing_input. reflexivity.
Qed.

Lemma guarded_raise (product : Product) (key use_mode : string) (c : float) (inc : bool)
    (self : ProductMapper) (e : exn) :
  fst (try_body list_set elapsed_ms product key use_mode c inc self) = Raise e ->
  let out := guarded list_set elapsed_ms product key use_mode c inc self in
  fst out = failure e (elapsed_ms (clock_reads self))
  /\ errors (stats (snd out)) = errors (stats self) + 1
  /\ cache (snd out) = cache self.
Proof.
  intros Hr. pose proof (try_body_raise _ _ _ _ _ _ _ Hr) as Hf.
  unfold guarded.
  destruct (try_body list_set elapsed_ms product key use_mode c inc self) as [[env|e'] s'];
    cbn [fst snd] in *; [done|].
  injection Hr as ->. unfold frame in Hf. destruct_and!.
  cbn [fst snd with_clock_read with_stats clock_reads stats cache count_error errors].
  repeat split; congruence.
Qed.

Lemma guarded_failure_keeps_cache (product : Product) (key use_mode : string) (c : float)
    (inc : bool) (self : ProductMapper) :
  let out := guarded list_set elapsed_ms product key use_mode c inc self in
  success (fst out) = false -> cache (snd out) = cache self.
Proof.
  cbv zeta.
  destruct (fst (try_body list_set elapsed_ms product key use_mode c inc self)) eqn:Ht.
  - unfold guarded. rewrite try_body_run in *.
    pose proof (dispatch_frame list_set use_mode product c self) as Hd.
    destruct (dispatch list_set use_mode product c self) as [[res|e'] s1]; [|done].
    destruct (_format_result _ _ _ _) as [formatted|e']; [|done].
    cbn [fst snd stamp success].
    intros Hs. destruct (cache_write_frame key formatted s1) as (_ & _ & _ & Hsame).
    rewrite (Hsame Hs).
    cbn [with_clock_read with_stats cache]. unfold frame in Hd. by destruct_and!.
  - intros _. by destruct (guarded_raise _ _ _ _ _ _ _ Ht) as (_ & _ & ?).
Qed.

(** C8.  When the body of the try statement of map_product raises (the
    classifier, or any step of mode dispatch or formatting), the call returns the
    failure envelope with the message of the exception and a latency, counts one
    error, and writes nothing to the cache; and no call that returns a failure
    envelope, NoMatch included, writes to the cache. *)
Theorem failures_are_caught_and_never_cached
    (title description category brand : option string) (keywords : option (list string))
    (mode : option string) (min_conf : option float) (inc : bool) (self : ProductMapper) :
  let product := build_product title description category brand keywords in
  let key := create_cache_key product in
  let self0 := with_stats (count_request (stats self)) self in
  let self1 := snd (cache_probe key self0) in
  let out := map_product list_set elapsed_ms title description category brand keywords
               mode min_conf inc self in
  (forall e,
     PyStr.truthy_opt title || PyStr.truthy_opt description = true ->
     fst (cache_probe key self0) = Ok None ->
     fst (try_body list_set elapsed_ms product key (choose_mode mode self1)
            (default (min_confidence self1) min_conf) inc self1) = Raise e ->
     fst out = {| success := false; error := Some (exn_str e); iab_product := None;
                  source := None; input := None; cached := None;
                  latency_ms := Some (elapsed_ms (clock_reads self)) |}
     /\ errors (stats (snd out)) = errors (stats self) + 1
     /\ cache_store (snd out) = cache_store self
     /\ cache_sets (snd out) = cache_sets self)
  /\ (success (fst out) = false ->
      cache_store (snd out) = cache_store self /\ cache_sets (snd out) = cache_sets self).
Proof.
  intros product key self0 self1 out.
  pose proof (cache_probe_frame key self0) as (Hst & _ & Hck & _ & _ & _ & Hstore & Hsets).
  fold self1 in Hst, Hck, Hstore, Hsets.
  assert (Hcache : forall s, cache s = cache self1 ->
            cache_store s = cache_store self /\ cache_sets s = cache_sets self).
  { intros s Hs. unfold cache_store, cache_sets in *. rewrite Hs. done. }
  split.
  - intros e Hv Hmiss Hr. subst out.
    rewrite (map_product_miss _ _ _ _ _ _ _ _ _ Hv Hmiss).
    destruct (guarded_raise _ _ _ _ _ _ _ Hr) as (Henv & Herr & Hc).
    fold product key self0 self1 in Henv, Herr, Hc |- *.
    rewrite Henv, Herr, Hst, Hck. destruct (Hcache _ Hc) as [-> ->]. done.
  - subst out. intros Hfail.
    destruct (PyStr.truthy_opt title || PyStr.truthy_opt description) eqn:Hv.
    + destruct (cache_probe_never_raises key self0) as [[hit|] Hp].
      * rewrite (map_product_hit _ _ _ _ _ _ _ _ _ _ Hv Hp). cbn [snd].
        apply Hcache. done.
      * rewrite (map_product_miss _ _ _ _ _ _ _ _ _ Hv Hp) in Hfail |- *.
        apply Hcache. by apply guarded_failure_keeps_cache.
    + apply orb_false_elim in Hv as [Ht Hd].
      rewrite (map_product_missing _ _ _ _ _ _ _ _ _ Ht Hd). done.
Qed.

End Calls.

Section Hybrid.
Variable list_set : list string -> list string.
Variable elapsed_ms : nat -> Z.

(** Formatting a result that has categories gives a success envelope for the
    first of them, under the source of the result. *)
Lemma format_first_category (ver : string) (res : MapResult) (product : Product)
    (inc : bool) (formatted : Envelope) (m : Match) (ms : list Match) :
  r_categories res = m :: ms ->
  _format_result ver res product inc = Ok formatted ->
  success formatted = true /\ source formatted = Some (r_source res)
  /\ exists ip, iab_product formatted = Some ip /\ primary_id ip = m_id m
                /\ confidence ip = m_confidence m.
Proof.
  intros Hc Hf. unfold _format_result in Hf. rewrite Hc in Hf.
  unfold mbind, result_bind in Hf.
  destruct (get_category_label _); [|done].
  destruct (get_tier1_parent _); [|done].
  destruct (inc && bool_decide (1 < length (m :: ms))%nat).
  - destruct (map_result _ _); [|done]. injection Hf as <-. cbn.
    split; [done|]. split; [done|]. eexists. split; [reflexivity|]. done.
  - injection Hf as <-. cbn.
    split; [done|]. split; [done|]. eexists. split; [reflexivity|]. done.
Qed.

Lemma dispatch_hybrid_confident (use_mode : string) (product : Product) (c : float)
    (self self0 : ProductMapper) (r : MapResult) :
  String.eqb use_mode "deterministic" = false ->
  String.eqb use_mode "semantic" = false ->
  fst (_map_deterministic list_set product c self0) = Ok r ->
  existsb (fun m => ge (m_confidence m) CONFIDENCE_HIGH) (r_categories r) = true ->
  dispatch list_set use_mode product c self
  = dispatch list_set "deterministic" product c self
  /\ fst (dispatch list_set "deterministic" product c self) = Ok r.
Proof.
  intros Hd Hs Hr Hhigh. unfold dispatch. rewrite Hd, Hs.
  change (String.eqb "deterministic" "deterministic") with true. cbv iota.
  rewrite (deterministic_result_independent list_set product c self0 self) in Hr.
  destruct (_map_deterministic list_set product c self) as [res s1] eqn:Hdet.
  cbn [fst] in Hr. subst res. split; [|done].
  by apply hybrid_short_circuit.
Qed.

Lemma guarded_deterministic_no_call (product : Product) (key : string) (c : float)
    (inc : bool) (self : ProductMapper) :
  client_calls (snd (guarded list_set elapsed_ms product key "deterministic" c inc self))
  = client_calls self.
Proof.
  unfold guarded. rewrite try_body_run. unfold dispatch.
  change (String.eqb "deterministic" "deterministic") with true. cbv iota.
  destruct (deterministic_frame list_set product c self) as [_ Hcalls].
  destruct (_map_deterministic list_set product c self) as [[res|e] s1]; cbn [snd] in *;
    [|done].
  destruct (_format_result _ _ _ _) as [formatted|e]; [|done].
  destruct (cache_write_frame key formatted s1) as (_ & Hw & _).
  cbn [snd with_clock_read with_stats client_calls]. congruence.
Qed.

(** C5.  A map_product call in hybrid mode, on a product whose deterministic
    phase yields a match of confidence at least 0.9, returns what the same call
    in deterministic mode returns and leaves the mapper in the same state; the
    classifier is not called; and the envelope, when it is computed and not
    taken from the cache, is the success envelope of source deterministic. *)
Theorem hybrid_keeps_confident_deterministic_result
    (title description category brand : option string) (keywords : option (list string))
    (mode : option string) (min_conf : option float) (inc : bool) (self : ProductMapper)
    (r : MapResult) :
  let product := build_product title description category brand keywords in
  let hybrid_call := map_product list_set elapsed_ms title description category brand
                       keywords mode min_conf inc self in
  String.eqb (choose_mode mode self) "deterministic" = false ->
  String.eqb (choose_mode mode self) "semantic" = false ->
  fst (_map_deterministic list_set product (default (min_confidence self) min_conf) self)
    = Ok r ->
  existsb (fun m => ge (m_confidence m) 0.9%float) (r_categories r) = true ->
  hybrid_call = map_product list_set elapsed_ms title description category brand
                  keywords (Some "deterministic") min_conf inc self
  /\ client_calls (snd hybrid_call) = client_calls self
  /\ (cached (fst hybrid_call) = Some false ->
      success (fst hybrid_call) = true
      /\ source (fst hybrid_call) = Some "deterministic").
Proof.
  intros product hybrid_call Hd Hs Hr Hhigh. subst hybrid_call.
  set (self0 := with_stats (count_request (stats self)) self).
  set (key := create_cache_key product).
  pose proof (cache_probe_frame key self0) as (_ & Hcalls & _ & Hmode & Hconf & _).
  destruct (PyStr.truthy_opt title || PyStr.truthy_opt description) eqn:Hv.
  2:{ apply orb_false_elim in Hv as [Ht Hdn].
      rewrite !(map_product_missing _ _ _ _ _ _ _ _ _ _ _ Ht Hdn). done. }
  destruct (cache_probe_never_raises key self0) as [[hit|] Hp].
  { rewrite !(map_product_hit _ _ _ _ _ _ _ _ _ _ _ _ Hv Hp).
    cbn [fst snd stamp cached with_clock_read with_stats client_calls].
    fold product key self0. rewrite Hcalls. done. }
  rewrite !(map_product_miss _ _ _ _ _ _ _ _ _ _ _ Hv Hp).
  fold product key self0.
  set (self1 := snd (cache_probe key self0)) in *.
  assert (Hm1 : choose_mode mode self1 = choose_mode mode self).
  { unfold choose_mode. by rewrite Hmode. }
  assert (Hm2 : choose_mode (Some "deterministic") self1 = "deterministic") by done.
  rewrite Hm1, Hm2, Hconf. cbn [min_confidence with_stats self0].
  set (c := default (min_confidence self) min_conf) in *.
  destruct (dispatch_hybrid_confident (choose_mode mode self) product c self1 self r
              Hd Hs Hr Hhigh) as [Hdisp Hres].
  assert (Hg : guarded list_set elapsed_ms product key (choose_mode mode self) c inc self1
               = guarded list_set elapsed_ms product key "deterministic" c inc self1).
  { unfold guarded. rewrite !try_body_run, Hdisp. done. }
  rewrite Hg. split; [done|]. split.
  - rewrite guarded_deterministic_no_call. exact Hcalls.
  - unfold guarded. rewrite try_body_run.
    destruct (dispatch list_set "deterministic" product c self1) as [[res|e] s1];
      cbn [fst] in Hres; [|done].
    injection Hres as ->.
    destruct (_format_result (iab_version s1) r product inc) as [formatted|e] eqn:Hf;
      [|done].
    cbn [fst stamp cached success source]. intros _.
    destruct (r_categories r) as [|m ms] eqn:Hcats; [done|].
    destruct (format_first_category _ _ _ _ _ _ _ Hcats Hf) as (-> & -> & _).
    split; [done|]. f_equal.
    apply (deterministic_source list_set product c self). done.
Qed.


End Hybrid.

Section Caching.
Variable list_set : list string -> list string.
Variable elapsed_ms : nat -> Z.

Lemma create_cache_key_fields (p q : Product) :
  normalized_fields p = normalized_fields q -> create_cache_key p = create_cache_key q.
Proof. unfold create_cache_key. by intros ->. Qed.

Lemma create_cache_key_build_product (title description category brand brand' : option string)
    (keywords keywords' : option (list string)) :
  create_cache_key (build_product title description category brand keywords)
  = create_cache_key (build_product title description category brand' keywords').
Proof. apply create_cache_key_fields. reflexivity. Qed.

(** A call on a product whose key is in the cache returns the entry, stamped. *)
Lemma map_product_cached (title description category brand : option string)
    (keywords : option (list string)) (mode : option string) (min_conf : option float)
    (inc : bool) (self : ProductMapper) (cm : CacheManager Envelope) (entry : Envelope) :
  PyStr.truthy_opt title || PyStr.truthy_opt description = true ->
  cache self = Some cm -> enabled cm = true ->
  store cm !! _make_key
                (create_cache_key (build_product title description category brand keywords))
    = Some entry ->
  fst (map_product list_set elapsed_ms title description category brand keywords mode
         min_conf inc self)
  = stamp true (elapsed_ms (clock_reads self)) entry.
Proof.
  intros Hv Hc Hen Hlook.
  assert (Hp : cache_probe
                 (create_cache_key (build_product title description category brand keywords))
                 (with_stats (count_request (stats self)) self)
               = (Ok (Some entry),
                  with_cache (Some (count_hit cm))
                    (with_stats (count_request (stats self)) self))).
  { unfold cache_probe. cbn [cache with_stats]. rewrite Hc. unfold Cache.get.
    rewrite Hen, Hlook. reflexivity. }
  rewrite (map_product_hit _ _ _ _ _ _ _ _ _ _ _ entry Hv); rewrite Hp; done.
Qed.

(** C10.  The cache key is a function of the normalized title, description and
    category alone: two calls that agree on title, description and category get
    the same key whatever their brand, keywords, mode, min_confidence and
    include_secondary are; so, with the cache enabled, after a call that
    succeeded the second call returns the envelope of the first, marked cached. *)
Theorem cache_key_ignores_brand_keywords_and_mode
    (title description category brand brand' : option string)
    (keywords keywords' : option (list string)) (mode mode' : option string)
    (min_conf min_conf' : option float) (inc inc' : bool) (self : ProductMapper) :
  let first := map_product list_set elapsed_ms title description category brand keywords
                 mode min_conf inc self in
  (forall p q, normalized_fields p = normalized_fields q ->
               create_cache_key p = create_cache_key q)
  /\ create_cache_key (build_product title description category brand keywords)
     = create_cache_key (build_product title description category brand' keywords')
  /\ (forall cm, cache self = Some cm -> enabled cm = true ->
        success (fst first) = true ->
        fst (map_product list_set elapsed_ms title description category brand' keywords'
               mode' min_conf' inc' (snd first))
        = stamp true (elapsed_ms (clock_reads (snd first))) (fst first)).
Proof.
  intros first. split; [exact create_cache_key_fields|].
  split; [apply create_cache_key_build_product|].
  intros cm Hc Hen Hok. subst first.
  set (product := build_product title description category brand keywords) in *.
  set (key := create_cache_key product) in *.
  set (self0 := with_stats (count_request (stats self)) self).
  destruct (PyStr.truthy_opt title || PyStr.truthy_opt description) eqn:Hv.
  2:{ apply orb_false_elim in Hv as [Ht Hd].
      rewrite (map_product_missing _ _ _ _ _ _ _ _ _ _ _ Ht Hd) in Hok. done. }
  assert (Hkey : create_cache_key (build_product title description category brand' keywords')
                 = key) by apply create_cache_key_build_product.
  destruct (store cm !! _make_key key) as [entry|] eqn:Hlook.
  - (* the first call was itself served from the cache *)
    assert (Hp : cache_probe key self0
                 = (Ok (Some entry), with_cache (Some (count_hit cm)) self0)).
    { unfold cache_probe. cbn [cache with_stats self0]. rewrite Hc. unfold Cache.get.
      rewrite Hen, Hlook. reflexivity. }
    pose proof (map_product_hit list_set elapsed_ms title description category brand
                  keywords mode min_conf inc self entry Hv) as Hfirst.
    fold product key self0 in Hfirst. rewrite Hp in Hfirst.
    rewrite (Hfirst eq_refl). cbn [fst snd].
    rewrite (map_product_cached title description category brand' keywords' mode'
               min_conf' inc' _ (count_hit cm) entry Hv);
      [reflexivity|reflexivity|exact Hen|].
    rewrite Hkey. exact Hlook.
  - (* the first call computed its envelope and stored it *)
    assert (Hp : cache_probe key self0 = (Ok None, with_cache (Some (count_miss cm)) self0)).
    { unfold cache_probe. cbn [cache with_stats self0]. rewrite Hc. unfold Cache.get.
      rewrite Hen, Hlook. reflexivity. }
    pose proof (map_product_miss list_set elapsed_ms title description category brand
                  keywords mode min_conf inc self Hv) as Hfirst.
    fold product key self0 in Hfirst. rewrite Hp in Hfirst.
    specialize (Hfirst eq_refl). cbn [snd] in Hfirst.
    rewrite Hfirst in Hok |- *. clear Hfirst.
    set (self1 := with_cache (Some (count_miss cm)) self0) in *.
    set (use_mode := choose_mode mode self1) in *.
    set (c := default (min_confidence self1) min_conf) in *.
    unfold guarded in Hok |- *. rewrite try_body_run in Hok |- *.
    pose proof (dispatch_frame list_set use_mode product c self1) as Hf.
    destruct (dispatch list_set use_mode product c self1) as [[res|e] s1]; [|done].
    destruct (_format_result (iab_version s1) res product inc) as [formatted|e]; [|done].
    cbn [fst snd stamp success] in Hok |- *.
    assert (Hc1 : cache s1 = Some (count_miss cm)).
    { assert (cache self1 = Some (count_miss cm)) by reflexivity.
      unfold frame in Hf. cbn [snd] in Hf. destruct_and!. congruence. }
    rewrite (map_product_cached title description category brand' keywords' mode'
               min_conf' inc' _ (Cache.set key formatted (count_miss cm)) formatted Hv);
      [reflexivity| | |].
    + cbn [with_clock_read with_stats cache]. unfold cache_write. rewrite Hc1, Hok.
      cbn [snd with_cache cache]. reflexivity.
    + unfold Cache.set. cbn [enabled count_miss]. rewrite Hen. cbn [negb enabled]. done.
    + unfold Cache.set. cbn [enabled count_miss]. rewrite Hen. cbn [negb store].
      rewrite Hkey. apply lookup_insert_eq.
Qed.

End Caching.

Lemma missing_input_despite_other_fields :
  PyStr.truthy_opt (Some "") = false /\ PyStr.truthy_opt None = false
  /\ map_product first_seen (steady_clock 0) (Some "") None (Some "Phones") (Some "Acme")
       (Some ["smartphone"]) (Some "deterministic") (Some 0.5%float) true default_mapper
     = ({| success := false; error := Some "At least title or description is required";
           iab_product := None; source := None; input := None; cached := None;
           latency_ms := None |},
        with_stats (count_error (count_request (stats default_mapper))) default_mapper).
Proof.
  split; [reflexivity|]. split; [reflexivity|].
  exact (missing_input_when_title_and_description_empty first_seen (steady_clock 0)
           (Some "") None (Some "Phones") (Some "Acme") (Some ["smartphone"])
           (Some "deterministic") (Some 0.5%float) true default_mapper eq_refl eq_refl).
Defined.

(** C2, as stated, fails: a title of blanks is empty after trimming, yet the
    call is not rejected; with a keyword it succeeds, without one it fails with
    NoMatch. *)
Lemma blank_title_is_not_missing_input :
  PyStr.strip "   " = ""
  /\ success (fst (map_product first_seen (steady_clock 0) (Some "   ") None None None
                     (Some ["smartphone"]) None None true default_mapper)) = true
  /\ error (fst (map_product first_seen (steady_clock 0) (Some "   ") None None None
                   None None None true default_mapper))
     = Some "No matching category found".
Proof. repeat split; vm_compute; reflexivity. Qed.

Lemma classifier_failure_is_caught :
  fst (map_product first_seen (steady_clock 7) (Some "zzz unknown thing") None None None
         None None None true keyed_mapper)
  = {| success := false; error := Some "classifier unreachable"; iab_product := None;
       source := None; input := None; cached := None; latency_ms := Some 7 |}
  /\ errors (stats (snd (map_product first_seen (steady_clock 7) (Some "zzz unknown thing")
                           None None None None None None true keyed_mapper))) = 1
  /\ cache_store (snd (map_product first_seen (steady_clock 7) (Some "zzz unknown thing")
                         None None None None None None true keyed_mapper)) = Some ∅.
Proof.
  destruct (failures_are_caught_and_never_cached first_seen (steady_clock 7)
              (Some "zzz unknown thing") None None None None None None true keyed_mapper)
    as [Hraise _].
  destruct (Hraise (PyExn "ConnectionError" "classifier unreachable"))
    as (H1 & H2 & H3 & _); [reflexivity|vm_compute; reflexivity|vm_compute; reflexivity|].
  split; [exact H1|]. split; [exact H2|exact H3].
Defined.

Lemma hybrid_smartphone_skips_classifier :
  map_product first_seen (steady_clock 0) (Some "Test smartphone") None None None None
    None None true keyed_mapper
  = map_product first_seen (steady_clock 0) (Some "Test smartphone") None None None None
      (Some "deterministic") None true keyed_mapper
  /\ client_calls (snd (map_product first_seen (steady_clock 0) (Some "Test smartphone")
                          None None None None None None true keyed_mapper)) = []
  /\ source (fst (map_product first_seen (steady_clock 0) (Some "Test smartphone")
                    None None None None None None true keyed_mapper))
     = Some "deterministic".
Proof.
  edestruct (hybrid_keeps_confident_deterministic_result first_seen (steady_clock 0)
               (Some "Test smartphone") None None None None None None true keyed_mapper)
    as (H1 & H2 & H3);
    [reflexivity|reflexivity|vm_compute; reflexivity|vm_compute; reflexivity|].
  split; [exact H1|]. split; [exact H2|].
  apply H3. vm_compute. reflexivity.
Defined.

Lemma second_call_is_served_from_cache :
  create_cache_key (build_product (Some "Test smartphone") None None None None)
  = create_cache_key (build_product (Some "Test smartphone") None None (Some "Acme")
                        (Some ["hotel"]))
  /\ cached (fst (map_product first_seen (steady_clock 0) (Some "Test smartphone") None
                    None (Some "Acme") (Some ["hotel"]) (Some "semantic") (Some 0.99%float)
                    false
                    (snd (map_product first_seen (steady_clock 0) (Some "Test smartphone")
                            None None None None None None true default_mapper))))
     = Some true
  /\ iab_product (fst (map_product first_seen (steady_clock 0) (Some "Test smartphone") None
                    None (Some "Acme") (Some ["hotel"]) (Some "semantic") (Some 0.99%float)
                    false
                    (snd (map_product first_seen (steady_clock 0) (Some "Test smartphone")
                            None None None None None None true default_mapper))))
     = iab_product (fst (map_product first_seen (steady_clock 0) (Some "Test smartphone")
                            None None None None None None true default_mapper)).
Proof.
  destruct (cache_key_ignores_brand_keywords_and_mode first_seen (steady_clock 0)
              (Some "Test smartphone") None None None (Some "Acme") None (Some ["hotel"])
              None (Some "semantic") None (Some 0.99%float) true false default_mapper)
    as (_ & Hkey & Hsecond).
  split; [exact Hkey|].
  rewrite (Hsecond (Cache.new 10000 3600 true) eq_refl eq_refl)
    by (vm_compute; reflexivity).
  split; reflexivity.
Defined.

End MapperFacts.

(** ** Floats: the order of the numbers *)
Module FloatFacts.
Import Py Notions.

Lemma SFcompare_rank (f1 f2 : spec_float) :
  f1 <> S754_nan -> f2 <> S754_nan ->
  match SFcompare f1 f2 with
  | Some Lt => lex_lt (rank f1) (rank f2)
  | Some Eq => rank f1 = rank f2
  | Some Gt => lex_lt (rank f2) (rank f1)
  | None => False
  end.
Proof.
  intros H1 H2.
  destruct f1 as [s1|[]| |[] m1 e1], f2 as [s2|[]| |[] m2 e2]; try done;
    cbn [SFcompare rank lex_lt]; try lia;
    change (Pos.compare_cont Eq m1 m2) with (Pos.compare m1 m2);
    destruct (Z.compare_spec e1 e2); destruct (Pos.compare_spec m1 m2);
    cbn [CompOpp]; subst; try lia; try (f_equal; lia).
Qed.

Section Order.
Context (x y : float) (Hx : number x) (Hy : number y).

Lemma ltb_rank : (x <? y)%float = true <-> lex_lt (rank (Prim2SF x)) (rank (Prim2SF y)).
Proof.
  rewrite ltb_spec. unfold SFltb.
  pose proof (SFcompare_rank _ _ Hx Hy) as H.
  pose proof (SFcompare_rank _ _ Hy Hx) as H'.
  destruct (SFcompare (Prim2SF x) (Prim2SF y)) as [[]|]; [| | |done].
  - split; [done|]. rewrite H. intros Hl.
    destruct (rank (Prim2SF y)) as [[a b] c]. cbn in Hl. lia.
  - done.
  - split; [done|]. intros Hl.
    destruct (rank (Prim2SF x)) as [[a b] c], (rank (Prim2SF y)) as [[a' b'] c'].
    cbn in *. lia.
Qed.

Lemma leb_rank : (x <=? y)%float = true <-> ~ lex_lt (rank (Prim2SF y)) (rank (Prim2SF x)).
Proof.
  rewrite leb_spec. unfold SFleb.
  pose proof (SFcompare_rank _ _ Hx Hy) as H.
  destruct (SFcompare (Prim2SF x) (Prim2SF y)) as [[]|]; [| | |done].
  - split; [|done]. intros _. rewrite H.
    destruct (rank (Prim2SF y)) as [[a b] c]. cbn. lia.
  - split; [|done]. intros _.
    destruct (rank (Prim2SF x)) as [[a b] c], (rank (Prim2SF y)) as [[a' b'] c'].
    cbn in *. lia.
  - split; [done|]. intros Hn. done.
Qed.

Lemma eqb_rank : (x =? y)%float = true <-> rank (Prim2SF x) = rank (Prim2SF y).
Proof.
  rewrite FloatAxioms.eqb_spec. unfold SFeqb.
  pose proof (SFcompare_rank _ _ Hx Hy) as H.
  destruct (SFcompare (Prim2SF x) (Prim2SF y)) as [[]|]; [| | |done].
  - done.
  - split; [done|]. intros He. rewrite He in H.
    destruct (rank (Prim2SF y)) as [[a b] c]. cbn in H. lia.
  - split; [done|]. intros He. rewrite He in H.
    destruct (rank (Prim2SF y)) as [[a b] c]. cbn in H. lia.
Qed.

End Order.

(** *** Sums of numbers *)

Lemma shr_1_nonneg (mrs : shr_record) : 0 <= shr_m mrs -> 0 <= shr_m (shr_1 mrs).
Proof. destruct mrs as [[|[]|[]] r s]; cbn; lia. Qed.

Lemma iter_pos_shr_1_nonneg (p : positive) (mrs : shr_record) :
  0 <= shr_m mrs -> 0 <= shr_m (SpecFloat.iter_pos shr_1 p mrs).
Proof.
  revert mrs. induction p as [p IH|p IH|]; intros mrs H; cbn [SpecFloat.iter_pos].
  - apply IH, IH, shr_1_nonneg, H.
  - apply IH, IH, H.
  - apply shr_1_nonneg, H.
Qed.

Lemma shr_fexp_nonneg (prec emax m e : Z) (l : location) :
  0 <= m -> 0 <= shr_m (fst (shr_fexp prec emax m e l)).
Proof.
  intros H. unfold shr_fexp, shr.
  assert (0 <= shr_m (shr_record_of_loc m l)) as H' by (by destruct l as [|[]]).
  destruct (_ - e); cbn [fst]; [done| |done].
  by apply iter_pos_shr_1_nonneg.
Qed.

Lemma round_nearest_even_nonneg (mx : Z) (lx : location) :
  0 <= mx -> 0 <= round_nearest_even mx lx.
Proof. intros H. destruct lx as [|[]]; cbn; [done| |done|lia]. destruct (Z.even mx); lia. Qed.

Lemma binary_round_aux_number (prec emax : Z) (sx : bool) (mx ex : Z) (lx : location) :
  0 <= mx -> binary_round_aux prec emax sx mx ex lx <> S754_nan.
Proof.
  intros H. unfold binary_round_aux.
  pose proof (shr_fexp_nonneg prec emax mx ex lx H) as H1.
  destruct (shr_fexp prec emax mx ex lx) as [mrs' e']. cbn [fst] in H1.
  pose proof (shr_fexp_nonneg prec emax _ e' loc_Exact
                (round_nearest_even_nonneg _ (loc_of_shr_record mrs') H1)) as H2.
  destruct (shr_fexp prec emax _ e' loc_Exact) as [mrs'' e'']. cbn [fst] in H2.
  destruct (shr_m mrs''); [done| |lia].
  by destruct (_ <=? _).
Qed.

Lemma binary_normalize_number (prec emax m e : Z) (szero : bool) :
  binary_normalize prec emax m e szero <> S754_nan.
Proof.
  destruct m; cbn [binary_normalize]; [done| |]; unfold binary_round;
    destruct (shl_align _ _ _); by apply binary_round_aux_number.
Qed.

(** Adding a finite number to a number gives a number. *)
Lemma add_number (x y : float) (s : bool) (m : positive) (e : Z) :
  number x -> Prim2SF y = S754_finite s m e -> number (x + y).
Proof.
  unfold number. intros Hx Hy. rewrite add_spec, Hy. unfold SF64add.
  destruct (Prim2SF x); cbn [SFadd]; [done|done|done|].
  apply binary_normalize_number.
Qed.

Lemma min_number (a b : float) : number a -> number b -> number (Py.min a b).
Proof. intros Ha Hb. unfold Py.min. by destruct (_ <? _)%float. Qed.

(** The confidence of a category that both sources found is a number. *)
Lemma boosted_number (c : float) : number c -> number (Py.min 0.99 (c + 0.1)).
Proof.
  intros Hc. apply min_number; [by vm_compute|].
  by eapply add_number; [|vm_compute; reflexivity].
Qed.

End FloatFacts.

(** ** Sorting by a key, largest first *)
Module SortFacts.
Import Py.

Section Sorting.
Context {A K : Type} (lt : K -> K -> bool) (key : A -> K).

#[local] Abbreviation before := (Notions.before lt key).

Lemma insert_desc_Permutation (x : A) (l : list A) :
  insert_desc lt key x l ≡ₚ x :: l.
Proof.
  induction l as [|y l IH]; cbn [insert_desc]; [done|].
  destruct (lt (key x) (key y)); [|done].
  rewrite IH. apply Permutation_swap.
Qed.

Lemma sort_desc_Permutation (l : list A) : sort_desc lt key l ≡ₚ l.
Proof.
  induction l as [|x l IH]; [done|].
  unfold sort_desc in *. cbn [foldr]. by rewrite insert_desc_Permutation, IH.
Qed.

(** On keys that are comparable the list comes out descending. *)
Context (comparable : K -> Prop).
Context (lt_asym : forall a b, comparable a -> comparable b ->
                     lt a b = true -> lt b a = false).
Context (lt_trans : forall a b c, comparable a -> comparable b -> comparable c ->
                      lt a b = false -> lt b c = false -> lt a c = false).

Lemma insert_desc_sorted (x : A) (l : list A) :
  comparable (key x) -> Forall (fun a => comparable (key a)) l ->
  StronglySorted before l -> StronglySorted before (insert_desc lt key x l).
Proof.
  intros Hx Hl Hs. induction Hs as [|y l Hs IH Hy]; cbn [insert_desc].
  - by repeat constructor.
  - apply Forall_cons in Hl as [Hcy Hl].
    destruct (lt (key x) (key y)) eqn:Hlt.
    + constructor; [by apply IH|].
      rewrite insert_desc_Permutation. constructor; [|done].
      by apply lt_asym.
    + constructor; [by constructor|]. constructor; [done|].
      rewrite Forall_forall in Hy, Hl. apply Forall_forall. intros z Hz.
      apply (lt_trans _ (key y)); auto. by apply Hy.
Qed.

Lemma sort_desc_sorted (l : list A) :
  Forall (fun a => comparable (key a)) l -> StronglySorted before (sort_desc lt key l).
Proof.
  induction 1 as [|x l Hx Hl IH]; [constructor|].
  unfold sort_desc in *. cbn [foldr]. apply insert_desc_sorted; [done| |done].
  by rewrite (sort_desc_Permutation l).
Qed.

(** The sort is stable: entries of which none is smaller than another keep
    their order. *)
Context (P : A -> Prop) `{!forall a, Decision (P a)}.
Context (P_level : forall a b, P a -> P b -> lt (key a) (key b) = false).

Lemma insert_desc_stable (x : A) (l : list A) :
  filter P (insert_desc lt key x l) = filter P (x :: l).
Proof.
  induction l as [|y l IH]; cbn [insert_desc]; [done|].
  destruct (lt (key x) (key y)) eqn:Hlt; [|done].
  rewrite filter_cons, IH, !filter_cons.
  destruct (decide (P y)) as [Hy|Hy], (decide (P x)) as [Hx|Hx]; try done.
  by rewrite P_level in Hlt.
Qed.

Lemma sort_desc_stable (l : list A) :
  filter P (sort_desc lt key l) = filter P l.
Proof.
  induction l as [|x l IH]; [done|].
  unfold sort_desc in *. cbn [foldr].
  by rewrite insert_desc_stable, !filter_cons, IH.
Qed.

End Sorting.

End SortFacts.

(** ** The hybrid merge *)
Module MergeFacts.
Import Py Keywords Mapper Notions FloatFacts SortFacts.

Lemma elem_of_map {A B} (f : A -> B) (l : list A) (a : A) : a ∈ l -> f a ∈ map f l.
Proof. apply (list_elem_of_fmap_2 f). Qed.

Lemma elem_of_map_inv {A B} (f : A -> B) (l : list A) (b : B) :
  b ∈ map f l -> exists a, b = f a /\ a ∈ l.
Proof. apply (list_elem_of_fmap_1 f). Qed.

(** *** Dicts that remember the order of insertion *)

Section Dict.
Context `{EqDecision K} {V : Type}.
Implicit Types (k : K) (v : V) (d : list (K * V)).

Lemma dict_get_None k d : k ∉ map fst d -> dict_get k d = None.
Proof.
  induction d as [|[k' v'] d IH]; cbn [dict_get map fst]; [done|].
  rewrite not_elem_of_cons. intros [Hne Hd].
  destruct (decide (k = k')); [done|auto].
Qed.

Lemma dict_set_fresh k v d : k ∉ map fst d -> dict_set k v d = d ++ [(k, v)].
Proof.
  induction d as [|[k' v'] d IH]; cbn [dict_set map fst]; [done|].
  rewrite not_elem_of_cons. intros [Hne Hd].
  destruct (decide (k = k')); [done|]. by rewrite IH.
Qed.

Lemma dict_get_app_l k d d' :
  k ∈ map fst d -> dict_get k (d ++ d') = dict_get k d.
Proof.
  induction d as [|[k' v'] d IH]; cbn [dict_get map fst app].
  - by intros ?%elem_of_nil.
  - rewrite elem_of_cons. intros [->|Hd]; [by rewrite !decide_True|].
    destruct (decide (k = k')); [done|auto].
Qed.

Lemma dict_set_app_l k v d d' :
  k ∈ map fst d -> dict_set k v (d ++ d') = dict_set k v d ++ d'.
Proof.
  induction d as [|[k' v'] d IH]; cbn [dict_set map fst app].
  - by intros ?%elem_of_nil.
  - rewrite elem_of_cons. intros [->|Hd]; [by rewrite !decide_True|].
    destruct (decide (k = k')); [done|]. by rewrite IH.
Qed.

(** A dict laid out from a list [l] of things with distinct keys. *)
Context {A : Type} (key : A -> K).

Lemma dict_get_layout (f : A -> V) (l : list A) (a : A) :
  a ∈ l -> NoDup (map key l) ->
  dict_get (key a) (map (fun x => (key x, f x)) l) = Some (f a).
Proof.
  induction l as [|x l IH]; cbn [map dict_get].
  - by intros ?%elem_of_nil.
  - rewrite elem_of_cons, NoDup_cons. intros [->|Ha] [Hx Hl].
    + by rewrite decide_True.
    + rewrite decide_False; [by apply IH|].
      intros He. apply Hx. rewrite <- He. by apply elem_of_map.
Qed.

Lemma dict_set_layout (f g : A -> V) (l : list A) (a : A) :
  a ∈ l -> NoDup (map key l) ->
  dict_set (key a) (g a) (map (fun x => (key x, f x)) l)
  = map (fun x => (key x, if decide (key x = key a) then g x else f x)) l.
Proof.
  induction l as [|x l IH]; cbn [map dict_set].
  - by intros ?%elem_of_nil.
  - rewrite elem_of_cons, NoDup_cons. intros [->|Ha] [Hx Hl].
    + rewrite !decide_True by done. f_equal.
      apply map_ext_in. intros y Hy%list_elem_of_In. rewrite decide_False; [done|].
      intros He. apply Hx. rewrite <- He. by apply elem_of_map.
    + assert (key a <> key x) as Hne.
      { intros He. apply Hx. rewrite <- He. by apply elem_of_map. }
      rewrite decide_False by done. rewrite (decide_False (P := key x = key a)) by done.
      f_equal. by apply IH.
Qed.

End Dict.

(** *** The dict of the merge *)

Lemma boost_only_deterministic (d : Match) : boost (only_deterministic d) = Ok (agreed d).
Proof. reflexivity. Qed.

Lemma keys_layout (f : Match -> Match) (l : list Match) :
  map fst (map (fun x => (m_id x, f x)) l) = ids l.
Proof. unfold ids. rewrite map_map. by apply map_ext. Qed.

Lemma values_layout (f : Match -> Match) (l : list Match) :
  map snd (map (fun x => (m_id x, f x)) l) = map f l.
Proof. rewrite map_map. by apply map_ext. Qed.

Lemma fold_add_deterministic (deterministic : list Match) (acc : list (Z * Match)) :
  NoDup (map fst acc ++ ids deterministic) ->
  fold_left add_deterministic deterministic acc
  = acc ++ map (fun d => (m_id d, only_deterministic d)) deterministic.
Proof.
  revert acc. induction deterministic as [|d l IH]; intros acc Hnd; cbn [fold_left map].
  - by rewrite app_nil_r.
  - unfold add_deterministic at 2. fold (only_deterministic d).
    assert (m_id d ∉ map fst acc) as Hd.
    { apply NoDup_app in Hnd as (_ & Hd & _). intros Hin. apply (Hd _ Hin).
      cbn. apply elem_of_cons. by left. }
    rewrite (dict_set_fresh _ _ _ Hd), IH.
    + by rewrite <- app_assoc.
    + rewrite map_app. cbn [map fst]. by rewrite <- app_assoc.
Qed.

Section Semantic.
Context (deterministic : list Match) (Hdet : NoDup (ids deterministic)).

#[local] Abbreviation merged_dict := (Notions.merged_dict deterministic).

Lemma merged_dict_nil :
  merged_dict [] = map (fun d => (m_id d, only_deterministic d)) deterministic.
Proof.
  unfold Notions.merged_dict. rewrite filter_nil. cbn [map]. rewrite app_nil_r.
  apply map_ext. intros d. rewrite decide_False; [done|]. apply not_elem_of_nil.
Qed.

Lemma ids_snoc (seen : list Match) (s : Match) (i : Z) :
  i ∈ ids (seen ++ [s]) <-> i ∈ ids seen \/ i = m_id s.
Proof.
  unfold ids. rewrite map_app, elem_of_app. cbn [map].
  by rewrite list_elem_of_singleton.
Qed.

Lemma add_semantic_step (seen : list Match) (s : Match) :
  m_id s ∉ ids seen ->
  add_semantic (merged_dict seen) s = Ok (merged_dict (seen ++ [s])).
Proof.
  intros Hs. unfold add_semantic, Notions.merged_dict.
  destruct (decide (m_id s ∈ ids deterministic)) as [Hin|Hout].
  - apply elem_of_map_inv in Hin as Hd. destruct Hd as (d & He & Hd).
    rewrite He in *.
    rewrite dict_get_app_l by (by rewrite keys_layout).
    rewrite (dict_get_layout m_id _ _ _ Hd Hdet).
    rewrite decide_False by done.
    rewrite boost_only_deterministic. cbn [mbind result_bind].
    rewrite dict_set_app_l by (by rewrite keys_layout).
    rewrite (dict_set_layout m_id _ agreed _ _ Hd Hdet).
    rewrite filter_app, filter_cons_False, filter_nil, app_nil_r
      by (intros Hn; apply Hn; by rewrite He).
    do 2 f_equal. apply map_ext_in. intros x _. f_equal.
    destruct (decide (m_id x = m_id d)) as [Hx|Hx].
    + rewrite decide_True; [done|]. apply ids_snoc. right. congruence.
    + destruct (decide (m_id x ∈ ids seen)) as [Hy|Hy].
      * rewrite decide_True; [done|]. apply ids_snoc. by left.
      * rewrite decide_False; [done|]. rewrite ids_snoc. intros [?|?]; [done|congruence].
  - rewrite dict_get_None, dict_set_fresh.
    + rewrite filter_app, filter_cons_True, filter_nil by done.
      rewrite map_app, <- app_assoc. do 2 f_equal.
      apply map_ext_in. intros x Hx%list_elem_of_In. f_equal.
      assert (m_id x <> m_id s) as Hne.
      { intros He. apply Hout. rewrite <- He. by apply elem_of_map. }
      destruct (decide (m_id x ∈ ids seen)) as [Hy|Hy].
      * rewrite decide_True; [done|]. apply ids_snoc. by left.
      * rewrite decide_False; [done|]. rewrite ids_snoc. intros [?|?]; done.
    + rewrite map_app, !keys_layout, elem_of_app. intros [?|Hin]; [done|].
      apply Hs. apply elem_of_map_inv in Hin as (y & -> & Hy).
      apply list_elem_of_filter in Hy as [_ Hy]. by apply elem_of_map.
    + rewrite map_app, !keys_layout, elem_of_app. intros [?|Hin]; [done|].
      apply Hs. apply elem_of_map_inv in Hin as (y & -> & Hy).
      apply list_elem_of_filter in Hy as [_ Hy]. by apply elem_of_map.
Qed.

Lemma for_each_add_semantic (seen semantic : list Match) :
  NoDup (ids (seen ++ semantic)) ->
  for_each add_semantic semantic (merged_dict seen) = Ok (merged_dict (seen ++ semantic)).
Proof.
  revert seen. induction semantic as [|s l IH]; intros seen Hnd; cbn [for_each].
  - by rewrite app_nil_r.
  - rewrite add_semantic_step.
    + cbn [mbind result_bind]. rewrite IH; rewrite <- app_assoc; done.
    + unfold ids in Hnd. rewrite map_app in Hnd.
      apply NoDup_app in Hnd as (_ & Hd & _). intros Hin. apply (Hd _ Hin).
      cbn. apply elem_of_cons. by left.
Qed.

Lemma merge_results_distinct (semantic : list Match) :
  NoDup (ids semantic) ->
  _merge_results deterministic semantic
  = Ok (sort_desc PrimFloat.ltb m_confidence (merged_entries deterministic semantic)).
Proof.
  intros Hsem. unfold _merge_results.
  rewrite fold_add_deterministic by done. cbn [app].
  rewrite <- merged_dict_nil.
  rewrite for_each_add_semantic by done. cbn [app mbind result_bind].
  unfold Notions.merged_dict, dict_values, merged_entries.
  by rewrite map_app, !values_layout.
Qed.

End Semantic.

(** *** The order of the merged list *)

Lemma ltb_asym (a b : float) :
  number a -> number b -> (a <? b)%float = true -> (b <? a)%float = false.
Proof.
  intros Ha Hb Hab. apply not_true_is_false. intros Hba.
  apply ltb_rank in Hab, Hba; [|done..].
  destruct (rank (Prim2SF a)) as [[? ?] ?], (rank (Prim2SF b)) as [[? ?] ?].
  cbn in *. lia.
Qed.

Lemma not_ltb_trans (a b c : float) :
  number a -> number b -> number c ->
  (a <? b)%float = false -> (b <? c)%float = false -> (a <? c)%float = false.
Proof.
  intros Ha Hb Hc Hab Hbc. apply not_true_is_false. intros Hac.
  apply not_true_iff_false in Hab, Hbc.
  rewrite ltb_rank in Hab, Hbc, Hac by done.
  destruct (rank (Prim2SF a)) as [[? ?] ?], (rank (Prim2SF b)) as [[? ?] ?],
    (rank (Prim2SF c)) as [[? ?] ?].
  cbn in *. lia.
Qed.

Lemma eqb_number (a b : float) : (a =? b)%float = true -> number a /\ number b.
Proof.
  rewrite FloatAxioms.eqb_spec. unfold SFeqb, number.
  destruct (Prim2SF a), (Prim2SF b); cbn; done.
Qed.

Lemma equal_not_ltb (a b c : float) :
  (a =? c)%float = true -> (b =? c)%float = true -> (a <? b)%float = false.
Proof.
  intros Ha Hb. apply not_true_is_false. intros Hab.
  destruct (eqb_number _ _ Ha) as [Hna Hnc], (eqb_number _ _ Hb) as [Hnb _].
  apply eqb_rank in Ha, Hb; [|done..]. apply ltb_rank in Hab; [|done..].
  rewrite Ha, Hb in Hab.
  destruct (rank (Prim2SF c)) as [[? ?] ?]. cbn in *. lia.
Qed.

Lemma before_descends (a b : Match) :
  number (m_confidence a) -> number (m_confidence b) ->
  before PrimFloat.ltb m_confidence a b -> descends a b.
Proof.
  unfold before, descends, ge. intros Ha Hb Hab.
  apply leb_rank; [done..|]. apply not_true_iff_false in Hab.
  by rewrite ltb_rank in Hab.
Qed.

Lemma StronglySorted_among {A} (Q : A -> Prop) (R R' : A -> A -> Prop) (l : list A) :
  (forall a b, Q a -> Q b -> R a b -> R' a b) ->
  Forall Q l -> StronglySorted R l -> StronglySorted R' l.
Proof.
  intros HR HQ Hs. induction Hs as [|a l Hs IH Ha]; [constructor|].
  apply Forall_cons in HQ as [Hqa HQ]. constructor; [auto|].
  rewrite Forall_forall in Ha, HQ. apply Forall_forall. intros b Hb. auto.
Qed.

Lemma merged_entries_numbers (deterministic semantic : list Match) :
  Forall (fun m => number (m_confidence m)) (deterministic ++ semantic) ->
  Forall (fun m => number (m_confidence m)) (merged_entries deterministic semantic).
Proof.
  rewrite Forall_app. intros [Hd Hs]. unfold merged_entries.
  apply Forall_app. split.
  - rewrite Forall_forall in Hd. apply Forall_forall.
    intros m (d & -> & Hin)%elem_of_map_inv.
    destruct (decide _); cbn; [apply boosted_number|]; auto.
  - rewrite Forall_forall in Hs. apply Forall_forall.
    intros m (s & -> & Hin)%elem_of_map_inv.
    apply list_elem_of_filter in Hin as [_ Hin]. cbn. auto.
Qed.

(** X29.  When no category id occurs twice within the deterministic
    list nor within the semantic list, and every confidence is a number, the
    hybrid merge returns the union by category id: a deterministic category
    that the classifier also reports has confidence min(0.99, its confidence
    + 0.1) and the sources deterministic and semantic; every other category
    keeps its confidence and is tagged with its one source; the list descends
    by confidence, and categories of equal confidence keep the order in which
    they entered the merge (the deterministic ones first). *)
Theorem merge_results_of_distinct_ids (deterministic semantic : list Match) :
  NoDup (ids deterministic) -> NoDup (ids semantic) ->
  Forall (fun m => number (m_confidence m)) (deterministic ++ semantic) ->
  exists merged,
    _merge_results deterministic semantic = Ok merged
    /\ merged ≡ₚ merged_entries deterministic semantic
    /\ StronglySorted descends merged
    /\ forall c, with_confidence c merged
                 = with_confidence c (merged_entries deterministic semantic).
Proof.
  intros Hdet Hsem Hnum.
  eexists. split; [by apply merge_results_distinct|].
  pose proof (merged_entries_numbers _ _ Hnum) as Hm.
  split; [apply sort_desc_Permutation|]. split.
  - apply (StronglySorted_among (fun m => number (m_confidence m))
             (before PrimFloat.ltb m_confidence)).
    + apply before_descends.
    + by rewrite sort_desc_Permutation.
    + apply (sort_desc_sorted _ _ number); [apply ltb_asym|apply not_ltb_trans|done].
  - intros c. unfold with_confidence. apply sort_desc_stable.
    intros a b. apply equal_not_ltb.
Qed.

(** The merge of what the keyword smartwatch gives with a classifier that
    reports smartwatches and watches. *)
Lemma merge_smartwatch_with_two_guesses :
  NoDup (ids [smartwatches_match])
  /\ NoDup (ids [smartwatches_guess; watches_guess])
  /\ Forall (fun m => number (m_confidence m))
       ([smartwatches_match] ++ [smartwatches_guess; watches_guess])
  /\ exists merged,
       _merge_results [smartwatches_match] [smartwatches_guess; watches_guess] = Ok merged
       /\ merged ≡ₚ merged_entries [smartwatches_match] [smartwatches_guess; watches_guess]
       /\ StronglySorted descends merged
       /\ forall c, with_confidence c merged
                    = with_confidence c
                        (merged_entries [smartwatches_match]
                           [smartwatches_guess; watches_guess]).
Proof.
  assert (NoDup (ids [smartwatches_match])) as H1
    by (apply (bool_decide_unpack _); vm_compute; reflexivity).
  assert (NoDup (ids [smartwatches_guess; watches_guess])) as H2
    by (apply (bool_decide_unpack _); vm_compute; reflexivity).
  assert (Forall (fun m => number (m_confidence m))
            ([smartwatches_match] ++ [smartwatches_guess; watches_guess])) as H3
    by (repeat constructor; vm_compute; discriminate).
  split; [exact H1|]. split; [exact H2|]. split; [exact H3|].
  exact (merge_results_of_distinct_ids _ _ H1 H2 H3).
Defined.

(** C6, where the code departs from it.  The test [cat["id"] in by_id] looks
    into the dict that the loop over the semantic list is filling, so a
    category that the classifier reports twice meets its own first entry: the
    merge of no deterministic category with a semantic category reported
    twice is one entry with the confidence boosted by 0.1, capped at 0.99,
    and the source semantic twice, although the category is present in one
    list only and the comment on the branch reads: boost confidence when both
    sources agree. *)
Theorem repeated_semantic_category_is_taken_for_agreement (g : Match) :
  _merge_results [] [g; g]
  = Ok [set_sources ["semantic"; "semantic"]
          (set_confidence (Py.min 0.99 (m_confidence g + 0.1)) g)].
Proof.
  assert (add_semantic [(m_id g, set_sources ["semantic"] g)] g
          = Ok [(m_id g, set_sources ["semantic"; "semantic"]
                           (set_confidence (Py.min 0.99 (m_confidence g + 0.1)) g))])
    as Hsecond.
  { unfold add_semantic. cbn [dict_get].
    destruct (decide (m_id g = m_id g)) as [_|]; [|done].
    cbn [boost set_sources m_sources subscript mbind result_bind dict_set].
    destruct (decide (m_id g = m_id g)) as [_|]; [|done]. reflexivity. }
  unfold _merge_results. cbn [fold_left for_each].
  change (add_semantic [] g) with (Ok [(m_id g, set_sources ["semantic"] g)]).
  cbn [mbind result_bind]. rewrite Hsecond. reflexivity.
Qed.

(** The classifier reports smartwatches twice, with confidence 0.5, and the
    keywords find nothing: the one entry of the merge has not the confidence
    0.5 it came with. *)
Lemma smartwatches_reported_twice :
  _merge_results [] [smartwatches_guess; smartwatches_guess]
  = Ok [set_sources ["semantic"; "semantic"]
          (set_confidence (Py.min 0.99 (0.5 + 0.1)) smartwatches_guess)]
  /\ (Py.min 0.99 (0.5 + 0.1) =? 0.5)%float = false.
Proof.
  split; [|vm_compute; reflexivity].
  exact (repeated_semantic_category_is_taken_for_agreement smartwatches_guess).
Defined.

End MergeFacts.

(** ** The order of a set and the primary category *)
Module SetOrderFacts.
Import Py Taxonomy Keywords Cache Mapper Notions PyFacts TaxonomyFacts KeywordsFacts MapperFacts.

Lemma score_keyword_unknown (sc : scores) (k : string) :
  known k = false -> score_keyword sc k = Ok sc.
Proof.
  unfold known, score_keyword. by destruct (map_keyword_to_category k) as [[?|]|?].
Qed.

Lemma for_each_score_known (ks : list string) (sc : scores) :
  for_each score_keyword ks sc
  = for_each score_keyword (filter (fun k => known k = true) ks) sc.
Proof.
  revert sc. induction ks as [|k ks IH]; intros sc; [done|].
  rewrite filter_cons. destruct (decide (known k = true)) as [Hk|Hk]; cbn [for_each].
  - destruct (score_keyword sc k); cbn [mbind result_bind]; [apply IH|done].
  - apply not_true_is_false in Hk. rewrite score_keyword_unknown by done.
    cbn [mbind result_bind]. apply IH.
Qed.

(** The keywords that the table does not know leave no trace. *)
Lemma map_keywords_known (ks : list string) :
  map_keywords_to_categories ks
  = map_keywords_to_categories (filter (fun k => known k = true) ks).
Proof.
  unfold map_keywords_to_categories.
  rewrite (for_each_score_known ks).
  destruct ks as [|k ks]; [done|].
  destruct (filter _ (k :: ks)); done.
Qed.

Lemma set_order_Permutation (list_set : list string -> list string) (xs : list string) :
  set_order list_set -> NoDup xs -> list_set xs ≡ₚ xs.
Proof.
  intros Hset Hxs. destruct (Hset xs) as [Hnd Hin]. by apply NoDup_Permutation.
Qed.

Section AppleWatch.
Context (elapsed_ms : nat -> Z).

Lemma deterministic_keywords (list_set : list string -> list string) (product : Product)
    (c : float) (self : ProductMapper) (kws : list string) (m : Match) (ms : list Match) :
  p_keywords product
  ++ _extract_keywords (PyStr.join " " [p_title product; p_description product;
                                       p_category product; p_brand product]) = kws ->
  map_keywords_to_categories (list_set kws) = Ok (m :: ms) ->
  _map_deterministic list_set product c self
  = (Ok {| r_source := "deterministic"; r_categories := keep_confident c (m :: ms);
           r_error := None |},
     with_stats (count_deterministic (stats self)) self).
Proof.
  intros Hk Hm. unfold _map_deterministic. rewrite Hk.
  unfold_M. rewrite Hm. reflexivity.
Qed.

(** What the call returns once the keywords that the table knows, in the order
    of the set, are [hits]. *)
Lemma apple_watch_answer (list_set : list string -> list string) (hits : list string) :
  filter (fun k => known k = true) (list_set apple_watch_keywords) = hits ->
  let product :=
    build_product (Some "Apple Watch Series 9")
      (Some "GPS smartwatch with heart rate monitor") None None None in
  match map_keywords_to_categories hits with
  | Ok (m :: ms) =>
      match _format_result "2.0"
              {| r_source := "deterministic";
                 r_categories := keep_confident 0.3 (m :: ms);
                 r_error := None |} product true with
      | Ok formatted =>
          success (apple_watch list_set elapsed_ms) = success formatted
          /\ iab_product (apple_watch list_set elapsed_ms) = iab_product formatted
      | Raise _ => True
      end
  | _ => True
  end.
Proof.
  intros Hh product.
  destruct (map_keywords_to_categories hits) as [[|m ms]|] eqn:Hm; [done| |done].
  destruct (_format_result _ _ _ _) as [formatted|] eqn:Hf; [|done].
  rewrite <- Hh, <- map_keywords_known in Hm.
  unfold apple_watch.
  pose proof (map_product_miss list_set elapsed_ms (Some "Apple Watch Series 9")
         (Some "GPS smartwatch with heart rate monitor") None None None
         (Some "deterministic") None true default_mapper) as H.
  cbv zeta in H. fold product in H.
  set (key := create_cache_key product) in H.
  set (self0 := with_stats _ default_mapper) in H.
  set (probe := cache_probe key self0) in H.
  vm_compute in key.
  vm_compute in self0.
  vm_compute in probe.
  specialize (H eq_refl eq_refl). rewrite H. clear H.
  set (mode := choose_mode _ _). vm_compute in mode. subst mode.
  set (self1 := snd probe). vm_compute in self1.
  set (c := default _ _). vm_compute in c.
  unfold guarded. rewrite try_body_run.
  change (dispatch list_set "deterministic" product c self1)
    with (_map_deterministic list_set product c self1).
  rewrite (deterministic_keywords list_set product c self1 apple_watch_keywords m ms);
    [|by vm_compute|done].
  change (iab_version _) with "2.0".
  change c with 0.3%float.
  rewrite Hf. done.
Qed.

Lemma known_apple_watch_keywords (list_set : list string -> list string) :
  set_order list_set ->
  filter (fun k => known k = true) (list_set apple_watch_keywords)
  ∈ permutations ["watch"; "smartwatch"; "monitor"].
Proof.
  intros Hset. apply permutations_Permutation.
  transitivity (filter (fun k => known k = true) apple_watch_keywords).
  - by vm_compute.
  - apply filter_Permutation. symmetry. apply set_order_Permutation; [done|].
    apply (bool_decide_unpack _). by vm_compute.
Qed.

(** C7, amended: for every order in which the set of keywords may be
    iterated, mapping the product with title Apple Watch Series 9 and
    description GPS smartwatch with heart rate monitor with a fresh mapper in
    deterministic mode succeeds, and its primary category is that of whichever
    of the keywords watch, smartwatch and monitor the set yields first: 1070
    with tier-1 label Clothing and Accessories for watch, 1121 with tier-1
    label Consumer Electronics for smartwatch, 1130 with tier-1 label Consumer
    Electronics for monitor. *)
Theorem apple_watch_primary_follows_set_order (list_set : list string -> list string) :
  set_order list_set ->
  exists first ip,
    first_known (list_set apple_watch_keywords) = Some first
    /\ success (apple_watch list_set elapsed_ms) = true
    /\ iab_product (apple_watch list_set elapsed_ms) = Some ip
    /\ confidence ip = 0.95%float
    /\ ((first = "watch" /\ primary_id ip = 1070
         /\ tier1_label ip = Some "Clothing and Accessories")
        \/ (first = "smartwatch" /\ primary_id ip = 1121
            /\ tier1_label ip = Some "Consumer Electronics")
        \/ (first = "monitor" /\ primary_id ip = 1130
            /\ tier1_label ip = Some "Consumer Electronics")).
Proof.
  intros Hset.
  pose proof (known_apple_watch_keywords list_set Hset) as Hp.
  unfold first_known.
  pose proof (apple_watch_answer list_set _ eq_refl) as Ha.
  set (ok := success (apple_watch list_set elapsed_ms)) in *. clearbody ok.
  set (found := iab_product (apple_watch list_set elapsed_ms)) in *. clearbody found.
  set (hits := filter _ (list_set apple_watch_keywords)) in *. clearbody hits.
  vm_compute in Hp.
  repeat (apply elem_of_cons in Hp as [->|Hp]); [..|by apply elem_of_nil in Hp];
    vm_compute in Ha; destruct Ha as [-> ->];
    (eexists _, _; split; [reflexivity|]; split; [reflexivity|]; split; [reflexivity|];
     split; [reflexivity|]; tauto).
Qed.

End AppleWatch.

Lemma seed_5_order_is_a_set_order : set_order seed_5_order.
Proof.
  intros xs. unfold seed_5_order. destruct (decide (xs = apple_watch_keywords)) as [->|_].
  - split; [apply (bool_decide_unpack _); by vm_compute|].
    intros x. unfold apple_watch_keywords. rewrite !elem_of_cons, !elem_of_nil. tauto.
  - split; [apply NoDup_remove_dups|]. intros x. apply elem_of_remove_dups.
Qed.

Lemma first_seen_is_a_set_order : set_order first_seen.
Proof.
  intros xs. split; [apply NoDup_remove_dups|]. intros x. apply elem_of_remove_dups.
Qed.

(** With the set in the order of first occurrence the keyword watch comes
    first. *)
Lemma apple_watch_first_seen :
  set_order first_seen
  /\ exists first ip,
       first_known (first_seen apple_watch_keywords) = Some first
       /\ success (apple_watch first_seen (steady_clock 0)) = true
       /\ iab_product (apple_watch first_seen (steady_clock 0)) = Some ip
       /\ confidence ip = 0.95%float
       /\ ((first = "watch" /\ primary_id ip = 1070
            /\ tier1_label ip = Some "Clothing and Accessories")
           \/ (first = "smartwatch" /\ primary_id ip = 1121
               /\ tier1_label ip = Some "Consumer Electronics")
           \/ (first = "monitor" /\ primary_id ip = 1130
               /\ tier1_label ip = Some "Consumer Electronics")).
Proof.
  split; [exact first_seen_is_a_set_order|].
  exact (apple_watch_primary_follows_set_order (steady_clock 0) first_seen
           first_seen_is_a_set_order).
Defined.

(** C7 as stated fails for the order in which CPython 3.11 iterates over the
    set of keywords under PYTHONHASHSEED=5: watch comes before smartwatch, and
    the primary category is 1070 (Watches), of tier-1 Clothing and
    Accessories. *)
Lemma apple_watch_is_a_watch_under_seed_5 :
  set_order seed_5_order
  /\ success (apple_watch seed_5_order (steady_clock 0)) = true
  /\ primary_id <$> iab_product (apple_watch seed_5_order (steady_clock 0)) = Some 1070
  /\ label <$> iab_product (apple_watch seed_5_order (steady_clock 0))
     = Some "Clothing and Accessories > Watches"
  /\ iab_product (apple_watch seed_5_order (steady_clock 0)) ≫= tier1_label
     = Some "Clothing and Accessories".
Proof. split; [exact seed_5_order_is_a_set_order|]. by vm_compute. Qed.

End SetOrderFacts.

(** ** taxonomy.py: paths, labels, children *)
Module PathFacts.
Import Py Taxonomy Keywords Notions PyFacts TaxonomyFacts KeywordsFacts.

(** A property checked on every entry of the table holds of whatever a lookup
    finds. *)
Lemma table_lookup (P : Z * Category -> bool) (id : Z) (c : Category) :
  forallb P IAB_AD_PRODUCT_TAXONOMY = true ->
  dict_get id IAB_AD_PRODUCT_TAXONOMY = Some c -> P (id, c) = true.
Proof.
  intros HP Hc%dict_get_elem_of%list_elem_of_In.
  rewrite forallb_forall in HP. exact (HP _ Hc).
Qed.

Lemma get_category_by_id_int (id : Z) (c : Category) :
  get_category_by_id (IdInt id) = Ok (Some c)
  <-> dict_get id IAB_AD_PRODUCT_TAXONOMY = Some c.
Proof. unfold get_category_by_id. split; [congruence|by intros ->]. Qed.

Lemma path_shape_table :
  forallb (fun kc =>
    match path_loop path_fuel (Some (snd kc)) [] with
    | Some path =>
        bool_decide (Z.of_nat (length path) = cat_tier (snd kc))
        && bool_decide (last path = Some (snd kc))
        && bool_decide (cat_parent <$> head path = Some None)
        && bool_decide (cat_tier <$> head path = Some 1)
        && linked path
        && forallb (fun a => bool_decide (dict_get (cat_id a) IAB_AD_PRODUCT_TAXONOMY
                                          = Some a)) path
    | None => false
    end) IAB_AD_PRODUCT_TAXONOMY = true.
Proof. vm_compute. reflexivity. Qed.

(** X1.  For every id of the table, get_category_path returns the chain from
    a tier-1 category down to the category itself: as many categories as the
    tier of the category says, the first without parent, each next one a child
    of the one before and one tier deeper, all of them categories of the
    table. *)
Theorem category_path_shape (id : Z) (c : Category) :
  get_category_by_id (IdInt id) = Ok (Some c) ->
  exists root path,
    get_category_path (IdInt id) = Ok path
    /\ cat_id c = id
    /\ Z.of_nat (length path) = cat_tier c
    /\ head path = Some root /\ cat_parent root = None /\ cat_tier root = 1
    /\ last path = Some c
    /\ linked path = true
    /\ forall a, a ∈ path -> get_category_by_id (IdInt (cat_id a)) = Ok (Some a).
Proof.
  intros Hc%get_category_by_id_int.
  unfold get_category_path, get_category_by_id. cbn [mbind result_bind]. rewrite Hc.
  assert (H := path_shape_table). eapply table_lookup in H; [|exact Hc].
  cbn beta iota delta [snd fst] in H.
  destruct (path_loop path_fuel (Some c) []) as [path|]; [|done].
  repeat (apply andb_prop in H as [H ?]).
  repeat match goal with H : bool_decide _ = true |- _ => apply bool_decide_eq_true in H end.
  destruct (head path) as [root|] eqn:Hroot; [|done].
  cbn [fmap option_fmap option_map] in *.
  exists root, path. cbn [default]. split; [done|].
  split; [by apply dict_get_cat_id|]. split; [done|]. split; [done|].
  split; [congruence|]. split; [congruence|]. split; [done|]. split; [done|].
  intros a Ha%list_elem_of_In.
  match goal with H : forallb _ path = true |- _ => rewrite forallb_forall in H;
    apply H in Ha; apply bool_decide_eq_true in Ha end.
  by apply get_category_by_id_int.
Qed.

Lemma category_path_of_smartwatches :
  get_category_by_id (IdInt 1121)
  = Ok (Some {| cat_id := 1121; cat_name := "Smartwatches"; cat_tier := 3;
                cat_parent := Some 1120 |})
  /\ exists root path,
       get_category_path (IdInt 1121) = Ok path
       /\ 1121 = 1121
       /\ Z.of_nat (length path) = 3
       /\ head path = Some root /\ cat_parent root = None /\ cat_tier root = 1
       /\ last path = Some {| cat_id := 1121; cat_name := "Smartwatches"; cat_tier := 3;
                              cat_parent := Some 1120 |}
       /\ linked path = true
       /\ forall a, a ∈ path -> get_category_by_id (IdInt (cat_id a)) = Ok (Some a).
Proof.
  split; [reflexivity|].
  exact (category_path_shape 1121 _ eq_refl).
Defined.

Lemma tier1_parent_table :
  forallb (fun kc =>
    match get_tier1_parent (IdInt (fst kc)) with
    | Ok (Some root) =>
        bool_decide (root ∈ get_tier1_categories)
        && match get_tier1_parent (IdInt (cat_id root)) with
           | Ok (Some r) => bool_decide (r = root)
           | _ => false
           end
        && Bool.eqb (cat_id root =? fst kc) (cat_tier (snd kc) =? 1)
    | _ => false
    end) IAB_AD_PRODUCT_TAXONOMY = true.
Proof. vm_compute. reflexivity. Qed.

(** X2.  For every id of the table, get_tier1_parent returns one of the
    categories of get_tier1_categories; that category is its own tier-1
    parent, and it is the category asked for exactly when that one is of
    tier 1. *)
Theorem tier1_parent_is_a_root (id : Z) (c : Category) :
  get_category_by_id (IdInt id) = Ok (Some c) ->
  exists root,
    get_tier1_parent (IdInt id) = Ok (Some root)
    /\ root ∈ get_tier1_categories
    /\ get_tier1_parent (IdInt (cat_id root)) = Ok (Some root)
    /\ (cat_id root = id <-> cat_tier c = 1).
Proof.
  intros Hc%get_category_by_id_int.
  assert (H := tier1_parent_table). eapply table_lookup in H; [|exact Hc].
  cbn beta iota delta [snd fst] in H.
  destruct (get_tier1_parent (IdInt id)) as [[root|]|]; [|done..].
  repeat (apply andb_prop in H as [H ?]).
  destruct (get_tier1_parent (IdInt (cat_id root))) as [[r|]|] eqn:Hroot; [|done..].
  repeat match goal with H : bool_decide _ = true |- _ => apply bool_decide_eq_true in H end.
  subst r. exists root. split; [done|]. split; [done|]. split; [done|]. split.
  - intros Hr. apply Z.eqb_eq in Hr.
    match goal with H : Bool.eqb _ _ = true |- _ => apply eqb_prop in H; rewrite Hr in H end.
    by apply Z.eqb_eq.
  - intros Ht. apply Z.eqb_eq in Ht.
    match goal with H : Bool.eqb _ _ = true |- _ => apply eqb_prop in H; rewrite Ht in H end.
    by apply Z.eqb_eq.
Qed.

Lemma tier1_parent_of_smartwatches :
  get_category_by_id (IdInt 1121)
  = Ok (Some {| cat_id := 1121; cat_name := "Smartwatches"; cat_tier := 3;
                cat_parent := Some 1120 |})
  /\ exists root,
       get_tier1_parent (IdInt 1121) = Ok (Some root)
       /\ root ∈ get_tier1_categories
       /\ get_tier1_parent (IdInt (cat_id root)) = Ok (Some root)
       /\ (cat_id root = 1121 <-> 3 = 1).
Proof.
  split; [reflexivity|].
  exact (tier1_parent_is_a_root 1121 _ eq_refl).
Defined.

Lemma label_table :
  forallb (fun kc =>
    match get_category_label (IdInt (fst kc)), cat_parent (snd kc) with
    | Ok l, None => String.eqb l (cat_name (snd kc))
    | Ok l, Some p =>
        match get_category_label (IdInt p) with
        | Ok lp => String.eqb l (lp +:+ " > " +:+ cat_name (snd kc))
        | Raise _ => false
        end
    | Raise _, _ => false
    end) IAB_AD_PRODUCT_TAXONOMY = true.
Proof. vm_compute. reflexivity. Qed.

(** X3.  The label of a category of the table is its name when it has no
    parent, and otherwise the label of its parent, the separator and its
    name. *)
Theorem category_label_extends_parent_label (id : Z) (c : Category) :
  get_category_by_id (IdInt id) = Ok (Some c) ->
  match cat_parent c with
  | None => get_category_label (IdInt id) = Ok (cat_name c)
  | Some p =>
      exists parent_label,
        get_category_label (IdInt p) = Ok parent_label
        /\ get_category_label (IdInt id) = Ok (parent_label +:+ " > " +:+ cat_name c)
  end.
Proof.
  intros Hc%get_category_by_id_int.
  assert (H := label_table). eapply table_lookup in H; [|exact Hc].
  cbn beta iota delta [snd fst] in H.
  destruct (get_category_label (IdInt id)) as [l|]; [|done].
  destruct (cat_parent c) as [p|].
  - destruct (get_category_label (IdInt p)) as [lp|]; [|done].
    apply String.eqb_eq in H as ->. by exists lp.
  - by apply String.eqb_eq in H as ->.
Qed.

Lemma label_of_smartwatches :
  get_category_by_id (IdInt 1121)
  = Ok (Some {| cat_id := 1121; cat_name := "Smartwatches"; cat_tier := 3;
                cat_parent := Some 1120 |})
  /\ get_category_label (IdInt 1120) = Ok "Consumer Electronics > Wearables"
  /\ exists parent_label,
       get_category_label (IdInt 1120) = Ok parent_label
       /\ get_category_label (IdInt 1121) = Ok (parent_label +:+ " > " +:+ "Smartwatches").
Proof.
  split; [reflexivity|]. split; [reflexivity|].
  exact (category_label_extends_parent_label 1121 _ eq_refl).
Defined.

Lemma table_values :
  forallb (fun kc => bool_decide (dict_get (cat_id (snd kc)) IAB_AD_PRODUCT_TAXONOMY
                                  = Some (snd kc))) IAB_AD_PRODUCT_TAXONOMY = true
  /\ bool_decide (NoDup (dict_values IAB_AD_PRODUCT_TAXONOMY)) = true.
Proof. split; vm_compute; reflexivity. Qed.

Lemma elem_of_table_values (c : Category) :
  c ∈ dict_values IAB_AD_PRODUCT_TAXONOMY
  <-> dict_get (cat_id c) IAB_AD_PRODUCT_TAXONOMY = Some c.
Proof.
  unfold dict_values. split.
  - intros ([k c'] & -> & Hin)%(list_elem_of_fmap_1 snd).
    destruct table_values as [H _]. rewrite forallb_forall in H.
    apply list_elem_of_In, H, bool_decide_eq_true in Hin. exact Hin.
  - intros Hc%dict_get_elem_of. by apply (list_elem_of_fmap_2 snd) in Hc.
Qed.

(** X4.  get_child_categories on an int lists, each once, exactly the
    categories of the table whose parent is that int; on None it lists the
    tier-1 categories. *)
Theorem child_categories_are_the_categories_below (p : Z) :
  exists children,
    get_child_categories (IdInt p) = Ok children
    /\ NoDup children
    /\ (forall c, c ∈ children
                  <-> get_category_by_id (IdInt (cat_id c)) = Ok (Some c)
                      /\ cat_parent c = Some p)
    /\ get_child_categories IdNone = Ok get_tier1_categories.
Proof.
  eexists. split; [reflexivity|]. split.
  - apply NoDup_filter. destruct table_values as [_ H].
    by apply bool_decide_eq_true in H.
  - split; [|by vm_compute].
    intros c. rewrite list_elem_of_filter, elem_of_table_values, get_category_by_id_int.
    tauto.
Qed.

Lemma filter_none {A} (P : A -> Prop) `{!forall a, Decision (P a)} (l : list A) :
  (forall a, a ∈ l -> ~ P a) -> filter P l = [].
Proof.
  intros Hl. destruct (filter P l) as [|a l'] eqn:E; [done|].
  assert (a ∈ filter P l) as [Ha Hin]%list_elem_of_filter by (rewrite E; left).
  by destruct (Hl a Hin).
Qed.

Lemma closed_table :
  forallb (fun kc =>
    match cat_parent (snd kc) with
    | Some p => bool_decide (is_Some (dict_get p IAB_AD_PRODUCT_TAXONOMY))
    | None => true
    end) IAB_AD_PRODUCT_TAXONOMY = true
  /\ forallb (fun kv => bool_decide (is_Some (dict_get (snd kv) IAB_AD_PRODUCT_TAXONOMY)))
       KEYWORD_MAPPINGS = true.
Proof. split; vm_compute; reflexivity. Qed.

(** X5.  An int that is no id of the table is answered without an exception
    by every lookup: no category, an empty path, an empty label, no tier-1
    parent, no children and no keywords. *)
Theorem unknown_id_is_absent_everywhere (z : Z) :
  is_valid_category (IdInt z) = false ->
  get_category_by_id (IdInt z) = Ok None
  /\ get_category_path (IdInt z) = Ok []
  /\ get_category_label (IdInt z) = Ok ""
  /\ get_tier1_parent (IdInt z) = Ok None
  /\ get_child_categories (IdInt z) = Ok []
  /\ get_keywords_for_category (IdInt z) = Ok [].
Proof.
  unfold is_valid_category. intros Hz%bool_decide_eq_false.
  assert (dict_get z IAB_AD_PRODUCT_TAXONOMY = None) as Hn.
  { destruct (dict_get z IAB_AD_PRODUCT_TAXONOMY) eqn:E; [|done]. destruct Hz. eauto. }
  assert (get_category_path (IdInt z) = Ok []) as Hp.
  { unfold get_category_path, get_category_by_id. by rewrite Hn. }
  split; [unfold get_category_by_id; by rewrite Hn|]. split; [done|].
  split; [unfold get_category_label; by rewrite Hp|].
  split; [unfold get_tier1_parent; by rewrite Hp|].
  destruct closed_table as [Hparents Hkeywords].
  rewrite forallb_forall in Hparents, Hkeywords.
  split; cbn [get_child_categories get_keywords_for_category]; f_equal.
  - apply filter_none. intros c Hc Hpar.
    apply (list_elem_of_fmap_1 snd) in Hc as ([k c'] & -> & Hin).
    apply list_elem_of_In, Hparents in Hin. cbn [snd] in *. rewrite Hpar in Hin.
    apply bool_decide_eq_true in Hin. by apply Hz.
  - replace (filter _ KEYWORD_MAPPINGS) with (@nil (string * Z)); [done|].
    symmetry. apply filter_none. intros [k i] Hin Hi.
    apply list_elem_of_In, Hkeywords in Hin. cbn [snd] in *. subst i.
    apply bool_decide_eq_true in Hin. by apply Hz.
Qed.

Lemma unknown_id_9999 :
  is_valid_category (IdInt 9999) = false
  /\ get_category_by_id (IdInt 9999) = Ok None
  /\ get_category_path (IdInt 9999) = Ok []
  /\ get_category_label (IdInt 9999) = Ok ""
  /\ get_tier1_parent (IdInt 9999) = Ok None
  /\ get_child_categories (IdInt 9999) = Ok []
  /\ get_keywords_for_category (IdInt 9999) = Ok [].
Proof.
  split; [reflexivity|].
  exact (unknown_id_is_absent_everywhere 9999 eq_refl).
Defined.

Lemma prefix_numeral (s : string) :
  all_chars numeral_char s = true -> PyStr.startswith "IAB-AP-" s = false.
Proof.
  unfold PyStr.startswith. destruct s as [|c s]; [done|].
  intros [Hc _]%andb_prop. apply numeral_char_cases in Hc as (_ & Hc & _).
  cbn [String.prefix]. destruct (ascii_dec "I" c) as [<-|]; done.
Qed.

(** X6.  Every lookup of taxonomy.py and get_keywords_for_category treat the
    decimal text of an int as that int; and is_valid_category is true of an
    int exactly when get_category_by_id finds a category. *)
Theorem numeric_string_is_read_as_the_int (z : Z) :
  get_category_by_id (IdStr (str_of_int z)) = get_category_by_id (IdInt z)
  /\ is_valid_category (IdStr (str_of_int z)) = is_valid_category (IdInt z)
  /\ get_child_categories (IdStr (str_of_int z)) = get_child_categories (IdInt z)
  /\ get_category_path (IdStr (str_of_int z)) = get_category_path (IdInt z)
  /\ get_category_label (IdStr (str_of_int z)) = get_category_label (IdInt z)
  /\ get_tier1_parent (IdStr (str_of_int z)) = get_tier1_parent (IdInt z)
  /\ get_keywords_for_category (IdStr (str_of_int z))
     = get_keywords_for_category (IdInt z)
  /\ (is_valid_category (IdInt z) = true
      <-> exists c, get_category_by_id (IdInt z) = Ok (Some c)).
Proof.
  assert (get_category_by_id (IdStr (str_of_int z)) = get_category_by_id (IdInt z)) as Hg.
  { unfold get_category_by_id. by rewrite int_str_of_int. }
  assert (get_category_path (IdStr (str_of_int z)) = get_category_path (IdInt z)) as Hp.
  { unfold get_category_path. by rewrite Hg. }
  split; [done|]. split.
  { unfold is_valid_category.
    by rewrite (prefix_numeral _ (str_of_int_numeral z)), int_str_of_int. }
  split; [unfold get_child_categories; by rewrite int_str_of_int|].
  split; [done|].
  split; [unfold get_category_label; by rewrite Hp|].
  split; [unfold get_tier1_parent; by rewrite Hp|].
  split; [unfold get_keywords_for_category; by rewrite int_str_of_int|].
  unfold is_valid_category. rewrite bool_decide_eq_true. split.
  - intros [c Hc]. exists c. by apply get_category_by_id_int.
  - intros [c Hc%get_category_by_id_int]. by exists c.
Qed.

End PathFacts.

(** ** keyword_mapping.py: the keyword table *)
Module KeywordTableFacts.
Import Py Taxonomy Keywords Notions PyFacts TaxonomyFacts KeywordsFacts.

(** *** lower and strip *)

Lemma lower_char_idem (c : ascii) : PyStr.lower_char (PyStr.lower_char c) = PyStr.lower_char c.
Proof. destruct c as [[] [] [] [] [] [] [] []]; reflexivity. Qed.

Lemma is_space_lower_char (c : ascii) : PyStr.is_space (PyStr.lower_char c) = PyStr.is_space c.
Proof. destruct c as [[] [] [] [] [] [] [] []]; reflexivity. Qed.

Lemma lower_idem (s : string) : PyStr.lower (PyStr.lower s) = PyStr.lower s.
Proof.
  unfold PyStr.lower. induction s as [|c s IH]; [done|].
  cbn [PyStr.map_chars]. by rewrite lower_char_idem, IH.
Qed.

Lemma lstrip_lower (s : string) : PyStr.lstrip (PyStr.lower s) = PyStr.lower (PyStr.lstrip s).
Proof.
  unfold PyStr.lower. induction s as [|c s IH]; [done|].
  cbn [PyStr.map_chars PyStr.lstrip]. rewrite is_space_lower_char.
  by destruct (PyStr.is_space c).
Qed.

Lemma rstrip_lower (s : string) : PyStr.rstrip (PyStr.lower s) = PyStr.lower (PyStr.rstrip s).
Proof.
  unfold PyStr.lower. induction s as [|c s IH]; [done|].
  cbn [PyStr.map_chars PyStr.rstrip]. rewrite IH, is_space_lower_char.
  destruct (PyStr.rstrip s); cbn [PyStr.map_chars]; [|done].
  by destruct (PyStr.is_space c).
Qed.

Lemma strip_lower (s : string) : PyStr.strip (PyStr.lower s) = PyStr.lower (PyStr.strip s).
Proof. unfold PyStr.strip. by rewrite lstrip_lower, rstrip_lower. Qed.

Lemma lstrip_cases (s : string) :
  PyStr.lstrip s = "" \/ exists c t, PyStr.lstrip s = String c t /\ PyStr.is_space c = false.
Proof.
  induction s as [|c s IH]; [by left|]. cbn [PyStr.lstrip].
  destruct (PyStr.is_space c) eqn:Hc; [done|]. right. by exists c, s.
Qed.

Lemma rstrip_idem (s : string) : PyStr.rstrip (PyStr.rstrip s) = PyStr.rstrip s.
Proof.
  induction s as [|c s IH]; [done|]. cbn [PyStr.rstrip].
  destruct (PyStr.rstrip s) as [|c' r] eqn:Hr.
  - destruct (PyStr.is_space c) eqn:Hc; [done|]. cbn [PyStr.rstrip]. by rewrite Hc.
  - cbn [PyStr.rstrip] in IH |- *. by rewrite IH.
Qed.

Lemma lstrip_rstrip_lstrip (s : string) :
  PyStr.lstrip (PyStr.rstrip (PyStr.lstrip s)) = PyStr.rstrip (PyStr.lstrip s).
Proof.
  destruct (lstrip_cases s) as [->|(c & t & -> & Hc)]; [done|].
  cbn [PyStr.rstrip]. destruct (PyStr.rstrip t); rewrite ?Hc; cbn [PyStr.lstrip]; by rewrite Hc.
Qed.

Lemma strip_idem (s : string) : PyStr.strip (PyStr.strip s) = PyStr.strip s.
Proof. unfold PyStr.strip. by rewrite lstrip_rstrip_lstrip, rstrip_idem. Qed.

(** The text under which map_keyword_to_category looks a keyword up is in
    that form already. *)
Lemma normalized_idem (k : string) :
  PyStr.strip (PyStr.lower (PyStr.strip (PyStr.lower k))) = PyStr.strip (PyStr.lower k).
Proof. by rewrite <- (strip_lower (PyStr.lower k)), strip_idem, lower_idem. Qed.

(** X7.  map_keyword_to_category sees a keyword only through its lower-cased,
    trimmed text: it answers a keyword as it answers that text, so two
    keywords with the same lower-cased, trimmed text get the same answer. *)
Theorem map_keyword_ignores_case_and_outer_blanks (k : string) :
  map_keyword_to_category k = map_keyword_to_category (PyStr.strip (PyStr.lower k))
  /\ forall k', PyStr.strip (PyStr.lower k') = PyStr.strip (PyStr.lower k) ->
                map_keyword_to_category k' = map_keyword_to_category k.
Proof.
  assert (forall k, map_keyword_to_category k
                    = map_keyword_to_category (PyStr.strip (PyStr.lower k))) as Hn.
  { clear k. intros k. unfold map_keyword_to_category. rewrite normalized_idem.
    destruct k as [|c k]; [done|]. cbn [PyStr.truthy negb].
    destruct (PyStr.strip (PyStr.lower (String c k))); [|done].
    by vm_compute. }
  split; [apply Hn|]. intros k' Hk. by rewrite (Hn k'), Hk, <- Hn.
Qed.

(** *** The table *)

Lemma keyword_table :
  bool_decide (NoDup (map fst KEYWORD_MAPPINGS)) = true
  /\ forallb (fun kv => String.eqb (PyStr.strip (PyStr.lower (fst kv))) (fst kv)
                        && PyStr.truthy (fst kv)
                        && negb (snd kv =? 0)
                        && bool_decide (is_Some (dict_get (snd kv) IAB_AD_PRODUCT_TAXONOMY)))
       KEYWORD_MAPPINGS = true.
Proof. split; vm_compute; reflexivity. Qed.

Lemma dict_get_of_elem `{EqDecision K} {V} (k : K) (v : V) (d : list (K * V)) :
  NoDup (map fst d) -> (k, v) ∈ d -> dict_get k d = Some v.
Proof.
  induction d as [|[k' v'] d IH]; cbn [map fst dict_get]; [by intros _ ?%elem_of_nil|].
  rewrite NoDup_cons, elem_of_cons. intros [Hk Hd] [[= -> ->]|Hin].
  - by rewrite decide_True.
  - rewrite decide_False; [by apply IH|]. intros ->. apply Hk.
    change k' with (fst (k', v)). by apply (list_elem_of_fmap_2 fst).
Qed.

Lemma keyword_lookup (k : string) (id : Z) :
  dict_get k KEYWORD_MAPPINGS = Some id ->
  PyStr.strip (PyStr.lower k) = k /\ PyStr.truthy k = true /\ id <> 0
  /\ exists c, dict_get id IAB_AD_PRODUCT_TAXONOMY = Some c.
Proof.
  intros Hk%dict_get_elem_of%list_elem_of_In.
  destruct keyword_table as [_ H]. rewrite forallb_forall in H.
  apply H in Hk. cbn [fst snd] in Hk.
  repeat (apply andb_prop in Hk as [Hk ?]).
  apply String.eqb_eq in Hk.
  repeat match goal with H : bool_decide _ = true |- _ => apply bool_decide_eq_true in H end.
  split; [done|]. split; [done|]. split; [|done].
  intros ->. done.
Qed.

(** On a text in lower case without outer blanks, map_keyword_to_category is
    the lookup in the table. *)
Lemma map_keyword_is_the_lookup (k : string) (id : Z) :
  PyStr.strip (PyStr.lower k) = k ->
  (exists m, map_keyword_to_category k = Ok (Some m) /\ m_id m = id)
  <-> dict_get k KEYWORD_MAPPINGS = Some id.
Proof.
  intros Hn. unfold map_keyword_to_category. rewrite Hn. split.
  - intros (m & Hm & Hid).
    destruct (negb (PyStr.truthy k)); [done|].
    destruct (dict_get k KEYWORD_MAPPINGS) as [cid|]; [|done].
    destruct (cid =? 0); [done|].
    unfold get_category_by_id in Hm. cbn [mbind result_bind] in Hm.
    destruct (dict_get cid IAB_AD_PRODUCT_TAXONOMY) as [c|] eqn:Hc; [|done].
    injection Hm as <-. cbn [m_id] in Hid. rewrite (dict_get_cat_id _ _ Hc) in Hid.
    by subst.
  - intros Hk. destruct (keyword_lookup _ _ Hk) as (_ & Ht & Hz & c & Hc).
    rewrite Ht, Hk. cbn [negb]. apply Z.eqb_neq in Hz. rewrite Hz.
    unfold get_category_by_id. cbn [mbind result_bind]. rewrite Hc.
    eexists. split; [reflexivity|]. cbn [m_id]. by apply dict_get_cat_id.
Qed.

(** X8.  The keywords that get_keywords_for_category lists for an int are,
    each once, exactly the texts in lower case without outer blanks that
    map_keyword_to_category sends to the category with that id; all of them
    are keywords of get_all_keywords. *)
Theorem keywords_for_category_round_trip (id : Z) :
  exists kws,
    get_keywords_for_category (IdInt id) = Ok kws
    /\ NoDup kws
    /\ (forall k, k ∈ kws -> k ∈ get_all_keywords)
    /\ forall k, k ∈ kws
                 <-> PyStr.strip (PyStr.lower k) = k
                     /\ exists m, map_keyword_to_category k = Ok (Some m) /\ m_id m = id.
Proof.
  destruct keyword_table as [Hnd%bool_decide_eq_true _].
  assert (forall k, k ∈ map fst (filter (fun kv => snd kv = id) KEYWORD_MAPPINGS)
                    <-> dict_get k KEYWORD_MAPPINGS = Some id) as Hin.
  { intros k. split.
    - intros ([k' i] & -> & [Hi Hk]%list_elem_of_filter)%(list_elem_of_fmap_1 fst).
      cbn [fst snd] in *. subst i. by apply dict_get_of_elem.
    - intros Hk%dict_get_elem_of. change k with (fst (k, id)).
      apply (list_elem_of_fmap_2 fst), list_elem_of_filter. by split. }
  eexists. split; [reflexivity|]. split.
  { clear Hin. revert Hnd. generalize KEYWORD_MAPPINGS as d.
    induction d as [|[k i] d IH]; cbn [map fst]; [constructor|].
    rewrite NoDup_cons. intros [Hk Hd]. rewrite filter_cons.
    destruct (decide _); cbn [map fst]; [|by apply IH].
    apply NoDup_cons. split; [|by apply IH].
    intros ([k' i'] & -> & [_ Hk']%list_elem_of_filter)%(list_elem_of_fmap_1 fst).
    apply Hk. by apply (list_elem_of_fmap_2 fst) in Hk'. }
  split.
  { intros k ([k' i] & -> & [_ Hk]%list_elem_of_filter)%(list_elem_of_fmap_1 fst).
    by apply (list_elem_of_fmap_2 fst) in Hk. }
  intros k. rewrite Hin. split.
  - intros Hk. destruct (keyword_lookup _ _ Hk) as (Hn & _).
    split; [done|]. by apply map_keyword_is_the_lookup.
  - intros [Hn Hm]. by apply map_keyword_is_the_lookup.
Qed.

End KeywordTableFacts.

(** ** keyword_mapping.py: the tally of map_keywords_to_categories *)
Module TallyFacts.
Import Py Taxonomy Keywords Notions PyFacts TaxonomyFacts KeywordsFacts SortFacts.

Lemma map_keyword_to_category_returns (k : string) :
  exists r, map_keyword_to_category k = Ok r.
Proof.
  unfold map_keyword_to_category.
  destruct (negb (PyStr.truthy k)); [by eexists|].
  destruct (dict_get _ KEYWORD_MAPPINGS) as [cid|]; [|by eexists].
  destruct (cid =? 0); [by eexists|].
  unfold get_category_by_id. cbn [mbind result_bind].
  destruct (dict_get cid IAB_AD_PRODUCT_TAXONOMY); by eexists.
Qed.

Lemma keyword_id_Some (k : string) (i : Z) :
  keyword_id k = Some i ->
  exists c, map_keyword_to_category k = Ok (Some (match_of c))
            /\ dict_get i IAB_AD_PRODUCT_TAXONOMY = Some c /\ cat_id c = i.
Proof.
  unfold keyword_id.
  destruct (map_keyword_to_category k) as [[m|]|] eqn:Hm; [|done..].
  intros [= <-]. apply map_keyword_to_category_Some in Hm as Hc.
  destruct Hc as (c & Hc & ->). exists c. split; [done|]. split; [done|].
  by apply dict_get_cat_id in Hc.
Qed.

Lemma keyword_id_None (k : string) :
  keyword_id k = None -> map_keyword_to_category k = Ok None.
Proof.
  unfold keyword_id. destruct (map_keyword_to_category_returns k) as [[m|] ->]; done.
Qed.

Lemma keywords_of_snoc (i : Z) (seen : list string) (k : string) :
  keywords_of i (seen ++ [k])
  = keywords_of i seen ++ (if decide (keyword_id k = Some i) then [k] else []).
Proof.
  unfold keywords_of. rewrite filter_app. by f_equal.
Qed.

Lemma elem_of_keywords_of (i : Z) (ks : list string) :
  keywords_of i ks <> [] <-> exists k, k ∈ ks /\ keyword_id k = Some i.
Proof.
  unfold keywords_of. split.
  - destruct (filter _ ks) as [|k l] eqn:E; [done|]. intros _.
    assert (k ∈ filter (fun k => keyword_id k = Some i) ks) as [? ?]%list_elem_of_filter
      by (rewrite E; left).
    by exists k.
  - intros (k & Hk & Hi) E.
    assert (k ∈ filter (fun k => keyword_id k = Some i) ks) as Hin
      by (by apply list_elem_of_filter).
    rewrite E in Hin. by apply elem_of_nil in Hin.
Qed.

(** *** The loop *)

Lemma tally_of_nil : tally_of [] [].
Proof.
  split; [constructor|]. split; [done|]. by intros i m ?%elem_of_nil.
Qed.

Lemma elem_of_keys {V} (i : Z) (sc : list (Z * V)) :
  i ∈ map fst sc <-> exists m, (i, m) ∈ sc.
Proof.
  split.
  - intros ([i' m] & -> & Hin)%(list_elem_of_fmap_1 fst). by exists m.
  - intros [m Hin]. change i with (fst (i, m)). by apply (list_elem_of_fmap_2 fst).
Qed.

Lemma dict_get_keys {V} (i : Z) (sc : list (Z * V)) :
  dict_get i sc = None <-> i ∉ map fst sc.
Proof.
  induction sc as [|[i' m] sc IH]; cbn [dict_get map fst].
  - split; [intros _; apply not_elem_of_nil|done].
  - rewrite not_elem_of_cons. destruct (decide (i = i')) as [->|Hne].
    + split; [done|]. by intros [? _].
    + rewrite IH. split; [by intros ?|by intros [_ ?]].
Qed.

(** With distinct keys, bump_at rewrites the entry of the category in place. *)
Lemma bump_at_entry (i : Z) (k : string) (g : Match -> Match) (sc : scores) :
  NoDup (map fst sc) ->
  (forall m, (i, m) ∈ sc -> bump k m = Ok (g m)) ->
  bump_at i k sc
  = Ok (map (fun im => if decide (fst im = i) then (fst im, g (snd im)) else im) sc).
Proof.
  induction sc as [|[i' m] sc IH]; cbn [bump_at map fst snd]; [done|].
  rewrite NoDup_cons. intros [Hi Hnd] Hg.
  destruct (decide (i' = i)) as [->|Hne].
  - rewrite Z.eqb_refl, (Hg m) by left. cbn [mbind result_bind]. do 2 f_equal.
    rewrite <- (map_id sc) at 1. apply map_ext_in.
    intros [j mj] Hj%list_elem_of_In. cbn [fst snd].
    rewrite decide_False; [done|]. intros ->. apply Hi, elem_of_keys. by exists mj.
  - apply Z.eqb_neq in Hne as Hne'. rewrite Hne'.
    rewrite IH; [done|done|]. intros m' Hm'. apply Hg. by right.
Qed.

Lemma score_keyword_step (seen : list string) (sc : scores) (k : string) :
  tally_of seen sc ->
  exists sc', score_keyword sc k = Ok sc' /\ tally_of (seen ++ [k]) sc'.
Proof.
  intros (Hnd & Hall & Hsc). unfold score_keyword.
  destruct (keyword_id k) as [i|] eqn:Hk.
  - destruct (keyword_id_Some _ _ Hk) as (c & Hm & Hc & Hci).
    rewrite Hm. cbn [mbind result_bind m_id match_of]. rewrite Hci.
    destruct (dict_get i sc) as [m0|] eqn:Hget.
    + (* the category has an entry already *)
      pose (g := fun m : Match =>
                   set_score (match_count m + 1) (default [] (m_keywords m) ++ [k]) m).
      rewrite (bump_at_entry i k g sc Hnd).
      2:{ intros m (_ & c' & _ & ->)%Hsc. reflexivity. }
      eexists. split; [reflexivity|]. split; [|split].
      * rewrite map_map. erewrite map_ext; [exact Hnd|].
        intros [j mj]. cbn [fst snd]. by destruct (decide _).
      * intros j Hj. rewrite map_map. erewrite map_ext.
        2:{ intros [j' mj]. cbn [fst snd].
            instantiate (1 := fst). by destruct (decide _). }
        rewrite keywords_of_snoc in Hj.
        destruct (decide (keyword_id k = Some j)) as [Hkj|Hkj].
        -- assert (j = i) as -> by congruence.
           apply dict_get_elem_of in Hget. apply elem_of_keys. by exists m0.
        -- rewrite app_nil_r in Hj. by apply Hall.
      * intros j m ([j' m'] & Hjm & Hin)%(list_elem_of_fmap_1 _).
        cbn [fst snd] in Hjm. destruct (Hsc _ _ Hin) as (Hne & c' & Hc' & Hm').
        rewrite keywords_of_snoc.
        destruct (decide (j' = i)) as [->|Hji]; injection Hjm as -> ->.
        -- rewrite decide_True by done. split; [by destruct (keywords_of i seen)|].
           exists c'. split; [done|]. subst m'. unfold g.
           cbn [match_count m_match_count m_keywords set_score default].
           rewrite length_app, Nat2Z.inj_add. reflexivity.
        -- rewrite decide_False by congruence. rewrite app_nil_r. split; [done|].
           by exists c'.
    + (* a new category *)
      apply dict_get_keys in Hget.
      assert (keywords_of i seen = []) as Hnil.
      { destruct (keywords_of i seen) eqn:E; [done|]. destruct Hget. apply Hall.
        by rewrite E. }
      eexists. split; [reflexivity|]. split; [|split].
      * rewrite map_app. cbn [map fst]. apply NoDup_app. split; [done|].
        split; [|apply NoDup_singleton].
        intros j Hj ->%list_elem_of_singleton. done.
      * intros j Hj. rewrite map_app, elem_of_app. cbn [map fst].
        rewrite keywords_of_snoc in Hj.
        destruct (decide (keyword_id k = Some j)) as [Hkj|Hkj].
        -- right. apply list_elem_of_singleton. congruence.
        -- left. rewrite app_nil_r in Hj. by apply Hall.
      * intros j m [Hin|[= -> ->]%list_elem_of_singleton]%elem_of_app.
        -- destruct (Hsc _ _ Hin) as (Hne & c' & Hc' & Hm').
           rewrite keywords_of_snoc, decide_False, app_nil_r.
           ++ split; [done|]. by exists c'.
           ++ intros Hkj. assert (j = i) as -> by congruence. apply Hget.
              apply elem_of_keys. by exists m.
        -- rewrite keywords_of_snoc, Hnil, decide_True by done. cbn [app length].
           split; [done|]. by exists c.
  - rewrite (keyword_id_None _ Hk). cbn [mbind result_bind].
    exists sc. split; [done|]. split; [done|]. split.
    + intros j Hj. rewrite keywords_of_snoc, decide_False, app_nil_r in Hj by congruence.
      by apply Hall.
    + intros j m Hin. rewrite keywords_of_snoc, decide_False, app_nil_r by congruence.
      by apply Hsc.
Qed.

Lemma score_loop (ks seen : list string) (sc : scores) :
  tally_of seen sc ->
  exists sc', for_each score_keyword ks sc = Ok sc' /\ tally_of (seen ++ ks) sc'.
Proof.
  revert seen sc. induction ks as [|k ks IH]; intros seen sc Hsc; cbn [for_each].
  - exists sc. by rewrite app_nil_r.
  - destruct (score_keyword_step seen sc k Hsc) as (sc1 & -> & Hsc1).
    cbn [mbind result_bind].
    destruct (IH _ _ Hsc1) as (sc2 & -> & Hsc2). exists sc2.
    by rewrite <- app_assoc in Hsc2.
Qed.

(** *** The results *)

Lemma map_result_Ok {A B} (f : A -> result B) (g : A -> B) (l : list A) :
  (forall a, a ∈ l -> f a = Ok (g a)) -> map_result f l = Ok (map g l).
Proof.
  induction l as [|a l IH]; intros Hf; cbn [map_result map]; [done|].
  rewrite (Hf a) by left. cbn [mbind result_bind].
  rewrite IH by (intros b Hb; apply Hf; by right). done.
Qed.

Lemma tally_entry (ks : list string) (sc : scores) (i : Z) (m : Match) :
  tally_of ks sc -> (i, m) ∈ sc ->
  rescore m = Ok (rescored m)
  /\ m_id (snd (rescored m)) = i
  /\ fst (rescored m) = match_count (snd (rescored m))
  /\ exists c, dict_get i IAB_AD_PRODUCT_TAXONOMY = Some c
               /\ snd (rescored m) = tallied c (keywords_of i ks).
Proof.
  intros (_ & _ & Hsc) (_ & c & Hc & ->)%Hsc.
  split; [reflexivity|]. split; [by apply dict_get_cat_id|]. split; [reflexivity|].
  by exists c.
Qed.

(** The run of map_keywords_to_categories: the loop, the rescoring, the sort. *)
Lemma tally_run (ks : list string) :
  exists sc,
    tally_of ks sc
    /\ map_keywords_to_categories ks
       = Ok (map snd (sort_desc Z.ltb fst (map rescored (dict_values sc)))).
Proof.
  destruct (score_loop ks [] [] tally_of_nil) as (sc & Hloop & Hsc).
  cbn [app] in Hsc. exists sc. split; [done|].
  unfold map_keywords_to_categories. rewrite Hloop. cbn [mbind result_bind].
  rewrite (map_result_Ok rescore rescored).
  - destruct ks; [|done]. cbn in Hloop. by injection Hloop as <-.
  - intros m ([i m'] & -> & Hin)%(list_elem_of_fmap_1 snd).
    by destruct (tally_entry _ _ _ _ Hsc Hin) as [? _].
Qed.

Lemma tally_sorted_pairs (ks : list string) (sc : scores) (p : Z * Match) :
  tally_of ks sc ->
  p ∈ sort_desc Z.ltb fst (map rescored (dict_values sc)) ->
  exists i m, (i, m) ∈ sc /\ p = rescored m.
Proof.
  intros Hsc Hp. rewrite sort_desc_Permutation in Hp.
  apply (list_elem_of_fmap_1 rescored) in Hp as (m & -> & Hm).
  apply (list_elem_of_fmap_1 snd) in Hm as ([i m'] & -> & Hin). by exists i, m'.
Qed.

Lemma tally_Permutation (sc : scores) :
  map snd (sort_desc Z.ltb fst (map rescored (dict_values sc)))
  ≡ₚ map (fun im => snd (rescored (snd im))) sc.
Proof.
  rewrite (sort_desc_Permutation Z.ltb fst). unfold dict_values.
  by rewrite !map_map.
Qed.

(** X9.  map_keywords_to_categories never raises.  It returns one entry for
    each category that some keyword of the list maps to, and no other; the
    entry of a category holds the keywords of the list that map to it, in the
    order of the list, their number as match count and the confidence
    min(0.95 + (count - 1) * 0.01, 0.99); the entries descend by match
    count. *)
Theorem map_keywords_tallies_by_category (ks : list string) :
  exists results,
    map_keywords_to_categories ks = Ok results
    /\ NoDup (ids results)
    /\ (forall i, i ∈ ids results <-> exists k, k ∈ ks /\ keyword_id k = Some i)
    /\ (forall m, m ∈ results ->
          exists c, get_category_by_id (IdInt (m_id m)) = Ok (Some c)
                    /\ m = tallied c (keywords_of (m_id m) ks))
    /\ StronglySorted (fun a b => match_count b <= match_count a) results.
Proof.
  destruct (tally_run ks) as (sc & Hsc & Hrun).
  pose proof (tally_sorted_pairs ks sc) as Hpairs.
  assert (ids (map snd (sort_desc Z.ltb fst (map rescored (dict_values sc))))
          ≡ₚ map fst sc) as Hids.
  { unfold ids. rewrite tally_Permutation, map_map.
    erewrite map_ext_in; [reflexivity|]. intros [i m] Hin%list_elem_of_In.
    by destruct (tally_entry _ _ _ _ Hsc Hin) as (_ & ? & _). }
  eexists. split; [exact Hrun|]. pose proof Hsc as (Hnd & Hall & Hsc').
  split; [by rewrite Hids|]. split; [|split].
  - intros i. rewrite Hids, <- elem_of_keywords_of. split; [|apply Hall].
    intros [m Hin]%elem_of_keys. by destruct (Hsc' _ _ Hin).
  - intros m (p & -> & Hp)%(list_elem_of_fmap_1 snd).
    destruct (Hpairs _ Hsc Hp) as (i & m0 & Hin & ->).
    destruct (tally_entry ks sc i m0) as (_ & Hid & _ & c & Hc & Hm); [done..|].
    exists c. rewrite Hid. split; [|done]. unfold get_category_by_id. by rewrite Hc.
  - apply (StronglySorted_fmap snd
             (fun p q => match_count (snd q) <= match_count (snd p))); [done|].
    apply (MergeFacts.StronglySorted_among (fun p => fst p = match_count (snd p))
             (before Z.ltb fst)).
    + unfold before. intros p q -> -> Hlt. by apply Z.ltb_ge.
    + apply Forall_forall. intros p Hp.
      destruct (Hpairs _ Hsc Hp) as (i & m0 & Hin & ->).
      destruct (tally_entry ks sc i m0) as (_ & _ & ? & _); done.
    + apply (sort_desc_sorted Z.ltb fst (fun _ => True)).
      * intros a b _ _. lia.
      * intros a b c _ _ _. lia.
      * by apply Forall_forall.
Qed.

(** The verdicts of a tally: one for each category with a keyword. *)
Lemma tally_verdicts (ks : list string) (sc : scores) :
  tally_of ks sc ->
  NoDup (map (fun im => verdict (snd (rescored (snd im)))) sc)
  /\ forall v, v ∈ map (fun im => verdict (snd (rescored (snd im)))) sc
               <-> exists i c, keywords_of i ks <> []
                               /\ dict_get i IAB_AD_PRODUCT_TAXONOMY = Some c
                               /\ v = verdict (tallied c (keywords_of i ks)).
Proof.
  intros Hsc. pose proof Hsc as (Hnd & Hall & Hsc'). split.
  - apply (NoDup_fmap_1 (fun v : Z * option Z * float => fst (fst v))).
    change (NoDup (map (fun v : Z * option Z * float => fst (fst v))
                     (map (fun im => verdict (snd (rescored (snd im)))) sc))).
    rewrite map_map. erewrite map_ext_in; [exact Hnd|].
    intros [i m] Hin%list_elem_of_In.
    by destruct (tally_entry _ _ _ _ Hsc Hin) as (_ & ? & _).
  - intros v. split.
    + intros ([i m] & -> & Hin)%(list_elem_of_fmap_1 _). cbn [snd].
      destruct (tally_entry _ _ _ _ Hsc Hin) as (_ & _ & _ & c & Hc & ->).
      exists i, c. split; [|done]. by destruct (Hsc' _ _ Hin).
    + intros (i & c & Hne & Hc & ->).
      apply Hall, elem_of_keys in Hne as [m Hin].
      destruct (tally_entry _ _ _ _ Hsc Hin) as (_ & _ & _ & c' & Hc' & Hm).
      assert (c' = c) as -> by congruence. rewrite <- Hm.
      by apply (list_elem_of_fmap_2 (fun im => verdict (snd (rescored (snd im)))) _ (i, m)).
Qed.

Lemma verdict_tallied (c : Category) (kws kws' : list string) :
  length kws = length kws' -> verdict (tallied c kws) = verdict (tallied c kws').
Proof. intros H. unfold verdict, tallied. cbn. by rewrite H. Qed.

(** X10.  The order of the keywords decides only the order of the entries
    with equal match counts, and the order of the keywords within an entry:
    for two lists with the same keywords in different orders,
    map_keywords_to_categories finds the same categories with the same match
    counts and confidences. *)
Theorem map_keywords_order_moves_ties_only (ks ks' : list string) :
  ks ≡ₚ ks' ->
  exists results results',
    map_keywords_to_categories ks = Ok results
    /\ map_keywords_to_categories ks' = Ok results'
    /\ map verdict results ≡ₚ map verdict results'.
Proof.
  intros Hperm.
  destruct (tally_run ks) as (sc & Hsc & Hrun).
  destruct (tally_run ks') as (sc' & Hsc' & Hrun').
  eexists _, _. split; [exact Hrun|]. split; [exact Hrun'|].
  rewrite !tally_Permutation, !map_map.
  destruct (tally_verdicts _ _ Hsc) as [Hnd Hin].
  destruct (tally_verdicts _ _ Hsc') as [Hnd' Hin'].
  apply NoDup_Permutation; [done..|].
  assert (forall i, keywords_of i ks ≡ₚ keywords_of i ks') as Hk.
  { intros i. unfold keywords_of. by apply filter_Permutation. }
  intros v. rewrite Hin, Hin'. split; intros (i & c & Hne & Hc & ->); exists i, c.
  - split; [|split; [done|]].
    + intros E. apply Hne. apply Permutation_nil_r. by rewrite <- E.
    + apply verdict_tallied. by rewrite (Hk i).
  - split; [|split; [done|]].
    + intros E. apply Hne. specialize (Hk i). rewrite E in Hk. symmetry in Hk.
      by apply Permutation_nil_r in Hk.
    + apply verdict_tallied. by rewrite (Hk i).
Qed.

Lemma map_keywords_phone_laptop_either_way :
  ["phone"; "laptop"; "smartphone"] ≡ₚ ["laptop"; "smartphone"; "phone"]
  /\ exists results results',
       map_keywords_to_categories ["phone"; "laptop"; "smartphone"] = Ok results
       /\ map_keywords_to_categories ["laptop"; "smartphone"; "phone"] = Ok results'
       /\ map verdict results ≡ₚ map verdict results'.
Proof.
  assert (["phone"; "laptop"; "smartphone"] ≡ₚ ["laptop"; "smartphone"; "phone"]) as H.
  { apply (Permutation_cons_append ["laptop"; "smartphone"] "phone"). }
  split; [exact H|].
  exact (map_keywords_order_moves_ties_only _ _ H).
Defined.

End TallyFacts.

(** ** mapper.py: _sanitize *)
Module SanitizeFacts.
Import Py Taxonomy Keywords Cache Mapper Notions PyFacts.

Section Chars.
Context (p : ascii -> bool).

Lemma all_chars_filter_chars (keep : ascii -> bool) (s : string) :
  (forall c, keep c = true -> p c = true) -> all_chars p (PyStr.filter_chars keep s) = true.
Proof.
  intros Hk. induction s as [|c s IH]; [done|]. cbn [PyStr.filter_chars].
  destruct (keep c) eqn:Hc; [|done]. cbn [all_chars]. by rewrite (Hk c Hc), IH.
Qed.

Lemma all_chars_lstrip (s : string) :
  all_chars p s = true -> all_chars p (PyStr.lstrip s) = true.
Proof.
  induction s as [|c s IH]; [done|]. cbn [PyStr.lstrip all_chars].
  intros [Hc Hs]%andb_prop. destruct (PyStr.is_space c); [auto|].
  cbn [all_chars]. by rewrite Hc, Hs.
Qed.

Lemma all_chars_rstrip (s : string) :
  all_chars p s = true -> all_chars p (PyStr.rstrip s) = true.
Proof.
  induction s as [|c s IH]; [done|]. cbn [PyStr.rstrip all_chars].
  intros [Hc Hs]%andb_prop. specialize (IH Hs).
  destruct (PyStr.rstrip s).
  - destruct (PyStr.is_space c); [done|]. cbn [all_chars]. by rewrite Hc.
  - cbn [all_chars] in *. by rewrite Hc, IH.
Qed.

Lemma all_chars_take (n : nat) (s : string) :
  all_chars p s = true -> all_chars p (PyStr.take n s) = true.
Proof.
  revert s. induction n as [|n IH]; intros [|c s]; try done.
  cbn [PyStr.take all_chars]. intros [Hc Hs]%andb_prop. by rewrite Hc, IH.
Qed.

Lemma all_chars_sub_spaces (b : bool) (s : string) :
  p " " = true -> all_chars p s = true -> all_chars p (PyStr.sub_spaces_aux b s) = true.
Proof.
  intros Hsp. revert b. induction s as [|c s IH]; intros b; [done|].
  cbn [PyStr.sub_spaces_aux all_chars]. intros [Hc Hs]%andb_prop.
  destruct (PyStr.is_space c); [destruct b|]; cbn [all_chars];
    rewrite ?Hsp, ?Hc, IH; done.
Qed.

End Chars.

Lemma length_take (n : nat) (s : string) : (String.length (PyStr.take n s) <= n)%nat.
Proof.
  revert s. induction n as [|n IH]; intros [|c s]; cbn [PyStr.take String.length]; try lia.
  specialize (IH s). lia.
Qed.

Lemma tidy_weaken (b : bool) (s : string) : tidy b s = true -> tidy false s = true.
Proof.
  destruct s as [|c s]; [done|]. cbn [tidy].
  destruct (PyStr.is_space c); [|done]. destruct b; [done|done].
Qed.

Lemma tidy_sub_spaces (b : bool) (s : string) : tidy b (PyStr.sub_spaces_aux b s) = true.
Proof.
  revert b. induction s as [|c s IH]; intros b; [done|].
  cbn [PyStr.sub_spaces_aux].
  destruct (PyStr.is_space c) eqn:Hc; [destruct b|].
  - apply IH.
  - cbn [tidy]. change (PyStr.is_space " ") with true. cbn. apply IH.
  - cbn [tidy]. rewrite Hc. apply IH.
Qed.

(** After lstrip no blank leads the text. *)
Lemma tidy_lstrip (b : bool) (s : string) :
  tidy b s = true -> tidy true (PyStr.lstrip s) = true.
Proof.
  revert b. induction s as [|c s IH]; intros b; [done|].
  cbn [PyStr.lstrip tidy]. destruct (PyStr.is_space c) eqn:Hc.
  - intros [_ Hs]%andb_prop. by apply (IH true).
  - intros Hs. cbn [tidy]. by rewrite Hc.
Qed.

Lemma tidy_rstrip (b : bool) (s : string) :
  tidy b s = true -> tidy b (PyStr.rstrip s) = true.
Proof.
  revert b. induction s as [|c s IH]; intros b; [done|].
  cbn [PyStr.rstrip tidy]. destruct (PyStr.is_space c) eqn:Hc.
  - intros [Hb Hs]%andb_prop. specialize (IH _ Hs).
    destruct (PyStr.rstrip s); [done|]. cbn [tidy] in *. by rewrite Hc, Hb, IH.
  - intros Hs. specialize (IH _ Hs).
    destruct (PyStr.rstrip s); cbn [tidy] in *; by rewrite Hc.
Qed.

Lemma tidy_take (n : nat) (b : bool) (s : string) :
  tidy b s = true -> tidy b (PyStr.take n s) = true.
Proof.
  revert b s. induction n as [|n IH]; intros b [|c s]; try done.
  cbn [PyStr.take tidy]. destruct (PyStr.is_space c).
  - intros [Hb Hs]%andb_prop. by rewrite Hb, IH.
  - apply IH.
Qed.

(** X11.  What _sanitize returns is at most max_length characters long, holds
    no control character, does not start with a blank, and holds no blank but
    single spaces. *)
Theorem sanitize_is_clean (text : option string) (max_length : nat) :
  (String.length (_sanitize text max_length) <= max_length)%nat
  /\ all_chars (fun c => negb (PyStr.is_control c)) (_sanitize text max_length) = true
  /\ tidy true (_sanitize text max_length) = true.
Proof.
  unfold _sanitize. destruct text as [t|]; [|cbn; split; [lia|done]].
  destruct (negb (PyStr.truthy t)); [cbn; split; [lia|done]|].
  split; [apply length_take|]. split.
  - apply all_chars_take. unfold PyStr.strip. apply all_chars_rstrip, all_chars_lstrip.
    apply all_chars_sub_spaces; [done|]. by apply all_chars_filter_chars.
  - apply tidy_take. unfold PyStr.strip. apply tidy_rstrip, (tidy_lstrip false).
    apply tidy_sub_spaces.
Qed.

Lemma filter_chars_append (keep : ascii -> bool) (a b : string) :
  PyStr.filter_chars keep (a +:+ b) = PyStr.filter_chars keep a +:+ PyStr.filter_chars keep b.
Proof.
  induction a as [|c a IH]; [done|]. rewrite append_cons. cbn [PyStr.filter_chars].
  rewrite IH. destruct (keep c); [by rewrite append_cons|done].
Qed.

(** X12.  _sanitize deletes a control character, tab, newline and carriage
    return included, without leaving a blank in its place: the text is
    sanitized as if the character had not been there, so the words it
    separated are joined. *)
Theorem sanitize_deletes_control_characters (a b : string) (c : ascii) (max_length : nat) :
  PyStr.is_control c = true ->
  _sanitize (Some (a +:+ String c b)) max_length = _sanitize (Some (a +:+ b)) max_length.
Proof.
  intros Hc. unfold _sanitize.
  assert (PyStr.sub_control (a +:+ String c b) = PyStr.sub_control (a +:+ b)) as Hs.
  { unfold PyStr.sub_control. rewrite !filter_chars_append. cbn [PyStr.filter_chars].
    by rewrite Hc. }
  rewrite Hs.
  replace (PyStr.truthy (a +:+ String c b)) with true by (by destruct a).
  cbn [negb].
  destruct (a +:+ b) eqn:E; [|done].
  cbn. by destruct max_length.
Qed.

Lemma sanitize_joins_words_around_a_newline :
  PyStr.is_control "010" = true
  /\ _sanitize (Some ("Apple" +:+ String "010" "Watch")) 500
     = _sanitize (Some ("Apple" +:+ "Watch")) 500
  /\ _sanitize (Some ("Apple" +:+ "Watch")) 500 = "AppleWatch".
Proof.
  split; [reflexivity|]. split; [|reflexivity].
  exact (sanitize_deletes_control_characters "Apple" "Watch" "010" 500 eq_refl).
Defined.

End SanitizeFacts.

(** ** mapper.py: _extract_keywords *)
Module ExtractFacts.
Import Py Taxonomy Keywords Cache Mapper Notions PyFacts SortFacts.

Section Dict.
Context `{EqDecision K} {V : Type}.
Implicit Types (k : K) (v : V) (d : list (K * V)).

Lemma dict_get_dict_set k k' v d :
  dict_get k' (dict_set k v d) = if decide (k' = k) then Some v else dict_get k' d.
Proof.
  induction d as [|[k0 v0] d IH]; cbn [dict_set dict_get].
  - by destruct (decide (k' = k)).
  - destruct (decide (k = k0)) as [->|Hne]; cbn [dict_get].
    + by destruct (decide (k' = k0)).
    + rewrite IH. destruct (decide (k' = k0)) as [->|]; [|done].
      by rewrite decide_False by congruence.
Qed.

Lemma dict_get_is_Some k d : is_Some (dict_get k d) <-> k ∈ map fst d.
Proof.
  induction d as [|[k0 v0] d IH]; cbn [dict_get map fst].
  - split; [by intros [? ?]|by intros ?%elem_of_nil].
  - rewrite elem_of_cons. destruct (decide (k = k0)) as [->|Hne].
    + split; [by left|by eexists].
    + rewrite IH. split; [by right|by intros [?|?]].
Qed.

Lemma NoDup_dict_set k v d : NoDup (map fst d) -> NoDup (map fst (dict_set k v d)).
Proof.
  induction d as [|[k0 v0] d IH]; cbn [dict_set map fst].
  - intros _. apply NoDup_singleton.
  - rewrite NoDup_cons. intros [Hk Hd].
    destruct (decide (k = k0)) as [->|Hne]; cbn [map fst]; apply NoDup_cons.
    + done.
    + split; [|by apply IH]. rewrite <- dict_get_is_Some, dict_get_dict_set.
      rewrite decide_False by congruence. by rewrite dict_get_is_Some.
Qed.

Lemma dict_get_elem k v d : NoDup (map fst d) -> (k, v) ∈ d -> dict_get k d = Some v.
Proof.
  induction d as [|[k0 v0] d IH]; cbn [map fst dict_get]; [by intros _ ?%elem_of_nil|].
  rewrite NoDup_cons, elem_of_cons. intros [Hk Hd] [[= -> ->]|Hin].
  - by rewrite decide_True.
  - rewrite decide_False; [by apply IH|]. intros ->. apply Hk.
    change k0 with (fst (k0, v)). by apply (list_elem_of_fmap_2 fst).
Qed.

End Dict.

(** *** The frequencies *)

Lemma occurrences_snoc (w x : string) (seen : list string) :
  occurrences w (seen ++ [x])
  = occurrences w seen + (if decide (x = w) then 1 else 0).
Proof.
  unfold occurrences. rewrite filter_app, length_app, Nat2Z.inj_add. f_equal.
  rewrite filter_cons, filter_nil. by destruct (decide (x = w)).
Qed.

Lemma occurrences_pos (w : string) (seen : list string) :
  w ∈ seen <-> 0 < occurrences w seen.
Proof.
  unfold occurrences. split.
  - intros Hw. assert (w ∈ filter (fun x => x = w) seen) as Hin
      by (by apply list_elem_of_filter).
    destruct (filter _ seen); [by apply elem_of_nil in Hin|]. cbn [length]. lia.
  - destruct (filter (fun x => x = w) seen) as [|x l] eqn:E; [cbn; lia|]. intros _.
    assert (x ∈ filter (fun x => x = w) seen) as [-> ?]%list_elem_of_filter
      by (rewrite E; left).
    done.
Qed.

Lemma count_loop (words seen : list string) (freq : list (string * Z)) :
  counted seen freq -> counted (seen ++ words) (fold_left count_word words freq).
Proof.
  revert seen freq. induction words as [|x words IH]; intros seen freq Hf; cbn [fold_left].
  - by rewrite app_nil_r.
  - replace (seen ++ x :: words) with ((seen ++ [x]) ++ words) by (by rewrite <- app_assoc).
    apply IH. destruct Hf as [Hnd Hget]. unfold count_word. split.
    + by apply NoDup_dict_set.
    + intros w. rewrite dict_get_dict_set, occurrences_snoc.
      destruct (decide (w = x)) as [->|Hne].
      * rewrite Hget. rewrite (decide_True (P := x ∈ seen ++ [x])) by (apply elem_of_app; right; left).
        rewrite !(decide_True (P := x = x)) by done. f_equal.
        destruct (decide (x ∈ seen)) as [Hin|Hout]; cbn [default]; [done|].
        assert (occurrences x seen = 0) as ->; [|done].
        destruct (Z_lt_le_dec 0 (occurrences x seen)) as [Hlt|Hle];
          [by apply occurrences_pos in Hlt|].
        unfold occurrences in *. lia.
      * rewrite Hget. rewrite (decide_False (P := x = w)) by done. rewrite Z.add_0_r.
        destruct (decide (w ∈ seen)) as [Hin|Hout].
        -- by rewrite decide_True by (apply elem_of_app; by left).
        -- rewrite decide_False; [done|].
           intros [?|?%list_elem_of_singleton]%elem_of_app; done.
Qed.

Lemma counted_nil : counted [] [].
Proof. split; [constructor|]. intros w. cbn. by rewrite decide_False by apply not_elem_of_nil. Qed.

(** X13.  The keywords of _extract_keywords are the first twenty of the
    distinct counted words of the text in descending order of frequency: they
    and the words left out make up the counted words, each once, in descending
    order of the number of their occurrences, and a word is left out only when
    twenty are returned. *)
Theorem extract_keywords_are_the_most_frequent_words (text : string) :
  exists rest,
    NoDup (_extract_keywords text ++ rest)
    /\ (forall w, w ∈ _extract_keywords text ++ rest <-> w ∈ counted_words text)
    /\ StronglySorted
         (fun a b => occurrences b (counted_words text) <= occurrences a (counted_words text))
         (_extract_keywords text ++ rest)
    /\ (length (_extract_keywords text) <= 20)%nat
    /\ (rest <> [] -> length (_extract_keywords text) = 20%nat).
Proof.
  destruct text as [|c0 t0] eqn:Et.
  { exists []. cbn. split; [constructor|]. split; [done|]. split; [constructor|].
    split; [lia|done]. }
  rewrite <- Et. clear Et.
  assert (_extract_keywords text
          = map fst (take 20 (sort_desc Z.ltb snd
                                (fold_left count_word (counted_words text) [])))) as Hrun.
  { unfold _extract_keywords, counted_words. destruct text; [|done].
    by cbn. }
  pose proof (count_loop (counted_words text) [] [] counted_nil) as [Hnd Hget].
  cbn [app] in Hget.
  set (freq := fold_left count_word (counted_words text) []) in *.
  set (sorted := sort_desc Z.ltb snd freq) in *.
  exists (map fst (drop 20 sorted)).
  assert (_extract_keywords text ++ map fst (drop 20 sorted) = map fst sorted) as Hall.
  { by rewrite Hrun, <- map_app, take_drop. }
  assert (map fst sorted ≡ₚ map fst freq) as Hperm.
  { unfold sorted. by rewrite (sort_desc_Permutation Z.ltb snd). }
  rewrite Hall. split; [by rewrite Hperm|]. split; [|split; [|split]].
  - intros w. rewrite Hperm, <- dict_get_is_Some, Hget.
    destruct (decide (w ∈ counted_words text)); [by split; [|eexists]|].
    split; [by intros [? ?]|done].
  - apply (StronglySorted_fmap fst
             (fun p q => occurrences (fst q) (counted_words text)
                         <= occurrences (fst p) (counted_words text))); [done|].
    apply (MergeFacts.StronglySorted_among
             (fun p => snd p = occurrences (fst p) (counted_words text))
             (before Z.ltb snd)).
    + unfold before. intros p q <- <- Hlt. by apply Z.ltb_ge.
    + apply Forall_forall. intros [w n] Hp. unfold sorted in Hp.
      rewrite sort_desc_Permutation in Hp. apply (dict_get_elem _ _ _ Hnd) in Hp.
      rewrite Hget in Hp. cbn [fst snd]. destruct (decide _); congruence.
    + apply (sort_desc_sorted Z.ltb snd (fun _ => True)).
      * intros a b _ _. lia.
      * intros a b c _ _ _. lia.
      * by apply Forall_forall.
  - rewrite Hrun, length_map, length_take. lia.
  - intros Hrest. rewrite Hrun, length_map, length_take.
    destruct (drop 20 sorted) eqn:E; [done|].
    assert (length (drop 20 sorted) <> 0)%nat as Hd by (by rewrite E).
    rewrite length_drop in Hd. lia.
Qed.

End ExtractFacts.

(** ** mapper.py: the modes and the classifier *)
Module ServiceFacts.
Import Py Taxonomy Keywords Cache Mapper Notions PyFacts TaxonomyFacts KeywordsFacts
  MapperFacts TallyFacts.

Lemma first_match_returns (candidates : list string) :
  exists r, first_match candidates = Ok r.
Proof.
  induction candidates as [|w ws IH]; cbn [first_match]; [by eexists|].
  destruct (map_keyword_to_category_returns w) as [[m|] ->]; cbn [mbind result_bind];
    [by eexists|exact IH].
Qed.

Lemma find_best_match_returns (text : string) : exists r, find_best_match text = Ok r.
Proof.
  unfold find_best_match. destruct (negb (PyStr.truthy text)); [by eexists|].
  destruct (first_match_returns (words_of text)) as [[m|] ->]; cbn [mbind result_bind];
    [by eexists|apply first_match_returns].
Qed.

Section Modes.
Context (list_set : list string -> list string) (elapsed_ms : nat -> Z).

(** The deterministic mode never raises; what it returns passed the
    threshold. *)
Lemma deterministic_returns (product : Product) (c : float) (self : ProductMapper) :
  exists cats,
    fst (_map_deterministic list_set product c self)
    = Ok {| r_source := "deterministic"; r_categories := cats; r_error := None |}
    /\ Forall (fun m => ge (m_confidence m) c = true) cats.
Proof.
  unfold _map_deterministic.
  destruct (tally_run (list_set (p_keywords product
              ++ _extract_keywords (PyStr.join " " [p_title product; p_description product;
                                                     p_category product; p_brand product]))))
    as (sc & _ & ->).
  unfold_M.
  destruct (map snd _) as [|m ms].
  - destruct (find_best_match_returns (PyStr.join " " [p_title product;
                p_description product; p_category product; p_brand product]))
      as [[m|] ->].
    + destruct (ge (m_confidence m) c) eqn:Hc; eexists; (split; [reflexivity|]);
        [by constructor|constructor].
    + eexists. split; [reflexivity|constructor].
  - eexists. split; [reflexivity|]. unfold keep_confident.
    apply Forall_forall. by intros x [? _]%list_elem_of_filter.
Qed.

(** X14.  In semantic mode a mapper without classifier answers every call
    that is not rejected for missing input nor served from the cache with the
    failure envelope of the ValueError of _map_semantic; it counts one error,
    calls no classifier and leaves the cache as it was. *)
Theorem semantic_mode_without_client_fails
    (title description category brand : option string) (keywords : option (list string))
    (min_conf : option float) (inc : bool) (self : ProductMapper) :
  let product := build_product title description category brand keywords in
  let self0 := with_stats (count_request (stats self)) self in
  let out := map_product list_set elapsed_ms title description category brand keywords
               (Some "semantic") min_conf inc self in
  client self = None ->
  PyStr.truthy_opt title || PyStr.truthy_opt description = true ->
  fst (cache_probe (create_cache_key product) self0) = Ok None ->
  fst out
  = {| success := false;
       error := Some "API client not initialized. API key required for semantic mapping.";
       iab_product := None; source := None; input := None; cached := None;
       latency_ms := Some (elapsed_ms (clock_reads self)) |}
  /\ errors (stats (snd out)) = errors (stats self) + 1
  /\ requests (stats (snd out)) = requests (stats self) + 1
  /\ client_calls (snd out) = client_calls self
  /\ cache_store (snd out) = cache_store self.
Proof.
  intros product self0 out Hcl Hv Hp. subst out.
  rewrite (map_product_miss list_set elapsed_ms _ _ _ _ _ _ _ _ _ Hv Hp).
  fold product self0.
  pose proof (cache_probe_frame (create_cache_key product) self0) as Hf.
  cbv zeta in Hf.
  set (self1 := snd (cache_probe (create_cache_key product) self0)) in *.
  destruct Hf as (Hst & Hcalls & Hclock & _ & _ & Hclient & Hstore & _).
  change (choose_mode (Some "semantic") self1) with "semantic".
  assert (try_body list_set elapsed_ms product (create_cache_key product) "semantic"
            (default (min_confidence self1) min_conf) inc self1
          = (Raise (PyExn "ValueError"
               "API client not initialized. API key required for semantic mapping."),
             self1)) as Hraise.
  { rewrite try_body_run. unfold dispatch. cbn [String.eqb Ascii.eqb Bool.eqb].
    unfold _map_semantic. unfold_M. rewrite Hclient. cbn [client with_stats self0].
    by rewrite Hcl. }
  unfold guarded. rewrite Hraise.
  cbn [fst snd failure exn_str with_clock_read with_stats stats errors count_error
       client_calls clock_reads requests].
  rewrite Hst, Hcalls, Hclock. cbn [self0 with_stats stats clock_reads client_calls
    count_request errors requests].
  split; [done|]. split; [done|]. split; [done|]. split; [done|].
  change (cache_store self1 = cache_store self). by rewrite Hstore.
Qed.

(** X15.  Every mode name other than deterministic and semantic is run as the
    hybrid mode.  On a mapper without classifier the hybrid mode never raises
    and calls no classifier: it returns the categories of the deterministic
    mode, under the source deterministic when one of them reaches the
    confidence 0.9 and under the source hybrid otherwise. *)
Theorem hybrid_without_client_returns_deterministic_categories
    (use_mode : string) (product : Product) (c : float) (self : ProductMapper) :
  String.eqb use_mode "deterministic" = false ->
  String.eqb use_mode "semantic" = false ->
  client self = None ->
  exists cats src after,
    dispatch list_set "deterministic" product c self
    = (Ok {| r_source := "deterministic"; r_categories := cats; r_error := None |}, after)
    /\ dispatch list_set use_mode product c self
       = (Ok {| r_source := src; r_categories := cats; r_error := None |}, after)
    /\ src = (if existsb (fun m => ge (m_confidence m) 0.9) cats
              then "deterministic" else "hybrid")
    /\ client_calls after = client_calls self.
Proof.
  intros Hd Hs Hcl. unfold dispatch. rewrite Hd, Hs. cbn [String.eqb Ascii.eqb Bool.eqb].
  destruct (deterministic_returns product c self) as (cats & Hfst & _).
  pose proof (deterministic_frame list_set product c self) as [Hf Hcalls].
  unfold _map_hybrid. unfold mbind at 1. unfold M_bind at 1.
  destruct (_map_deterministic list_set product c self) as [r after].
  cbn [fst snd] in *. subst r. cbn [r_categories].
  exists cats. change CONFIDENCE_HIGH with 0.9%float.
  destruct (existsb _ cats).
  - by exists "deterministic", after.
  - exists "hybrid", after. split; [done|]. split; [|done].
    unfold_M. unfold frame in Hf. destruct_and!.
    replace (client after) with (@None (Product -> result ApiResult)) by congruence.
    done.
Qed.

(** *** The calls of the classifier *)

Lemma semantic_calls (product : Product) (c : float) (self : ProductMapper) :
  client_calls (snd (_map_semantic product c self))
  = match client self with
    | Some _ => client_calls self ++ [product]
    | None => client_calls self
    end.
Proof.
  unfold _map_semantic. unfold_M.
  destruct (client self) as [classify|]; [|done].
  destruct (classify product) as [api|e]; cbn [snd]; [|done].
  by destruct (api_success api), (api_categories api) as [[|? ?]|].
Qed.

Lemma hybrid_calls (product : Product) (c : float) (self : ProductMapper) :
  exists calls,
    client_calls (snd (_map_hybrid list_set product c self)) = calls
    /\ (calls = client_calls self \/ calls = client_calls self ++ [product])
    /\ (client self = None -> calls = client_calls self).
Proof.
  unfold _map_hybrid. unfold mbind at 1. unfold M_bind at 1.
  pose proof (deterministic_frame list_set product c self) as [Hf Hcalls].
  destruct (_map_deterministic list_set product c self) as [[res|e] s1]; cbn [snd] in *;
    [|eexists; split; [reflexivity|]; by split; [left|]].
  destruct (existsb _ _); [eexists; split; [reflexivity|]; by split; [left|]|].
  unfold mbind at 1. unfold M_bind at 1. unfold read at 1.
  assert (client s1 = client self) as Hcl by (unfold frame in Hf; by destruct_and!).
  destruct (client s1) as [cl|] eqn:Hc1;
    [|eexists; split; [reflexivity|]; by split; [left|]].
  unfold mbind at 1. unfold M_bind at 1.
  pose proof (semantic_calls product c s1) as Hs. rewrite Hc1, Hcalls in Hs.
  destruct (_map_semantic product c s1) as [[sres|e] s2]; cbn [snd] in *.
  - exists (client_calls s2). split.
    + destruct (r_categories sres); [done|]. unfold_M. by destruct (_merge_results _ _).
    + split; [by right|]. intros Hn. congruence.
  - exists (client_calls s2). split; [done|]. split; [by right|]. intros Hn. congruence.
Qed.

Lemma dispatch_calls (use_mode : string) (product : Product) (c : float)
    (self : ProductMapper) :
  let after := snd (dispatch list_set use_mode product c self) in
  (client_calls after = client_calls self
   \/ client_calls after = client_calls self ++ [product])
  /\ (client self = None -> client_calls after = client_calls self)
  /\ (use_mode = "deterministic" -> client_calls after = client_calls self).
Proof.
  cbv zeta. unfold dispatch.
  destruct (String.eqb use_mode "deterministic") eqn:Hd.
  - pose proof (deterministic_frame list_set product c self) as [_ ->]. by split; [left|].
  - assert (use_mode <> "deterministic") as Hne by (by apply String.eqb_neq).
    destruct (String.eqb use_mode "semantic").
    + rewrite semantic_calls. destruct (client self); by split; [right + left|].
    + destruct (hybrid_calls product c self) as (calls & -> & H1 & H2). by split.
Qed.

Lemma guarded_calls (product : Product) (key use_mode : string) (c : float) (inc : bool)
    (self : ProductMapper) :
  client_calls (snd (guarded list_set elapsed_ms product key use_mode c inc self))
  = client_calls (snd (dispatch list_set use_mode product c self)).
Proof.
  unfold guarded. rewrite try_body_run.
  destruct (dispatch list_set use_mode product c self) as [[res|e] s1]; [|done].
  destruct (_format_result _ _ _ _) as [formatted|e]; [|done].
  cbn [snd with_clock_read with_stats client_calls].
  by destruct (cache_write_frame key formatted s1) as (_ & ? & _).
Qed.

(** X16.  One call of map_product calls the classifier at most once, and
    then with the sanitized product; it does not call it in deterministic
    mode, on a mapper without classifier, on missing input, nor when the
    answer comes from the cache. *)
Theorem classifier_is_called_at_most_once
    (title description category brand : option string) (keywords : option (list string))
    (mode : option string) (min_conf : option float) (inc : bool) (self : ProductMapper) :
  let product := build_product title description category brand keywords in
  let out := map_product list_set elapsed_ms title description category brand keywords
               mode min_conf inc self in
  (client_calls (snd out) = client_calls self
   \/ client_calls (snd out) = client_calls self ++ [product])
  /\ (client self = None -> client_calls (snd out) = client_calls self)
  /\ (choose_mode mode self = "deterministic" -> client_calls (snd out) = client_calls self)
  /\ (cached (fst out) = Some true -> client_calls (snd out) = client_calls self)
  /\ (PyStr.truthy_opt title = false -> PyStr.truthy_opt description = false ->
      client_calls (snd out) = client_calls self).
Proof.
  intros product out. subst out.
  destruct (PyStr.truthy_opt title || PyStr.truthy_opt description) eqn:Hv.
  2:{ apply orb_false_elim in Hv as [Ht Hd].
      rewrite (map_product_missing list_set elapsed_ms _ _ _ _ _ _ _ _ _ Ht Hd).
      by repeat split; [left|..]. }
  set (self0 := with_stats (count_request (stats self)) self).
  pose proof (cache_probe_frame (create_cache_key product) self0) as Hf. cbv zeta in Hf.
  destruct Hf as (_ & Hcalls & _ & Hmode & _ & Hclient & _).
  destruct (cache_probe_never_raises (create_cache_key product) self0) as [[hit|] Hp].
  - rewrite (map_product_hit list_set elapsed_ms _ _ _ _ _ _ _ _ _ hit Hv Hp).
    cbn [snd with_clock_read with_stats client_calls]. fold product self0.
    rewrite Hcalls. by repeat split; [left|..].
  - rewrite (map_product_miss list_set elapsed_ms _ _ _ _ _ _ _ _ _ Hv Hp).
    fold product self0. rewrite guarded_calls.
    set (self1 := snd (cache_probe (create_cache_key product) self0)) in *.
    destruct (dispatch_calls (choose_mode mode self1) product
                (default (min_confidence self1) min_conf) self1) as (H1 & H2 & H3).
    rewrite Hcalls in H1, H2, H3. cbn [self0 with_stats client_calls] in H1, H2, H3.
    split; [exact H1|]. split; [|split; [|split]].
    + intros Hn. apply H2. by rewrite Hclient.
    + intros Hm. apply H3. rewrite <- Hm. unfold choose_mode. by rewrite Hmode.
    + unfold guarded. rewrite try_body_run.
      destruct (dispatch _ _ _ _ _) as [[res|e] s1]; [|done].
      by destruct (_format_result _ _ _ _).
    + intros Ht Hd. by rewrite Ht, Hd in Hv.
Qed.

End Modes.

Lemma semantic_mode_without_api_key :
  client default_mapper = None
  /\ PyStr.truthy_opt (Some "Test smartphone") || PyStr.truthy_opt None = true
  /\ fst (cache_probe (create_cache_key (build_product (Some "Test smartphone") None None
                                           None None))
            (with_stats (count_request (stats default_mapper)) default_mapper)) = Ok None
  /\ fst (map_product first_seen (steady_clock 5) (Some "Test smartphone") None None None
            None (Some "semantic") None true default_mapper)
     = {| success := false;
          error := Some "API client not initialized. API key required for semantic mapping.";
          iab_product := None; source := None; input := None; cached := None;
          latency_ms := Some 5 |}
  /\ errors (stats (snd (map_product first_seen (steady_clock 5) (Some "Test smartphone")
                           None None None None (Some "semantic") None true
                           default_mapper))) = 1.
Proof.
  assert (client default_mapper = None) as H1 by reflexivity.
  assert (PyStr.truthy_opt (Some "Test smartphone") || PyStr.truthy_opt None = true)
    as H2 by reflexivity.
  assert (fst (cache_probe (create_cache_key (build_product (Some "Test smartphone") None
                                                None None None))
                 (with_stats (count_request (stats default_mapper)) default_mapper))
          = Ok None) as H3 by (vm_compute; reflexivity).
  destruct (semantic_mode_without_client_fails first_seen (steady_clock 5)
              (Some "Test smartphone") None None None None None true default_mapper
              H1 H2 H3) as (Henv & Herr & _).
  split; [exact H1|]. split; [exact H2|]. split; [exact H3|].
  split; [exact Henv|exact Herr].
Defined.

Lemma hybrid_mode_without_api_key :
  String.eqb "hybrid" "deterministic" = false
  /\ String.eqb "hybrid" "semantic" = false
  /\ client default_mapper = None
  /\ exists cats src after,
       dispatch first_seen "deterministic"
         (build_product (Some "Test smartphone") None None None None) 0.3 default_mapper
       = (Ok {| r_source := "deterministic"; r_categories := cats; r_error := None |}, after)
       /\ dispatch first_seen "hybrid"
            (build_product (Some "Test smartphone") None None None None) 0.3 default_mapper
          = (Ok {| r_source := src; r_categories := cats; r_error := None |}, after)
       /\ src = (if existsb (fun m => ge (m_confidence m) 0.9) cats
                 then "deterministic" else "hybrid")
       /\ client_calls after = client_calls default_mapper.
Proof.
  split; [reflexivity|]. split; [reflexivity|]. split; [reflexivity|].
  exact (hybrid_without_client_returns_deterministic_categories first_seen "hybrid"
           (build_product (Some "Test smartphone") None None None None) 0.3 default_mapper
           eq_refl eq_refl eq_refl).
Defined.

End ServiceFacts.

(** ** cache.py: keys and the cache manager *)
Module CacheFacts.
Import Py Taxonomy Keywords Cache Mapper Notions PyFacts.

(** *** The form of a key *)

Lemma le_bytes_bytes (n : nat) (w : Z) :
  length (Md5.le_bytes n w) = n /\ Forall (fun b => 0 <= b < 256) (Md5.le_bytes n w).
Proof.
  revert w. induction n as [|n IH]; intros w; cbn [Md5.le_bytes length]; [by split|].
  destruct (IH (Z.shiftr w 8)) as [Hl Hb]. split; [by rewrite Hl|].
  constructor; [|done]. change 255 with (Z.ones 8). rewrite Z.land_ones by lia.
  apply Z.mod_pos_bound. lia.
Qed.

Lemma is_hex_hex_char (n : Z) : 0 <= n < 16 -> is_hex (Md5.hex_char n) = true.
Proof.
  intros Hn. rewrite <- (Z2Nat.id n) by lia.
  assert (Z.to_nat n < 16)%nat as Hk by lia.
  revert Hk. generalize (Z.to_nat n) as k. clear Hn. intros k Hk.
  do 16 (destruct k as [|k]; [reflexivity|]). lia.
Qed.

Lemma hex_of_bytes_hex (bs : list Z) :
  Forall (fun b => 0 <= b < 256) bs ->
  String.length (Md5.hex_of_bytes bs) = (2 * length bs)%nat
  /\ all_chars is_hex (Md5.hex_of_bytes bs) = true.
Proof.
  induction 1 as [|b bs Hb _ [IHl IHc]]; [done|].
  cbn [Md5.hex_of_bytes String.length length all_chars]. split; [lia|].
  rewrite !is_hex_hex_char, IHc; [done| |].
  - apply Z.mod_pos_bound. lia.
  - split; [apply Z.div_pos; lia|apply Z.div_lt_upper_bound; lia].
Qed.

(** X17.  A cache key is a text of 32 digits of lower-case hexadecimal
    notation, whatever the product. *)
Theorem cache_key_is_32_hex_digits (input_data : Product) :
  String.length (create_cache_key input_data) = 32%nat
  /\ all_chars is_hex (create_cache_key input_data) = true.
Proof.
  unfold create_cache_key, Md5.hexdigest, Md5.digest. cbv zeta.
  set (st := Md5.blocks _ _ _).
  destruct (le_bytes_bytes 4 (Md5.sa st)) as [La Ba], (le_bytes_bytes 4 (Md5.sb st)) as [Lb Bb],
    (le_bytes_bytes 4 (Md5.sc st)) as [Lc Bc], (le_bytes_bytes 4 (Md5.sd st)) as [Ld Bd].
  destruct (hex_of_bytes_hex (Md5.le_bytes 4 (Md5.sa st) ++ Md5.le_bytes 4 (Md5.sb st)
              ++ Md5.le_bytes 4 (Md5.sc st) ++ Md5.le_bytes 4 (Md5.sd st))) as [Hl Hc].
  { repeat (apply Forall_app; split); done. }
  split; [|done]. rewrite Hl, !length_app, La, Lb, Lc, Ld. done.
Qed.

(** *** The cache manager *)

Lemma _make_key_inj (k1 k2 : string) : _make_key k1 = _make_key k2 -> k1 = k2.
Proof. unfold _make_key. intros H. by injection H. Qed.

Section Manager.
Context {V : Type}.
Implicit Types (cm : CacheManager V) (key : string) (v : V).

(** X18.  With the cache enabled, within the ttl and below maxsize: a value
    that was set is what get returns and has confirms, under its key and no
    other; delete takes the entry away and says so, and says no the second
    time; clear takes every entry away.  set counts one set, get one hit or
    one miss. *)
Theorem cache_manager_round_trips cm key other v :
  enabled cm = true ->
  fst (get key (set key v cm)) = Some v
  /\ has key (set key v cm) = true
  /\ sets (set key v cm) = sets cm + 1
  /\ (other <> key -> fst (get other (set key v cm)) = fst (get other cm)
                      /\ has other (set key v cm) = has other cm)
  /\ fst (delete key (set key v cm)) = true
  /\ has key (snd (delete key (set key v cm))) = false
  /\ fst (delete key (snd (delete key (set key v cm)))) = false
  /\ has other (clear (set key v cm)) = false
  /\ hits (snd (get other cm)) + misses (snd (get other cm)) = hits cm + misses cm + 1.
Proof.
  intros Hen. unfold get, set, has, delete, clear. rewrite Hen.
  cbn [negb enabled store sets fst snd]. rewrite !lookup_insert_eq.
  cbn [negb enabled store sets fst snd]. rewrite lookup_delete_eq.
  split; [done|]. split; [by apply bool_decide_eq_true|]. split; [done|].
  split.
  { intros Hne. rewrite lookup_insert_ne by (intros E; apply _make_key_inj in E; done).
    by destruct (store cm !! _make_key other). }
  split; [done|]. split; [by apply bool_decide_eq_false; intros [? ?]|].
  split; [done|]. split.
  { rewrite lookup_empty. by apply bool_decide_eq_false; intros [? ?]. }
  destruct (store cm !! _make_key other); cbn [snd hits misses count_hit count_miss]; lia.
Qed.

(** X19.  A disabled cache answers every get with None, counting a miss,
    ignores every set and denies every has; but it keeps its entries, which
    are there again once it is enabled, and delete and clear still act on
    them. *)
Theorem disabled_cache_hides_its_entries cm key v :
  enabled cm = false ->
  get key cm = (None, count_miss cm)
  /\ set key v cm = cm
  /\ has key cm = false
  /\ fst (get key (set_enabled true cm)) = store cm !! _make_key key
  /\ fst (get key (set_enabled true (snd (delete key cm)))) = None
  /\ fst (get key (set_enabled true (clear cm))) = None.
Proof.
  intros Hen. unfold get, set, has, delete, clear, set_enabled. rewrite Hen.
  cbn [negb enabled store fst snd].
  split; [done|]. split; [done|]. split; [done|]. split.
  { by destruct (store cm !! _make_key key). }
  split.
  - destruct (store cm !! _make_key key) eqn:E; cbn [negb enabled store fst snd].
    + by rewrite lookup_delete_eq.
    + by rewrite E.
  - by rewrite lookup_empty.
Qed.

End Manager.

Lemma cache_of_one_number_round_trips :
  enabled (Cache.new (V := Z) 10000 3600 true) = true
  /\ fst (get "a" (set "a" 7 (Cache.new 10000 3600 true))) = Some 7
  /\ has "a" (set "a" 7 (Cache.new 10000 3600 true)) = true
  /\ fst (delete "a" (set "a" 7 (Cache.new 10000 3600 true))) = true
  /\ has "a" (snd (delete "a" (set "a" 7 (Cache.new 10000 3600 true)))) = false.
Proof.
  destruct (cache_manager_round_trips (Cache.new (V := Z) 10000 3600 true) "a" "b" 7 eq_refl)
    as (H1 & H2 & _ & _ & H5 & H6 & _).
  split; [reflexivity|]. split; [exact H1|]. split; [exact H2|]. split; [exact H5|exact H6].
Defined.

Lemma disabled_cache_of_one_number :
  enabled (set_enabled false (set "a" 7 (Cache.new (V := Z) 10000 3600 true))) = false
  /\ get "a" (set_enabled false (set "a" 7 (Cache.new 10000 3600 true)))
     = (None, count_miss (set_enabled false (set "a" 7 (Cache.new 10000 3600 true))))
  /\ fst (get "a" (set_enabled true
                     (set_enabled false (set "a" 7 (Cache.new 10000 3600 true)))))
     = Some 7.
Proof.
  destruct (disabled_cache_hides_its_entries
              (set_enabled false (set "a" 7 (Cache.new (V := Z) 10000 3600 true))) "a" 8
              eq_refl) as (H1 & _ & _ & H4 & _).
  split; [reflexivity|]. split; [exact H1|]. rewrite H4. reflexivity.
Defined.

End CacheFacts.

(** ** Lookups by code string *)
Module LookupFacts.
Import Py Taxonomy Keywords Cache Mapper Notions PyFacts TaxonomyFacts KeywordsFacts PathFacts.

Lemma int_code_string (id : Z) :
  int (get_iab_code id) = Raise (invalid_literal (get_iab_code id)).
Proof. unfold int, get_iab_code. by rewrite int_of_code_string. Qed.

(** X20.  The lookups that convert a str argument with int() raise the
    ValueError of int() on the code string of every id, instead of answering
    for the id: get_child_categories, get_category_path, get_category_label,
    get_tier1_parent and get_keywords_for_category. *)
Theorem lookups_raise_on_code_strings (id : Z) :
  get_child_categories (IdStr (get_iab_code id)) = Raise (invalid_literal (get_iab_code id))
  /\ get_category_path (IdStr (get_iab_code id)) = Raise (invalid_literal (get_iab_code id))
  /\ get_category_label (IdStr (get_iab_code id)) = Raise (invalid_literal (get_iab_code id))
  /\ get_tier1_parent (IdStr (get_iab_code id)) = Raise (invalid_literal (get_iab_code id))
  /\ get_keywords_for_category (IdStr (get_iab_code id))
     = Raise (invalid_literal (get_iab_code id)).
Proof.
  assert (get_category_path (IdStr (get_iab_code id))
          = Raise (invalid_literal (get_iab_code id))) as Hp.
  { unfold get_category_path, get_category_by_id. by rewrite int_code_string. }
  split; [unfold get_child_categories; by rewrite int_code_string|].
  split; [done|].
  split; [unfold get_category_label; by rewrite Hp|].
  split; [unfold get_tier1_parent; by rewrite Hp|].
  unfold get_keywords_for_category. by rewrite int_code_string.
Qed.

(** X21.  lookup_category finds a category for an int exactly when
    validate_category accepts the int.  What it returns carries the id, the
    code of the id and the label of the category; validate_category accepts
    that code and get_id_from_code reads the id back from it, but
    lookup_category itself raises the ValueError of int() when given the code
    it returned. *)
Theorem lookup_category_returns_a_code_it_cannot_look_up (z : Z) :
  (validate_category (IdInt z) = true
   <-> exists info, lookup_category (IdInt z) = Ok (Some info))
  /\ forall info, lookup_category (IdInt z) = Ok (Some info) ->
       info_id info = z
       /\ info_code info = get_iab_code z
       /\ get_category_label (IdInt z) = Ok (info_label info)
       /\ validate_category (IdStr (info_code info)) = true
       /\ get_id_from_code (info_code info) = Some z
       /\ lookup_category (IdStr (info_code info))
          = Raise (invalid_literal (info_code info)).
Proof.
  assert (forall info, lookup_category (IdInt z) = Ok (Some info) ->
            exists c, dict_get z IAB_AD_PRODUCT_TAXONOMY = Some c
                      /\ info_id info = z /\ info_code info = get_iab_code z
                      /\ get_category_label (IdInt z) = Ok (info_label info)) as Hinfo.
  { intros info. unfold lookup_category, get_category_by_id. cbn [mbind result_bind].
    destruct (dict_get z IAB_AD_PRODUCT_TAXONOMY) as [c|] eqn:Hc; [|done].
    rewrite (dict_get_cat_id _ _ Hc).
    destruct (get_category_label (IdInt z)) as [l|]; [|done].
    cbn [mbind result_bind]. intros [= <-]. by exists c. }
  split.
  - unfold validate_category, is_valid_category. rewrite bool_decide_eq_true. split.
    + intros [c Hc]. unfold lookup_category, get_category_by_id.
      cbn [mbind result_bind]. rewrite Hc, (dict_get_cat_id _ _ Hc).
      destruct (get_category_path_returns z) as (path & _ & Hp).
      unfold get_category_label. rewrite Hp. cbn [mbind result_bind]. by eexists.
    + intros [info (c & Hc & _)%Hinfo]. by exists c.
  - intros info (c & Hc & Hid & Hcode & Hl)%Hinfo. rewrite Hcode.
    split; [done|]. split; [done|]. split; [done|]. split.
    + unfold validate_category, is_valid_category.
      rewrite get_id_from_code_get_iab_code.
      unfold get_iab_code, PyStr.startswith. rewrite prefix_append.
      apply bool_decide_eq_true. by exists c.
    + split; [apply get_id_from_code_get_iab_code|].
      unfold lookup_category, get_category_by_id. by rewrite int_code_string.
Qed.

End LookupFacts.

(** ** mapper.py: what the cache answers *)
Module CachedCallFacts.
Import Py Taxonomy Keywords Cache Mapper Notions PyFacts TaxonomyFacts KeywordsFacts
  MapperFacts.

Lemma stamp_stamp (b b' : bool) (ms ms' : Z) (env : Envelope) :
  stamp b ms (stamp b' ms' env) = stamp b ms env.
Proof. reflexivity. Qed.

Section Calls.
Context (list_set : list string -> list string) (elapsed_ms : nat -> Z).

(** After a call that succeeded, the cache holds what the call returned, under
    the key of its product. *)
Lemma successful_call_is_stored
    (title description category brand : option string) (keywords : option (list string))
    (mode : option string) (min_conf : option float) (inc : bool) (self : ProductMapper)
    (cm : CacheManager Envelope) :
  let first := map_product list_set elapsed_ms title description category brand keywords
                 mode min_conf inc self in
  cache self = Some cm -> enabled cm = true -> success (fst first) = true ->
  exists cm' entry,
    cache (snd first) = Some cm' /\ enabled cm' = true
    /\ store cm' !! _make_key (create_cache_key
                                 (build_product title description category brand keywords))
       = Some entry
    /\ forall ms, stamp true ms entry = stamp true ms (fst first).
Proof.
  intros first Hc Hen Hok. subst first.
  set (product := build_product title description category brand keywords) in *.
  set (key := create_cache_key product) in *.
  set (self0 := with_stats (count_request (stats self)) self).
  destruct (PyStr.truthy_opt title || PyStr.truthy_opt description) eqn:Hv.
  2:{ apply orb_false_elim in Hv as [Ht Hd].
      rewrite (map_product_missing list_set elapsed_ms _ _ _ _ _ _ _ _ _ Ht Hd) in Hok.
      done. }
  destruct (store cm !! _make_key key) as [entry|] eqn:Hlook.
  - assert (Hp : cache_probe key self0
                 = (Ok (Some entry), with_cache (Some (count_hit cm)) self0)).
    { unfold cache_probe. cbn [cache with_stats self0]. rewrite Hc. unfold Cache.get.
      rewrite Hen, Hlook. reflexivity. }
    pose proof (map_product_hit list_set elapsed_ms title description category brand
                  keywords mode min_conf inc self entry Hv) as Hfirst.
    fold product key self0 in Hfirst. rewrite Hp in Hfirst.
    rewrite (Hfirst eq_refl). cbn [fst snd].
    exists (count_hit cm), entry. split; [done|]. split; [done|]. split; [done|].
    intros ms. by rewrite stamp_stamp.
  - assert (Hp : cache_probe key self0 = (Ok None, with_cache (Some (count_miss cm)) self0)).
    { unfold cache_probe. cbn [cache with_stats self0]. rewrite Hc. unfold Cache.get.
      rewrite Hen, Hlook. reflexivity. }
    pose proof (map_product_miss list_set elapsed_ms title description category brand
                  keywords mode min_conf inc self Hv) as Hfirst.
    fold product key self0 in Hfirst. rewrite Hp in Hfirst.
    specialize (Hfirst eq_refl). cbn [snd] in Hfirst.
    rewrite Hfirst in Hok |- *. clear Hfirst.
    set (self1 := with_cache (Some (count_miss cm)) self0) in *.
    set (use_mode := choose_mode mode self1) in *.
    set (c := default (min_confidence self1) min_conf) in *.
    unfold guarded in Hok |- *. rewrite try_body_run in Hok |- *.
    pose proof (dispatch_frame list_set use_mode product c self1) as Hf.
    destruct (dispatch list_set use_mode product c self1) as [[res|e] s1]; [|done].
    destruct (_format_result (iab_version s1) res product inc) as [formatted|e]; [|done].
    cbn [fst snd stamp success] in Hok |- *.
    assert (Hc1 : cache s1 = Some (count_miss cm)).
    { assert (cache self1 = Some (count_miss cm)) by reflexivity.
      unfold frame in Hf. cbn [snd] in Hf. destruct_and!. congruence. }
    exists (Cache.set key formatted (count_miss cm)), formatted.
    split.
    { cbn [with_clock_read with_stats cache]. unfold cache_write. rewrite Hc1, Hok.
      cbn [snd with_cache cache]. reflexivity. }
    split.
    { unfold Cache.set. cbn [enabled count_miss]. rewrite Hen. cbn [negb enabled]. done. }
    split; [|done].
    unfold Cache.set. cbn [enabled count_miss]. rewrite Hen. cbn [negb store].
    apply lookup_insert_eq.
Qed.

(** X22.  The cache does not tell apart two products whose titles,
    descriptions and categories agree after lower-casing, trimming and
    cutting to 100 and 200 characters: with the cache enabled, after a call
    that succeeded, a call for such a product returns the envelope of the
    first call, marked cached, with the iab_product and the input of the
    first call, whatever its mode, threshold, brand and keywords are. *)
Theorem products_with_the_same_key_share_the_answer
    (title description category brand : option string) (keywords : option (list string))
    (mode : option string) (min_conf : option float) (inc : bool)
    (title' description' category' brand' : option string)
    (keywords' : option (list string)) (mode' : option string) (min_conf' : option float)
    (inc' : bool) (self : ProductMapper) (cm : CacheManager Envelope) :
  let first := map_product list_set elapsed_ms title description category brand keywords
                 mode min_conf inc self in
  normalized_fields (build_product title description category brand keywords)
  = normalized_fields (build_product title' description' category' brand' keywords') ->
  PyStr.truthy_opt title' || PyStr.truthy_opt description' = true ->
  cache self = Some cm -> enabled cm = true -> success (fst first) = true ->
  fst (map_product list_set elapsed_ms title' description' category' brand' keywords'
         mode' min_conf' inc' (snd first))
  = stamp true (elapsed_ms (clock_reads (snd first))) (fst first).
Proof.
  intros first Hkey Hv Hc Hen Hok.
  destruct (successful_call_is_stored title description category brand keywords mode
              min_conf inc self cm Hc Hen Hok) as (cm' & entry & Hc' & Hen' & Hlook & Hst).
  fold first in Hc', Hst.
  rewrite (create_cache_key_fields _ _ Hkey) in Hlook.
  rewrite (map_product_cached list_set elapsed_ms title' description' category' brand'
             keywords' mode' min_conf' inc' (snd first) cm' entry Hv Hc' Hen' Hlook).
  apply Hst.
Qed.

(** X23.  reset_stats restarts the counters but keeps the cache entries:
    after a call that succeeded, the same call on the mapper with reset
    statistics is answered from the cache, and the counters then read one
    request and one cache hit.  clear_cache drops the entries: after it the
    same call is not answered from the cache. *)
Theorem reset_stats_keeps_and_clear_cache_drops_the_entries
    (title description category brand : option string) (keywords : option (list string))
    (mode : option string) (min_conf : option float) (inc : bool) (self : ProductMapper)
    (cm : CacheManager Envelope) :
  let first := map_product list_set elapsed_ms title description category brand keywords
                 mode min_conf inc self in
  let again := map_product list_set elapsed_ms title description category brand keywords
                 mode min_conf inc (Mapper.reset_stats (snd first)) in
  let afresh := map_product list_set elapsed_ms title description category brand keywords
                  mode min_conf inc (clear_cache (snd first)) in
  cache self = Some cm -> enabled cm = true -> success (fst first) = true ->
  fst again = stamp true (elapsed_ms (clock_reads (snd first))) (fst first)
  /\ requests (stats (snd again)) = 1
  /\ cache_hits (stats (snd again)) = 1
  /\ cached (fst afresh) <> Some true.
Proof.
  intros first again afresh Hc Hen Hok.
  destruct (successful_call_is_stored title description category brand keywords mode
              min_conf inc self cm Hc Hen Hok) as (cm' & entry & Hc' & Hen' & Hlook & Hst).
  fold first in Hc', Hst.
  assert (PyStr.truthy_opt title || PyStr.truthy_opt description = true) as Hv.
  { destruct (PyStr.truthy_opt title || PyStr.truthy_opt description) eqn:Hv; [done|].
    apply orb_false_elim in Hv as [Ht Hd]. subst first.
    rewrite (map_product_missing list_set elapsed_ms _ _ _ _ _ _ _ _ _ Ht Hd) in Hok.
    done. }
  set (product := build_product title description category brand keywords) in *.
  set (key := create_cache_key product) in *.
  split; [|split; [|split]].
  - subst again.
    rewrite (map_product_cached list_set elapsed_ms title description category brand
               keywords mode min_conf inc (Mapper.reset_stats (snd first))
               (Cache.reset_stats cm') entry Hv); [apply Hst| |done|done].
    unfold Mapper.reset_stats. cbn [cache with_cache with_stats]. by rewrite Hc'.
  - subst again.
    set (self0 := with_stats (count_request (stats (Mapper.reset_stats (snd first))))
                    (Mapper.reset_stats (snd first))).
    assert (Hp : cache_probe key self0
                 = (Ok (Some entry),
                    with_cache (Some (count_hit (Cache.reset_stats cm'))) self0)).
    { unfold cache_probe. cbn [cache with_stats self0 Mapper.reset_stats with_cache].
      rewrite Hc'. cbn [fmap option_fmap option_map]. unfold Cache.get.
      cbn [enabled Cache.reset_stats store]. rewrite Hen', Hlook. reflexivity. }
    pose proof (map_product_hit list_set elapsed_ms title description category brand
                  keywords mode min_conf inc (Mapper.reset_stats (snd first)) entry Hv)
      as Hagain.
    fold product key self0 in Hagain. rewrite Hp in Hagain.
    rewrite (Hagain eq_refl). reflexivity.
  - subst again.
    set (self0 := with_stats (count_request (stats (Mapper.reset_stats (snd first))))
                    (Mapper.reset_stats (snd first))).
    assert (Hp : cache_probe key self0
                 = (Ok (Some entry),
                    with_cache (Some (count_hit (Cache.reset_stats cm'))) self0)).
    { unfold cache_probe. cbn [cache with_stats self0 Mapper.reset_stats with_cache].
      rewrite Hc'. cbn [fmap option_fmap option_map]. unfold Cache.get.
      cbn [enabled Cache.reset_stats store]. rewrite Hen', Hlook. reflexivity. }
    pose proof (map_product_hit list_set elapsed_ms title description category brand
                  keywords mode min_conf inc (Mapper.reset_stats (snd first)) entry Hv)
      as Hagain.
    fold product key self0 in Hagain. rewrite Hp in Hagain.
    rewrite (Hagain eq_refl). reflexivity.
  - subst afresh.
    set (self0 := with_stats (count_request (stats (clear_cache (snd first))))
                    (clear_cache (snd first))).
    assert (Hp : fst (cache_probe key self0) = Ok None).
    { unfold cache_probe. cbn [cache with_stats self0 clear_cache with_cache].
      rewrite Hc'. cbn [fmap option_fmap option_map]. unfold Cache.get.
      cbn [enabled Cache.clear store]. rewrite Hen', lookup_empty. reflexivity. }
    pose proof (map_product_miss list_set elapsed_ms title description category brand
                  keywords mode min_conf inc (clear_cache (snd first)) Hv) as Hafresh.
    fold product key self0 in Hafresh. rewrite (Hafresh Hp).
    unfold guarded. rewrite try_body_run.
    destruct (dispatch _ _ _ _ _) as [[res|e] s1]; [|done].
    by destruct (_format_result _ _ _ _).
Qed.

End Calls.

Lemma titles_in_other_case_share_the_answer :
  normalized_fields (build_product (Some "Test Smartphone") None None None None)
  = normalized_fields (build_product (Some "  test SMARTPHONE") None None (Some "Acme") None)
  /\ success (fst (map_product first_seen (steady_clock 0) (Some "Test Smartphone") None
                     None None None None None true default_mapper)) = true
  /\ fst (map_product first_seen (steady_clock 0) (Some "  test SMARTPHONE") None None
            (Some "Acme") None (Some "semantic") None false
            (snd (map_product first_seen (steady_clock 0) (Some "Test Smartphone") None
                    None None None None None true default_mapper)))
     = stamp true 0 (fst (map_product first_seen (steady_clock 0) (Some "Test Smartphone")
                            None None None None None None true default_mapper)).
Proof.
  assert (normalized_fields (build_product (Some "Test Smartphone") None None None None)
          = normalized_fields (build_product (Some "  test SMARTPHONE") None None
                                 (Some "Acme") None)) as H1 by (vm_compute; reflexivity).
  assert (success (fst (map_product first_seen (steady_clock 0) (Some "Test Smartphone")
                          None None None None None None true default_mapper)) = true)
    as H2 by (vm_compute; reflexivity).
  split; [exact H1|]. split; [exact H2|].
  exact (products_with_the_same_key_share_the_answer first_seen (steady_clock 0)
           (Some "Test Smartphone") None None None None None None true
           (Some "  test SMARTPHONE") None None (Some "Acme") None (Some "semantic") None
           false default_mapper (Cache.new 10000 3600 true) H1 eq_refl eq_refl eq_refl H2).
Defined.

Lemma reset_and_clear_after_a_smartphone :
  success (fst (map_product first_seen (steady_clock 0) (Some "Test smartphone") None
                  None None None None None true default_mapper)) = true
  /\ cached (fst (map_product first_seen (steady_clock 0) (Some "Test smartphone") None
                    None None None None None true
                    (Mapper.reset_stats
                       (snd (map_product first_seen (steady_clock 0)
                               (Some "Test smartphone") None None None None None None true
                               default_mapper))))) = Some true
  /\ cached (fst (map_product first_seen (steady_clock 0) (Some "Test smartphone") None
                    None None None None None true
                    (clear_cache
                       (snd (map_product first_seen (steady_clock 0)
                               (Some "Test smartphone") None None None None None None true
                               default_mapper))))) <> Some true.
Proof.
  assert (success (fst (map_product first_seen (steady_clock 0) (Some "Test smartphone")
                          None None None None None None true default_mapper)) = true)
    as H by (vm_compute; reflexivity).
  destruct (reset_stats_keeps_and_clear_cache_drops_the_entries first_seen (steady_clock 0)
              (Some "Test smartphone") None None None None None None true default_mapper
              (Cache.new 10000 3600 true) eq_refl eq_refl H) as (H1 & _ & _ & H4).
  split; [exact H|]. split; [|exact H4]. rewrite H1. reflexivity.
Defined.

End CachedCallFacts.

(** ** mapper.py: the envelope *)
Module EnvelopeFacts.
Import Py Taxonomy Keywords Cache Mapper Notions PyFacts TaxonomyFacts KeywordsFacts
  PathFacts MapperFacts.

Lemma get_category_label_returns (z : Z) : exists l, get_category_label (IdInt z) = Ok l.
Proof.
  destruct (get_category_path_returns z) as (path & _ & Hp).
  unfold get_category_label. rewrite Hp. by eexists.
Qed.

Lemma secondary_entry_returns (m : Match) :
  exists l, secondary_entry m
            = Ok {| sec_code := get_iab_code (m_id m); sec_id := m_id m; sec_label := l;
                    sec_confidence := m_confidence m |}.
Proof.
  unfold secondary_entry. destruct (get_category_label_returns (m_id m)) as [l ->].
  by exists l.
Qed.

Lemma secondary_entries (cats : list Match) :
  exists entries,
    map_result secondary_entry cats = Ok entries
    /\ map sec_id entries = map m_id cats
    /\ map sec_confidence entries = map m_confidence cats
    /\ map sec_code entries = map (fun m => get_iab_code (m_id m)) cats.
Proof.
  induction cats as [|m cats (entries & IH & Hid & Hconf & Hcode)];
    cbn [map_result map]; [by exists []|].
  destruct (secondary_entry_returns m) as [l ->]. cbn [mbind result_bind].
  rewrite IH. cbn [mbind result_bind]. eexists. split; [reflexivity|].
  cbn [map sec_id sec_confidence sec_code]. by rewrite Hid, Hconf, Hcode.
Qed.

Lemma envelope_table :
  forallb (fun kc =>
    match get_category_label (IdInt (fst kc)), get_tier1_parent (IdInt (fst kc)) with
    | Ok l, Ok (Some root) =>
        if cat_tier (snd kc) =? 1
        then (cat_id root =? fst kc) && String.eqb l (cat_name (snd kc))
        else negb (cat_id root =? fst kc) && (cat_tier root =? 1)
             && PyStr.startswith (cat_name root +:+ " > ") l
    | _, _ => false
    end) IAB_AD_PRODUCT_TAXONOMY = true.
Proof. vm_compute. reflexivity. Qed.

(** X24.  For a result whose first category is a category of the taxonomy,
    _format_result returns a success envelope that is consistent with the
    taxonomy: primary is the code of primary_id; for a tier-1 category the
    label is its name and there are no tier1 fields; for a deeper category the
    tier1 fields name its tier-1 ancestor and the label starts with the name
    of that ancestor.  The key secondary is present exactly when
    include_secondary is set and there are further categories, and then lists
    the next categories, at most three, in their order. *)
Theorem envelope_agrees_with_the_taxonomy
    (ver : string) (res : MapResult) (product : Product) (inc : bool)
    (top : Match) (others : list Match) (c : Category) :
  r_categories res = top :: others ->
  get_category_by_id (IdInt (m_id top)) = Ok (Some c) ->
  exists env ip,
    _format_result ver res product inc = Ok env
    /\ success env = true /\ iab_product env = Some ip
    /\ primary_id ip = m_id top
    /\ get_id_from_code (primary ip) = Some (m_id top)
    /\ confidence ip = m_confidence top
    /\ (if cat_tier c =? 1
        then label ip = cat_name c
             /\ tier1 ip = None /\ tier1_id ip = None /\ tier1_label ip = None
        else exists root,
               get_tier1_parent (IdInt (m_id top)) = Ok (Some root) /\ cat_tier root = 1
               /\ tier1_id ip = Some (cat_id root)
               /\ tier1 ip = Some (get_iab_code (cat_id root))
               /\ tier1_label ip = Some (cat_name root)
               /\ PyStr.startswith (cat_name root +:+ " > ") (label ip) = true)
    /\ match secondary ip with
       | Some entries =>
           inc = true /\ others <> []
           /\ map sec_id entries = map m_id (take 3 others)
           /\ map sec_confidence entries = map m_confidence (take 3 others)
       | None => inc = false \/ others = []
       end.
Proof.
  intros Hcats Hc%get_category_by_id_int.
  assert (H := envelope_table). eapply table_lookup in H; [|exact Hc].
  cbn beta iota delta [snd fst] in H.
  unfold _format_result. rewrite Hcats.
  destruct (get_category_label (IdInt (m_id top))) as [l|]; [|done].
  destruct (get_tier1_parent (IdInt (m_id top))) as [[root|]|] eqn:Hroot; [|done..].
  cbn [mbind result_bind].
  destruct (secondary_entries (take 3 others)) as (entries & Hsec & Hid & Hconf & _).
  assert (exists sec,
            (if inc && bool_decide (1 < length (top :: others))%nat
             then s ← map_result secondary_entry (take 3 others); Ok (Some s)
             else Ok None) = Ok sec
            /\ match sec with
               | Some entries =>
                   inc = true /\ others <> []
                   /\ map sec_id entries = map m_id (take 3 others)
                   /\ map sec_confidence entries = map m_confidence (take 3 others)
               | None => inc = false \/ others = []
               end) as (sec & -> & Hs).
  { destruct inc; cbn [andb]; [|exists None; split; [done|by left]].
    destruct others as [|o os]; [exists None; split; [done|by right]|].
    rewrite bool_decide_eq_true_2 by (cbn; lia).
    rewrite Hsec. cbn [mbind result_bind]. by exists (Some entries). }
  cbn [mbind result_bind]. eexists _, _. split; [reflexivity|].
  cbn [success iab_product primary_id primary confidence label tier1 tier1_id tier1_label
       secondary].
  split; [done|]. split; [done|]. split; [done|].
  split; [apply get_id_from_code_get_iab_code|]. split; [done|]. split; [|done].
  destruct (cat_tier c =? 1).
  - apply andb_prop in H as [Hr Hl]. rewrite Hr. by apply String.eqb_eq in Hl.
  - apply andb_prop in H as [[Hr Ht]%andb_prop Hl].
    apply negb_true_iff in Hr. rewrite Hr. cbn [option_map].
    exists root. repeat split; try done. by apply Z.eqb_eq.
Qed.

Lemma envelope_of_smartwatches_and_watches :
  get_category_by_id (IdInt (m_id smartwatches_match))
  = Ok (Some {| cat_id := 1121; cat_name := "Smartwatches"; cat_tier := 3;
                cat_parent := Some 1120 |})
  /\ exists env ip,
       _format_result "2.0"
         {| r_source := "deterministic"; r_categories := [smartwatches_match; watches_guess];
            r_error := None |}
         (build_product (Some "Watch") None None None None) true = Ok env
       /\ iab_product env = Some ip
       /\ primary ip = "IAB-AP-1121"
       /\ label ip = "Consumer Electronics > Wearables > Smartwatches"
       /\ tier1_label ip = Some "Consumer Electronics"
       /\ (map sec_id <$> secondary ip) = Some [1070].
Proof.
  split; [reflexivity|].
  destruct (envelope_agrees_with_the_taxonomy "2.0"
              {| r_source := "deterministic";
                 r_categories := [smartwatches_match; watches_guess]; r_error := None |}
              (build_product (Some "Watch") None None None None) true
              smartwatches_match [watches_guess] _ eq_refl eq_refl)
    as (env & ip & Hrun & _ & Hip & _).
  exists env, ip. split; [exact Hrun|]. split; [exact Hip|].
  vm_compute in Hrun. injection Hrun as <-. injection Hip as <-.
  repeat split; reflexivity.
Defined.

End EnvelopeFacts.

(** ** mapper.py: the counters and the threshold *)
Module AccountingFacts.
Import Py Taxonomy Keywords Cache Mapper Notions PyFacts TaxonomyFacts KeywordsFacts
  MapperFacts TallyFacts ServiceFacts EnvelopeFacts.

Section Calls.
Context (list_set : list string -> list string) (elapsed_ms : nat -> Z).

(** *** What a mode returns passed the threshold *)

Lemma keep_confident_passes (c : float) (ms : list Match) :
  Forall (fun m => ge (m_confidence m) c = true) (keep_confident c ms).
Proof.
  unfold keep_confident. apply Forall_forall. by intros x [? _]%list_elem_of_filter.
Qed.

Lemma semantic_passes (product : Product) (c : float) (self : ProductMapper)
    (res : MapResult) :
  fst (_map_semantic product c self) = Ok res ->
  Forall (fun m => ge (m_confidence m) c = true) (r_categories res).
Proof.
  unfold _map_semantic. unfold_M.
  destruct (client self) as [classify|]; [|done].
  destruct (classify product) as [api|e]; cbn [fst]; [|done].
  destruct (api_success api), (api_categories api) as [[|m ms]|]; cbn [fst];
    intros [= <-]; cbn [r_categories]; try constructor.
  apply keep_confident_passes.
Qed.

Lemma hybrid_passes_without_client (product : Product) (c : float) (self : ProductMapper)
    (res : MapResult) :
  client self = None ->
  fst (_map_hybrid list_set product c self) = Ok res ->
  Forall (fun m => ge (m_confidence m) c = true) (r_categories res).
Proof.
  intros Hcl. unfold _map_hybrid. unfold mbind at 1. unfold M_bind at 1.
  destruct (deterministic_returns list_set product c self) as (cats & Hfst & Hcats).
  pose proof (deterministic_frame list_set product c self) as [Hf _].
  destruct (_map_deterministic list_set product c self) as [r after].
  cbn [fst snd] in *. subst r. cbn [r_categories].
  destruct (existsb _ cats); [by intros [= <-]|].
  unfold_M. unfold frame in Hf. destruct_and!.
  replace (client after) with (@None (Product -> result ApiResult)) by congruence.
  by intros [= <-].
Qed.

Lemma dispatch_passes (use_mode : string) (product : Product) (c : float)
    (self : ProductMapper) (res : MapResult) :
  use_mode = "deterministic" \/ use_mode = "semantic" \/ client self = None ->
  fst (dispatch list_set use_mode product c self) = Ok res ->
  Forall (fun m => ge (m_confidence m) c = true) (r_categories res).
Proof.
  intros Hm. unfold dispatch.
  destruct (String.eqb use_mode "deterministic") eqn:Hd.
  { destruct (deterministic_returns list_set product c self) as (cats & -> & Hcats).
    by intros [= <-]. }
  destruct (String.eqb use_mode "semantic") eqn:Hs; [apply semantic_passes|].
  destruct Hm as [->| [->|Hcl]]; [done|done|]. by apply hybrid_passes_without_client.
Qed.

Lemma format_result_passes (ver : string) (res : MapResult) (product : Product)
    (inc : bool) (c : float) (env : Envelope) (ip : IabProduct) :
  Forall (fun m => ge (m_confidence m) c = true) (r_categories res) ->
  _format_result ver res product inc = Ok env -> iab_product env = Some ip ->
  ge (confidence ip) c = true
  /\ forall entries, secondary ip = Some entries ->
       Forall (fun e => ge (sec_confidence e) c = true) entries.
Proof.
  intros Hall. unfold _format_result.
  destruct (r_categories res) as [|top others] eqn:Hcats; [by intros [= <-]|].
  apply Forall_cons in Hall as [Htop Hothers].
  destruct (get_category_label (IdInt (m_id top))) as [lbl|e]; [|done].
  destruct (get_tier1_parent (IdInt (m_id top))) as [t|e]; [|done].
  cbn [mbind result_bind].
  destruct (secondary_entries (take 3 others)) as (entries & Hrun & _ & Hconf & _).
  assert (Forall (fun e => ge (sec_confidence e) c = true) entries) as Hentries.
  { apply Forall_forall. intros e He.
    apply (list_elem_of_fmap_2 sec_confidence) in He.
    change (sec_confidence <$> entries) with (map sec_confidence entries) in He.
    rewrite Hconf in He.
    change (map m_confidence (take 3 others)) with (m_confidence <$> take 3 others) in He.
    apply list_elem_of_fmap in He as (m & -> & Hm).
    apply Forall_take with (n := 3%nat) in Hothers.
    by apply (proj1 (Forall_forall _ _) Hothers). }
  destruct (inc && bool_decide (1 < length (top :: others))%nat);
    rewrite ?Hrun; cbn [mbind result_bind]; intros [= <-]; cbn [iab_product];
    intros [= <-]; cbn [confidence secondary]; (split; [done|]); by intros ? [= <-].
Qed.

(** X25.  The counters follow the answer.  Every call counts one request.  An
    answer marked cached counts one cache hit; an answer without the key
    cached, which is the one for missing input or for an exception, counts one
    error and is unsuccessful; an answer marked not cached counts neither,
    also when it is unsuccessful for want of a matching category, and adds a
    latency to total_latency_ms, which no other answer does. *)
Theorem counters_follow_the_answer
    (title description category brand : option string) (keywords : option (list string))
    (mode : option string) (min_conf : option float) (inc : bool) (self : ProductMapper) :
  let out := map_product list_set elapsed_ms title description category brand keywords
               mode min_conf inc self in
  requests (stats (snd out)) = requests (stats self) + 1
  /\ match cached (fst out) with
     | Some true =>
         cache_hits (stats (snd out)) = cache_hits (stats self) + 1
         /\ errors (stats (snd out)) = errors (stats self)
         /\ total_latency_ms (stats (snd out)) = total_latency_ms (stats self)
     | Some false =>
         cache_hits (stats (snd out)) = cache_hits (stats self)
         /\ errors (stats (snd out)) = errors (stats self)
         /\ total_latency_ms (stats (snd out))
            = total_latency_ms (stats self) + elapsed_ms (clock_reads self)
     | None =>
         success (fst out) = false
         /\ cache_hits (stats (snd out)) = cache_hits (stats self)
         /\ errors (stats (snd out)) = errors (stats self) + 1
         /\ total_latency_ms (stats (snd out)) = total_latency_ms (stats self)
     end.
Proof.
  intros out. subst out.
  destruct (PyStr.truthy_opt title || PyStr.truthy_opt description) eqn:Hv.
  2:{ apply orb_false_elim in Hv as [Ht Hd].
      by rewrite (map_product_missing list_set elapsed_ms _ _ _ _ _ _ _ _ _ Ht Hd). }
  set (product := build_product title description category brand keywords).
  set (self0 := with_stats (count_request (stats self)) self).
  pose proof (cache_probe_frame (create_cache_key product) self0) as Hf. cbv zeta in Hf.
  destruct Hf as (Hst & _ & Hclock & _).
  destruct (cache_probe_never_raises (create_cache_key product) self0) as [[hit|] Hp].
  - rewrite (map_product_hit list_set elapsed_ms _ _ _ _ _ _ _ _ _ hit Hv Hp).
    fold product self0.
    cbn [fst snd stamp cached with_clock_read with_stats stats count_cache_hit requests
         cache_hits errors total_latency_ms].
    by rewrite Hst.
  - rewrite (map_product_miss list_set elapsed_ms _ _ _ _ _ _ _ _ _ Hv Hp).
    fold product self0.
    set (self1 := snd (cache_probe (create_cache_key product) self0)) in *.
    unfold guarded. rewrite try_body_run.
    pose proof (dispatch_frame list_set (choose_mode mode self1) product
                  (default (min_confidence self1) min_conf) self1) as Hd.
    destruct (dispatch list_set _ product _ self1) as [[res|e] s1]; cbn [snd] in Hd.
    + unfold frame in Hd. destruct Hd as (_ & _ & _ & _ & _ & _ & _ & Hc & Hr & Hh & He & Hl).
      rewrite Hst in Hr, Hh, He, Hl. rewrite Hclock in Hc.
      cbn [self0 with_stats stats clock_reads count_request requests cache_hits errors
           total_latency_ms] in Hr, Hh, He, Hl, Hc.
      destruct (_format_result _ _ _ _) as [formatted|e].
      * destruct (cache_write_frame (create_cache_key product) formatted s1)
          as (Hws & _ & Hwc & _).
        cbn [fst snd stamp cached with_clock_read with_stats stats add_latency requests
             cache_hits errors total_latency_ms clock_reads].
        rewrite Hws, Hwc. by rewrite Hr, Hh, He, Hl, Hc.
      * cbn [fst snd failure cached success with_clock_read with_stats stats count_error
             requests cache_hits errors total_latency_ms].
        by rewrite Hr, Hh, He, Hl.
    + unfold frame in Hd. destruct Hd as (_ & _ & _ & _ & _ & _ & _ & Hc & Hr & Hh & He & Hl).
      rewrite Hst in Hr, Hh, He, Hl.
      cbn [self0 with_stats stats count_request requests cache_hits errors
           total_latency_ms] in Hr, Hh, He, Hl.
      cbn [fst snd failure cached success with_clock_read with_stats stats count_error
           requests cache_hits errors total_latency_ms].
      by rewrite Hr, Hh, He, Hl.
Qed.

(** X26.  An answer that was computed, not taken from the cache, respects the
    threshold in deterministic mode, in semantic mode, and in every mode on a
    mapper without classifier: the confidence of iab_product and of each
    entry of secondary is at least the threshold in force, which is
    min_confidence of the call or else of the mapper. *)
Theorem computed_answers_respect_the_threshold
    (title description category brand : option string) (keywords : option (list string))
    (mode : option string) (min_conf : option float) (inc : bool) (self : ProductMapper)
    (ip : IabProduct) :
  let out := map_product list_set elapsed_ms title description category brand keywords
               mode min_conf inc self in
  let threshold := default (min_confidence self) min_conf in
  choose_mode mode self = "deterministic" \/ choose_mode mode self = "semantic"
  \/ client self = None ->
  cached (fst out) = Some false ->
  iab_product (fst out) = Some ip ->
  ge (confidence ip) threshold = true
  /\ forall entries, secondary ip = Some entries ->
       Forall (fun e => ge (sec_confidence e) threshold = true) entries.
Proof.
  intros out threshold Hmode. subst out threshold.
  destruct (PyStr.truthy_opt title || PyStr.truthy_opt description) eqn:Hv.
  2:{ apply orb_false_elim in Hv as [Ht Hd].
      by rewrite (map_product_missing list_set elapsed_ms _ _ _ _ _ _ _ _ _ Ht Hd). }
  set (product := build_product title description category brand keywords).
  set (self0 := with_stats (count_request (stats self)) self).
  pose proof (cache_probe_frame (create_cache_key product) self0) as Hf. cbv zeta in Hf.
  destruct Hf as (_ & _ & _ & Hmm & Hmc & Hcl & _).
  destruct (cache_probe_never_raises (create_cache_key product) self0) as [[hit|] Hp].
  { by rewrite (map_product_hit list_set elapsed_ms _ _ _ _ _ _ _ _ _ hit Hv Hp). }
  rewrite (map_product_miss list_set elapsed_ms _ _ _ _ _ _ _ _ _ Hv Hp).
  fold product self0.
  set (self1 := snd (cache_probe (create_cache_key product) self0)) in *.
  assert (choose_mode mode self1 = choose_mode mode self) as Hcm.
  { unfold choose_mode. by rewrite Hmm. }
  rewrite Hcm, Hmc. cbn [self0 with_stats min_confidence].
  unfold guarded. rewrite try_body_run.
  pose proof (dispatch_passes (choose_mode mode self) product
                (default (min_confidence self) min_conf) self1) as Hpass.
  pose proof (dispatch_frame list_set (choose_mode mode self) product
                (default (min_confidence self) min_conf) self1) as Hd.
  destruct (dispatch list_set _ product _ self1) as [[res|e] s1]; cbn [fst snd] in *;
    [|done].
  destruct (_format_result _ _ _ _) as [formatted|e] eqn:Hfmt; [|done].
  cbn [fst stamp cached iab_product]. intros _ Hip.
  eapply format_result_passes; [|exact Hfmt|exact Hip].
  apply Hpass; [|done]. rewrite Hcl. exact Hmode.
Qed.

(** *** Keyword matches that all fall below the threshold *)

Lemma keep_confident_none (c : float) (ms : list Match) :
  Forall (fun m => ge (m_confidence m) c = false) ms -> keep_confident c ms = [].
Proof.
  unfold keep_confident. induction 1 as [|m ms Hm _ IH]; [done|].
  rewrite filter_cons_False by congruence. exact IH.
Qed.

(** X27.  In deterministic mode, when the keywords match categories but none
    of them reaches the threshold, the call is answered with the failure No
    matching category found, marked not cached, and yet it counts as a
    deterministic match, not as a no match nor as an error; nothing is
    written to the cache. *)
Theorem keyword_matches_below_the_threshold_count_as_matches
    (title description category brand : option string) (keywords : option (list string))
    (mode : option string) (min_conf : option float) (inc : bool) (self : ProductMapper)
    (m : Match) (ms : list Match) :
  let product := build_product title description category brand keywords in
  let self0 := with_stats (count_request (stats self)) self in
  let threshold := default (min_confidence self) min_conf in
  let out := map_product list_set elapsed_ms title description category brand keywords
               mode min_conf inc self in
  PyStr.truthy_opt title || PyStr.truthy_opt description = true ->
  fst (cache_probe (create_cache_key product) self0) = Ok None ->
  choose_mode mode self = "deterministic" ->
  map_keywords_to_categories
    (list_set (p_keywords product
               ++ _extract_keywords (PyStr.join " " [p_title product; p_description product;
                                                      p_category product; p_brand product])))
  = Ok (m :: ms) ->
  Forall (fun x => ge (m_confidence x) threshold = false) (m :: ms) ->
  fst out
  = {| success := false; error := Some "No matching category found";
       iab_product := None; source := Some "deterministic";
       input := Some (echo_input product); cached := Some false;
       latency_ms := Some (elapsed_ms (S (clock_reads self))) |}
  /\ deterministic_matches (stats (snd out)) = deterministic_matches (stats self) + 1
  /\ no_matches (stats (snd out)) = no_matches (stats self)
  /\ errors (stats (snd out)) = errors (stats self)
  /\ cache_store (snd out) = cache_store self.
Proof.
  intros product self0 threshold out Hv Hp Hmode Hkw Hlow. subst out.
  rewrite (map_product_miss list_set elapsed_ms _ _ _ _ _ _ _ _ _ Hv Hp).
  fold product self0.
  pose proof (cache_probe_frame (create_cache_key product) self0) as Hf. cbv zeta in Hf.
  set (self1 := snd (cache_probe (create_cache_key product) self0)) in *.
  destruct Hf as (Hst & _ & Hclock & Hmm & Hmc & _ & Hstore & _).
  assert (choose_mode mode self1 = "deterministic") as ->.
  { rewrite <- Hmode. unfold choose_mode. by rewrite Hmm. }
  rewrite Hmc. cbn [self0 with_stats min_confidence]. fold threshold.
  unfold guarded. rewrite try_body_run. unfold dispatch.
  cbn [String.eqb Ascii.eqb Bool.eqb].
  rewrite (SetOrderFacts.deterministic_keywords list_set product threshold self1 _ m ms
             eq_refl Hkw).
  rewrite (keep_confident_none _ _ Hlow).
  cbn [_format_result r_categories r_source iab_version with_stats].
  set (formatted := {| success := false; error := Some "No matching category found";
                       iab_product := None; source := Some "deterministic";
                       input := Some (echo_input product); cached := None;
                       latency_ms := None |}).
  destruct (cache_write_frame (create_cache_key product) formatted
              (with_stats (count_deterministic (stats self1)) self1))
    as (_ & _ & _ & Hw).
  rewrite (Hw eq_refl).
  cbn [fst snd stamp formatted success error iab_product source input with_clock_read
       with_stats stats add_latency count_deterministic clock_reads deterministic_matches
       no_matches errors].
  rewrite Hst, Hclock.
  cbn [self0 with_stats stats clock_reads count_request deterministic_matches no_matches
       errors].
  split; [done|]. split; [done|]. split; [done|]. split; [done|].
  change (cache_store self1 = cache_store self). by rewrite Hstore.
Qed.

End Calls.

Lemma smartphone_answer_respects_the_threshold :
  exists ip,
    iab_product (fst (map_product first_seen (steady_clock 5) (Some "Test smartphone")
                        None None None None (Some "deterministic") None true
                        default_mapper)) = Some ip
    /\ ge (confidence ip) 0.3 = true.
Proof.
  assert (exists ip,
            iab_product (fst (map_product first_seen (steady_clock 5)
                                (Some "Test smartphone") None None None None
                                (Some "deterministic") None true default_mapper))
            = Some ip) as [ip Hip] by (vm_compute; eexists; reflexivity).
  exists ip. split; [exact Hip|].
  assert (cached (fst (map_product first_seen (steady_clock 5) (Some "Test smartphone")
                         None None None None (Some "deterministic") None true
                         default_mapper)) = Some false) as Hc by (vm_compute; reflexivity).
  exact (proj1 (computed_answers_respect_the_threshold first_seen (steady_clock 5)
                  (Some "Test smartphone") None None None None (Some "deterministic")
                  None true default_mapper ip (or_introl eq_refl) Hc Hip)).
Defined.

Lemma smartphone_below_the_threshold_of_0_99 :
  fst (map_product first_seen (steady_clock 5) (Some "Test smartphone") None None None
         None (Some "deterministic") (Some 0.99%float) true default_mapper)
  = {| success := false; error := Some "No matching category found";
       iab_product := None; source := Some "deterministic";
       input := Some {| in_title := "Test smartphone"; in_description := None |};
       cached := Some false; latency_ms := Some 5 |}
  /\ deterministic_matches
       (stats (snd (map_product first_seen (steady_clock 5) (Some "Test smartphone") None
                      None None None (Some "deterministic") (Some 0.99%float) true
                      default_mapper))) = 1
  /\ no_matches
       (stats (snd (map_product first_seen (steady_clock 5) (Some "Test smartphone") None
                      None None None (Some "deterministic") (Some 0.99%float) true
                      default_mapper))) = 0.
Proof.
  assert (exists m ms,
            map_keywords_to_categories
              (first_seen
                 (p_keywords (build_product (Some "Test smartphone") None None None None)
                  ++ _extract_keywords
                       (PyStr.join " "
                          [p_title (build_product (Some "Test smartphone") None None None
                                      None);
                           p_description (build_product (Some "Test smartphone") None None
                                            None None);
                           p_category (build_product (Some "Test smartphone") None None
                                         None None);
                           p_brand (build_product (Some "Test smartphone") None None None
                                      None)])))
            = Ok (m :: ms)
            /\ forallb (fun x => negb (ge (m_confidence x) 0.99)) (m :: ms) = true)
    as (m & ms & Hkw & Hlow) by (vm_compute; eexists _, _; split; reflexivity).
  assert (Forall (fun x => ge (m_confidence x) 0.99 = false) (m :: ms)) as Hall.
  { apply Forall_forall. intros x Hx.
    apply list_elem_of_In in Hx.
    by apply (proj1 (forallb_forall _ _) Hlow), negb_true_iff in Hx. }
  destruct (keyword_matches_below_the_threshold_count_as_matches first_seen
              (steady_clock 5) (Some "Test smartphone") None None None None
              (Some "deterministic") (Some 0.99%float) true default_mapper m ms
              eq_refl ltac:(vm_compute; reflexivity) eq_refl Hkw Hall)
    as (Henv & Hdet & Hno & _).
  split; [exact Henv|]. split; [exact Hdet|exact Hno].
Defined.

End AccountingFacts.

(** ** taxonomy.py: codes that are not canonical *)
Module DecodeFacts.
Import Py Taxonomy Notions PyFacts TaxonomyFacts.

Lemma decoded_code (code : string) (z : Z) :
  get_id_from_code code = Some z ->
  PyStr.startswith "IAB-AP-" code = true
  /\ int (PyStr.remove_all "IAB-AP-" code) = Ok z.
Proof.
  unfold get_id_from_code. destruct (negb (PyStr.truthy code)); [done|].
  destruct (PyStr.startswith "IAB-AP-" code); [|done].
  destruct (int (PyStr.remove_all "IAB-AP-" code)); [|done]. by intros [= ->].
Qed.

Lemma numeral_is_no_code (z : Z) : PyStr.startswith "IAB-AP-" (str_of_int z) = false.
Proof.
  pose proof (str_of_int_numeral z) as Hn.
  destruct (str_of_int z) as [|c s]; [done|].
  cbn [all_chars] in Hn. apply andb_prop in Hn as [Hc _].
  apply numeral_char_cases in Hc as (_ & Hc & _).
  unfold PyStr.startswith. cbn [String.prefix].
  destruct (ascii_dec "I" c) as [<-|]; [done|reflexivity].
Qed.

(** X28.  get_id_from_code drops every occurrence of the prefix, not only the
    leading one: a code that decodes to an id still decodes to that id with
    one more prefix put in front, although it is not the code of the id then,
    and is_valid_category judges it as it judges the id. *)
Theorem repeated_prefix_decodes_to_the_same_id (code : string) (z : Z) :
  get_id_from_code code = Some z ->
  get_id_from_code ("IAB-AP-" +:+ code) = Some z
  /\ "IAB-AP-" +:+ code <> get_iab_code z
  /\ is_valid_category (IdStr ("IAB-AP-" +:+ code)) = is_valid_category (IdInt z).
Proof.
  intros [Hp Hint]%decoded_code.
  assert (get_id_from_code ("IAB-AP-" +:+ code) = Some z) as Hdec.
  { unfold get_id_from_code.
    replace (PyStr.startswith "IAB-AP-" ("IAB-AP-" +:+ code)) with true
      by (symmetry; apply prefix_append).
    rewrite remove_all_own_prefix, Hint. reflexivity. }
  split; [exact Hdec|]. split.
  - unfold get_iab_code. intros [= E].
    change (code = str_of_int z) in E. rewrite E, numeral_is_no_code in Hp. done.
  - cbn [is_valid_category].
    replace (PyStr.startswith "IAB-AP-" ("IAB-AP-" +:+ code)) with true
      by (symmetry; apply prefix_append).
    by rewrite Hdec.
Qed.

Lemma doubled_prefix_of_smartwatches :
  get_id_from_code "IAB-AP-1632" = Some 1632
  /\ get_id_from_code "IAB-AP-IAB-AP-1632" = Some 1632
  /\ is_valid_category (IdStr "IAB-AP-IAB-AP-1632") = is_valid_category (IdInt 1632).
Proof.
  assert (get_id_from_code "IAB-AP-1632" = Some 1632) as H by reflexivity.
  destruct (repeated_prefix_decodes_to_the_same_id "IAB-AP-1632" 1632 H) as (Hd & _ & Hv).
  split; [exact H|]. split; [exact Hd|exact Hv].
Defined.

End DecodeFacts.
